(** * moonlight-common-c: control stream and input stream

    A shallow embedding of the control stream (ControlStream.c) and of the
    input stream (src/InputStream.c), with the properties of their
    specification stated and settled against the embedding.

    Conventions.
    - A C integer is a [Z]; every conversion to a fixed width is written
      out ([to_uint16], [to_int32], ...).
    - A byte is a [Z] in [0, 256); memory is a [list Z] of bytes.
    - A struct is a record of the values its fields hold; the bytes it
      occupies are given by [store16]/[store32]/[store64], in the byte
      order of the host ([BIGENDIAN] is the preprocessor symbol of the
      sources).
    - [LC_ASSERT] aborts in a debug build and expands to nothing in a
      release build; [LC_DEBUG] tells which, and an aborted run is the
      result [AssertFailed].
    - Where the C program reads past the end of a received packet or
      uses memory it has given back, its behaviour is not defined: the
      run is the result [Undefined].
    - The global variables of a translation unit are the fields of one
      record, threaded through the functions that touch them.
    - What a worker does to the outside (messages handed to the
      transport, listener callbacks, sleeps, frees) is the list of events
      it returns. *)

From Stdlib Require Import ZArith List Bool Lia.
Import ListNotations.
Open Scope Z_scope.

(** ** C integer types and byte strings *)

Module CTypes.

Definition to_uint8 (z : Z) : Z := z mod 2 ^ 8.
Definition to_uint16 (z : Z) : Z := z mod 2 ^ 16.
Definition to_uint32 (z : Z) : Z := z mod 2 ^ 32.
Definition to_uint64 (z : Z) : Z := z mod 2 ^ 64.

Definition to_int16 (z : Z) : Z := (z + 2 ^ 15) mod 2 ^ 16 - 2 ^ 15.
Definition to_int32 (z : Z) : Z := (z + 2 ^ 31) mod 2 ^ 32 - 2 ^ 31.
Definition to_int64 (z : Z) : Z := (z + 2 ^ 63) mod 2 ^ 64 - 2 ^ 63.

Definition INT16_MAX : Z := 32767.
Definition INT16_MIN : Z := -32768.

(** Conversion of an integer to [bool] (C99 6.3.1.2): zero is [false],
    anything else is [true]. *)
Definition to_bool (z : Z) : bool := negb (z =? 0).

Definition is_byte (b : Z) : Prop := 0 <= b < 256.

(** [n] bytes of [v], least significant first. *)
Fixpoint le_encode (n : nat) (v : Z) : list Z :=
  match n with
  | O => []
  | S n' => v mod 256 :: le_encode n' (v / 256)
  end.

Fixpoint le_decode (bs : list Z) : Z :=
  match bs with
  | [] => 0
  | b :: bs' => b + 256 * le_decode bs'
  end.

Definition be_encode (n : nat) (v : Z) : list Z := rev (le_encode n v).
Definition be_decode (bs : list Z) : Z := le_decode (rev bs).

(** [__bswap16], [__bswap32], [__bswap64]: the value whose bytes are those
    of the argument in the opposite order. *)
Definition bswap (n : nat) (v : Z) : Z := le_decode (rev (le_encode n v)).
Definition __bswap16 : Z -> Z := bswap 2.
Definition __bswap32 : Z -> Z := bswap 4.
Definition __bswap64 : Z -> Z := bswap 8.

(** [memcpy(dst + pos, src, length src)] on the bytes [dst]. *)
Definition write_at (pos : nat) (src dst : list Z) : list Z :=
  firstn pos dst ++ src ++ skipn (pos + length src) dst.

(** The last [n] elements of a list. *)
Definition lastn {A : Type} (n : nat) (l : list A) : list A :=
  skipn (length l - n) l.

Section Host.

(** [true] when the sources are compiled with [BIGENDIAN] defined. *)
Variable BIGENDIAN : bool.

(** The bytes an [n]-byte integer object holding [v] occupies. *)
Definition store (n : nat) (v : Z) : list Z :=
  if BIGENDIAN then be_encode n v else le_encode n v.

(** The value of the integer object that occupies the bytes [bs]. *)
Definition load (bs : list Z) : Z :=
  if BIGENDIAN then be_decode bs else le_decode bs.

Definition store16 := store 2.
Definition store32 := store 4.
Definition store64 := store 8.

Definition htons (v : Z) : Z := if BIGENDIAN then to_uint16 v else __bswap16 (to_uint16 v).
Definition htonl (v : Z) : Z := if BIGENDIAN then to_uint32 v else __bswap32 (to_uint32 v).

End Host.

End CTypes.

Import CTypes.

(** ** Assertions and undefined behaviour *)

Inductive result (A : Type) : Type :=
| Ok (a : A)
| AssertFailed
| Undefined.

Arguments Ok {A} a.
Arguments AssertFailed {A}.
Arguments Undefined {A}.

Definition bind {A B : Type} (r : result A) (k : A -> result B) : result B :=
  match r with
  | Ok a => k a
  | AssertFailed => AssertFailed
  | Undefined => Undefined
  end.

Notation "x <- r ;; k" := (bind r (fun x => k))
  (at level 61, r at next level, right associativity).
Notation "r ;;; k" := (bind r (fun _ => k))
  (at level 61, right associativity).

(** [LC_ASSERT(c)]: aborts when [c] is false in a debug build. *)
Definition LC_ASSERT (LC_DEBUG : bool) (c : bool) : result unit :=
  if LC_DEBUG && negb c then AssertFailed else Ok tt.

(** ** ByteBuffer *)

Module ByteBuffer.

Inductive BYTE_ORDER : Type := BYTE_ORDER_LITTLE | BYTE_ORDER_BIG.

Record BYTE_BUFFER : Type := {
  bb_buffer : list Z;
  bb_length : Z;
  bb_position : Z;
  bb_byteOrder : BYTE_ORDER
}.

Definition encode (o : BYTE_ORDER) (n : nat) (v : Z) : list Z :=
  match o with
  | BYTE_ORDER_LITTLE => le_encode n v
  | BYTE_ORDER_BIG => be_encode n v
  end.

Definition decode (o : BYTE_ORDER) (bs : list Z) : Z :=
  match o with
  | BYTE_ORDER_LITTLE => le_decode bs
  | BYTE_ORDER_BIG => be_decode bs
  end.

(** Modelled from the spec: ByteBuffer.c is not among the sources (the
    spec lists byte-buffer parsing as a collaborator). A byte buffer wraps
    [length] bytes of [data] from [offset] on, with a cursor at 0 and a
    byte order for the integers read and written through it. *)
Definition BbInitializeWrappedBuffer (data : list Z) (offset len : Z)
    (o : BYTE_ORDER) : BYTE_BUFFER :=
  {| bb_buffer := skipn (Z.to_nat offset) data; bb_length := len; bb_position := 0;
     bb_byteOrder := o |}.

(** Modelled from the spec: ByteBuffer.c is missing. Moves the cursor
    [n] bytes on; fails, leaving the cursor, when fewer than [n] bytes
    remain. *)
Definition BbAdvanceBuffer (bb : BYTE_BUFFER) (n : Z) : bool * BYTE_BUFFER :=
  if bb_position bb + n >? bb_length bb then (false, bb)
  else (true, {| bb_buffer := bb_buffer bb; bb_length := bb_length bb;
                 bb_position := bb_position bb + n; bb_byteOrder := bb_byteOrder bb |}).

(** Modelled from the spec: ByteBuffer.c is missing. Reads the [n]-byte
    integer at the cursor in the buffer's byte order and moves the cursor
    past it; fails ([None]: the destination is not written) when fewer
    than [n] bytes remain. *)
Definition BbGet (n : nat) (bb : BYTE_BUFFER) : option Z * BYTE_BUFFER :=
  if bb_position bb + Z.of_nat n >? bb_length bb then (None, bb)
  else (Some (decode (bb_byteOrder bb)
                (firstn n (skipn (Z.to_nat (bb_position bb)) (bb_buffer bb)))),
        {| bb_buffer := bb_buffer bb; bb_length := bb_length bb;
           bb_position := bb_position bb + Z.of_nat n; bb_byteOrder := bb_byteOrder bb |}).

Definition BbGet16 := BbGet 2.
Definition BbGet32 := BbGet 4.

(** Modelled from the spec: ByteBuffer.c is missing. Writes [v] as an
    [n]-byte integer at the cursor in the buffer's byte order and moves
    the cursor past it; fails, writing nothing, when fewer than [n] bytes
    remain. *)
Definition BbPut (n : nat) (bb : BYTE_BUFFER) (v : Z) : bool * BYTE_BUFFER :=
  if bb_position bb + Z.of_nat n >? bb_length bb then (false, bb)
  else (true,
        {| bb_buffer := write_at (Z.to_nat (bb_position bb))
                       (encode (bb_byteOrder bb) n v) (bb_buffer bb);
           bb_length := bb_length bb;
           bb_position := bb_position bb + Z.of_nat n; bb_byteOrder := bb_byteOrder bb |}).

Definition BbPut16 := BbPut 2.
Definition BbPut32 := BbPut 4.
Definition BbPut64 := BbPut 8.

End ByteBuffer.

(** ** LinkedBlockingQueue *)

Module LinkedBlockingQueue.

Inductive LBQ_STATUS : Type :=
| LBQ_SUCCESS
| LBQ_INTERRUPTED
| LBQ_BOUND_EXCEEDED
| LBQ_NO_ELEMENT.

Record LINKED_BLOCKING_QUEUE (A : Type) : Type := {
  items : list A;
  sizeBound : Z;
  shutdown : bool
}.

Arguments items {A} _.
Arguments sizeBound {A} _.
Arguments shutdown {A} _.

Section Queue.

Context {A : Type}.

Definition with_items (q : LINKED_BLOCKING_QUEUE A) (l : list A) :
    LINKED_BLOCKING_QUEUE A :=
  {| items := l; sizeBound := sizeBound q; shutdown := shutdown q |}.

(** Modelled from the spec: LinkedBlockingQueue.c is not among the
    sources (the spec lists the linked blocking queue as a collaborator:
    a bounded FIFO with a shutdown signal). A new queue is empty. *)
Definition LbqInitializeLinkedBlockingQueue (bound : Z) :
    LINKED_BLOCKING_QUEUE A :=
  {| items := []; sizeBound := bound; shutdown := false |}.

(** Modelled from the spec: LinkedBlockingQueue.c is missing. Appends at
    the tail unless the queue was shut down or already holds [sizeBound]
    items. *)
Definition LbqOfferQueueItem (q : LINKED_BLOCKING_QUEUE A) (x : A) :
    LBQ_STATUS * LINKED_BLOCKING_QUEUE A :=
  if shutdown q then (LBQ_INTERRUPTED, q)
  else if Z.of_nat (length (items q)) >=? sizeBound q
  then (LBQ_BOUND_EXCEEDED, q)
  else (LBQ_SUCCESS, with_items q (items q ++ [x])).

(** Modelled from the spec: LinkedBlockingQueue.c is missing. Removes the
    head without waiting. *)
Definition LbqPollQueueElement (q : LINKED_BLOCKING_QUEUE A) :
    LBQ_STATUS * option A * LINKED_BLOCKING_QUEUE A :=
  if shutdown q then (LBQ_INTERRUPTED, None, q)
  else match items q with
       | [] => (LBQ_NO_ELEMENT, None, q)
       | x :: l => (LBQ_SUCCESS, Some x, with_items q l)
       end.

(** Modelled from the spec: LinkedBlockingQueue.c is missing. Reads the
    head without removing it. *)
Definition LbqPeekQueueElement (q : LINKED_BLOCKING_QUEUE A) :
    LBQ_STATUS * option A :=
  if shutdown q then (LBQ_INTERRUPTED, None)
  else match items q with
       | [] => (LBQ_NO_ELEMENT, None)
       | x :: _ => (LBQ_SUCCESS, Some x)
       end.

(** Modelled from the spec: LinkedBlockingQueue.c is missing. Removes the
    head, waiting for one when the queue is empty: [None] is the caller
    blocked on an empty queue that is not shut down. *)
Definition LbqWaitForQueueElement (q : LINKED_BLOCKING_QUEUE A) :
    option (LBQ_STATUS * option A * LINKED_BLOCKING_QUEUE A) :=
  if shutdown q then Some (LBQ_INTERRUPTED, None, q)
  else match items q with
       | [] => None
       | x :: l => Some (LBQ_SUCCESS, Some x, with_items q l)
       end.

(** Modelled from the spec: LinkedBlockingQueue.c is missing. *)
Definition LbqSignalQueueShutdown (q : LINKED_BLOCKING_QUEUE A) :
    LINKED_BLOCKING_QUEUE A :=
  {| items := items q; sizeBound := sizeBound q; shutdown := true |}.

End Queue.

End LinkedBlockingQueue.

Import ByteBuffer LinkedBlockingQueue.

(** ** What the two translation units take from the rest of the program *)

(** Limelight.h and Limelight-internal.h are not among the sources: the
    error codes they define are parameters, and so are the globals that
    Connection.c owns and the cipher that OpenSSL provides. *)
Record Program : Type := {
  BIGENDIAN : bool;
  LC_DEBUG : bool;
  AppVersionQuad : list Z;
  remoteInputAesKey : list Z;    (* StreamConfig.remoteInputAesKey *)
  remoteInputAesIv : list Z;     (* StreamConfig.remoteInputAesIv *)
  isReferenceFrameInvalidationEnabled : bool;
  ML_ERROR_GRACEFUL_TERMINATION : Z;
  ML_ERROR_UNEXPECTED_EARLY_TERMINATION : Z;
  ML_ERROR_PROTECTED_CONTENT : Z;
  (* AES-128-GCM with no additional data: the counter-mode transformation
     of the data under a key and an IV (the same for both directions), and
     the authentication tag of a ciphertext. *)
  aes_128_gcm_ctr : list Z -> list Z -> list Z -> list Z;
  aes_128_gcm_tag : list Z -> list Z -> list Z -> list Z;
  (* AES-128-CBC of whole blocks under a key and a chaining value. *)
  aes_128_cbc : list Z -> list Z -> list Z -> list Z;
  (* The int values LinkedBlockingQueue.h gives the status codes. *)
  lbq_int : LBQ_STATUS -> Z
}.

(** Modelled from the spec: the macro APP_VERSION_AT_LEAST of
    Limelight-internal.h is missing; the spec reads it as "the version is
    at least a.b.c", comparing the first three numbers of the quad in
    order. *)
Definition APP_VERSION_AT_LEAST (P : Program) (a b c : Z) : bool :=
  let v0 := nth 0 (AppVersionQuad P) 0 in
  let v1 := nth 1 (AppVersionQuad P) 0 in
  let v2 := nth 2 (AppVersionQuad P) 0 in
  (v0 >? a) || ((v0 =? a) && (v1 >? b)) || ((v0 =? a) && (v1 =? b) && (v2 >=? c)).

(** The outcome of each step of one AES-GCM operation through OpenSSL's
    EVP interface: every call returns 1 on success. *)
Record EVP_RESULTS : Type := {
  EVP_Init_cipher : Z;          (* EVP_{En,De}cryptInit_ex(ctx, EVP_aes_128_gcm(), ...) *)
  EVP_CTRL_GCM_SET_IVLEN : Z;   (* EVP_CIPHER_CTX_ctrl(ctx, EVP_CTRL_GCM_SET_IVLEN, 16, NULL) *)
  EVP_Init_key_iv : Z;          (* EVP_{En,De}cryptInit_ex(ctx, NULL, NULL, key, iv) *)
  EVP_Update : Z;               (* EVP_{En,De}cryptUpdate *)
  EVP_Final_ex : Z;             (* EVP_{En,De}cryptFinal_ex, the tag check apart *)
  EVP_CTRL_GCM_TAG : Z          (* EVP_CIPHER_CTX_ctrl(ctx, EVP_CTRL_GCM_{GET,SET}_TAG, 16, tag) *)
}.

Fixpoint bytes_eqb (a b : list Z) : bool :=
  match a, b with
  | [], [] => true
  | x :: a', y :: b' => (x =? y) && bytes_eqb a' b'
  | _, _ => false
  end.

(** ** ControlStream.c *)

Module ControlStream.

Record NVCTL_TCP_PACKET_HEADER : Type := {
  tcp_type : Z;
  tcp_payloadLength : Z
}.

Record NVCTL_ENET_PACKET_HEADER_V1 : Type := {
  v1_type : Z
}.

Record NVCTL_ENET_PACKET_HEADER_V2 : Type := {
  v2_type : Z;
  v2_payloadLength : Z
}.

Definition AES_GCM_TAG_LENGTH : Z := 16.

Record NVCTL_ENCRYPTED_PACKET_HEADER : Type := {
  encryptedHeaderType : Z;    (* Always LE 0x0001 *)
  enc_length : Z;             (* sizeof(seq) + 16 byte tag + secondary header and data *)
  seq : Z                     (* used as IV for AES-GCM *)
}.

Record QUEUED_FRAME_INVALIDATION_TUPLE : Type := {
  startFrame : Z;
  endFrame : Z
}.

(** [CONN_STATUS_OKAY] and [CONN_STATUS_POOR] of Limelight.h, the two
    values [lastConnectionStatusUpdate] takes. *)
Inductive CONN_STATUS : Type := CONN_STATUS_OKAY | CONN_STATUS_POOR.

Definition CONN_STATUS_eqb (a b : CONN_STATUS) : bool :=
  match a, b with
  | CONN_STATUS_OKAY, CONN_STATUS_OKAY => true
  | CONN_STATUS_POOR, CONN_STATUS_POOR => true
  | _, _ => false
  end.

(** The file-scope variables of ControlStream.c. *)
Record Globals : Type := {
  usePeriodicPing : bool;
  lossCountSinceLastReport : Z;
  lastGoodFrame : Z;
  lastSeenFrame : Z;
  stopping : bool;
  disconnectPending : bool;
  encryptedControlStream : bool;
  invalidateRefFramesEvent : bool;
  intervalGoodFrameCount : Z;
  intervalTotalFrameCount : Z;
  intervalStartTimeMs : Z;
  lastIntervalLossPercentage : Z;
  lastConnectionStatusUpdate : CONN_STATUS;
  currentEnetSequenceNumber : Z;
  idrFrameRequired : bool;
  invalidReferenceFrameTuples : LINKED_BLOCKING_QUEUE QUEUED_FRAME_INVALIDATION_TUPLE;
  packetTypes : list Z;
  payloadLengths : list Z;
  preconstructedPayloads : list (list Z)
}.

Definition set_lossCountSinceLastReport (v : Z) (g : Globals) : Globals :=
  {| usePeriodicPing := usePeriodicPing g;
     lossCountSinceLastReport := v;
     lastGoodFrame := lastGoodFrame g;
     lastSeenFrame := lastSeenFrame g;
     stopping := stopping g;
     disconnectPending := disconnectPending g;
     encryptedControlStream := encryptedControlStream g;
     invalidateRefFramesEvent := invalidateRefFramesEvent g;
     intervalGoodFrameCount := intervalGoodFrameCount g;
     intervalTotalFrameCount := intervalTotalFrameCount g;
     intervalStartTimeMs := intervalStartTimeMs g;
     lastIntervalLossPercentage := lastIntervalLossPercentage g;
     lastConnectionStatusUpdate := lastConnectionStatusUpdate g;
     currentEnetSequenceNumber := currentEnetSequenceNumber g;
     idrFrameRequired := idrFrameRequired g;
     invalidReferenceFrameTuples := invalidReferenceFrameTuples g;
     packetTypes := packetTypes g;
     payloadLengths := payloadLengths g;
     preconstructedPayloads := preconstructedPayloads g |}.

Definition set_lastGoodFrame (v : Z) (g : Globals) : Globals :=
  {| usePeriodicPing := usePeriodicPing g;
     lossCountSinceLastReport := lossCountSinceLastReport g;
     lastGoodFrame := v;
     lastSeenFrame := lastSeenFrame g;
     stopping := stopping g;
     disconnectPending := disconnectPending g;
     encryptedControlStream := encryptedControlStream g;
     invalidateRefFramesEvent := invalidateRefFramesEvent g;
     intervalGoodFrameCount := intervalGoodFrameCount g;
     intervalTotalFrameCount := intervalTotalFrameCount g;
     intervalStartTimeMs := intervalStartTimeMs g;
     lastIntervalLossPercentage := lastIntervalLossPercentage g;
     lastConnectionStatusUpdate := lastConnectionStatusUpdate g;
     currentEnetSequenceNumber := currentEnetSequenceNumber g;
     idrFrameRequired := idrFrameRequired g;
     invalidReferenceFrameTuples := invalidReferenceFrameTuples g;
     packetTypes := packetTypes g;
     payloadLengths := payloadLengths g;
     preconstructedPayloads := preconstructedPayloads g |}.

Definition set_lastSeenFrame (v : Z) (g : Globals) : Globals :=
  {| usePeriodicPing := usePeriodicPing g;
     lossCountSinceLastReport := lossCountSinceLastReport g;
     lastGoodFrame := lastGoodFrame g;
     lastSeenFrame := v;
     stopping := stopping g;
     disconnectPending := disconnectPending g;
     encryptedControlStream := encryptedControlStream g;
     invalidateRefFramesEvent := invalidateRefFramesEvent g;
     intervalGoodFrameCount := intervalGoodFrameCount g;
     intervalTotalFrameCount := intervalTotalFrameCount g;
     intervalStartTimeMs := intervalStartTimeMs g;
     lastIntervalLossPercentage := lastIntervalLossPercentage g;
     lastConnectionStatusUpdate := lastConnectionStatusUpdate g;
     currentEnetSequenceNumber := currentEnetSequenceNumber g;
     idrFrameRequired := idrFrameRequired g;
     invalidReferenceFrameTuples := invalidReferenceFrameTuples g;
     packetTypes := packetTypes g;
     payloadLengths := payloadLengths g;
     preconstructedPayloads := preconstructedPayloads g |}.

Definition set_stopping (v : bool) (g : Globals) : Globals :=
  {| usePeriodicPing := usePeriodicPing g;
     lossCountSinceLastReport := lossCountSinceLastReport g;
     lastGoodFrame := lastGoodFrame g;
     lastSeenFrame := lastSeenFrame g;
     stopping := v;
     disconnectPending := disconnectPending g;
     encryptedControlStream := encryptedControlStream g;
     invalidateRefFramesEvent := invalidateRefFramesEvent g;
     intervalGoodFrameCount := intervalGoodFrameCount g;
     intervalTotalFrameCount := intervalTotalFrameCount g;
     intervalStartTimeMs := intervalStartTimeMs g;
     lastIntervalLossPercentage := lastIntervalLossPercentage g;
     lastConnectionStatusUpdate := lastConnectionStatusUpdate g;
     currentEnetSequenceNumber := currentEnetSequenceNumber g;
     idrFrameRequired := idrFrameRequired g;
     invalidReferenceFrameTuples := invalidReferenceFrameTuples g;
     packetTypes := packetTypes g;
     payloadLengths := payloadLengths g;
     preconstructedPayloads := preconstructedPayloads g |}.

Definition set_disconnectPending (v : bool) (g : Globals) : Globals :=
  {| usePeriodicPing := usePeriodicPing g;
     lossCountSinceLastReport := lossCountSinceLastReport g;
     lastGoodFrame := lastGoodFrame g;
     lastSeenFrame := lastSeenFrame g;
     stopping := stopping g;
     disconnectPending := v;
     encryptedControlStream := encryptedControlStream g;
     invalidateRefFramesEvent := invalidateRefFramesEvent g;
     intervalGoodFrameCount := intervalGoodFrameCount g;
     intervalTotalFrameCount := intervalTotalFrameCount g;
     intervalStartTimeMs := intervalStartTimeMs g;
     lastIntervalLossPercentage := lastIntervalLossPercentage g;
     lastConnectionStatusUpdate := lastConnectionStatusUpdate g;
     currentEnetSequenceNumber := currentEnetSequenceNumber g;
     idrFrameRequired := idrFrameRequired g;
     invalidReferenceFrameTuples := invalidReferenceFrameTuples g;
     packetTypes := packetTypes g;
     payloadLengths := payloadLengths g;
     preconstructedPayloads := preconstructedPayloads g |}.

Definition set_invalidateRefFramesEvent (v : bool) (g : Globals) : Globals :=
  {| usePeriodicPing := usePeriodicPing g;
     lossCountSinceLastReport := lossCountSinceLastReport g;
     lastGoodFrame := lastGoodFrame g;
     lastSeenFrame := lastSeenFrame g;
     stopping := stopping g;
     disconnectPending := disconnectPending g;
     encryptedControlStream := encryptedControlStream g;
     invalidateRefFramesEvent := v;
     intervalGoodFrameCount := intervalGoodFrameCount g;
     intervalTotalFrameCount := intervalTotalFrameCount g;
     intervalStartTimeMs := intervalStartTimeMs g;
     lastIntervalLossPercentage := lastIntervalLossPercentage g;
     lastConnectionStatusUpdate := lastConnectionStatusUpdate g;
     currentEnetSequenceNumber := currentEnetSequenceNumber g;
     idrFrameRequired := idrFrameRequired g;
     invalidReferenceFrameTuples := invalidReferenceFrameTuples g;
     packetTypes := packetTypes g;
     payloadLengths := payloadLengths g;
     preconstructedPayloads := preconstructedPayloads g |}.

Definition set_intervalGoodFrameCount (v : Z) (g : Globals) : Globals :=
  {| usePeriodicPing := usePeriodicPing g;
     lossCountSinceLastReport := lossCountSinceLastReport g;
     lastGoodFrame := lastGoodFrame g;
     lastSeenFrame := lastSeenFrame g;
     stopping := stopping g;
     disconnectPending := disconnectPending g;
     encryptedControlStream := encryptedControlStream g;
     invalidateRefFramesEvent := invalidateRefFramesEvent g;
     intervalGoodFrameCount := v;
     intervalTotalFrameCount := intervalTotalFrameCount g;
     intervalStartTimeMs := intervalStartTimeMs g;
     lastIntervalLossPercentage := lastIntervalLossPercentage g;
     lastConnectionStatusUpdate := lastConnectionStatusUpdate g;
     currentEnetSequenceNumber := currentEnetSequenceNumber g;
     idrFrameRequired := idrFrameRequired g;
     invalidReferenceFrameTuples := invalidReferenceFrameTuples g;
     packetTypes := packetTypes g;
     payloadLengths := payloadLengths g;
     preconstructedPayloads := preconstructedPayloads g |}.

Definition set_intervalTotalFrameCount (v : Z) (g : Globals) : Globals :=
  {| usePeriodicPing := usePeriodicPing g;
     lossCountSinceLastReport := lossCountSinceLastReport g;
     lastGoodFrame := lastGoodFrame g;
     lastSeenFrame := lastSeenFrame g;
     stopping := stopping g;
     disconnectPending := disconnectPending g;
     encryptedControlStream := encryptedControlStream g;
     invalidateRefFramesEvent := invalidateRefFramesEvent g;
     intervalGoodFrameCount := intervalGoodFrameCount g;
     intervalTotalFrameCount := v;
     intervalStartTimeMs := intervalStartTimeMs g;
     lastIntervalLossPercentage := lastIntervalLossPercentage g;
     lastConnectionStatusUpdate := lastConnectionStatusUpdate g;
     currentEnetSequenceNumber := currentEnetSequenceNumber g;
     idrFrameRequired := idrFrameRequired g;
     invalidReferenceFrameTuples := invalidReferenceFrameTuples g;
     packetTypes := packetTypes g;
     payloadLengths := payloadLengths g;
     preconstructedPayloads := preconstructedPayloads g |}.

Definition set_intervalStartTimeMs (v : Z) (g : Globals) : Globals :=
  {| usePeriodicPing := usePeriodicPing g;
     lossCountSinceLastReport := lossCountSinceLastReport g;
     lastGoodFrame := lastGoodFrame g;
     lastSeenFrame := lastSeenFrame g;
     stopping := stopping g;
     disconnectPending := disconnectPending g;
     encryptedControlStream := encryptedControlStream g;
     invalidateRefFramesEvent := invalidateRefFramesEvent g;
     intervalGoodFrameCount := intervalGoodFrameCount g;
     intervalTotalFrameCount := intervalTotalFrameCount g;
     intervalStartTimeMs := v;
     lastIntervalLossPercentage := lastIntervalLossPercentage g;
     lastConnectionStatusUpdate := lastConnectionStatusUpdate g;
     currentEnetSequenceNumber := currentEnetSequenceNumber g;
     idrFrameRequired := idrFrameRequired g;
     invalidReferenceFrameTuples := invalidReferenceFrameTuples g;
     packetTypes := packetTypes g;
     payloadLengths := payloadLengths g;
     preconstructedPayloads := preconstructedPayloads g |}.

Definition set_lastIntervalLossPercentage (v : Z) (g : Globals) : Globals :=
  {| usePeriodicPing := usePeriodicPing g;
     lossCountSinceLastReport := lossCountSinceLastReport g;
     lastGoodFrame := lastGoodFrame g;
     lastSeenFrame := lastSeenFrame g;
     stopping := stopping g;
     disconnectPending := disconnectPending g;
     encryptedControlStream := encryptedControlStream g;
     invalidateRefFramesEvent := invalidateRefFramesEvent g;
     intervalGoodFrameCount := intervalGoodFrameCount g;
     intervalTotalFrameCount := intervalTotalFrameCount g;
     intervalStartTimeMs := intervalStartTimeMs g;
     lastIntervalLossPercentage := v;
     lastConnectionStatusUpdate := lastConnectionStatusUpdate g;
     currentEnetSequenceNumber := currentEnetSequenceNumber g;
     idrFrameRequired := idrFrameRequired g;
     invalidReferenceFrameTuples := invalidReferenceFrameTuples g;
     packetTypes := packetTypes g;
     payloadLengths := payloadLengths g;
     preconstructedPayloads := preconstructedPayloads g |}.

Definition set_lastConnectionStatusUpdate
    (v : CONN_STATUS)
    (g : Globals) : Globals :=
  {| usePeriodicPing := usePeriodicPing g;
     lossCountSinceLastReport := lossCountSinceLastReport g;
     lastGoodFrame := lastGoodFrame g;
     lastSeenFrame := lastSeenFrame g;
     stopping := stopping g;
     disconnectPending := disconnectPending g;
     encryptedControlStream := encryptedControlStream g;
     invalidateRefFramesEvent := invalidateRefFramesEvent g;
     intervalGoodFrameCount := intervalGoodFrameCount g;
     intervalTotalFrameCount := intervalTotalFrameCount g;
     intervalStartTimeMs := intervalStartTimeMs g;
     lastIntervalLossPercentage := lastIntervalLossPercentage g;
     lastConnectionStatusUpdate := v;
     currentEnetSequenceNumber := currentEnetSequenceNumber g;
     idrFrameRequired := idrFrameRequired g;
     invalidReferenceFrameTuples := invalidReferenceFrameTuples g;
     packetTypes := packetTypes g;
     payloadLengths := payloadLengths g;
     preconstructedPayloads := preconstructedPayloads g |}.

Definition set_currentEnetSequenceNumber (v : Z) (g : Globals) : Globals :=
  {| usePeriodicPing := usePeriodicPing g;
     lossCountSinceLastReport := lossCountSinceLastReport g;
     lastGoodFrame := lastGoodFrame g;
     lastSeenFrame := lastSeenFrame g;
     stopping := stopping g;
     disconnectPending := disconnectPending g;
     encryptedControlStream := encryptedControlStream g;
     invalidateRefFramesEvent := invalidateRefFramesEvent g;
     intervalGoodFrameCount := intervalGoodFrameCount g;
     intervalTotalFrameCount := intervalTotalFrameCount g;
     intervalStartTimeMs := intervalStartTimeMs g;
     lastIntervalLossPercentage := lastIntervalLossPercentage g;
     lastConnectionStatusUpdate := lastConnectionStatusUpdate g;
     currentEnetSequenceNumber := v;
     idrFrameRequired := idrFrameRequired g;
     invalidReferenceFrameTuples := invalidReferenceFrameTuples g;
     packetTypes := packetTypes g;
     payloadLengths := payloadLengths g;
     preconstructedPayloads := preconstructedPayloads g |}.

Definition set_idrFrameRequired (v : bool) (g : Globals) : Globals :=
  {| usePeriodicPing := usePeriodicPing g;
     lossCountSinceLastReport := lossCountSinceLastReport g;
     lastGoodFrame := lastGoodFrame g;
     lastSeenFrame := lastSeenFrame g;
     stopping := stopping g;
     disconnectPending := disconnectPending g;
     encryptedControlStream := encryptedControlStream g;
     invalidateRefFramesEvent := invalidateRefFramesEvent g;
     intervalGoodFrameCount := intervalGoodFrameCount g;
     intervalTotalFrameCount := intervalTotalFrameCount g;
     intervalStartTimeMs := intervalStartTimeMs g;
     lastIntervalLossPercentage := lastIntervalLossPercentage g;
     lastConnectionStatusUpdate := lastConnectionStatusUpdate g;
     currentEnetSequenceNumber := currentEnetSequenceNumber g;
     idrFrameRequired := v;
     invalidReferenceFrameTuples := invalidReferenceFrameTuples g;
     packetTypes := packetTypes g;
     payloadLengths := payloadLengths g;
     preconstructedPayloads := preconstructedPayloads g |}.

Definition set_invalidReferenceFrameTuples
    (v : LINKED_BLOCKING_QUEUE QUEUED_FRAME_INVALIDATION_TUPLE)
    (g : Globals) : Globals :=
  {| usePeriodicPing := usePeriodicPing g;
     lossCountSinceLastReport := lossCountSinceLastReport g;
     lastGoodFrame := lastGoodFrame g;
     lastSeenFrame := lastSeenFrame g;
     stopping := stopping g;
     disconnectPending := disconnectPending g;
     encryptedControlStream := encryptedControlStream g;
     invalidateRefFramesEvent := invalidateRefFramesEvent g;
     intervalGoodFrameCount := intervalGoodFrameCount g;
     intervalTotalFrameCount := intervalTotalFrameCount g;
     intervalStartTimeMs := intervalStartTimeMs g;
     lastIntervalLossPercentage := lastIntervalLossPercentage g;
     lastConnectionStatusUpdate := lastConnectionStatusUpdate g;
     currentEnetSequenceNumber := currentEnetSequenceNumber g;
     idrFrameRequired := idrFrameRequired g;
     invalidReferenceFrameTuples := v;
     packetTypes := packetTypes g;
     payloadLengths := payloadLengths g;
     preconstructedPayloads := preconstructedPayloads g |}.
Definition CONN_IMMEDIATE_POOR_LOSS_RATE : Z := 30.
Definition CONN_CONSECUTIVE_POOR_LOSS_RATE : Z := 15.
Definition CONN_OKAY_LOSS_RATE : Z := 5.
Definition CONN_STATUS_SAMPLE_PERIOD : Z := 3000.

Definition IDX_START_A : nat := 0.
Definition IDX_REQUEST_IDR_FRAME : nat := 0.
Definition IDX_START_B : nat := 1.
Definition IDX_INVALIDATE_REF_FRAMES : nat := 2.
Definition IDX_LOSS_STATS : nat := 3.
Definition IDX_INPUT_DATA : nat := 5.
Definition IDX_RUMBLE_DATA : nat := 6.
Definition IDX_TERMINATION : nat := 7.

Definition packetTypesGen3 : list Z :=
  [0x1407; 0x1410; 0x1404; 0x140c; 0x1417; -1; -1; -1].
Definition packetTypesGen4 : list Z :=
  [0x0606; 0x0609; 0x0604; 0x060a; 0x0611; -1; -1; -1].
Definition packetTypesGen5 : list Z :=
  [0x0305; 0x0307; 0x0301; 0x0201; 0x0204; 0x0207; -1; -1].
Definition packetTypesGen7 : list Z :=
  [0x0305; 0x0307; 0x0301; 0x0201; 0x0204; 0x0206; 0x010b; 0x0100].
Definition packetTypesGen7Enc : list Z :=
  [0x0305; 0x0307; 0x0301; 0x0201; 0x0204; 0x0206; 0x010b; 0x0109].

Section Tables.

Variable P : Program.

Definition requestIdrFrameGen3 : list Z := [0; 0].
Definition startBGen3 : list Z :=
  store32 (BIGENDIAN P) 0 ++ store32 (BIGENDIAN P) 0 ++
  store32 (BIGENDIAN P) 0 ++ store32 (BIGENDIAN P) 0xa.
Definition requestIdrFrameGen4 : list Z := [0; 0].
Definition startBGen4 : list Z := [0].
Definition startAGen5 : list Z := [0; 0].
Definition startBGen5 : list Z := [0].

Definition payloadLengthsGen3 : list Z :=
  [Z.of_nat (length requestIdrFrameGen3); Z.of_nat (length startBGen3);
   24; 32; 64; -1].
Definition payloadLengthsGen4 : list Z :=
  [Z.of_nat (length requestIdrFrameGen4); Z.of_nat (length startBGen4);
   24; 32; 64; -1].
Definition payloadLengthsGen5 : list Z :=
  [Z.of_nat (length startAGen5); Z.of_nat (length startBGen5);
   24; 32; 80; -1].
Definition payloadLengthsGen7 : list Z :=
  [Z.of_nat (length startAGen5); Z.of_nat (length startBGen5);
   24; 32; 80; -1].

Definition preconstructedPayloadsGen3 : list (list Z) :=
  [requestIdrFrameGen3; startBGen3].
Definition preconstructedPayloadsGen4 : list (list Z) :=
  [requestIdrFrameGen4; startBGen4].
Definition preconstructedPayloadsGen5 : list (list Z) :=
  [startAGen5; startBGen5].
Definition preconstructedPayloadsGen7 : list (list Z) :=
  [startAGen5; startBGen5].

Definition LOSS_REPORT_INTERVAL_MS : Z := 50.
Definition PERIODIC_PING_INTERVAL_MS : Z := 250.

(** Initializes the control stream *)
Definition initializeControlStream : Globals :=
  let enc := APP_VERSION_AT_LEAST P 7 1 431 in
  let v0 := nth 0 (AppVersionQuad P) 0 in
  let '(types, lengths, payloads) :=
    if v0 =? 3 then
      (packetTypesGen3, payloadLengthsGen3, preconstructedPayloadsGen3)
    else if v0 =? 4 then
      (packetTypesGen4, payloadLengthsGen4, preconstructedPayloadsGen4)
    else if v0 =? 5 then
      (packetTypesGen5, payloadLengthsGen5, preconstructedPayloadsGen5)
    else
      (if enc then packetTypesGen7Enc else packetTypesGen7,
       payloadLengthsGen7, preconstructedPayloadsGen7) in
  {| usePeriodicPing := APP_VERSION_AT_LEAST P 7 1 415;
     lossCountSinceLastReport := 0;
     lastGoodFrame := 0;
     lastSeenFrame := 0;
     stopping := false;
     disconnectPending := false;
     encryptedControlStream := enc;
     invalidateRefFramesEvent := false;
     intervalGoodFrameCount := 0;
     intervalTotalFrameCount := 0;
     intervalStartTimeMs := 0;
     lastIntervalLossPercentage := 0;
     lastConnectionStatusUpdate := CONN_STATUS_OKAY;
     currentEnetSequenceNumber := 0;
     idrFrameRequired := false;
     invalidReferenceFrameTuples := LbqInitializeLinkedBlockingQueue 20;
     packetTypes := types;
     payloadLengths := lengths;
     preconstructedPayloads := payloads |}.

End Tables.

(** What the control stream does to the outside. [SendMessage] marks a
    call of [sendMessageAndForget] or [sendMessageAndDiscardReply] with
    its message type, payload length and payload bytes; the events below
    it are what the transport then does with the message. *)
Inductive event : Type :=
| SendMessage (ptype paylen : Z) (payload : list Z)
| enet_peer_send (data : list Z)
| enet_host_flush
| send (data : list Z)
| connectionStatusUpdate (status : CONN_STATUS)
| connectionTerminated (errorCode : Z)
| rumble (controllerNumber lowFreqRumble highFreqRumble : Z)
| PltSleepMsInterruptible (ms : Z)
| free (qfit : QUEUED_FRAME_INVALIDATION_TUPLE).

(** What the environment answers during one send. *)
Record SendEnv : Type := {
  enet_packet_create_ok : bool;  (* enet_packet_create returned a packet *)
  enet_packet_data : list Z;     (* the bytes of the new packet before they are written *)
  evp : EVP_RESULTS;
  enet_peer_send_result : Z;
  malloc_ok : bool;
  send_result : Z;               (* what send() on the TCP socket returned *)
  readNvctlPacketTcp : option (list Z);  (* the reply read from the TCP socket, or NULL *)
  LastSocketFail : Z
}.

Section Functions.

Variable P : Program.

Definition getNextFrameInvalidationTuple (g : Globals) :
    option QUEUED_FRAME_INVALIDATION_TUPLE * Globals :=
  match LbqPollQueueElement (invalidReferenceFrameTuples g) with
  | (LBQ_SUCCESS, Some qfit, q) => (Some qfit, set_invalidReferenceFrameTuples q g)
  | (_, _, q) => (None, g)
  end.

Definition PltSetEvent_invalidateRefFramesEvent (g : Globals) : Globals :=
  set_invalidateRefFramesEvent true g.

Definition queueFrameInvalidationTuple (malloc_succeeds : bool)
    (startFrame endFrame : Z) (g : Globals) : result Globals :=
  LC_ASSERT (LC_DEBUG P) (startFrame <=? endFrame) ;;;
  let g :=
    if isReferenceFrameInvalidationEnabled P then
      if malloc_succeeds then
        let qfit := {| startFrame := startFrame; endFrame := endFrame |} in
        match LbqOfferQueueItem (invalidReferenceFrameTuples g) qfit with
        | (LBQ_BOUND_EXCEEDED, _) =>
            (* Too many invalidation tuples, so we need an IDR frame now *)
            set_idrFrameRequired true g
        | (_, q) => set_invalidReferenceFrameTuples q g
        end
      else set_idrFrameRequired true g
    else set_idrFrameRequired true g in
  Ok (PltSetEvent_invalidateRefFramesEvent g).

(** Request an IDR frame on demand by the decoder *)
Definition requestIdrOnDemand (g : Globals) : Globals :=
  PltSetEvent_invalidateRefFramesEvent (set_idrFrameRequired true g).

(** Invalidate reference frames lost by the network *)
Definition connectionDetectedFrameLoss (malloc_succeeds : bool)
    (startFrame endFrame : Z) (g : Globals) : result Globals :=
  queueFrameInvalidationTuple malloc_succeeds startFrame endFrame g.

(** When we receive a frame, update the number of our current frame *)
Definition connectionReceivedCompleteFrame (frameIndex : Z) (g : Globals) :
    Globals :=
  let g := set_lastGoodFrame frameIndex g in
  set_intervalGoodFrameCount (to_int32 (intervalGoodFrameCount g + 1)) g.

(** Modelled from the spec: the macro isBefore16 of Limelight-internal.h
    is missing; the spec reads the assertion of connectionSawFrame as
    "idx >= lastSeenFrame (mod-16 ordering)": [x] is before [y] when
    their difference, as a 16-bit number, lies in the upper half. *)
Definition isBefore16 (x y : Z) : bool :=
  to_uint16 (x - y) >? 65535 / 2.

(** The loss rate of the interval that ends: [int] arithmetic, the
    division truncating. *)
Definition frameLossPercent (g : Globals) : Z :=
  to_int32 (100 - Z.quot (to_int32 (intervalGoodFrameCount g * 100))
                         (intervalTotalFrameCount g)).

(** [now] is what PltGetMillis() returns. *)
Definition connectionSawFrame (now : Z) (frameIndex : Z) (g : Globals) :
    result (Globals * list event) :=
  LC_ASSERT (LC_DEBUG P) (negb (isBefore16 frameIndex (lastSeenFrame g))) ;;;
  let '(g, evs) :=
    if to_uint64 (now - intervalStartTimeMs g) >=? CONN_STATUS_SAMPLE_PERIOD then
      let '(g, evs) :=
        if negb (intervalTotalFrameCount g =? 0) then
          (* Notify the client of connection status changes based on frame loss rate *)
          let frameLossPercent := frameLossPercent g in
          let '(g, evs) :=
            if negb (CONN_STATUS_eqb (lastConnectionStatusUpdate g) CONN_STATUS_POOR) &&
               ((frameLossPercent >=? CONN_IMMEDIATE_POOR_LOSS_RATE) ||
                ((frameLossPercent >=? CONN_CONSECUTIVE_POOR_LOSS_RATE) &&
                 (lastIntervalLossPercentage g >=? CONN_CONSECUTIVE_POOR_LOSS_RATE)))
            then
              (set_lastConnectionStatusUpdate CONN_STATUS_POOR g,
               [connectionStatusUpdate CONN_STATUS_POOR])
            else if (frameLossPercent <=? CONN_OKAY_LOSS_RATE) &&
                    negb (CONN_STATUS_eqb (lastConnectionStatusUpdate g) CONN_STATUS_OKAY)
            then
              (set_lastConnectionStatusUpdate CONN_STATUS_OKAY g,
               [connectionStatusUpdate CONN_STATUS_OKAY])
            else (g, []) in
          (set_lastIntervalLossPercentage frameLossPercent g, evs)
        else (g, []) in
      (* Reset interval *)
      let g := set_intervalStartTimeMs (to_uint64 now) g in
      let g := set_intervalTotalFrameCount 0 g in
      let g := set_intervalGoodFrameCount 0 g in
      (g, evs)
    else (g, []) in
  let g := set_intervalTotalFrameCount
             (to_int32 (intervalTotalFrameCount g + to_int32 (frameIndex - lastSeenFrame g))) g in
  let g := set_lastSeenFrame frameIndex g in
  Ok (g, evs).

(** When we lose packets, update our packet loss count *)
Definition connectionLostPackets (lastReceivedPacket nextReceivedPacket : Z)
    (g : Globals) : Globals :=
  set_lossCountSinceLastReport
    (to_int32 (lossCountSinceLastReport g +
               to_int32 (to_int32 (nextReceivedPacket - lastReceivedPacket) - 1))) g.

(** The bytes of a struct, its fields in the byte order of the host. *)
Definition bytes_of_V2 (h : NVCTL_ENET_PACKET_HEADER_V2) : list Z :=
  store16 (BIGENDIAN P) (v2_type h) ++ store16 (BIGENDIAN P) (v2_payloadLength h).

Definition bytes_of_ENCRYPTED (h : NVCTL_ENCRYPTED_PACKET_HEADER) : list Z :=
  store16 (BIGENDIAN P) (encryptedHeaderType h) ++
  store16 (BIGENDIAN P) (enc_length h) ++
  store32 (BIGENDIAN P) (seq h).

(** The struct a pointer to the bytes [data] designates. *)
Definition ENCRYPTED_of_bytes (data : list Z) : NVCTL_ENCRYPTED_PACKET_HEADER :=
  {| encryptedHeaderType := load (BIGENDIAN P) (firstn 2 data);
     enc_length := load (BIGENDIAN P) (firstn 2 (skipn 2 data));
     seq := load (BIGENDIAN P) (firstn 4 (skipn 4 data)) |}.

Definition V1_of_bytes (data : list Z) : NVCTL_ENET_PACKET_HEADER_V1 :=
  {| v1_type := load (BIGENDIAN P) (firstn 2 data) |}.

(** [memset(iv, 0, sizeof(iv)); iv[0] = (unsigned char)seq]:
    a truncating cast, but it's what Nvidia does. *)
Definition iv_of_seq (s : Z) : list Z := to_uint8 s :: repeat 0 15.

(** [encPacket] is the header at the start of the outgoing buffer and
    [encData] the bytes of the buffer after it (the room for the GCM tag,
    then the room for the ciphertext); [packet] is the V2 header at the
    start of the plaintext and [packetData] the bytes after it. Returns
    [ret] and the bytes after the header as the function leaves them. *)
Definition encryptControlMessage (r : EVP_RESULTS)
    (encPacket : NVCTL_ENCRYPTED_PACKET_HEADER) (encData : list Z)
    (packet : NVCTL_ENET_PACKET_HEADER_V2) (packetData : list Z) :
    bool * list Z :=
  let iv := iv_of_seq (seq encPacket) in
  if negb (EVP_Init_cipher r =? 1) then (false, encData) else
  if negb (EVP_CTRL_GCM_SET_IVLEN r =? 1) then (false, encData) else
  if negb (EVP_Init_key_iv r =? 1) then (false, encData) else
  (* Encrypt into the space after the encrypted header and GCM tag *)
  let encryptedSize := 4 + v2_payloadLength packet in
  let packet :=
    if BIGENDIAN P then
      {| v2_type := __bswap16 (v2_type packet);
         v2_payloadLength := __bswap16 (v2_payloadLength packet) |}
    else packet in
  let plaintext := firstn (Z.to_nat encryptedSize) (bytes_of_V2 packet ++ packetData) in
  if negb (EVP_Update r =? 1) then (false, encData) else
  let ciphertext := aes_128_gcm_ctr P (remoteInputAesKey P) iv plaintext in
  let encData := write_at (Z.to_nat AES_GCM_TAG_LENGTH) ciphertext encData in
  (* GCM encryption won't ever fill ciphertext here but we have to call it anyway *)
  if negb (EVP_Final_ex r =? 1) then (false, encData) else
  (* Read the tag into the space after the encrypted header *)
  if negb (EVP_CTRL_GCM_TAG r =? 1) then
    (* ret = -1; *)
    (to_bool (-1), encData)
  else
  let encData := write_at 0 (aes_128_gcm_tag P (remoteInputAesKey P) iv ciphertext) encData in
  (true, encData).

(** Where decryptControlMessageToV1 stands once the authentication tag
    has been dealt with: on its way to [gcm_cleanup] with [ret] and
    [*packet] as they are, or past EVP_DecryptFinal_ex with the plaintext
    in [*packet]. *)
Inductive decryption : Type :=
| gcm_cleanup (ret : bool) (packet : option (list Z))
| decrypted (plaintextLength : Z) (packet : list Z).

(** decryptControlMessageToV1 up to the conversion of the header.
    [encData] are the bytes that follow the header [encPacket], to the
    end of the packet received. *)
Definition decryptControlMessage (r : EVP_RESULTS) (malloc_succeeds : bool)
    (encPacket : NVCTL_ENCRYPTED_PACKET_HEADER) (encData : list Z) :
    result (option decryption) :=
  let encPacket :=
    if BIGENDIAN P then
      {| encryptedHeaderType := encryptedHeaderType encPacket;
         enc_length := __bswap16 (enc_length encPacket);
         seq := __bswap32 (seq encPacket) |}
    else encPacket in
  (* It must be an encrypted packet to begin with *)
  LC_ASSERT (LC_DEBUG P) (encryptedHeaderType encPacket =? 0x0001) ;;;
  (* Check length first so we don't underflow *)
  if enc_length encPacket <? 4 + AES_GCM_TAG_LENGTH + 4 then Ok None (* return false; *) else
  let iv := iv_of_seq (seq encPacket) in
  if negb (EVP_Init_cipher r =? 1) then Ok (Some (gcm_cleanup false None)) else
  if negb (EVP_CTRL_GCM_SET_IVLEN r =? 1) then Ok (Some (gcm_cleanup false None)) else
  if negb (EVP_Init_key_iv r =? 1) then Ok (Some (gcm_cleanup false None)) else
  let plaintextLength := enc_length encPacket - 4 - AES_GCM_TAG_LENGTH in
  if negb malloc_succeeds then Ok (Some (gcm_cleanup false None)) else
  (* Decrypt into the packet we allocated; before that its bytes are not
     defined, and nothing reads them. EVP_DecryptUpdate is given the
     [plaintextLength] bytes that follow the tag: the length field is not
     compared with the length of the packet received, so these bytes end
     past the packet when the field says more than was received. *)
  if Z.of_nat (length encData) <? AES_GCM_TAG_LENGTH + plaintextLength
  then Undefined else
  if negb (EVP_Update r =? 1) then Ok (Some (gcm_cleanup false (Some []))) else
  let tag := firstn (Z.to_nat AES_GCM_TAG_LENGTH) encData in
  let ciphertext :=
    firstn (Z.to_nat plaintextLength) (skipn (Z.to_nat AES_GCM_TAG_LENGTH) encData) in
  let packet := aes_128_gcm_ctr P (remoteInputAesKey P) iv ciphertext in
  (* Set the GCM tag before calling EVP_DecryptFinal_ex() *)
  if negb (EVP_CTRL_GCM_TAG r =? 1) then
    (* ret = -1; *)
    Ok (Some (gcm_cleanup (to_bool (-1)) (Some packet)))
  else
  (* GCM will never have additional plaintext here, but we need to call it to
     ensure that the GCM authentication tag is correct for this data. *)
  let EVP_DecryptFinal_ex :=
    if bytes_eqb tag (aes_128_gcm_tag P (remoteInputAesKey P) iv ciphertext)
    then EVP_Final_ex r else 0 in
  if negb (EVP_DecryptFinal_ex =? 1) then Ok (Some (gcm_cleanup false (Some packet))) else
  Ok (Some (decrypted plaintextLength packet)).

(** Returns [ret], [*packet] ([None] is NULL) and [*packetLength], which
    holds [packetLength0] before the call. *)
Definition decryptControlMessageToV1 (r : EVP_RESULTS) (malloc_succeeds : bool)
    (encPacket : NVCTL_ENCRYPTED_PACKET_HEADER) (encData : list Z)
    (packetLength0 : Z) : result (bool * option (list Z) * Z) :=
  d <- decryptControlMessage r malloc_succeeds encPacket encData ;;
  match d with
  | None => Ok (false, None, packetLength0)
  | Some (decrypted plaintextLength packet) =>
      (* Now we do an in-place V2 to V1 header conversion: all we need to do is
         eliminate the new length field in V2 by shifting everything by 2 bytes. *)
      let packet :=
        write_at 2 (firstn (Z.to_nat (plaintextLength - 4)) (skipn 4 packet)) packet in
      Ok (true, Some packet, plaintextLength - 2)
  | Some (gcm_cleanup ret packet) =>
      (* a failed decryption frees the packet and returns NULL in it *)
      Ok (ret, if negb ret then None else packet, packetLength0)
  end.

Definition sendMessageEnet (e : SendEnv) (ptype paylen : Z) (payload : list Z)
    (g : Globals) : result (bool * Globals * list event) :=
  LC_ASSERT (LC_DEBUG P) (nth 0 (AppVersionQuad P) 0 >=? 5) ;;;
  r <-
    (if encryptedControlStream g then
       (* enet_packet_create(NULL, 8 + 16 + 4 + paylen, ENET_PACKET_FLAG_RELIABLE) *)
       if negb (enet_packet_create_ok e) then Ok (None, g) else
       (* We (ab)use the enetMutex to protect currentEnetSequenceNumber and the
          cipherContext used inside encryptControlMessage(). *)
       let encPacket :=
         {| encryptedHeaderType := 0x0001;
            enc_length := to_uint16 (4 + AES_GCM_TAG_LENGTH + 4 + paylen);
            seq := to_uint32 (currentEnetSequenceNumber g) |} in
       let g := set_currentEnetSequenceNumber
                  (to_int32 (currentEnetSequenceNumber g + 1)) g in
       let encPacket :=
         if BIGENDIAN P then
           {| encryptedHeaderType := __bswap16 (encryptedHeaderType encPacket);
              enc_length := __bswap16 (enc_length encPacket);
              seq := __bswap32 (seq encPacket) |}
         else encPacket in
       (* Construct the plaintext data for encryption *)
       LC_ASSERT (LC_DEBUG P) (4 + paylen <? 256) ;;;
       let packet :=
         {| v2_type := to_uint16 ptype; v2_payloadLength := to_uint16 paylen |} in
       let tempBuffer := firstn (Z.to_nat paylen) payload in
       (* Encrypt the data into the final packet *)
       let '(ret, encData) :=
         encryptControlMessage (evp e) encPacket (skipn 8 (enet_packet_data e))
           packet tempBuffer in
       if negb ret then Ok (None, g)
       else Ok (Some (bytes_of_ENCRYPTED encPacket ++ encData), g)
     else
       if negb (enet_packet_create_ok e) then Ok (None, g) else
       let packet :=
         {| v1_type := if BIGENDIAN P then __bswap16 (to_uint16 ptype)
                       else to_uint16 ptype |} in
       Ok (Some (store16 (BIGENDIAN P) (v1_type packet) ++
                 firstn (Z.to_nat paylen) payload), g)) ;;
  match r with
  | (None, g) => Ok (false, g, [])
  | (Some enetPacket, g) =>
      if enet_peer_send_result e <? 0 then Ok (false, g, [enet_peer_send enetPacket])
      else Ok (true, g, [enet_peer_send enetPacket; enet_host_flush])
  end.

Definition sendMessageTcp (e : SendEnv) (ptype paylen : Z) (payload : list Z) :
    result (bool * list event) :=
  LC_ASSERT (LC_DEBUG P) (nth 0 (AppVersionQuad P) 0 <? 5) ;;;
  if negb (malloc_ok e) then Ok (false, []) else
  let packet :=
    if BIGENDIAN P then
      {| tcp_type := __bswap16 (to_uint16 ptype);
         tcp_payloadLength := __bswap16 (to_uint16 paylen) |}
    else
      {| tcp_type := to_uint16 ptype; tcp_payloadLength := to_uint16 paylen |} in
  let data := store16 (BIGENDIAN P) (tcp_type packet) ++
              store16 (BIGENDIAN P) (tcp_payloadLength packet) ++
              firstn (Z.to_nat paylen) payload in
  if negb (send_result e =? 4 + paylen) then Ok (false, [send data])
  else Ok (true, [send data]).

(** The parameters [ptype] and [paylen] are of type [short]. *)
Definition sendMessageAndForget (e : SendEnv) (ptype paylen : Z)
    (payload : list Z) (g : Globals) : result (bool * Globals * list event) :=
  let ptype := to_int16 ptype in
  let paylen := to_int16 paylen in
  let call := SendMessage ptype paylen (firstn (Z.to_nat paylen) payload) in
  if nth 0 (AppVersionQuad P) 0 >=? 5 then
    r <- sendMessageEnet e ptype paylen payload g ;;
    let '(ret, g, evs) := r in Ok (ret, g, call :: evs)
  else
    r <- sendMessageTcp e ptype paylen payload ;;
    let '(ret, evs) := r in Ok (ret, g, call :: evs).

Definition sendMessageAndDiscardReply (e : SendEnv) (ptype paylen : Z)
    (payload : list Z) (g : Globals) : result (bool * Globals * list event) :=
  let ptype := to_int16 ptype in
  let paylen := to_int16 paylen in
  let call := SendMessage ptype paylen (firstn (Z.to_nat paylen) payload) in
  if nth 0 (AppVersionQuad P) 0 >=? 5 then
    r <- sendMessageEnet e ptype paylen payload g ;;
    let '(ret, g, evs) := r in Ok (ret, g, call :: evs)
  else
    r <- sendMessageTcp e ptype paylen payload ;;
    let '(ret, evs) := r in
    if negb ret then Ok (false, g, call :: evs) else
    (* Discard the response *)
    match readNvctlPacketTcp e with
    | None => Ok (false, g, call :: evs)
    | Some reply => Ok (true, g, call :: evs)
    end.

(** Called by the input stream to send a packet for Gen 5+ servers *)
Definition sendInputPacketOnControlStream (e : SendEnv) (data : list Z)
    (len : Z) (g : Globals) : result (Z * Globals * list event) :=
  LC_ASSERT (LC_DEBUG P) (nth 0 (AppVersionQuad P) 0 >=? 5) ;;;
  r <- sendMessageAndForget e (nth IDX_INPUT_DATA (packetTypes g) 0) len data g ;;
  let '(ret, g, evs) := r in
  if negb ret then Ok (-1, g, evs) else Ok (0, g, evs).

(** An event of the ENet host, a received packet with its data. *)
Inductive ENetEvent : Type :=
| ENET_EVENT_TYPE_NONE
| ENET_EVENT_TYPE_CONNECT
| ENET_EVENT_TYPE_DISCONNECT
| ENET_EVENT_TYPE_RECEIVE (data : list Z).

(** What the locals of controlReceiveThreadFunc that are declared without
    an initializer hold before they are written. *)
Record Indeterminate : Type := {
  packetLength0 : Z;
  controllerNumber0 : Z;
  lowFreqRumble0 : Z;
  highFreqRumble0 : Z;
  terminationErrorCode0 : Z;
  terminationReason0 : Z
}.

(** A read through a byte buffer into a local that holds [v0]: the local
    keeps its value when the read fails. *)
Definition BbGet_into (get : BYTE_BUFFER -> option Z * BYTE_BUFFER)
    (bb : BYTE_BUFFER) (v0 : Z) : Z * BYTE_BUFFER :=
  match get bb with
  | (Some v, bb) => (v, bb)
  | (None, bb) => (v0, bb)
  end.

(** controlReceiveThreadFunc from "All below codepaths must free ctlHdr"
    on: [ctlHdr_type] is the type the V1 header holds, [ctlHdr] the bytes
    of the packet it starts. Returns whether the thread function returns,
    and the callbacks made. *)
Definition controlReceiveThreadFunc_dispatch (s : Indeterminate)
    (ctlHdr_type : Z) (ctlHdr : list Z) (packetLength : Z) (g : Globals) :
    bool * list event :=
  if ctlHdr_type =? nth IDX_RUMBLE_DATA (packetTypes g) 0 then
    let bb := BbInitializeWrappedBuffer ctlHdr 2 (packetLength - 2) BYTE_ORDER_LITTLE in
    let '(_, bb) := BbAdvanceBuffer bb 4 in
    let '(controllerNumber, bb) := BbGet_into BbGet16 bb (controllerNumber0 s) in
    let '(lowFreqRumble, bb) := BbGet_into BbGet16 bb (lowFreqRumble0 s) in
    let '(highFreqRumble, bb) := BbGet_into BbGet16 bb (highFreqRumble0 s) in
    (false, [rumble controllerNumber lowFreqRumble highFreqRumble])
  else if ctlHdr_type =? nth IDX_TERMINATION (packetTypes g) 0 then
    let terminationErrorCode :=
      if packetLength >=? 6 then
        (* This is the extended termination message which contains a full HRESULT *)
        let bb := BbInitializeWrappedBuffer ctlHdr 2 (packetLength - 2) BYTE_ORDER_BIG in
        let '(terminationErrorCode, _) := BbGet_into BbGet32 bb (terminationErrorCode0 s) in
        (* NVST_DISCONN_SERVER_TERMINATED_CLOSED is the expected graceful termination error *)
        if terminationErrorCode =? 0x80030023 then
          if negb (lastSeenFrame g =? 0) then
            (* Pass error code 0 to notify the client that this was not an error *)
            to_uint32 (ML_ERROR_GRACEFUL_TERMINATION P)
          else
            (* We never saw a frame, so this is probably an error that caused
               NvStreamer to terminate prior to sending any frames. *)
            to_uint32 (ML_ERROR_UNEXPECTED_EARLY_TERMINATION P)
        (* NVST_DISCONN_SERVER_VFP_PROTECTED_CONTENT means it failed due to
           protected content on screen *)
        else if terminationErrorCode =? 0x800e9302 then
          to_uint32 (ML_ERROR_PROTECTED_CONTENT P)
        else terminationErrorCode
      else
        (* This is the short termination message *)
        let bb := BbInitializeWrappedBuffer ctlHdr 2 (packetLength - 2) BYTE_ORDER_LITTLE in
        let '(terminationReason, _) := BbGet_into BbGet16 bb (terminationReason0 s) in
        (* SERVER_TERMINATED_INTENDED *)
        if terminationReason =? 0x0100 then
          if negb (lastSeenFrame g =? 0) then
            to_uint32 (ML_ERROR_GRACEFUL_TERMINATION P)
          else
            to_uint32 (ML_ERROR_UNEXPECTED_EARLY_TERMINATION P)
        else
          (* Otherwise pass the reason unmodified *)
          terminationReason in
    (* The termination message should be reliable enough to end the stream
       now, rather than waiting for an explicit disconnect. *)
    (true, [connectionTerminated (to_int32 terminationErrorCode)])
  else (false, []).

(** What controlReceiveThreadFunc does with one event of the ENet host
    (the polling of the host and the wait for a pending disconnect, which
    come before in the loop, are not part of the embedding). Returns
    whether the thread function returns, and the callbacks made. *)
Definition controlReceiveThreadFunc_event (r : EVP_RESULTS)
    (malloc_succeeds : bool) (s : Indeterminate) (ev : ENetEvent)
    (g : Globals) : result (bool * list event) :=
  match ev with
  | ENET_EVENT_TYPE_RECEIVE data =>
      let dataLength := Z.of_nat (length data) in
      if dataLength <? 2 then Ok (false, []) (* Discarding runt control packet *) else
      let ctlHdr_type := v1_type (V1_of_bytes data) in
      let ctlHdr_type := if BIGENDIAN P then __bswap16 ctlHdr_type else ctlHdr_type in
      let data := write_at 0 (store16 (BIGENDIAN P) ctlHdr_type) data in
      c <-
        (if encryptedControlStream g then
           (* V2 headers can be interpreted as V1 headers for the purpose of
              examining type, so this check is safe. *)
           if ctlHdr_type =? 0x0001 then
             if dataLength <? 8 then Ok None (* Discarding runt encrypted control packet *) else
             d <- decryptControlMessageToV1 r malloc_succeeds
                    (ENCRYPTED_of_bytes data) (skipn 8 data) (packetLength0 s) ;;
             match d with
             | (true, Some packet, packetLength) =>
                 Ok (Some (v1_type (V1_of_bytes packet), packet, packetLength))
             | _ => Ok None (* Failed to decrypt control packet *)
             end
           else
             (* What do we do here??? *)
             LC_ASSERT (LC_DEBUG P) false ;;;
             (* [ctlHdr] still points to the data of the packet, which
                enet_packet_destroy frees before the type is read through
                it and before free(ctlHdr). *)
             Undefined
         else
           (* Take ownership of the packet data directly for the non-encrypted case *)
           Ok (Some (ctlHdr_type, data, dataLength))) ;;
      match c with
      | None => Ok (false, [])
      | Some (ctlHdr_type, ctlHdr, packetLength) =>
          Ok (controlReceiveThreadFunc_dispatch s ctlHdr_type ctlHdr packetLength g)
      end
  | ENET_EVENT_TYPE_DISCONNECT =>
      (* Control stream received unexpected disconnect event *)
      Ok (true, [connectionTerminated (-1)])
  | _ => Ok (false, [])
  end.

(** One turn of the loop of a worker thread: whether the thread finds
    itself interrupted at the head of the loop, and what the environment
    answers to the send of that turn. *)
Record Turn : Type := {
  PltIsThreadInterrupted : bool;
  send_env : SendEnv
}.

(** The loop of lossStatsThreadFunc under [usePeriodicPing], for as many
    turns as [turns] tells. *)
Fixpoint periodicPingLoop (turns : list Turn) (periodicPingPayload : list Z)
    (g : Globals) : result (Globals * list event) :=
  match turns with
  | [] => Ok (g, [])
  | t :: turns =>
      if PltIsThreadInterrupted t then Ok (g, []) else
      (* Send the message (and don't expect a response) *)
      r <- sendMessageAndForget (send_env t) 0x0200 8 periodicPingPayload g ;;
      let '(ret, g, evs) := r in
      if negb ret then
        Ok (g, evs ++ [connectionTerminated (LastSocketFail (send_env t))])
      else
        (* Wait a bit *)
        r <- periodicPingLoop turns periodicPingPayload g ;;
        let '(g, evs') := r in
        Ok (g, evs ++ PltSleepMsInterruptible PERIODIC_PING_INTERVAL_MS :: evs')
  end.

(** The loop of lossStatsThreadFunc that reports loss statistics;
    [lossStatsPayload] are the bytes of the buffer, which the function
    frees on its way out (the events record the frees of invalidation
    tuples only). *)
Fixpoint lossStatsLoop (turns : list Turn) (lossStatsPayload : list Z)
    (g : Globals) : result (Globals * list event) :=
  match turns with
  | [] => Ok (g, [])
  | t :: turns =>
      if PltIsThreadInterrupted t then Ok (g, []) else
      (* Construct the payload *)
      let len := nth IDX_LOSS_STATS (payloadLengths g) 0 in
      let bb := BbInitializeWrappedBuffer lossStatsPayload 0 len BYTE_ORDER_LITTLE in
      let '(_, bb) := BbPut32 bb (lossCountSinceLastReport g) in
      let '(_, bb) := BbPut32 bb LOSS_REPORT_INTERVAL_MS in
      let '(_, bb) := BbPut32 bb 1000 in
      let '(_, bb) := BbPut64 bb (lastGoodFrame g) in
      let '(_, bb) := BbPut32 bb 0 in
      let '(_, bb) := BbPut32 bb 0 in
      let '(_, bb) := BbPut32 bb 0x14 in
      let lossStatsPayload := bb_buffer bb in
      (* Send the message (and don't expect a response) *)
      r <- sendMessageAndForget (send_env t) (nth IDX_LOSS_STATS (packetTypes g) 0)
             len lossStatsPayload g ;;
      let '(ret, g, evs) := r in
      if negb ret then
        Ok (g, evs ++ [connectionTerminated (LastSocketFail (send_env t))])
      else
        (* Clear the transient state *)
        let g := set_lossCountSinceLastReport 0 g in
        (* Wait a bit *)
        r <- lossStatsLoop turns lossStatsPayload g ;;
        let '(g, evs') := r in
        Ok (g, evs ++ PltSleepMsInterruptible LOSS_REPORT_INTERVAL_MS :: evs')
  end.

(** [periodicPingPayload0] are the bytes the array [periodicPingPayload]
    holds when the function is entered (it has no initializer), and
    [lossStatsPayload0] those of the buffer malloc returns, [None] when it
    returns NULL. *)
Definition lossStatsThreadFunc (periodicPingPayload0 : list Z)
    (lossStatsPayload0 : option (list Z)) (turns : list Turn) (g : Globals) :
    result (Globals * list event) :=
  if usePeriodicPing g then
    let bb := BbInitializeWrappedBuffer periodicPingPayload0 0 8 BYTE_ORDER_LITTLE in
    let '(_, bb) := BbPut16 bb 4 in (* Length of payload *)
    let '(_, bb) := BbPut32 bb 0 in (* Timestamp? *)
    periodicPingLoop turns (bb_buffer bb) g
  else
    match lossStatsPayload0 with
    | None => Ok (g, [connectionTerminated (-1)])
    | Some lossStatsPayload => lossStatsLoop turns lossStatsPayload g
    end.

(** An [int64_t] array as bytes. *)
Definition bytes_of_int64s (payload : list Z) : list Z :=
  flat_map (store64 (BIGENDIAN P)) payload.

Definition requestIdrFrame (e : SendEnv) (g : Globals) :
    result (Globals * list event) :=
  if nth 0 (AppVersionQuad P) 0 >=? 5 then
    (* Form the payload *)
    let '(payload0, payload1) :=
      if lastSeenFrame g <? 0x20 then (0, lastSeenFrame g)
      else (to_int32 (lastSeenFrame g - 0x20), lastSeenFrame g) in
    let payload2 := 0 in
    let '(payload0, payload1) :=
      if BIGENDIAN P then
        (to_int64 (__bswap64 payload0), to_int64 (__bswap64 payload1))
      else (payload0, payload1) in
    (* Send the reference frame invalidation request and read the response *)
    r <- sendMessageAndDiscardReply e
           (nth IDX_INVALIDATE_REF_FRAMES (packetTypes g) 0)
           (nth IDX_INVALIDATE_REF_FRAMES (payloadLengths g) 0)
           (bytes_of_int64s [payload0; payload1; payload2]) g ;;
    let '(ret, g, evs) := r in
    if negb ret then Ok (g, evs ++ [connectionTerminated (LastSocketFail e)])
    else Ok (g, evs)
  else
    (* Send IDR frame request and read the response *)
    r <- sendMessageAndDiscardReply e
           (nth IDX_REQUEST_IDR_FRAME (packetTypes g) 0)
           (nth IDX_REQUEST_IDR_FRAME (payloadLengths g) 0)
           (nth IDX_REQUEST_IDR_FRAME (preconstructedPayloads g) []) g ;;
    let '(ret, g, evs) := r in
    if negb ret then Ok (g, evs ++ [connectionTerminated (LastSocketFail e)])
    else Ok (g, evs).

(** The do-while loop of requestInvalidateReferenceFrames, entered with
    the tuple [qfit] and the end of the range [payload1]. [fuel] bounds
    the turns that follow the first: the loop takes one tuple off the
    queue for each, so the length of the queue is enough. Returns the end
    of the range and the events of the loop. *)
Fixpoint aggregateLostFrames (fuel : nat) (qfit : QUEUED_FRAME_INVALIDATION_TUPLE)
    (payload1 : Z) (g : Globals) : result (Z * Globals * list event) :=
  LC_ASSERT (LC_DEBUG P) (endFrame qfit >=? payload1) ;;;
  let payload1 := endFrame qfit in
  match getNextFrameInvalidationTuple g, fuel with
  | (Some qfit', g), S fuel =>
      r <- aggregateLostFrames fuel qfit' payload1 g ;;
      let '(payload1, g, evs) := r in Ok (payload1, g, free qfit :: evs)
  | _, _ => Ok (payload1, g, [free qfit])
  end.

Definition requestInvalidateReferenceFrames (e : SendEnv) (g : Globals) :
    result (Globals * list event) :=
  LC_ASSERT (LC_DEBUG P) (isReferenceFrameInvalidationEnabled P) ;;;
  match getNextFrameInvalidationTuple g with
  | (None, g) => Ok (g, [])
  | (Some qfit, g) =>
      LC_ASSERT (LC_DEBUG P) (startFrame qfit <=? endFrame qfit) ;;;
      let payload0 := startFrame qfit in
      let payload1 := endFrame qfit in
      let payload2 := 0 in
      (* Aggregate all lost frames into one range; the queue holds the
         tuples that are left, and no turn of the loop adds one. *)
      a <- aggregateLostFrames (length (items (invalidReferenceFrameTuples g)))
             qfit payload1 g ;;
      let '(payload1, g, frees) := a in
      let '(payload0, payload1) :=
        if BIGENDIAN P then
          (to_int64 (__bswap64 payload0), to_int64 (__bswap64 payload1))
        else (payload0, payload1) in
      (* Send the reference frame invalidation request and read the response *)
      r <- sendMessageAndDiscardReply e
             (nth IDX_INVALIDATE_REF_FRAMES (packetTypes g) 0)
             (nth IDX_INVALIDATE_REF_FRAMES (payloadLengths g) 0)
             (bytes_of_int64s [payload0; payload1; payload2]) g ;;
      let '(ret, g, evs) := r in
      if negb ret then
        Ok (g, frees ++ evs ++ [connectionTerminated (LastSocketFail e)])
      else Ok (g, frees ++ evs)
  end.

(** [while (getNextFrameInvalidationTuple(&qfit)) free(qfit);] *)
Fixpoint emptyInvalidationTuples (fuel : nat) (g : Globals) :
    Globals * list event :=
  match getNextFrameInvalidationTuple g, fuel with
  | (Some qfit, g), S fuel =>
      let '(g, evs) := emptyInvalidationTuples fuel g in (g, free qfit :: evs)
  | _, _ => (g, [])
  end.

(** The loop of invalidateRefFramesFunc, one turn for each time the
    thread is woken by [invalidateRefFramesEvent]. *)
Fixpoint invalidateRefFramesFunc (turns : list Turn) (g : Globals) :
    result (Globals * list event) :=
  match turns with
  | [] => Ok (g, [])
  | t :: turns =>
      if PltIsThreadInterrupted t then Ok (g, []) else
      (* Wait for a request to invalidate reference frames *)
      let g := set_invalidateRefFramesEvent false g in
      (* Bail if we've been shutdown *)
      if stopping g then Ok (g, []) else
      r <-
        (* Sometimes we absolutely need an IDR frame *)
        (if idrFrameRequired g then
           (* Empty invalidate reference frames tuples *)
           let '(g, frees) :=
             emptyInvalidationTuples
               (length (items (invalidReferenceFrameTuples g))) g in
           (* Send an IDR frame request *)
           let g := set_idrFrameRequired false g in
           r <- requestIdrFrame (send_env t) g ;;
           let '(g, evs) := r in Ok (g, frees ++ evs)
         else
           (* Otherwise invalidate reference frames *)
           requestInvalidateReferenceFrames (send_env t) g) ;;
      let '(g, evs) := r in
      r' <- invalidateRefFramesFunc turns g ;;
      let '(g, evs') := r' in Ok (g, evs ++ evs')
  end.

End Functions.

End ControlStream.

(** ** InputStream.c *)

Module InputStream.

(** The packets of Input.h that the send thread looks into; the fields
    hold what the code stores in them (network byte order where the code
    converts). *)
Record NV_REL_MOUSE_MOVE_PACKET : Type := {
  rel_header_packetType : Z;
  rel_magic : Z;
  deltaX : Z;
  deltaY : Z
}.

Record NV_ABS_MOUSE_MOVE_PACKET : Type := {
  abs_header_packetType : Z;
  abs_magic : Z;
  x : Z;
  y : Z;
  unused : Z;
  width : Z;
  height : Z
}.

Record NV_MULTI_CONTROLLER_PACKET : Type := {
  mc_header_packetType : Z;
  headerA : Z;
  headerB : Z;
  controllerNumber : Z;
  activeGamepadMask : Z;
  midB : Z;
  buttonFlags : Z;
  leftTrigger : Z;
  rightTrigger : Z;
  leftStickX : Z;
  leftStickY : Z;
  rightStickX : Z;
  rightStickY : Z;
  tailA : Z;
  tailB : Z
}.

(** The union [packet] of a packet holder. The keyboard, mouse button,
    controller, scroll and haptics packets, which the send thread only
    passes on, are [other] with the packet type of their header. *)
Inductive PACKET : Type :=
| mouseMoveRel (p : NV_REL_MOUSE_MOVE_PACKET)
| mouseMoveAbs (p : NV_ABS_MOUSE_MOVE_PACKET)
| multiController (p : NV_MULTI_CONTROLLER_PACKET)
| other (header_packetType : Z) (body : list Z).

(** Contains input stream packets *)
Record PACKET_HOLDER : Type := {
  packetLength : Z;
  packet : PACKET
}.

(** Every member of the union starts with the header. *)
Definition header_packetType (p : PACKET) : Z :=
  match p with
  | mouseMoveRel m => rel_header_packetType m
  | mouseMoveAbs m => abs_header_packetType m
  | multiController m => mc_header_packetType m
  | other t _ => t
  end.

(** Input.h is not among the sources: the packet types, magic numbers and
    sizes it defines are parameters, and so is the layout of the packets
    in memory, as the bytes of the union. *)
Record Input_h : Type := {
  PACKET_TYPE_MULTI_CONTROLLER : Z;
  PACKET_TYPE_REL_MOUSE_MOVE : Z;
  PACKET_TYPE_ABS_MOUSE_MOVE : Z;
  MOUSE_MOVE_REL_MAGIC : Z;
  MOUSE_MOVE_ABS_MAGIC : Z;
  sizeof_NV_REL_MOUSE_MOVE_PACKET : Z;
  sizeof_NV_ABS_MOUSE_MOVE_PACKET : Z;
  bytes_of_PACKET : PACKET -> list Z
}.

Definition MAX_INPUT_PACKET_SIZE : Z := 128.

Definition ROUND_TO_PKCS7_PADDED_LEN (x : Z) : Z := Z.quot (x + 15) 16 * 16.

(** The file-scope variables of InputStream.c; [cipherContext] is the
    chaining value the CBC context holds once it is initialized. *)
Record Globals : Type := {
  currentAesIv : list Z;
  initialized : bool;
  cipherContext : list Z;
  cipherInitialized : bool;
  packetQueue : LINKED_BLOCKING_QUEUE PACKET_HOLDER
}.

Definition set_currentAesIv (v : list Z) (g : Globals) : Globals :=
  {| currentAesIv := v; initialized := initialized g;
     cipherContext := cipherContext g; cipherInitialized := cipherInitialized g;
     packetQueue := packetQueue g |}.

Definition set_initialized (v : bool) (g : Globals) : Globals :=
  {| currentAesIv := currentAesIv g; initialized := v;
     cipherContext := cipherContext g; cipherInitialized := cipherInitialized g;
     packetQueue := packetQueue g |}.

Definition set_cipherContext (v : list Z) (g : Globals) : Globals :=
  {| currentAesIv := currentAesIv g; initialized := initialized g;
     cipherContext := v; cipherInitialized := cipherInitialized g;
     packetQueue := packetQueue g |}.

Definition set_cipherInitialized (v : bool) (g : Globals) : Globals :=
  {| currentAesIv := currentAesIv g; initialized := initialized g;
     cipherContext := cipherContext g; cipherInitialized := v;
     packetQueue := packetQueue g |}.

Definition set_packetQueue (v : LINKED_BLOCKING_QUEUE PACKET_HOLDER)
    (g : Globals) : Globals :=
  {| currentAesIv := currentAesIv g; initialized := initialized g;
     cipherContext := cipherContext g; cipherInitialized := cipherInitialized g;
     packetQueue := v |}.

(** What the input stream does to the outside: what it has the control
    stream do, what it sends on its own socket, the listener callback,
    and the packet holders it allocates ([malloc] with whether a holder
    was returned) and frees. *)
Inductive event : Type :=
| control (e : ControlStream.event)
| send (data : list Z)
| connectionTerminated (errorCode : Z)
| malloc (succeeded : bool)
| free (holder : PACKET_HOLDER).

(** What the environment answers during one turn of the send thread. *)
Record Turn : Type := {
  PltIsThreadInterrupted : bool;
  EVP_CIPHER_CTX_new_ok : bool;
  evp : EVP_RESULTS;
  control_env : ControlStream.SendEnv;
  send_result : Z;               (* what send() on the input socket returned *)
  LastSocketFail : Z
}.

Section Functions.

Variable P : Program.
Variable H : Input_h.

(** Initializes the input stream *)
Definition initializeInputStream (g : Globals) : Globals :=
  let g := set_currentAesIv (firstn 16 (remoteInputAesIv P)) g in
  (* Initialized on first packet *)
  let g := set_cipherInitialized false g in
  set_packetQueue (LbqInitializeLinkedBlockingQueue 30) g.

(** Returns the padded length and the bytes of [plaintext], of which the
    first [plaintextLen] are the data. *)
Definition addPkcs7PaddingInPlace (plaintext : list Z) (plaintextLen : Z) :
    Z * list Z :=
  let paddedLength := ROUND_TO_PKCS7_PADDED_LEN plaintextLen in
  let paddingByte := to_uint8 (16 - Z.rem plaintextLen 16) in
  (paddedLength,
   write_at (Z.to_nat plaintextLen)
     (repeat paddingByte (Z.to_nat (paddedLength - plaintextLen))) plaintext).

(** [ciphertext] are the bytes of the caller's buffer and [ciphertextLen]
    what the caller's length holds. Returns [ret], the buffer and the
    length. *)
Definition encryptData (t : Turn) (plaintext : list Z) (plaintextLen : Z)
    (ciphertext : list Z) (ciphertextLen : Z) (g : Globals) :
    Z * list Z * Z * Globals :=
  let r := evp t in
  if nth 0 (AppVersionQuad P) 0 >=? 7 then
    if negb (cipherInitialized g) && negb (EVP_CIPHER_CTX_new_ok t)
    then (-1, ciphertext, ciphertextLen, g) else
    let g := set_cipherInitialized true g in
    (* Gen 7 servers use 128-bit AES GCM *)
    if negb (EVP_Init_cipher r =? 1) then (-1, ciphertext, ciphertextLen, g) else
    (* Gen 7 servers uses 16 byte IVs *)
    if negb (EVP_CTRL_GCM_SET_IVLEN r =? 1) then (-1, ciphertext, ciphertextLen, g) else
    (* Initialize again but now provide our key and current IV *)
    if negb (EVP_Init_key_iv r =? 1) then (-1, ciphertext, ciphertextLen, g) else
    (* Encrypt into the caller's buffer, leaving room for the auth tag to be prepended *)
    if negb (EVP_Update r =? 1) then (-1, ciphertext, ciphertextLen, g) else
    let encrypted :=
      aes_128_gcm_ctr P (remoteInputAesKey P) (currentAesIv g)
        (firstn (Z.to_nat plaintextLen) plaintext) in
    let ciphertext := write_at 16 encrypted ciphertext in
    let ciphertextLen := plaintextLen in
    (* GCM encryption won't ever fill ciphertext here but we have to call it anyway *)
    if negb (EVP_Final_ex r =? 1) then (-1, ciphertext, ciphertextLen, g) else
    (* Read the tag into the caller's buffer *)
    if negb (EVP_CTRL_GCM_TAG r =? 1) then (-1, ciphertext, ciphertextLen, g) else
    let ciphertext :=
      write_at 0
        (aes_128_gcm_tag P (remoteInputAesKey P) (currentAesIv g) encrypted)
        ciphertext in
    (* Increment the ciphertextLen to account for the tag *)
    let ciphertextLen := to_int32 (ciphertextLen + 16) in
    (0, ciphertext, ciphertextLen, g)
  else
    if negb (cipherInitialized g) && negb (EVP_CIPHER_CTX_new_ok t)
    then (-1, ciphertext, ciphertextLen, g) else
    let first := negb (cipherInitialized g) in
    let g := set_cipherInitialized true g in
    (* Prior to Gen 7, 128-bit AES CBC is used for encryption *)
    if first && negb (EVP_Init_cipher r =? 1)
    then (-1, ciphertext, ciphertextLen, g) else
    let g := if first then set_cipherContext (currentAesIv g) g else g in
    (* Pad the data to the required block length *)
    let '(paddedLength, paddedData) :=
      addPkcs7PaddingInPlace (firstn (Z.to_nat plaintextLen) plaintext) plaintextLen in
    if negb (EVP_Update r =? 1) then (-1, ciphertext, ciphertextLen, g) else
    let encrypted :=
      aes_128_cbc P (remoteInputAesKey P) (cipherContext g)
        (firstn (Z.to_nat paddedLength) paddedData) in
    let g := set_cipherContext (lastn 16 (cipherContext g ++ encrypted)) g in
    (0, write_at 0 encrypted ciphertext, paddedLength, g).

(** [holder->packet.X.header.packetType == htonl(T)]: the [int] field
    against the [uint32_t] that htonl returns. *)
Definition packetType_is (holder : PACKET_HOLDER) (T : Z) : bool :=
  to_uint32 (header_packetType (packet holder)) =? htonl (BIGENDIAN P) T.

(** The loops below peek at the queue and take from it; [fuel] bounds
    their turns, and the length of the queue is enough, as every turn
    that does not leave the loop takes one holder off the queue. *)

(** The batching loop for a multi-controller packet [origPkt]. *)
Fixpoint batchMultiController (fuel : nat) (origPkt : NV_MULTI_CONTROLLER_PACKET)
    (g : Globals) : NV_MULTI_CONTROLLER_PACKET * Globals * list event :=
  match fuel with
  | O => (origPkt, g, [])
  | S fuel =>
      (* Peek at the next packet *)
      match LbqPeekQueueElement (packetQueue g) with
      | (LBQ_SUCCESS, Some controllerBatchHolder) =>
          (* If it's not a controller packet, we're done *)
          if negb (packetType_is controllerBatchHolder (PACKET_TYPE_MULTI_CONTROLLER H))
          then (origPkt, g, []) else
          match packet controllerBatchHolder with
          | multiController newPkt =>
              (* Check if it's able to be batched *)
              if negb (buttonFlags newPkt =? buttonFlags origPkt) ||
                 negb (controllerNumber newPkt =? controllerNumber origPkt) ||
                 negb (activeGamepadMask newPkt =? activeGamepadMask origPkt)
              then (origPkt, g, []) (* Batching not allowed *) else
              (* Remove the batchable controller packet *)
              match LbqPollQueueElement (packetQueue g) with
              | (LBQ_SUCCESS, Some controllerBatchHolder, q) =>
                  let g := set_packetQueue q g in
                  (* Update the original packet *)
                  let origPkt :=
                    {| mc_header_packetType := mc_header_packetType origPkt;
                       headerA := headerA origPkt;
                       headerB := headerB origPkt;
                       controllerNumber := controllerNumber origPkt;
                       activeGamepadMask := activeGamepadMask origPkt;
                       midB := midB origPkt;
                       buttonFlags := buttonFlags origPkt;
                       leftTrigger := leftTrigger newPkt;
                       rightTrigger := rightTrigger newPkt;
                       leftStickX := leftStickX newPkt;
                       leftStickY := leftStickY newPkt;
                       rightStickX := rightStickX newPkt;
                       rightStickY := rightStickY newPkt;
                       tailA := tailA origPkt;
                       tailB := tailB origPkt |} in
                  (* Free the batched packet holder *)
                  let '(origPkt, g, evs) := batchMultiController fuel origPkt g in
                  (origPkt, g, free controllerBatchHolder :: evs)
              | _ => (origPkt, g, [])
              end
          | _ =>
              (* a holder whose header names a member of the union that was
                 not stored in it: no function of this file builds one *)
              (origPkt, g, [])
          end
      | _ => (origPkt, g, [])
      end
  end.

(** The batching loop for a relative mouse move packet, with the deltas
    accumulated so far. *)
Fixpoint batchMouseMoveRel (fuel : nat) (totalDeltaX totalDeltaY : Z)
    (g : Globals) : Z * Z * Globals * list event :=
  match fuel with
  | O => (totalDeltaX, totalDeltaY, g, [])
  | S fuel =>
      (* Peek at the next packet *)
      match LbqPeekQueueElement (packetQueue g) with
      | (LBQ_SUCCESS, Some mouseBatchHolder) =>
          (* If it's not a mouse move packet, we're done *)
          if negb (packetType_is mouseBatchHolder (PACKET_TYPE_REL_MOUSE_MOVE H))
          then (totalDeltaX, totalDeltaY, g, []) else
          match packet mouseBatchHolder with
          | mouseMoveRel m =>
              let partialDeltaX := to_int16 (htons (BIGENDIAN P) (deltaX m)) in
              let partialDeltaY := to_int16 (htons (BIGENDIAN P) (deltaY m)) in
              (* Check for overflow *)
              if (partialDeltaX + totalDeltaX >? INT16_MAX) ||
                 (partialDeltaX + totalDeltaX <? INT16_MIN) ||
                 (partialDeltaY + totalDeltaY >? INT16_MAX) ||
                 (partialDeltaY + totalDeltaY <? INT16_MIN)
              then
                (* Total delta would overflow our 16-bit short *)
                (totalDeltaX, totalDeltaY, g, [])
              else
              (* Remove the batchable mouse move packet *)
              match LbqPollQueueElement (packetQueue g) with
              | (LBQ_SUCCESS, Some mouseBatchHolder, q) =>
                  let g := set_packetQueue q g in
                  let totalDeltaX := totalDeltaX + partialDeltaX in
                  let totalDeltaY := totalDeltaY + partialDeltaY in
                  (* Free the batched packet holder *)
                  let '(totalDeltaX, totalDeltaY, g, evs) :=
                    batchMouseMoveRel fuel totalDeltaX totalDeltaY g in
                  (totalDeltaX, totalDeltaY, g, free mouseBatchHolder :: evs)
              | _ => (totalDeltaX, totalDeltaY, g, [])
              end
          | _ =>
              (* a holder whose header names a member of the union that was
                 not stored in it: no function of this file builds one *)
              (totalDeltaX, totalDeltaY, g, [])
          end
      | _ => (totalDeltaX, totalDeltaY, g, [])
      end
  end.

(** The loop for an absolute mouse move packet: only the latest is sent. *)
Fixpoint batchMouseMoveAbs (fuel : nat) (holder : PACKET_HOLDER) (g : Globals) :
    PACKET_HOLDER * Globals * list event :=
  match fuel with
  | O => (holder, g, [])
  | S fuel =>
      (* Peek at the next packet *)
      match LbqPeekQueueElement (packetQueue g) with
      | (LBQ_SUCCESS, Some mouseBatchHolder) =>
          (* If it's not a mouse position packet, we're done *)
          if negb (packetType_is mouseBatchHolder (PACKET_TYPE_ABS_MOUSE_MOVE H))
          then (holder, g, []) else
          (* Remove the mouse position packet *)
          match LbqPollQueueElement (packetQueue g) with
          | (LBQ_SUCCESS, Some mouseBatchHolder, q) =>
              let g := set_packetQueue q g in
              (* Replace the current packet with the new one *)
              let '(holder', g, evs) := batchMouseMoveAbs fuel mouseBatchHolder g in
              (holder', g, free holder :: evs)
          | _ => (holder, g, [])
          end
      | _ => (holder, g, [])
      end
  end.

(** The batching that inputSendThreadProc does for the holder it took
    off the queue: the holder to send, and the holders freed. *)
Definition batch (holder : PACKET_HOLDER) (g : Globals) :
    PACKET_HOLDER * Globals * list event :=
  let fuel := length (items (packetQueue g)) in
  (* If it's a multi-controller packet we can do batching *)
  if packetType_is holder (PACKET_TYPE_MULTI_CONTROLLER H) then
    match packet holder with
    | multiController origPkt =>
        let '(origPkt, g, evs) := batchMultiController fuel origPkt g in
        ({| packetLength := packetLength holder; packet := multiController origPkt |},
         g, evs)
    | _ => (holder, g, [])
    end
  (* If it's a relative mouse move packet, we can also do batching *)
  else if packetType_is holder (PACKET_TYPE_REL_MOUSE_MOVE H) then
    match packet holder with
    | mouseMoveRel m =>
        let totalDeltaX := to_int16 (htons (BIGENDIAN P) (deltaX m)) in
        let totalDeltaY := to_int16 (htons (BIGENDIAN P) (deltaY m)) in
        let '(totalDeltaX, totalDeltaY, g, evs) :=
          batchMouseMoveRel fuel totalDeltaX totalDeltaY g in
        (* Update the original packet *)
        ({| packetLength := packetLength holder;
            packet := mouseMoveRel
              {| rel_header_packetType := rel_header_packetType m;
                 rel_magic := rel_magic m;
                 deltaX := to_int16 (htons (BIGENDIAN P) (to_int16 totalDeltaX));
                 deltaY := to_int16 (htons (BIGENDIAN P) (to_int16 totalDeltaY)) |} |},
         g, evs)
    | _ => (holder, g, [])
    end
  (* If it's an absolute mouse move packet, we should only send the latest *)
  else if packetType_is holder (PACKET_TYPE_ABS_MOUSE_MOVE H) then
    batchMouseMoveAbs fuel holder g
  else (holder, g, []).

(** inputSendThreadProc from the test of [encryptedControlStream] to the
    end of the body of its loop: [encryptedBuffer] are the bytes of the
    local array, [cg] the variables of the control stream. Returns
    whether the thread function returns. *)
Definition sendHolder (t : Turn) (encryptedControlStream : bool)
    (holder : PACKET_HOLDER) (encryptedBuffer : list Z) (g : Globals)
    (cg : ControlStream.Globals) :
    result (bool * list Z * Globals * ControlStream.Globals * list event) :=
  (* On GFE 3.22, the entire control stream is encrypted (and support for
     separate RI encrypted) has been removed. We send the plaintext packet
     through and the control stream code will do the encryption. *)
  if encryptedControlStream then
    r <- ControlStream.sendInputPacketOnControlStream P (control_env t)
           (bytes_of_PACKET H (packet holder)) (packetLength holder) cg ;;
    let '(err, cg, evs) := r in
    let evs := map control evs ++ [free holder] in
    if err <? 0 then
      Ok (true, encryptedBuffer, g, cg, evs ++ [connectionTerminated err])
    else Ok (false, encryptedBuffer, g, cg, evs)
  else
    (* Encrypt the message into the output buffer while leaving room for the length *)
    let encryptedSize := MAX_INPUT_PACKET_SIZE - 4 in
    let '(err, ciphertext, encryptedSize, g) :=
      encryptData t (bytes_of_PACKET H (packet holder)) (packetLength holder)
        (skipn 4 encryptedBuffer) encryptedSize g in
    let encryptedBuffer := firstn 4 encryptedBuffer ++ ciphertext in
    let encryptedSize := to_uint32 encryptedSize in
    if negb (err =? 0) then
      Ok (true, encryptedBuffer, g, cg, [free holder; connectionTerminated err])
    else
    (* Prepend the length to the message (the 4 bytes of the int that
       holds htonl(encryptedSize)) *)
    let encryptedLengthPrefix := htonl (BIGENDIAN P) encryptedSize in
    let encryptedBuffer :=
      write_at 0 (store32 (BIGENDIAN P) encryptedLengthPrefix) encryptedBuffer in
    if nth 0 (AppVersionQuad P) 0 <? 5 then
      (* Send the encrypted payload *)
      let data := firstn (Z.to_nat (to_int32 (encryptedSize + 4))) encryptedBuffer in
      if send_result t <=? 0 then
        Ok (true, encryptedBuffer, g, cg,
            [free holder; send data; connectionTerminated (LastSocketFail t)])
      else Ok (false, encryptedBuffer, g, cg, [free holder; send data])
    else
      (* For reasons that I can't understand, NVIDIA decides to use the last 16
         bytes of ciphertext in the most recent game controller packet as the IV for
         future encryption. I think it may be a buffer overrun on their end but we'll
         have to mimic it to work correctly. *)
      let g :=
        if (nth 0 (AppVersionQuad P) 0 >=? 7) && (encryptedSize >=? 16 + 16) then
          set_currentAesIv
            (firstn 16 (skipn (Z.to_nat (4 + encryptedSize - 16)) encryptedBuffer)) g
        else g in
      r <- ControlStream.sendInputPacketOnControlStream P (control_env t)
             encryptedBuffer (to_int32 (encryptedSize + 4)) cg ;;
      let '(err, cg, evs) := r in
      let evs := free holder :: map control evs in
      if err <? 0 then
        Ok (true, encryptedBuffer, g, cg, evs ++ [connectionTerminated err])
      else Ok (false, encryptedBuffer, g, cg, evs).

(** Input thread proc, for as many turns of its loop as [turns] tells;
    the thread blocked on the empty queue ends the run. *)
Fixpoint inputSendThreadProc (turns : list Turn) (encryptedBuffer : list Z)
    (g : Globals) (cg : ControlStream.Globals) :
    result (list Z * Globals * ControlStream.Globals * list event) :=
  let encryptedControlStream := APP_VERSION_AT_LEAST P 7 1 431 in
  match turns with
  | [] => Ok (encryptedBuffer, g, cg, [])
  | t :: turns =>
      if PltIsThreadInterrupted t then Ok (encryptedBuffer, g, cg, []) else
      match LbqWaitForQueueElement (packetQueue g) with
      | Some (LBQ_SUCCESS, Some holder, q) =>
          let g := set_packetQueue q g in
          let '(holder, g, frees) := batch holder g in
          r <- sendHolder t encryptedControlStream holder encryptedBuffer g cg ;;
          let '(returns, encryptedBuffer, g, cg, evs) := r in
          if returns : bool then Ok (encryptedBuffer, g, cg, frees ++ evs) else
          r <- inputSendThreadProc turns encryptedBuffer g cg ;;
          let '(encryptedBuffer, g, cg, evs') := r in
          Ok (encryptedBuffer, g, cg, frees ++ evs ++ evs')
      | _ => Ok (encryptedBuffer, g, cg, [])
      end
  end.

(** Send a mouse move event to the streaming machine. [deltaX] and
    [deltaY] are of type [short]; [malloc_succeeds] tells what malloc
    answers if it is called. *)
Definition LiSendMouseMoveEvent (malloc_succeeds : bool) (deltaX deltaY : Z)
    (g : Globals) : Z * Globals * list event :=
  if negb (initialized g) then (-2, g, []) else
  if (deltaX =? 0) && (deltaY =? 0) then (0, g, []) else
  if negb malloc_succeeds then (-1, g, [malloc false]) else
  let magic := MOUSE_MOVE_REL_MAGIC H in
  (* On Gen 5 servers, the header code is incremented by one *)
  let magic := if nth 0 (AppVersionQuad P) 0 >=? 5 then to_int32 (magic + 1) else magic in
  let holder :=
    {| packetLength := sizeof_NV_REL_MOUSE_MOVE_PACKET H;
       packet := mouseMoveRel
         {| rel_header_packetType :=
              to_int32 (htonl (BIGENDIAN P) (PACKET_TYPE_REL_MOUSE_MOVE H));
            rel_magic := magic;
            deltaX := to_int16 (htons (BIGENDIAN P) deltaX);
            deltaY := to_int16 (htons (BIGENDIAN P) deltaY) |} |} in
  match LbqOfferQueueItem (packetQueue g) holder with
  | (LBQ_SUCCESS, q) => (lbq_int P LBQ_SUCCESS, set_packetQueue q g, [malloc true])
  | (err, q) => (lbq_int P err, set_packetQueue q g, [malloc true; free holder])
  end.

(** Send a mouse position update to the streaming machine; the
    parameters are of type [short]. *)
Definition LiSendMousePositionEvent (malloc_succeeds : bool)
    (x y referenceWidth referenceHeight : Z) (g : Globals) :
    Z * Globals * list event :=
  if negb (initialized g) then (-2, g, []) else
  if negb malloc_succeeds then (-1, g, [malloc false]) else
  let holder :=
    {| packetLength := sizeof_NV_ABS_MOUSE_MOVE_PACKET H;
       packet := mouseMoveAbs
         {| abs_header_packetType :=
              to_int32 (htonl (BIGENDIAN P) (PACKET_TYPE_ABS_MOUSE_MOVE H));
            abs_magic := MOUSE_MOVE_ABS_MAGIC H;
            x := to_int16 (htons (BIGENDIAN P) x);
            y := to_int16 (htons (BIGENDIAN P) y);
            unused := 0;
            (* Subtracting one from the reference dimensions works around a
               rounding error in GFE's scaling calculation. *)
            width := to_int16 (htons (BIGENDIAN P) (referenceWidth - 1));
            height := to_int16 (htons (BIGENDIAN P) (referenceHeight - 1)) |} |} in
  match LbqOfferQueueItem (packetQueue g) holder with
  | (LBQ_SUCCESS, q) => (lbq_int P LBQ_SUCCESS, set_packetQueue q g, [malloc true])
  | (err, q) => (lbq_int P err, set_packetQueue q g, [malloc true; free holder])
  end.

End Functions.

(** *** The functions that queue the other events, and the start and the
    stop of the stream *)

Definition to_int8 (z : Z) : Z := (z + 2 ^ 7) mod 2 ^ 8 - 2 ^ 7.

(** The rest of what Input.h defines, and the modifier flags of
    Limelight.h: parameters, as those headers are not among the sources.
    [char_is_signed] tells whether the plain [char] of the compiler is
    signed. *)
Record Input_h_events : Type := {
  PACKET_TYPE_HAPTICS : Z;
  H_MAGIC_A : Z;
  H_MAGIC_B : Z;
  sizeof_NV_HAPTICS_PACKET : Z;
  PACKET_TYPE_MOUSE_BUTTON : Z;
  sizeof_NV_MOUSE_BUTTON_PACKET : Z;
  PACKET_TYPE_KEYBOARD : Z;
  sizeof_NV_KEYBOARD_PACKET : Z;
  MODIFIER_SHIFT : Z;
  MODIFIER_CTRL : Z;
  MODIFIER_ALT : Z;
  MODIFIER_META : Z;
  PACKET_TYPE_CONTROLLER : Z;
  sizeof_NV_CONTROLLER_PACKET : Z;
  C_HEADER_A : Z;
  C_HEADER_B : Z;
  C_TAIL_A : Z;
  C_TAIL_B : Z;
  sizeof_NV_MULTI_CONTROLLER_PACKET : Z;
  MC_HEADER_A : Z;
  MC_HEADER_B : Z;
  MC_MID_B : Z;
  MC_TAIL_A : Z;
  MC_TAIL_B : Z;
  PACKET_TYPE_SCROLL : Z;
  MAGIC_A : Z;
  sizeof_NV_SCROLL_PACKET : Z;
  char_is_signed : bool
}.

(** What the environment answers to startInputStream. *)
Record StartEnv : Type := {
  connectTcpSocket_ok : bool;    (* connectTcpSocket returned a socket *)
  start_LastSocketFail : Z;
  PltCreateThread_result : Z;
  haptics_malloc_succeeds : bool
}.

Section Events.

Variable P : Program.
Variable H : Input_h.
Variable E : Input_h_events.

(** Conversion to [char]. *)
Definition to_char (z : Z) : Z := if char_is_signed E then to_int8 z else to_uint8 z.

(** The packets below are [other] packets: the send thread only passes
    them on. Their body lists the values the function stores in the
    fields that follow the header, in the order of the assignments; a
    16-bit value that went through htons or __bswap16 and a 32-bit value
    that went through htonl or __bswap32 are held as the [short] and the
    [int] with these bits, as in the packets above.

    The functions below first convert their arguments to the types of
    their parameters, as a call does: the body works on a [short], a
    [char] or an [unsigned char], whatever integer the caller wrote. *)

(** This function tells GFE that we support haptics and it should send
    rumble events to us *)
Definition sendEnableHaptics (malloc_succeeds : bool) (g : Globals) :
    Z * Globals * list event :=
  (* Avoid sending this on earlier server versions, since they may terminate
     the connection upon receiving an unexpected packet. *)
  if (nth 0 (AppVersionQuad P) 0 <? 7) ||
     ((nth 0 (AppVersionQuad P) 0 =? 7) && (nth 1 (AppVersionQuad P) 0 <? 1))
  then (0, g, []) else
  if negb malloc_succeeds then (-1, g, [malloc false]) else
  let holder :=
    {| packetLength := sizeof_NV_HAPTICS_PACKET E;
       packet := other (to_int32 (htonl (BIGENDIAN P) (PACKET_TYPE_HAPTICS E)))
                   [H_MAGIC_A E; H_MAGIC_B E] |} in
  match LbqOfferQueueItem (packetQueue g) holder with
  | (LBQ_SUCCESS, q) => (lbq_int P LBQ_SUCCESS, set_packetQueue q g, [malloc true])
  | (err, q) => (lbq_int P err, set_packetQueue q g, [malloc true; free holder])
  end.

(** Begin the input stream. The socket of a server before Gen 5 and the
    thread are outside the embedding: [e] tells whether they could be
    had. *)
Definition startInputStream (e : StartEnv) (g : Globals) :
    Z * Globals * list event :=
  (* After Gen 5, we send input on the control stream *)
  if (nth 0 (AppVersionQuad P) 0 <? 5) && negb (connectTcpSocket_ok e)
  then (start_LastSocketFail e, g, []) else
  let err := PltCreateThread_result e in
  if negb (err =? 0) then (err, g, []) else
  (* Allow input packets to be queued now *)
  let g := set_initialized true g in
  (* GFE will not send haptics events without this magic packet first *)
  let '(_, g, evs) := sendEnableHaptics (haptics_malloc_succeeds e) g in
  (err, g, evs).

(** Stops the input stream, up to the shutdown of the queue: what
    follows interrupts and joins the thread and closes the socket. *)
Definition stopInputStream (g : Globals) : Z * Globals :=
  (* No more packets should be queued now *)
  let g := set_initialized false g in
  (* Signal the input send thread *)
  let g := set_packetQueue (LbqSignalQueueShutdown (packetQueue g)) g in
  (0, g).

(** Send a mouse button event to the streaming machine. [action] is of
    type [char], [button] of type [int]. *)
Definition LiSendMouseButtonEvent (malloc_succeeds : bool) (action button : Z)
    (g : Globals) : Z * Globals * list event :=
  let action := to_char action in
  let button := to_int32 button in
  if negb (initialized g) then (-2, g, []) else
  if negb malloc_succeeds then (-1, g, [malloc false]) else
  let action := if nth 0 (AppVersionQuad P) 0 >=? 5 then to_char (action + 1) else action in
  let holder :=
    {| packetLength := sizeof_NV_MOUSE_BUTTON_PACKET E;
       packet := other (to_int32 (htonl (BIGENDIAN P) (PACKET_TYPE_MOUSE_BUTTON E)))
                   [action; to_int32 (htonl (BIGENDIAN P) button)] |} in
  match LbqOfferQueueItem (packetQueue g) holder with
  | (LBQ_SUCCESS, q) => (lbq_int P LBQ_SUCCESS, set_packetQueue q g, [malloc true])
  | (err, q) => (lbq_int P err, set_packetQueue q g, [malloc true; free holder])
  end.

(** The fixups of the modifiers of a key event. For proper behavior, the
    MODIFIER flag must not be set on the modifier key down event itself
    for the extended modifiers on the right side of the keyboard; for
    non-extended keys, we must set the MODIFIER flag. *)
Definition fixup_modifiers (keyCode modifiers : Z) : Z :=
  let k := Z.land keyCode 0xFF in
  if (k =? 0x5B) (* VK_LWIN *) || (k =? 0x5C) (* VK_RWIN *) then
    (* Any keyboard event with the META modifier flag is dropped by all
       known GFE versions. *)
    to_char (Z.land modifiers (Z.lnot (MODIFIER_META E)))
  else if k =? 0xA0 (* VK_LSHIFT *) then to_char (Z.lor modifiers (MODIFIER_SHIFT E))
  else if k =? 0xA1 (* VK_RSHIFT *) then
    to_char (Z.land modifiers (Z.lnot (MODIFIER_SHIFT E)))
  else if k =? 0xA2 (* VK_LCONTROL *) then to_char (Z.lor modifiers (MODIFIER_CTRL E))
  else if k =? 0xA3 (* VK_RCONTROL *) then
    to_char (Z.land modifiers (Z.lnot (MODIFIER_CTRL E)))
  else if k =? 0xA4 (* VK_LMENU *) then to_char (Z.lor modifiers (MODIFIER_ALT E))
  else if k =? 0xA5 (* VK_RMENU *) then
    to_char (Z.land modifiers (Z.lnot (MODIFIER_ALT E)))
  else (* No fixups *) modifiers.

(** Send a key press event to the streaming machine. [keyCode] is of
    type [short], [keyAction] and [modifiers] of type [char]. *)
Definition LiSendKeyboardEvent (malloc_succeeds : bool)
    (keyCode keyAction modifiers : Z) (g : Globals) : Z * Globals * list event :=
  let keyCode := to_int16 keyCode in
  let keyAction := to_char keyAction in
  let modifiers := to_char modifiers in
  if negb (initialized g) then (-2, g, []) else
  if negb malloc_succeeds then (-1, g, [malloc false]) else
  let modifiers := fixup_modifiers keyCode modifiers in
  let holder :=
    {| packetLength := sizeof_NV_KEYBOARD_PACKET E;
       packet := other (to_int32 (htonl (BIGENDIAN P) (PACKET_TYPE_KEYBOARD E)))
                   [keyAction; 0; keyCode; modifiers; 0] |} in
  match LbqOfferQueueItem (packetQueue g) holder with
  | (LBQ_SUCCESS, q) => (lbq_int P LBQ_SUCCESS, set_packetQueue q g, [malloc true])
  | (err, q) => (lbq_int P err, set_packetQueue q g, [malloc true; free holder])
  end.

(** The parameters are of type [short], the triggers of type
    [unsigned char]. *)
Definition sendControllerEventInternal (malloc_succeeds : bool)
    (controllerNumber activeGamepadMask buttonFlags leftTrigger rightTrigger
     leftStickX leftStickY rightStickX rightStickY : Z) (g : Globals) :
    Z * Globals * list event :=
  let controllerNumber := to_int16 controllerNumber in
  let activeGamepadMask := to_int16 activeGamepadMask in
  let buttonFlags := to_int16 buttonFlags in
  let leftTrigger := to_uint8 leftTrigger in
  let rightTrigger := to_uint8 rightTrigger in
  let leftStickX := to_int16 leftStickX in
  let leftStickY := to_int16 leftStickY in
  let rightStickX := to_int16 rightStickX in
  let rightStickY := to_int16 rightStickY in
  if negb (initialized g) then (-2, g, []) else
  if negb malloc_succeeds then (-1, g, [malloc false]) else
  let swap16 v := to_int16 (__bswap16 (to_uint16 v)) in
  let swap32 v := to_int32 (__bswap32 (to_uint32 v)) in
  let holder :=
    if nth 0 (AppVersionQuad P) 0 =? 3 then
      (* Generation 3 servers don't support multiple controllers so we send
         the legacy packet *)
      {| packetLength := sizeof_NV_CONTROLLER_PACKET E;
         packet := other (to_int32 (htonl (BIGENDIAN P) (PACKET_TYPE_CONTROLLER E)))
                     [swap32 (C_HEADER_A E); swap16 (C_HEADER_B E);
                      swap16 buttonFlags; leftTrigger; rightTrigger;
                      swap16 leftStickX; swap16 leftStickY;
                      swap16 rightStickX; swap16 rightStickY;
                      swap32 (C_TAIL_A E); swap16 (C_TAIL_B E)] |}
    else
      (* Generation 4+ servers support passing the controller number *)
      let headerA := MC_HEADER_A E in
      (* On Gen 5 servers, the header code is decremented by one *)
      let headerA :=
        if nth 0 (AppVersionQuad P) 0 >=? 5 then to_int32 (headerA - 1) else headerA in
      {| packetLength := sizeof_NV_MULTI_CONTROLLER_PACKET E;
         packet := multiController
           {| mc_header_packetType :=
                to_int32 (htonl (BIGENDIAN P) (PACKET_TYPE_MULTI_CONTROLLER H));
              headerA := swap32 headerA;
              headerB := swap16 (MC_HEADER_B E);
              controllerNumber := swap16 controllerNumber;
              activeGamepadMask := swap16 activeGamepadMask;
              midB := swap16 (MC_MID_B E);
              buttonFlags := swap16 buttonFlags;
              leftTrigger := leftTrigger;
              rightTrigger := rightTrigger;
              leftStickX := swap16 leftStickX;
              leftStickY := swap16 leftStickY;
              rightStickX := swap16 rightStickX;
              rightStickY := swap16 rightStickY;
              tailA := swap32 (MC_TAIL_A E);
              tailB := swap16 (MC_TAIL_B E) |} |} in
  match LbqOfferQueueItem (packetQueue g) holder with
  | (LBQ_SUCCESS, q) => (lbq_int P LBQ_SUCCESS, set_packetQueue q g, [malloc true])
  | (err, q) => (lbq_int P err, set_packetQueue q g, [malloc true; free holder])
  end.

(** Send a controller event to the streaming machine *)
Definition LiSendControllerEvent (malloc_succeeds : bool)
    (buttonFlags leftTrigger rightTrigger
     leftStickX leftStickY rightStickX rightStickY : Z) (g : Globals) :
    Z * Globals * list event :=
  sendControllerEventInternal malloc_succeeds 0 0x1 buttonFlags leftTrigger
    rightTrigger leftStickX leftStickY rightStickX rightStickY g.

(** Send a controller event to the streaming machine *)
Definition LiSendMultiControllerEvent (malloc_succeeds : bool)
    (controllerNumber activeGamepadMask buttonFlags leftTrigger rightTrigger
     leftStickX leftStickY rightStickX rightStickY : Z) (g : Globals) :
    Z * Globals * list event :=
  sendControllerEventInternal malloc_succeeds controllerNumber activeGamepadMask
    buttonFlags leftTrigger rightTrigger leftStickX leftStickY rightStickX
    rightStickY g.

(** Send a high resolution scroll event to the streaming machine.
    [scrollAmount] is of type [short]. *)
Definition LiSendHighResScrollEvent (malloc_succeeds : bool) (scrollAmount : Z)
    (g : Globals) : Z * Globals * list event :=
  let scrollAmount := to_int16 scrollAmount in
  if negb (initialized g) then (-2, g, []) else
  if scrollAmount =? 0 then (0, g, []) else
  if negb malloc_succeeds then (-1, g, [malloc false]) else
  let magicA := MAGIC_A E in
  (* On Gen 5 servers, the header code is incremented by one *)
  let magicA := if nth 0 (AppVersionQuad P) 0 >=? 5 then magicA + 1 else magicA in
  let scrollAmt1 := to_int16 (htons (BIGENDIAN P) scrollAmount) in
  let holder :=
    {| packetLength := sizeof_NV_SCROLL_PACKET E;
       packet := other (to_int32 (htonl (BIGENDIAN P) (PACKET_TYPE_SCROLL E)))
                   [magicA; 0; 0; scrollAmt1; scrollAmt1; 0] |} in
  match LbqOfferQueueItem (packetQueue g) holder with
  | (LBQ_SUCCESS, q) => (lbq_int P LBQ_SUCCESS, set_packetQueue q g, [malloc true])
  | (err, q) => (lbq_int P err, set_packetQueue q g, [malloc true; free holder])
  end.

(** Send a scroll event to the streaming machine. [scrollClicks] is of
    type [signed char]; the product is an [int], which the call converts
    to the [short] of the parameter. *)
Definition LiSendScrollEvent (malloc_succeeds : bool) (scrollClicks : Z)
    (g : Globals) : Z * Globals * list event :=
  let scrollClicks := to_int8 scrollClicks in
  LiSendHighResScrollEvent malloc_succeeds (scrollClicks * 120) g.

End Events.

End InputStream.

(** ** A concrete program to run the embedding on *)

Module Example.

(** A stand-in for the cipher, with the shape of AES-GCM: the data xored
    with a key stream, and a 16-byte tag computed from the ciphertext. *)
Definition key_stream (key iv : list Z) : Z :=
  Z.lxor (nth 0 key 0) (nth 0 iv 0).

Definition ctr (key iv data : list Z) : list Z :=
  map (fun b => Z.lxor b (key_stream key iv)) data.

Definition tag (key iv ciphertext : list Z) : list Z :=
  le_encode 16 (fold_right Z.add (key_stream key iv) ciphertext).

(** The values LinkedBlockingQueue.h gives its status codes. *)
Definition lbq_code (s : LBQ_STATUS) : Z :=
  match s with
  | LBQ_SUCCESS => 0
  | LBQ_INTERRUPTED => 1
  | LBQ_BOUND_EXCEEDED => 2
  | LBQ_NO_ELEMENT => 3
  end.

(** A little-endian debug build that talks to a server of version [v],
    with the error codes of Limelight.h. *)
Definition program (v : list Z) : Program :=
  {| BIGENDIAN := false;
     LC_DEBUG := true;
     AppVersionQuad := v;
     remoteInputAesKey := [1; 2; 3; 4; 5; 6; 7; 8; 9; 10; 11; 12; 13; 14; 15; 16];
     remoteInputAesIv := [16; 15; 14; 13; 12; 11; 10; 9; 8; 7; 6; 5; 4; 3; 2; 1];
     isReferenceFrameInvalidationEnabled := true;
     ML_ERROR_GRACEFUL_TERMINATION := 0;
     ML_ERROR_UNEXPECTED_EARLY_TERMINATION := -102;
     ML_ERROR_PROTECTED_CONTENT := -103;
     aes_128_gcm_ctr := ctr;
     aes_128_gcm_tag := tag;
     aes_128_cbc := ctr;
     lbq_int := lbq_code |}.

Definition gen5 : Program := program [5; 0; 0; 0].
Definition gen7 : Program := program [7; 1; 400; 0].
Definition gen7enc : Program := program [7; 1; 431; 0].

(** Every step of the cipher succeeds. *)
Definition evp_ok : EVP_RESULTS :=
  {| EVP_Init_cipher := 1; EVP_CTRL_GCM_SET_IVLEN := 1; EVP_Init_key_iv := 1;
     EVP_Update := 1; EVP_Final_ex := 1; EVP_CTRL_GCM_TAG := 1 |}.

(** Every step succeeds but the reading of the tag. *)
Definition evp_no_tag : EVP_RESULTS :=
  {| EVP_Init_cipher := 1; EVP_CTRL_GCM_SET_IVLEN := 1; EVP_Init_key_iv := 1;
     EVP_Update := 1; EVP_Final_ex := 1; EVP_CTRL_GCM_TAG := 0 |}.

(** A send that succeeds, into a new packet of [n] bytes that hold 0xAA. *)
Definition send_ok (r : EVP_RESULTS) (n : nat) : ControlStream.SendEnv :=
  {| ControlStream.enet_packet_create_ok := true;
     ControlStream.enet_packet_data := repeat 0xAA n;
     ControlStream.evp := r;
     ControlStream.enet_peer_send_result := 0;
     ControlStream.malloc_ok := true;
     ControlStream.send_result := 0;
     ControlStream.readNvctlPacketTcp := Some [];
     ControlStream.LastSocketFail := -1 |}.

Definition indeterminate : ControlStream.Indeterminate :=
  {| ControlStream.packetLength0 := 0xAAAA;
     ControlStream.controllerNumber0 := 0xAAAA;
     ControlStream.lowFreqRumble0 := 0xAAAA;
     ControlStream.highFreqRumble0 := 0xAAAA;
     ControlStream.terminationErrorCode0 := 0xAAAAAAAA;
     ControlStream.terminationReason0 := 0xAAAA |}.

(** The packed layout of Input.h for the two mouse packets (the header,
    the magic number and the 16-bit fields, each in the byte order of a
    little-endian host), its packet types and magic numbers. *)
Definition packed (p : InputStream.PACKET) : list Z :=
  match p with
  | InputStream.mouseMoveRel m =>
      le_encode 4 (InputStream.rel_header_packetType m) ++
      le_encode 4 (InputStream.rel_magic m) ++
      le_encode 2 (InputStream.deltaX m) ++ le_encode 2 (InputStream.deltaY m)
  | InputStream.mouseMoveAbs m =>
      le_encode 4 (InputStream.abs_header_packetType m) ++
      le_encode 4 (InputStream.abs_magic m) ++
      le_encode 2 (InputStream.x m) ++ le_encode 2 (InputStream.y m) ++
      le_encode 2 (InputStream.unused m) ++
      le_encode 2 (InputStream.width m) ++ le_encode 2 (InputStream.height m)
  | InputStream.multiController m =>
      le_encode 4 (InputStream.mc_header_packetType m) ++
      le_encode 4 (InputStream.headerA m) ++
      le_encode 2 (InputStream.headerB m) ++
      le_encode 2 (InputStream.controllerNumber m) ++
      le_encode 2 (InputStream.activeGamepadMask m) ++
      le_encode 2 (InputStream.midB m) ++
      le_encode 2 (InputStream.buttonFlags m) ++
      [InputStream.leftTrigger m; InputStream.rightTrigger m] ++
      le_encode 2 (InputStream.leftStickX m) ++
      le_encode 2 (InputStream.leftStickY m) ++
      le_encode 2 (InputStream.rightStickX m) ++
      le_encode 2 (InputStream.rightStickY m) ++
      le_encode 4 (InputStream.tailA m) ++ le_encode 2 (InputStream.tailB m)
  | InputStream.other t body => le_encode 4 t ++ body
  end.

Definition input_h : InputStream.Input_h :=
  {| InputStream.PACKET_TYPE_MULTI_CONTROLLER := 0x1E;
     InputStream.PACKET_TYPE_REL_MOUSE_MOVE := 0x08;
     InputStream.PACKET_TYPE_ABS_MOUSE_MOVE := 0x0E;
     InputStream.MOUSE_MOVE_REL_MAGIC := 0x06;
     InputStream.MOUSE_MOVE_ABS_MAGIC := 0x05;
     InputStream.sizeof_NV_REL_MOUSE_MOVE_PACKET := 12;
     InputStream.sizeof_NV_ABS_MOUSE_MOVE_PACKET := 18;
     InputStream.bytes_of_PACKET := packed |}.

(** The variables of the input stream once it is started, with nothing
    queued. *)
Definition input_started (P : Program) : InputStream.Globals :=
  InputStream.set_initialized true
    (InputStream.initializeInputStream P
       {| InputStream.currentAesIv := [];
          InputStream.initialized := false;
          InputStream.cipherContext := [];
          InputStream.cipherInitialized := false;
          InputStream.packetQueue := LbqInitializeLinkedBlockingQueue 30 |}).

(** A turn of the input send thread in which everything succeeds. *)
Definition turn_ok (n : nat) : InputStream.Turn :=
  {| InputStream.PltIsThreadInterrupted := false;
     InputStream.EVP_CIPHER_CTX_new_ok := true;
     InputStream.evp := evp_ok;
     InputStream.control_env := send_ok evp_ok n;
     InputStream.send_result := 1;
     InputStream.LastSocketFail := -1 |}.

(** The control stream of a Gen 7 server at the end of a sample period
    that started at time 0, with [good] complete frames out of [total],
    the loss rate [prev] in the period before and the status [st]. *)
Definition period (st : ControlStream.CONN_STATUS) (prev good total : Z) :
    ControlStream.Globals :=
  ControlStream.set_lastConnectionStatusUpdate st
    (ControlStream.set_lastIntervalLossPercentage prev
       (ControlStream.set_intervalGoodFrameCount good
          (ControlStream.set_intervalTotalFrameCount total
             (ControlStream.set_lastSeenFrame total
                (ControlStream.initializeControlStream gen7))))).

(** [n] complete frames reported, one after the other. *)
Fixpoint complete_frames (n : nat) (g : ControlStream.Globals) :
    ControlStream.Globals :=
  match n with
  | O => g
  | S n => ControlStream.connectionReceivedCompleteFrame 0 (complete_frames n g)
  end.

(** The start of the period that follows [period OKAY 0 80 100], closed
    at time 3000 by frame 110. *)
Definition second_period : ControlStream.Globals :=
  Eval vm_compute in
    match ControlStream.connectionSawFrame gen7 3000 110
            (period ControlStream.CONN_STATUS_OKAY 0 80 100) with
    | Ok (g, _) => g
    | _ => period ControlStream.CONN_STATUS_OKAY 0 80 100
    end.

(** A Gen 5 session with two ranges of lost frames queued. *)
Definition two_losses : ControlStream.Globals :=
  ControlStream.set_invalidReferenceFrameTuples
    {| items := [{| ControlStream.startFrame := 100; ControlStream.endFrame := 200 |};
                 {| ControlStream.startFrame := 201; ControlStream.endFrame := 250 |}];
       sizeBound := 20;
       shutdown := false |}
    (ControlStream.initializeControlStream gen5).

(** A Gen 5 session that has seen frame 100. *)
Definition seen_100 : ControlStream.Globals :=
  ControlStream.set_lastSeenFrame 100 (ControlStream.initializeControlStream gen5).

(** A turn of a worker of the control stream in which the send succeeds. *)
Definition control_turn (n : nat) : ControlStream.Turn :=
  {| ControlStream.PltIsThreadInterrupted := false;
     ControlStream.send_env := send_ok evp_ok n |}.

(** The input stream after LiSendMouseMoveEvent(30000, 0), three times. *)
Definition three_moves (P : Program) : InputStream.Globals :=
  let send g := snd (fst (InputStream.LiSendMouseMoveEvent P input_h true 30000 0 g)) in
  send (send (send (input_started P))).

(** The holder that LiSendMousePositionEvent(100, 200, 1920, 1080)
    queues on a little-endian host. *)
Definition position : InputStream.PACKET_HOLDER :=
  {| InputStream.packetLength := 18;
     InputStream.packet := InputStream.mouseMoveAbs
       {| InputStream.abs_header_packetType := to_int32 (htonl false 0x0E);
          InputStream.abs_magic := 0x05;
          InputStream.x := to_int16 (htons false 100);
          InputStream.y := to_int16 (htons false 200);
          InputStream.unused := 0;
          InputStream.width := to_int16 (htons false (1920 - 1));
          InputStream.height := to_int16 (htons false (1080 - 1)) |} |}.

End Example.

(** ** The vocabulary of the properties *)

Module ControlStreamSpec.

Import ControlStream.

(** The call of connectionSawFrame at time [now] ends a sample period in
    which frames were seen: the loss rate of the period is computed. *)
Definition window_closes (now : Z) (g : Globals) : Prop :=
  to_uint64 (now - intervalStartTimeMs g) >= CONN_STATUS_SAMPLE_PERIOD /\
  intervalTotalFrameCount g <> 0.

(** The assertion of connectionSawFrame holds, or is compiled out. *)
Definition in_order (P : Program) (frameIndex : Z) (g : Globals) : Prop :=
  LC_ASSERT (LC_DEBUG P) (negb (isBefore16 frameIndex (lastSeenFrame g))) = Ok tt.

(** What the video pipeline may do between the end of one sample period
    and the end of the next: report complete frames, lost packets, and
    frames seen by calls that close no period. *)
Inductive within_window (P : Program) : Globals -> Globals -> Prop :=
| within_refl (g : Globals) : within_window P g g
| within_complete (g g' : Globals) (frameIndex : Z) :
    within_window P g g' ->
    within_window P g (connectionReceivedCompleteFrame frameIndex g')
| within_lost (g g' : Globals) (lastReceived nextReceived : Z) :
    within_window P g g' ->
    within_window P g (connectionLostPackets lastReceived nextReceived g')
| within_saw (g g' g'' : Globals) (now frameIndex : Z) (evs : list event) :
    within_window P g g' ->
    ~ window_closes now g' ->
    connectionSawFrame P now frameIndex g' = Ok (g'', evs) ->
    within_window P g g''.

(** The messages a worker handed to the transport, in order. *)
Definition messages (evs : list event) : list event :=
  filter (fun ev => match ev with SendMessage _ _ _ => true | _ => false end) evs.

(** The invalidation tuples a worker freed, in order. *)
Definition freed (evs : list event) : list QUEUED_FRAME_INVALIDATION_TUPLE :=
  flat_map (fun ev => match ev with free qfit => [qfit] | _ => [] end) evs.

(** The tables and the flags of [g] are those that initializeControlStream
    sets for the server of [P]; nothing else writes them. *)
Definition initialized (P : Program) (g : Globals) : Prop :=
  packetTypes g = packetTypes (initializeControlStream P) /\
  payloadLengths g = payloadLengths (initializeControlStream P) /\
  preconstructedPayloads g = preconstructedPayloads (initializeControlStream P) /\
  usePeriodicPing g = usePeriodicPing (initializeControlStream P) /\
  encryptedControlStream g = encryptedControlStream (initializeControlStream P).

(** The cipher behaves as AES-GCM does: the counter mode transformation
    undoes itself and keeps the length, and a tag has 16 bytes. *)
Definition gcm (P : Program) : Prop :=
  (forall key iv data,
     aes_128_gcm_ctr P key iv (aes_128_gcm_ctr P key iv data) = data) /\
  (forall key iv data, length (aes_128_gcm_ctr P key iv data) = length data) /\
  (forall key iv data, length (aes_128_gcm_tag P key iv data) = 16%nat).

(** Every step of a cipher operation succeeds. *)
Definition evp_succeeds (r : EVP_RESULTS) : Prop :=
  EVP_Init_cipher r = 1 /\ EVP_CTRL_GCM_SET_IVLEN r = 1 /\
  EVP_Init_key_iv r = 1 /\ EVP_Update r = 1 /\ EVP_Final_ex r = 1 /\
  EVP_CTRL_GCM_TAG r = 1.

(** The error code of a Termination message with the payload [payload],
    read as an HRESULT when the payload has [threshold] bytes or more and
    as a legacy reason otherwise. The claim C2 has the threshold 6. *)
Definition termination_error (P : Program) (threshold : Z) (lastSeenFrame : Z)
    (payload : list Z) : Z :=
  let by_frames_seen :=
    if lastSeenFrame =? 0 then ML_ERROR_UNEXPECTED_EARLY_TERMINATION P
    else ML_ERROR_GRACEFUL_TERMINATION P in
  if Z.of_nat (length payload) >=? threshold then
    let hresult := be_decode (firstn 4 payload) in
    if hresult =? 0x80030023 then by_frames_seen
    else if hresult =? 0x800e9302 then ML_ERROR_PROTECTED_CONTENT P
    else to_int32 hresult
  else
    let reason := le_decode (firstn 2 payload) in
    if reason =? 0x0100 then by_frames_seen else reason.

(** The error codes of Limelight.h are values of type [int]. *)
Definition error_codes_are_ints (P : Program) : Prop :=
  - 2 ^ 31 <= ML_ERROR_GRACEFUL_TERMINATION P < 2 ^ 31 /\
  - 2 ^ 31 <= ML_ERROR_UNEXPECTED_EARLY_TERMINATION P < 2 ^ 31 /\
  - 2 ^ 31 <= ML_ERROR_PROTECTED_CONTENT P < 2 ^ 31.

(** The ends of the tuples [ts] ascend from [b] on: b <= b1 <= b2 ... *)
Fixpoint ends_ascend (b : Z) (ts : list QUEUED_FRAME_INVALIDATION_TUPLE) : Prop :=
  match ts with
  | [] => True
  | t :: ts => b <= endFrame t /\ ends_ascend (endFrame t) ts
  end.

(** Events of the transport only: no message, callback, sleep or free. *)
Definition transport_only (evs : list event) : Prop :=
  Forall (fun ev =>
            match ev with
            | enet_peer_send _ | enet_host_flush | send _ => True
            | _ => False
            end) evs.

(** The assertions of sendMessageEnet hold, or are compiled out. *)
Definition enet_asserts (P : Program) (paylen : Z) (g : Globals) : Prop :=
  LC_DEBUG P = true ->
  5 <= nth 0 (AppVersionQuad P) 0 /\
  (encryptedControlStream g = true -> 4 + paylen < 256).

(** The assertions met on the way of a message of [paylen] bytes hold,
    or are compiled out. *)
Definition send_asserts (P : Program) (paylen : Z) (g : Globals) : Prop :=
  LC_DEBUG P = true -> encryptedControlStream g = true -> 4 + paylen < 256.

(** The payload of a message that invalidates the frames [first] to
    [last]: three 64-bit fields, each least significant byte first. *)
Definition range_payload (first last : Z) : list Z :=
  le_encode 8 first ++ le_encode 8 last ++ le_encode 8 0.

(** The same three fields most significant byte first, as the claim C7
    has them. *)
Definition range_payload_big_endian (first last : Z) : list Z :=
  be_encode 8 first ++ be_encode 8 last ++ be_encode 8 0.

(** What the video pipeline reports to the control stream about a frame:
    that it saw the frame, at the time [now], or that it received the
    frame complete. *)
Inductive frame_report : Type :=
| saw (now frameIndex : Z)
| complete (frameIndex : Z).

(** connectionSawFrame and connectionReceivedCompleteFrame called as
    [reports] tells, one call after the other. *)
Fixpoint frame_reports (P : Program) (reports : list frame_report) (g : Globals) :
    result (Globals * list event) :=
  match reports with
  | [] => Ok (g, [])
  | saw now frameIndex :: reports =>
      r <- connectionSawFrame P now frameIndex g ;;
      let '(g, evs) := r in
      r' <- frame_reports P reports g ;;
      let '(g, evs') := r' in
      Ok (g, evs ++ evs')
  | complete frameIndex :: reports =>
      frame_reports P reports (connectionReceivedCompleteFrame frameIndex g)
  end.

(** The events are status updates, each with another status than the one
    before it, [s] being the status before the first. *)
Fixpoint alternate (s : CONN_STATUS) (evs : list event) : Prop :=
  match evs with
  | [] => True
  | connectionStatusUpdate s' :: evs => s' <> s /\ alternate s' evs
  | _ => False
  end.

(** The status in force after the events [evs], [s] being the one in
    force before them. *)
Fixpoint status_after (s : CONN_STATUS) (evs : list event) : CONN_STATUS :=
  match evs with
  | [] => s
  | connectionStatusUpdate s' :: evs => status_after s' evs
  | _ :: evs => status_after s evs
  end.

(** The 32 bytes of a loss report: five 32-bit fields and one 64-bit
    field, each least significant byte first. *)
Definition loss_report (lossCount lastGoodFrame : Z) : list Z :=
  le_encode 4 lossCount ++ le_encode 4 LOSS_REPORT_INTERVAL_MS ++
  le_encode 4 1000 ++ le_encode 8 lastGoodFrame ++
  le_encode 4 0 ++ le_encode 4 0 ++ le_encode 4 0x14.

(** The first five steps of a GCM encryption, those before the tag is
    read, succeed. *)
Definition encrypts (r : EVP_RESULTS) : Prop :=
  EVP_Init_cipher r = 1 /\ EVP_CTRL_GCM_SET_IVLEN r = 1 /\
  EVP_Init_key_iv r = 1 /\ EVP_Update r = 1 /\ EVP_Final_ex r = 1.

(** The 8 bytes of the header of an encrypted control packet on the
    wire: the type 0x0001, the length and the sequence number, each least
    significant byte first. *)
Definition encrypted_header (len s : Z) : list Z :=
  le_encode 2 0x0001 ++ le_encode 2 len ++ le_encode 4 s.


(** The length and the sequence number of the header of an encrypted
    packet as decryptControlMessageToV1 uses them, and whether the 16
    bytes after the header are the tag of the ciphertext that follows
    them. *)
Definition received_length (P : Program) (encPacket : NVCTL_ENCRYPTED_PACKET_HEADER) : Z :=
  if BIGENDIAN P then __bswap16 (enc_length encPacket) else enc_length encPacket.

Definition received_seq (P : Program) (encPacket : NVCTL_ENCRYPTED_PACKET_HEADER) : Z :=
  if BIGENDIAN P then __bswap32 (seq encPacket) else seq encPacket.

Definition received_ciphertext (P : Program)
    (encPacket : NVCTL_ENCRYPTED_PACKET_HEADER) (encData : list Z) : list Z :=
  firstn (Z.to_nat (received_length P encPacket - 4 - 16)) (skipn 16 encData).

Definition authentic (P : Program) (encPacket : NVCTL_ENCRYPTED_PACKET_HEADER)
    (encData : list Z) : bool :=
  bytes_eqb (firstn 16 encData)
    (aes_128_gcm_tag P (remoteInputAesKey P) (iv_of_seq (received_seq P encPacket))
       (received_ciphertext P encPacket encData)).

(** *** Messages on the wire *)

(** The packets that were handed to ENet and the buffers that were
    written to the TCP socket, in order. *)
Definition wire (evs : list event) : list (list Z) :=
  flat_map (fun ev =>
              match ev with
              | enet_peer_send data | send data => [data]
              | _ => []
              end) evs.

(** A message with its type and the length of its payload before it, 16
    bits each, least significant byte first: what is written to the TCP
    socket of a server before Gen 5, and the plaintext of an encrypted
    message (the V2 header and the payload). *)
Definition V2_message (ptype : Z) (payload : list Z) : list Z :=
  le_encode 2 ptype ++ le_encode 2 (Z.of_nat (length payload)) ++ payload.

(** The IV under which sendMessageEnet encrypts the message with the
    sequence number [s]: iv_of_seq of the field [seq] of the header as
    encryptControlMessage finds it, which a BIGENDIAN build has swapped
    by then. *)
Definition sent_iv (P : Program) (s : Z) : list Z :=
  iv_of_seq (if BIGENDIAN P then __bswap32 (to_uint32 s) else s).

(** The packet of an encrypted message: the header, the tag and the
    ciphertext. *)
Definition encrypted_message (P : Program) (s ptype : Z) (payload : list Z) :
    list Z :=
  let plaintext := V2_message ptype payload in
  let ciphertext := aes_128_gcm_ctr P (remoteInputAesKey P) (sent_iv P s) plaintext in
  encrypted_header (20 + Z.of_nat (length plaintext)) s ++
  aes_128_gcm_tag P (remoteInputAesKey P) (sent_iv P s) ciphertext ++ ciphertext.

(** The bytes that carry a message on the wire of the session: on the
    TCP socket before Gen 5; from Gen 5 on in a packet of ENet, encrypted
    or, with the type alone before the payload, in the clear. *)
Definition frame (P : Program) (g : Globals) (ptype : Z) (payload : list Z) :
    list Z :=
  if nth 0 (AppVersionQuad P) 0 <? 5 then V2_message ptype payload
  else if encryptedControlStream g
  then encrypted_message P (currentEnetSequenceNumber g) ptype payload
  else le_encode 2 ptype ++ payload.

(** What the transport is asked to do with a message: one write to the
    TCP socket, or one packet handed to ENet and, when ENet took it, a
    flush of the host. *)
Definition transport (P : Program) (e : SendEnv) (g : Globals) (ptype : Z)
    (payload : list Z) : list event :=
  if nth 0 (AppVersionQuad P) 0 <? 5 then [send (frame P g ptype payload)]
  else if enet_peer_send_result e <? 0 then [enet_peer_send (frame P g ptype payload)]
  else [enet_peer_send (frame P g ptype payload); enet_host_flush].

(** The transport reports the message of [paylen] bytes sent: send()
    returns the number of bytes it was given, or enet_peer_send a value
    that is not negative. *)
Definition accepted (P : Program) (e : SendEnv) (paylen : Z) : bool :=
  if nth 0 (AppVersionQuad P) 0 <? 5 then send_result e =? 4 + paylen
  else negb (enet_peer_send_result e <? 0).

(** The message can be handed to the transport: malloc gives the buffer
    for the TCP socket, or ENet a packet of the size asked for, and on
    an encrypted stream every step of the cipher succeeds. *)
Definition transport_ready (P : Program) (e : SendEnv) (g : Globals)
    (paylen : Z) : Prop :=
  if nth 0 (AppVersionQuad P) 0 <? 5 then malloc_ok e = true
  else
    enet_packet_create_ok e = true /\
    (encryptedControlStream g = true ->
     gcm P /\ evp_succeeds (evp e) /\
     Z.of_nat (length (enet_packet_data e)) = 8 + 16 + 4 + paylen).

(** The variables after a message was handed to the transport: on an
    encrypted stream the message used up a sequence number. *)
Definition after_send (P : Program) (g : Globals) : Globals :=
  if (nth 0 (AppVersionQuad P) 0 >=? 5) && encryptedControlStream g
  then set_currentEnetSequenceNumber (to_int32 (currentEnetSequenceNumber g + 1)) g
  else g.


(** The request for an IDR frame. From Gen 5 on it is the message of the
    type InvalidateRefFrames for the frames from 32 before the last one
    seen (from 0, if fewer were seen) to the last one seen; before Gen 5
    it is the message of the type RequestIdrFrame with its two bytes 0. *)
Definition idr_type (P : Program) (g : Globals) : Z :=
  nth (if nth 0 (AppVersionQuad P) 0 >=? 5 then IDX_INVALIDATE_REF_FRAMES
       else IDX_REQUEST_IDR_FRAME) (packetTypes g) 0.

Definition idr_payload (P : Program) (g : Globals) : list Z :=
  if nth 0 (AppVersionQuad P) 0 >=? 5
  then range_payload (Z.max 0 (lastSeenFrame g - 32)) (lastSeenFrame g)
  else [0; 0].

Definition idr_request (P : Program) (g : Globals) : event :=
  SendMessage (idr_type P g) (Z.of_nat (length (idr_payload P g))) (idr_payload P g).

(** connectionDetectedFrameLoss called for each of the ranges [ts], one
    call after the other, malloc succeeding. *)
Fixpoint connectionDetectedFrameLosses (P : Program)
    (ts : list QUEUED_FRAME_INVALIDATION_TUPLE) (g : Globals) : result Globals :=
  match ts with
  | [] => Ok g
  | t :: ts =>
      g <- connectionDetectedFrameLoss P true (startFrame t) (endFrame t) g ;;
      connectionDetectedFrameLosses P ts g
  end.

End ControlStreamSpec.

Module InputStreamSpec.

Import InputStream.

(** The messages the send thread handed to the control stream, in order. *)
Definition messages (evs : list event) : list ControlStream.event :=
  flat_map (fun ev =>
              match ev with
              | control (ControlStream.SendMessage ptype paylen payload) =>
                  [ControlStream.SendMessage ptype paylen payload]
              | _ => []
              end) evs.

(** The holder that LiSendMouseMoveEvent queues for a move by
    ([dx], [dy]). *)
Definition move (P : Program) (H : Input_h) (dx dy : Z) : PACKET_HOLDER :=
  {| packetLength := sizeof_NV_REL_MOUSE_MOVE_PACKET H;
     packet := mouseMoveRel
       {| rel_header_packetType :=
            to_int32 (htonl (BIGENDIAN P) (PACKET_TYPE_REL_MOUSE_MOVE H));
          rel_magic :=
            if nth 0 (AppVersionQuad P) 0 >=? 5
            then to_int32 (MOUSE_MOVE_REL_MAGIC H + 1)
            else MOUSE_MOVE_REL_MAGIC H;
          deltaX := to_int16 (htons (BIGENDIAN P) dx);
          deltaY := to_int16 (htons (BIGENDIAN P) dy) |} |}.

(** What a turn of the loop of inputSendThreadProc finds to send: the
    holder it takes off the queue, as the batching leaves it, and the
    variables after the batching; nothing when the thread blocks on the
    empty queue or the queue was shut down. *)
Definition next_to_send (P : Program) (H : Input_h) (g : Globals) :
    option (PACKET_HOLDER * Globals * list event) :=
  match LbqWaitForQueueElement (packetQueue g) with
  | Some (LBQ_SUCCESS, Some holder, q) => Some (batch P H holder (set_packetQueue q g))
  | _ => None
  end.

(** The packet types of Input.h are 32-bit numbers, and that of the
    relative mouse move is not that of the multi-controller packet. *)
Definition packet_types_distinct (H : Input_h) : Prop :=
  0 <= PACKET_TYPE_MULTI_CONTROLLER H < 2 ^ 32 /\
  0 <= PACKET_TYPE_REL_MOUSE_MOVE H < 2 ^ 32 /\
  PACKET_TYPE_MULTI_CONTROLLER H <> PACKET_TYPE_REL_MOUSE_MOVE H.

(** The queue of [g] holds [holders] and was not shut down. *)
Definition queued (g : Globals) (holders : list PACKET_HOLDER) : Prop :=
  items (packetQueue g) = holders /\ shutdown (packetQueue g) = false.

(** The sum of two deltas does not fit a 16-bit [short]. *)
Definition overflows (a b : Z) : Prop := a + b > INT16_MAX \/ a + b < INT16_MIN.

(** [g] with the holders [holders] in its queue. *)
Definition with_queue (g : Globals) (holders : list PACKET_HOLDER) : Globals :=
  set_packetQueue (with_items (packetQueue g) holders) g.

(** What the send thread has the control stream do, and what that puts
    on the wire. *)
Definition controls (evs : list event) : list ControlStream.event :=
  flat_map (fun ev => match ev with control c => [c] | _ => [] end) evs.

Definition wire (evs : list event) : list (list Z) :=
  ControlStreamSpec.wire (controls evs).

(** The frames of messages of the type [T] with the payloads [payloads],
    handed to the transport one after the other from the variables [cg]
    of the control stream on. *)
Fixpoint frames (P : Program) (cg : ControlStream.Globals) (T : Z)
    (payloads : list (list Z)) : list (list Z) :=
  match payloads with
  | [] => []
  | payload :: payloads =>
      ControlStreamSpec.frame P cg T payload ::
      frames P (ControlStreamSpec.after_send P cg) T payloads
  end.

(** How many of [n] queued packets of [paylen] bytes, which the batching
    leaves apart, the send thread hands to the control stream in the
    turns [turns]: one in each turn, up to the first turn that finds the
    thread interrupted, and up to and with the first whose message the
    transport does not report sent; none once the queue is empty, where
    the thread waits. *)
Fixpoint handed_over (P : Program) (paylen : Z) (n : nat) (turns : list Turn) : nat :=
  match n, turns with
  | S n, t :: turns =>
      if PltIsThreadInterrupted t then O
      else if ControlStreamSpec.accepted P (control_env t) paylen
      then S (handed_over P paylen n turns)
      else 1%nat
  | _, _ => O
  end.

(** A call of one of the functions that send an event, with its
    arguments. *)
Inductive input_call : Type :=
| MouseMove (deltaX deltaY : Z)
| MousePosition (x y referenceWidth referenceHeight : Z)
| MouseButton (action button : Z)
| Keyboard (keyCode keyAction modifiers : Z)
| Controller (buttonFlags leftTrigger rightTrigger
              leftStickX leftStickY rightStickX rightStickY : Z)
| MultiController (controllerNumber activeGamepadMask buttonFlags
                   leftTrigger rightTrigger
                   leftStickX leftStickY rightStickX rightStickY : Z)
| HighResScroll (scrollAmount : Z)
| Scroll (scrollClicks : Z).

(** The call made, [malloc_succeeds] telling what malloc answers if it is
    called. *)
Definition LiSend (P : Program) (H : Input_h) (E : Input_h_events)
    (malloc_succeeds : bool) (c : input_call) (g : Globals) :
    Z * Globals * list event :=
  match c with
  | MouseMove dx dy => LiSendMouseMoveEvent P H malloc_succeeds dx dy g
  | MousePosition x y w h => LiSendMousePositionEvent P H malloc_succeeds x y w h g
  | MouseButton action button => LiSendMouseButtonEvent P E malloc_succeeds action button g
  | Keyboard keyCode keyAction modifiers =>
      LiSendKeyboardEvent P E malloc_succeeds keyCode keyAction modifiers g
  | Controller b lt rt lx ly rx ry =>
      LiSendControllerEvent P H E malloc_succeeds b lt rt lx ly rx ry g
  | MultiController n m b lt rt lx ly rx ry =>
      LiSendMultiControllerEvent P H E malloc_succeeds n m b lt rt lx ly rx ry g
  | HighResScroll a => LiSendHighResScrollEvent P E malloc_succeeds a g
  | Scroll c => LiSendScrollEvent P E malloc_succeeds c g
  end.

(** The holders the events [evs] free, in order. *)
Definition frees (evs : list event) : list PACKET_HOLDER :=
  flat_map (fun ev => match ev with free holder => [holder] | _ => [] end) evs.

(** Every step that encryptData takes in the turn [t] succeeds: the
    cipher context is there or can be had, and the calls of the cipher
    return 1 (for a server before Gen 7 the cipher is initialized on the
    first packet only, and there is no tag). *)
Definition encryption_succeeds (P : Program) (t : Turn) (g : Globals) : Prop :=
  (cipherInitialized g = true \/ EVP_CIPHER_CTX_new_ok t = true) /\
  if nth 0 (AppVersionQuad P) 0 >=? 7 then ControlStreamSpec.evp_succeeds (evp t)
  else (cipherInitialized g = false -> EVP_Init_cipher (evp t) = 1) /\
       EVP_Update (evp t) = 1.

(** [g'] is [g] with the first [n] holders taken off its queue. *)
Definition took (n : nat) (g g' : Globals) : Prop :=
  (n <= length (items (packetQueue g)))%nat /\
  items (packetQueue g') = skipn n (items (packetQueue g)) /\
  sizeBound (packetQueue g') = sizeBound (packetQueue g) /\
  shutdown (packetQueue g') = shutdown (packetQueue g).

(** The variables other than the queue are in [g'] as they are in [g]. *)
Definition rest_same (g g' : Globals) : Prop :=
  currentAesIv g' = currentAesIv g /\ initialized g' = initialized g /\
  cipherContext g' = cipherContext g /\ cipherInitialized g' = cipherInitialized g.

(** A value of type [short]. *)
Definition is_short (v : Z) : Prop := INT16_MIN <= v <= INT16_MAX.

(** The moves [ds] can be added one after the other to the deltas
    ([tx], [ty]) accumulated so far without a sum leaving the range of a
    [short]. *)
Fixpoint sums_fit (tx ty : Z) (ds : list (Z * Z)) : Prop :=
  match ds with
  | [] => True
  | (dx, dy) :: ds =>
      is_short dx /\ is_short dy /\ is_short (dx + tx) /\ is_short (dy + ty) /\
      sums_fit (tx + dx) (ty + dy) ds
  end.

Definition sum (l : list Z) : Z := fold_right Z.add 0 l.

(** The holders that LiSendMouseMoveEvent queues for the moves [ds]. *)
Definition moves (P : Program) (H : Input_h) (ds : list (Z * Z)) : list PACKET_HOLDER :=
  map (fun d => move P H (fst d) (snd d)) ds.

(** The holder at the head of [rest], if there is one, does not have
    the packet type [T] in its header. *)
Definition not_of_type (P : Program) (T : Z) (rest : list PACKET_HOLDER) : Prop :=
  match rest with
  | [] => True
  | h :: _ => packetType_is P h T = false
  end.

(** The header of [h] has the type of an absolute mouse move, and of no
    packet that is batched otherwise. *)
Definition is_position (P : Program) (H : Input_h) (h : PACKET_HOLDER) : Prop :=
  packetType_is P h (PACKET_TYPE_MULTI_CONTROLLER H) = false /\
  packetType_is P h (PACKET_TYPE_REL_MOUSE_MOVE H) = false /\
  packetType_is P h (PACKET_TYPE_ABS_MOUSE_MOVE H) = true.

(** The multi-controller packet [p0] with the triggers and the sticks of
    [p]. *)
Definition with_axes (p0 p : NV_MULTI_CONTROLLER_PACKET) : NV_MULTI_CONTROLLER_PACKET :=
  {| mc_header_packetType := mc_header_packetType p0;
     headerA := headerA p0;
     headerB := headerB p0;
     controllerNumber := controllerNumber p0;
     activeGamepadMask := activeGamepadMask p0;
     midB := midB p0;
     buttonFlags := buttonFlags p0;
     leftTrigger := leftTrigger p;
     rightTrigger := rightTrigger p;
     leftStickX := leftStickX p;
     leftStickY := leftStickY p;
     rightStickX := rightStickX p;
     rightStickY := rightStickY p;
     tailA := tailA p0;
     tailB := tailB p0 |}.

(** [h] holds a multi-controller packet for the controller of [p0], with
    the same buttons and the same mask of active gamepads. *)
Definition same_buttons (P : Program) (H : Input_h) (p0 : NV_MULTI_CONTROLLER_PACKET)
    (h : PACKET_HOLDER) : Prop :=
  packetType_is P h (PACKET_TYPE_MULTI_CONTROLLER H) = true /\
  exists p,
    packet h = multiController p /\
    buttonFlags p = buttonFlags p0 /\
    controllerNumber p = controllerNumber p0 /\
    activeGamepadMask p = activeGamepadMask p0.

(** The holder at the head of [rest], if there is one, is no
    multi-controller packet, or has other buttons, another controller
    number or another mask than [p0]. *)
Definition other_buttons (P : Program) (H : Input_h) (p0 : NV_MULTI_CONTROLLER_PACKET)
    (rest : list PACKET_HOLDER) : Prop :=
  match rest with
  | [] => True
  | h :: _ =>
      packetType_is P h (PACKET_TYPE_MULTI_CONTROLLER H) = false \/
      exists p,
        packet h = multiController p /\
        (buttonFlags p <> buttonFlags p0 \/
         controllerNumber p <> controllerNumber p0 \/
         activeGamepadMask p <> activeGamepadMask p0)
  end.

(** The multi-controller packets of the holders [hs]. *)
Definition controller_packets (hs : list PACKET_HOLDER) : list NV_MULTI_CONTROLLER_PACKET :=
  flat_map (fun h => match packet h with multiController p => [p] | _ => [] end) hs.

(** The cipher keeps the length of whole blocks, as AES-CBC does. *)
Definition cbc (P : Program) : Prop :=
  forall key iv data, length (aes_128_cbc P key iv data) = length data.

(** What encryptData hands to the CBC cipher for the packet of [holder]:
    the padded length and the padded plaintext. *)
Definition padded (H : Input_h) (holder : PACKET_HOLDER) : Z * list Z :=
  addPkcs7PaddingInPlace
    (firstn (Z.to_nat (packetLength holder)) (bytes_of_PACKET H (packet holder)))
    (packetLength holder).

End InputStreamSpec.

(** ** Sessions the properties are tried on *)

Module Scenario.

Import ControlStream ControlStreamSpec.

(** An encrypted Gen 7 session with as many ranges of lost frames queued
    as the queue takes. *)
Definition full_queue : Globals :=
  set_invalidReferenceFrameTuples
    {| items := repeat {| startFrame := 1; endFrame := 2 |} 20;
       sizeBound := 20;
       shutdown := false |}
    (initializeControlStream Example.gen7enc).

(** Three sample periods: ten frames seen of which none is received
    complete, then ten that all are, then ten of which none is. *)
Definition three_periods : list frame_report :=
  [saw 10 10; saw 3000 20] ++
  repeat (complete 20) 10 ++ [saw 6000 20] ++
  [saw 6010 30; saw 9000 40].

Definition after_three_periods : Globals :=
  Eval vm_compute in
    match frame_reports Example.gen7enc three_periods
            (initializeControlStream Example.gen7enc) with
    | Ok (g, _) => g
    | _ => initializeControlStream Example.gen7enc
    end.

(** A Gen 5 session in which frame 300 was received complete and the
    packets 11 to 17 were lost. *)
Definition lost_7 : Globals :=
  connectionLostPackets 10 18
    (connectionReceivedCompleteFrame 300 (initializeControlStream Example.gen5)).

(** The program [P] built for a big-endian host: the sources compiled
    with BIGENDIAN defined. *)
Definition big_endian (P : Program) : Program :=
  {| BIGENDIAN := true;
     LC_DEBUG := LC_DEBUG P;
     AppVersionQuad := AppVersionQuad P;
     remoteInputAesKey := remoteInputAesKey P;
     remoteInputAesIv := remoteInputAesIv P;
     isReferenceFrameInvalidationEnabled := isReferenceFrameInvalidationEnabled P;
     ML_ERROR_GRACEFUL_TERMINATION := ML_ERROR_GRACEFUL_TERMINATION P;
     ML_ERROR_UNEXPECTED_EARLY_TERMINATION := ML_ERROR_UNEXPECTED_EARLY_TERMINATION P;
     ML_ERROR_PROTECTED_CONTENT := ML_ERROR_PROTECTED_CONTENT P;
     aes_128_gcm_ctr := aes_128_gcm_ctr P;
     aes_128_gcm_tag := aes_128_gcm_tag P;
     aes_128_cbc := aes_128_cbc P;
     lbq_int := lbq_int P |}.

(** An encrypted Gen 7 session on a big-endian host that has sent one
    message, and the packet that carries its second message, a ping, as
    sendMessageEnet hands it to ENet; then the same packet as the receive
    thread of that host holds it when it calls
    decryptControlMessageToV1, the type of the header swapped in
    place. *)
Definition second_message : Globals :=
  set_currentEnetSequenceNumber 1
    (initializeControlStream (big_endian Example.gen7enc)).

Definition second_ping : list Z :=
  Eval vm_compute in
    match sendMessageEnet (big_endian Example.gen7enc)
            (Example.send_ok Example.evp_ok 36) 0x0200 8 [4; 0; 0; 0; 0; 0; 0; 0]
            second_message with
    | Ok (_, _, enet_peer_send data :: _) => data
    | _ => []
    end.

Definition second_ping_received : list Z :=
  let P := big_endian Example.gen7enc in
  write_at 0 (store16 (BIGENDIAN P) (__bswap16 (v1_type (V1_of_bytes P second_ping))))
    second_ping.

(** A turn of a worker of the control stream in which ENet does not
    take the packet it is handed. *)
Definition refused_turn (n : nat) : Turn :=
  {| PltIsThreadInterrupted := false;
     send_env :=
       {| enet_packet_create_ok := true;
          enet_packet_data := repeat 0xAA n;
          evp := Example.evp_ok;
          enet_peer_send_result := -1;
          malloc_ok := true;
          send_result := 0;
          readNvctlPacketTcp := Some [];
          LastSocketFail := 10054 |} |}.

(** A Gen 4 server, and an environment in which its TCP socket takes
    the 6 bytes of a message with a 2-byte payload and gives a reply. *)
Definition gen4 : Program := Example.program [4; 0; 0; 0].

Definition tcp_ok : SendEnv :=
  {| enet_packet_create_ok := false;
     enet_packet_data := [];
     evp := Example.evp_ok;
     enet_peer_send_result := -1;
     malloc_ok := true;
     send_result := 6;
     readNvctlPacketTcp := Some [6; 6; 0; 0];
     LastSocketFail := 10054 |}.

(** The packet that the first ping of an encrypted Gen 7 session hands
    to ENet, and the same packet with the first byte of its tag
    changed. *)
Definition ping_frame : list Z :=
  Eval vm_compute in
    match sendMessageEnet Example.gen7enc (Example.send_ok Example.evp_ok 36) 0x0200 8
            [4; 0; 0; 0; 0; 0; 0; 0] (initializeControlStream Example.gen7enc) with
    | Ok (_, _, enet_peer_send data :: _) => data
    | _ => []
    end.

Definition tampered : list Z :=
  firstn 8 ping_frame ++ [Z.lxor (nth 8 ping_frame 0) 1] ++ skipn 9 ping_frame.

(** The rest of the constants of Input.h, the modifier flags, and a
    compiler whose [char] is signed. *)
Definition input_h_events : InputStream.Input_h_events :=
  {| InputStream.PACKET_TYPE_HAPTICS := 0x0D;
     InputStream.H_MAGIC_A := 0x14;
     InputStream.H_MAGIC_B := 0x010000;
     InputStream.sizeof_NV_HAPTICS_PACKET := 8;
     InputStream.PACKET_TYPE_MOUSE_BUTTON := 0x05;
     InputStream.sizeof_NV_MOUSE_BUTTON_PACKET := 9;
     InputStream.PACKET_TYPE_KEYBOARD := 0x0A;
     InputStream.sizeof_NV_KEYBOARD_PACKET := 14;
     InputStream.MODIFIER_SHIFT := 0x01;
     InputStream.MODIFIER_CTRL := 0x02;
     InputStream.MODIFIER_ALT := 0x04;
     InputStream.MODIFIER_META := 0x08;
     InputStream.PACKET_TYPE_CONTROLLER := 0x18;
     InputStream.sizeof_NV_CONTROLLER_PACKET := 28;
     InputStream.C_HEADER_A := 0x0000000A;
     InputStream.C_HEADER_B := 0x1400;
     InputStream.C_TAIL_A := 0x0000009C;
     InputStream.C_TAIL_B := 0x0055;
     InputStream.sizeof_NV_MULTI_CONTROLLER_PACKET := 34;
     InputStream.MC_HEADER_A := 0x0000000D;
     InputStream.MC_HEADER_B := 0x001A;
     InputStream.MC_MID_B := 0x0014;
     InputStream.MC_TAIL_A := 0x0000009C;
     InputStream.MC_TAIL_B := 0x0055;
     InputStream.PACKET_TYPE_SCROLL := 0x0A;
     InputStream.MAGIC_A := 0x09;
     InputStream.sizeof_NV_SCROLL_PACKET := 14;
     InputStream.char_is_signed := true |}.

(** The input stream of an encrypted Gen 7 session after
    LiSendMouseMoveEvent(100, -5), (200, 10) and (-50, 1). *)
Definition small_moves : InputStream.Globals :=
  let send dx dy g :=
    snd (fst (InputStream.LiSendMouseMoveEvent Example.gen7enc Example.input_h true
                dx dy g)) in
  send (-50) 1 (send 200 10 (send 100 (-5) (Example.input_started Example.gen7enc))).

(** The holder that LiSendMousePositionEvent(v, v, 1920, 1080) queues
    in an encrypted Gen 7 session, and the input stream after three such
    calls. *)
Definition position_holder (v : Z) : InputStream.PACKET_HOLDER :=
  {| InputStream.packetLength := 18;
     InputStream.packet := InputStream.mouseMoveAbs
       {| InputStream.abs_header_packetType := to_int32 (htonl false 0x0E);
          InputStream.abs_magic := 0x05;
          InputStream.x := to_int16 (htons false v);
          InputStream.y := to_int16 (htons false v);
          InputStream.unused := 0;
          InputStream.width := to_int16 (htons false (1920 - 1));
          InputStream.height := to_int16 (htons false (1080 - 1)) |} |}.

Definition three_positions : InputStream.Globals :=
  let send v g :=
    snd (fst (InputStream.LiSendMousePositionEvent Example.gen7enc Example.input_h true
                v v 1920 1080 g)) in
  send 30 (send 20 (send 10 (Example.input_started Example.gen7enc))).

(** The packet and the holder that
    LiSendMultiControllerEvent(0, 1, buttons, 0, 0, leftStickX, 0, 0, 0)
    queues in an encrypted Gen 7 session, and the input stream after
    three such calls: the left stick at 100 and at 200 with no button
    down, then at 300 with a button down. *)
Definition pad_packet (buttons leftStickX : Z) : InputStream.NV_MULTI_CONTROLLER_PACKET :=
  let swap16 v := to_int16 (__bswap16 (to_uint16 v)) in
  let swap32 v := to_int32 (__bswap32 (to_uint32 v)) in
  {| InputStream.mc_header_packetType := to_int32 (htonl false 0x1E);
     InputStream.headerA := swap32 (0x0D - 1);
     InputStream.headerB := swap16 0x1A;
     InputStream.controllerNumber := swap16 0;
     InputStream.activeGamepadMask := swap16 1;
     InputStream.midB := swap16 0x14;
     InputStream.buttonFlags := swap16 buttons;
     InputStream.leftTrigger := 0;
     InputStream.rightTrigger := 0;
     InputStream.leftStickX := swap16 leftStickX;
     InputStream.leftStickY := swap16 0;
     InputStream.rightStickX := swap16 0;
     InputStream.rightStickY := swap16 0;
     InputStream.tailA := swap32 0x9C;
     InputStream.tailB := swap16 0x55 |}.

Definition pad_holder (buttons leftStickX : Z) : InputStream.PACKET_HOLDER :=
  {| InputStream.packetLength := 34;
     InputStream.packet := InputStream.multiController (pad_packet buttons leftStickX) |}.

Definition three_pad_states : InputStream.Globals :=
  let send buttons leftStickX g :=
    snd (fst (InputStream.LiSendMultiControllerEvent Example.gen7enc Example.input_h
                input_h_events true 0 1 buttons 0 0 leftStickX 0 0 0 g)) in
  send 0x1000 300 (send 0 200 (send 0 100 (Example.input_started Example.gen7enc))).

(** A start of the input stream in which everything succeeds. *)
Definition start_ok : InputStream.StartEnv :=
  {| InputStream.connectTcpSocket_ok := true;
     InputStream.start_LastSocketFail := 10061;
     InputStream.PltCreateThread_result := 0;
     InputStream.haptics_malloc_succeeds := true |}.

(** A turn of the input send thread in which ENet does not take the
    packet it is handed. *)
Definition refused_input_turn (n : nat) : InputStream.Turn :=
  {| InputStream.PltIsThreadInterrupted := false;
     InputStream.EVP_CIPHER_CTX_new_ok := true;
     InputStream.evp := Example.evp_ok;
     InputStream.control_env := send_env (refused_turn n);
     InputStream.send_result := 1;
     InputStream.LastSocketFail := -1 |}.

(** What a run of the send thread of an encrypted Gen 7 session leaves
    when three moves by (30000, 0) are queued: the buffer, the variables
    of the two streams and the events. *)
Definition sent_three_moves :
    list Z * InputStream.Globals * Globals * list InputStream.event :=
  Eval vm_compute in
    match InputStream.inputSendThreadProc Example.gen7enc Example.input_h
            [Example.turn_ok 40; Example.turn_ok 40; Example.turn_ok 40;
             Example.turn_ok 40]
            (repeat 0xAA 128) (Example.three_moves Example.gen7enc)
            (initializeControlStream Example.gen7enc) with
    | Ok r => r
    | _ =>
        ([], Example.three_moves Example.gen7enc,
         initializeControlStream Example.gen7enc, [])
    end.

End Scenario.

(** * Properties *)

(** ** Byte strings *)

Module BytesFacts.

Lemma le_encode_length (n : nat) (v : Z) : length (le_encode n v) = n.
Proof.
  revert v; induction n as [|n IH]; intros v; simpl; [reflexivity|].
  now rewrite IH.
Qed.

Lemma le_encode_bytes (n : nat) (v : Z) : Forall is_byte (le_encode n v).
Proof.
  revert v; induction n as [|n IH]; intros v; simpl; constructor.
  - unfold is_byte. apply Z.mod_pos_bound. lia.
  - apply IH.
Qed.

Lemma pow256_pos (n : nat) : 0 < 256 ^ Z.of_nat n.
Proof. apply Z.pow_pos_nonneg; lia. Qed.

Lemma pow256_succ (n : nat) : 256 ^ Z.of_nat (S n) = 256 * 256 ^ Z.of_nat n.
Proof. rewrite Nat2Z.inj_succ, Z.pow_succ_r by lia. reflexivity. Qed.

Lemma split_byte (b q : Z) :
  0 <= b < 256 -> (b + 256 * q) mod 256 = b /\ (b + 256 * q) / 256 = q.
Proof.
  intros Hb. split.
  - rewrite (Z.mul_comm 256 q), Z.mod_add by lia. apply Z.mod_small, Hb.
  - rewrite (Z.mul_comm 256 q), Z.div_add by lia. rewrite Z.div_small by lia. lia.
Qed.

(** Only the low [n] bytes of a value are encoded. *)
Lemma le_encode_mod (n : nat) (v : Z) :
  le_encode n (v mod 256 ^ Z.of_nat n) = le_encode n v.
Proof.
  revert v; induction n as [|n IH]; intros v; [reflexivity|].
  cbn [le_encode]. rewrite pow256_succ.
  pose proof (pow256_pos n) as Hp.
  rewrite (Z.rem_mul_r v 256 (256 ^ Z.of_nat n)) by lia.
  pose proof (Z.mod_pos_bound v 256 ltac:(lia)) as Hb.
  destruct (split_byte (v mod 256) ((v / 256) mod 256 ^ Z.of_nat n) Hb) as [-> ->].
  f_equal. apply IH.
Qed.

Lemma le_decode_le_encode (n : nat) (v : Z) :
  le_decode (le_encode n v) = v mod 256 ^ Z.of_nat n.
Proof.
  revert v; induction n as [|n IH]; intros v.
  - simpl. now rewrite Z.mod_1_r.
  - cbn [le_encode le_decode]. rewrite IH, pow256_succ.
    pose proof (pow256_pos n).
    rewrite (Z.rem_mul_r v 256 (256 ^ Z.of_nat n)) by lia. reflexivity.
Qed.

Lemma le_decode_bounds (bs : list Z) :
  Forall is_byte bs -> 0 <= le_decode bs < 256 ^ Z.of_nat (length bs).
Proof.
  induction 1 as [|b bs Hb _ IH]; [simpl; lia|].
  cbn [le_decode length]. rewrite pow256_succ. unfold is_byte in Hb. nia.
Qed.

Lemma le_encode_le_decode (bs : list Z) :
  Forall is_byte bs -> le_encode (length bs) (le_decode bs) = bs.
Proof.
  induction 1 as [|b bs Hb Hbs IH]; [reflexivity|].
  cbn [le_decode length le_encode].
  destruct (split_byte b (le_decode bs) Hb) as [-> ->]. now rewrite IH.
Qed.

Lemma le_encode_small (n : nat) (v : Z) :
  0 <= v < 256 ^ Z.of_nat n -> le_decode (le_encode n v) = v.
Proof. intros Hv. rewrite le_decode_le_encode. apply Z.mod_small, Hv. Qed.

Lemma rev_bytes (bs : list Z) : Forall is_byte bs -> Forall is_byte (rev bs).
Proof.
  intros Hbs. apply Forall_forall. intros b Hb.
  apply (proj1 (Forall_forall _ _) Hbs), in_rev, Hb.
Qed.

(** The bytes of a swapped value are the bytes of the value, reversed. *)
Lemma le_encode_bswap (n : nat) (v : Z) :
  le_encode n (bswap n v) = rev (le_encode n v).
Proof.
  unfold bswap.
  rewrite <- (le_encode_length n v) at 1. rewrite <- length_rev.
  apply le_encode_le_decode, rev_bytes, le_encode_bytes.
Qed.

Lemma be_encode_bswap (n : nat) (v : Z) :
  be_encode n (bswap n v) = le_encode n v.
Proof. unfold be_encode. rewrite le_encode_bswap. apply rev_involutive. Qed.

Lemma bswap_bounds (n : nat) (v : Z) : 0 <= bswap n v < 256 ^ Z.of_nat n.
Proof.
  unfold bswap.
  pose proof (le_decode_bounds (rev (le_encode n v))
                (rev_bytes _ (le_encode_bytes n v))) as Hb.
  now rewrite length_rev, le_encode_length in Hb.
Qed.

Lemma bswap_involutive (n : nat) (v : Z) :
  0 <= v < 256 ^ Z.of_nat n -> bswap n (bswap n v) = v.
Proof.
  intros Hv. unfold bswap at 1. rewrite le_encode_bswap, rev_involutive.
  now apply le_encode_small.
Qed.

(** Whatever the host, a value stored after the swap that the sources do
    under BIGENDIAN goes out least significant byte first. *)
Lemma store_swapped (B : bool) (n : nat) (v : Z) :
  store B n (if B then bswap n v else v) = le_encode n v.
Proof. unfold store. destruct B; [apply be_encode_bswap | reflexivity]. Qed.

(** An [int64_t] that holds a swapped value has the bytes of that value. *)
Lemma le_encode_to_int64 (v : Z) : le_encode 8 (to_int64 v) = le_encode 8 v.
Proof.
  rewrite <- (le_encode_mod 8 (to_int64 v)), <- (le_encode_mod 8 v). f_equal.
  unfold to_int64. change (256 ^ Z.of_nat 8) with (2 ^ 64).
  rewrite Zminus_mod, Z.mod_mod by lia. rewrite <- Zminus_mod.
  f_equal. lia.
Qed.

Lemma store64_to_int64 (B : bool) (v : Z) : store64 B (to_int64 v) = store64 B v.
Proof.
  unfold store64, store, be_encode. now destruct B; rewrite le_encode_to_int64.
Qed.

(** htonl, then the bytes of the result: most significant byte first. *)
Lemma store32_htonl (B : bool) (v : Z) :
  store32 B (htonl B v) = be_encode 4 v.
Proof.
  unfold store32, store, htonl, __bswap32, to_uint32. destruct B.
  - unfold be_encode. f_equal. apply (le_encode_mod 4).
  - rewrite le_encode_bswap. unfold be_encode. f_equal. apply (le_encode_mod 4).
Qed.

Lemma htonl_injective (B : bool) (a b : Z) :
  0 <= a < 2 ^ 32 -> 0 <= b < 2 ^ 32 -> htonl B a = htonl B b -> a = b.
Proof.
  intros Ha Hb. unfold htonl, to_uint32, __bswap32.
  rewrite !Z.mod_small by assumption. destruct B; [trivial|].
  intros Heq. rewrite <- (bswap_involutive 4 a), <- (bswap_involutive 4 b) by assumption.
  now rewrite Heq.
Qed.

Lemma htonl_bounds (B : bool) (v : Z) : 0 <= htonl B v < 2 ^ 32.
Proof.
  unfold htonl, to_uint32, __bswap32. destruct B.
  - apply Z.mod_pos_bound. lia.
  - apply (bswap_bounds 4).
Qed.

Lemma to_uint32_to_int32 (v : Z) : to_uint32 (to_int32 v) = to_uint32 v.
Proof.
  unfold to_uint32, to_int32.
  rewrite Zminus_mod, Z.mod_mod by lia. rewrite <- Zminus_mod. f_equal. lia.
Qed.

Lemma to_int32_small (v : Z) : - 2 ^ 31 <= v < 2 ^ 31 -> to_int32 v = v.
Proof. intros Hv. unfold to_int32. rewrite Z.mod_small; lia. Qed.

Lemma to_int16_small (v : Z) : - 2 ^ 15 <= v < 2 ^ 15 -> to_int16 v = v.
Proof. intros Hv. unfold to_int16. rewrite Z.mod_small; lia. Qed.

Lemma to_int32_to_uint32 (v : Z) : - 2 ^ 31 <= v < 2 ^ 31 -> to_int32 (to_uint32 v) = v.
Proof.
  intros Hv. unfold to_int32, to_uint32.
  rewrite Zplus_mod, Z.mod_mod by lia. rewrite <- Zplus_mod.
  rewrite Z.mod_small; lia.
Qed.

Lemma bytes_eqb_refl (bs : list Z) : bytes_eqb bs bs = true.
Proof. induction bs as [|b bs IH]; simpl; [reflexivity|]. now rewrite Z.eqb_refl. Qed.

Lemma write_at_0 (src dst : list Z) :
  write_at 0 src dst = src ++ skipn (length src) dst.
Proof. reflexivity. Qed.

Lemma write_at_length (pos : nat) (src dst : list Z) :
  (pos + length src <= length dst)%nat ->
  length (write_at pos src dst) = length dst.
Proof.
  intros Hle. unfold write_at.
  rewrite !length_app, length_firstn, length_skipn. lia.
Qed.

(** Writing [src] over the part of [a ++ b ++ c] that [b] takes. *)
Lemma write_at_app (a b c src : list Z) :
  length src = length b ->
  write_at (length a) src (a ++ b ++ c) = a ++ src ++ c.
Proof.
  intros Hlen. unfold write_at.
  rewrite firstn_app, firstn_all, Nat.sub_diag, firstn_O, app_nil_r.
  rewrite skipn_app, (skipn_all2 a) by lia. simpl.
  replace (length a + length src - length a)%nat with (length b) by lia.
  rewrite skipn_app, skipn_all, Nat.sub_diag. reflexivity.
Qed.

Lemma lastn_app {A : Type} (n : nat) (a b : list A) :
  length b = n -> lastn n (a ++ b) = b.
Proof.
  intros Hn. unfold lastn. rewrite length_app.
  replace (length a + length b - n)%nat with (length a) by lia.
  rewrite skipn_app, skipn_all, Nat.sub_diag. reflexivity.
Qed.

Lemma lastn_length {A : Type} (n : nat) (l : list A) :
  (n <= length l)%nat -> length (lastn n l) = n.
Proof. intros Hn. unfold lastn. rewrite length_skipn. lia. Qed.

Lemma geb_false (a b : Z) : a < b -> (a >=? b) = false.
Proof. intros Hlt. rewrite Z.geb_leb. apply Z.leb_gt. exact Hlt. Qed.

Lemma geb_true (a b : Z) : a >= b -> (a >=? b) = true.
Proof. intros Hge. rewrite Z.geb_leb. apply Z.leb_le. lia. Qed.

End BytesFacts.

(** ** The control stream *)

Module ControlStreamProofs.

Import ControlStream ControlStreamSpec BytesFacts.

(** *** Connection quality *)


Lemma window_closes_tests (now : Z) (g : Globals) :
  window_closes now g ->
  (to_uint64 (now - intervalStartTimeMs g) >=? CONN_STATUS_SAMPLE_PERIOD) = true /\
  (intervalTotalFrameCount g =? 0) = false.
Proof.
  intros [Hp Ht]. split; [apply geb_true; lia | now apply Z.eqb_neq].
Qed.

(** The status variables are written only when a sample period closes. *)
Lemma connectionSawFrame_quiet (P : Program) (now idx : Z) (g g' : Globals)
    (evs : list event) :
  ~ window_closes now g ->
  connectionSawFrame P now idx g = Ok (g', evs) ->
  evs = [] /\
  lastConnectionStatusUpdate g' = lastConnectionStatusUpdate g /\
  lastIntervalLossPercentage g' = lastIntervalLossPercentage g.
Proof.
  intros Hq. unfold connectionSawFrame, window_closes in *.
  destruct (LC_ASSERT _ _); try discriminate. cbn [bind].
  destruct (to_uint64 (now - intervalStartTimeMs g) >=? CONN_STATUS_SAMPLE_PERIOD) eqn:Hp.
  - destruct (intervalTotalFrameCount g =? 0) eqn:Ht.
    + cbn. intros [= <- <-]. now cbn.
    + exfalso. apply Hq. split; [rewrite Z.geb_leb in Hp; apply Z.leb_le in Hp; lia | now apply Z.eqb_neq].
  - cbn. intros [= <- <-]. now cbn.
Qed.

Lemma within_window_keeps (P : Program) (g g' : Globals) :
  within_window P g g' ->
  lastConnectionStatusUpdate g' = lastConnectionStatusUpdate g /\
  lastIntervalLossPercentage g' = lastIntervalLossPercentage g.
Proof.
  induction 1 as [g | g g' idx _ IH | g g' a b _ IH | g g' g'' now idx evs _ IH Hq Hs].
  - now split.
  - exact IH.
  - exact IH.
  - destruct (connectionSawFrame_quiet P now idx g' g'' evs Hq Hs) as (_ & -> & ->).
    exact IH.
Qed.

(** What a call that closes a sample period does, by the status and the
    loss rates. *)
Ltac close_window Ho Hw :=
  unfold connectionSawFrame; unfold in_order in Ho; rewrite Ho; cbn [bind];
  destruct (window_closes_tests _ _ Hw) as [-> ->]; cbn [negb].

Lemma saw_poor (P : Program) (now idx : Z) (g : Globals) :
  in_order P idx g -> window_closes now g ->
  lastConnectionStatusUpdate g = CONN_STATUS_OKAY ->
  frameLossPercent g >= CONN_IMMEDIATE_POOR_LOSS_RATE \/
  (frameLossPercent g >= CONN_CONSECUTIVE_POOR_LOSS_RATE /\
   lastIntervalLossPercentage g >= CONN_CONSECUTIVE_POOR_LOSS_RATE) ->
  exists g',
    connectionSawFrame P now idx g = Ok (g', [connectionStatusUpdate CONN_STATUS_POOR]) /\
    lastConnectionStatusUpdate g' = CONN_STATUS_POOR /\
    lastIntervalLossPercentage g' = frameLossPercent g.
Proof.
  intros Ho Hw Hs Hl. close_window Ho Hw. rewrite Hs. cbn [CONN_STATUS_eqb negb andb].
  replace ((frameLossPercent g >=? CONN_IMMEDIATE_POOR_LOSS_RATE)
           || (frameLossPercent g >=? CONN_CONSECUTIVE_POOR_LOSS_RATE)
              && (lastIntervalLossPercentage g >=? CONN_CONSECUTIVE_POOR_LOSS_RATE))
    with true.
  - eexists. split; [reflexivity|]. now cbn.
  - symmetry. apply orb_true_iff. destruct Hl as [Hl | [Hl Hl']].
    + left. apply geb_true. lia.
    + right. apply andb_true_iff. split; apply geb_true; lia.
Qed.

Lemma saw_okay (P : Program) (now idx : Z) (g : Globals) :
  in_order P idx g -> window_closes now g ->
  lastConnectionStatusUpdate g = CONN_STATUS_POOR ->
  frameLossPercent g <= CONN_OKAY_LOSS_RATE ->
  exists g',
    connectionSawFrame P now idx g = Ok (g', [connectionStatusUpdate CONN_STATUS_OKAY]) /\
    lastConnectionStatusUpdate g' = CONN_STATUS_OKAY.
Proof.
  intros Ho Hw Hs Hl. close_window Ho Hw. rewrite Hs. cbn [CONN_STATUS_eqb negb andb].
  replace (frameLossPercent g <=? CONN_OKAY_LOSS_RATE) with true
    by (symmetry; apply Z.leb_le; exact Hl).
  eexists. split; [reflexivity|]. now cbn.
Qed.

Lemma saw_nothing (P : Program) (now idx : Z) (g : Globals) :
  in_order P idx g -> window_closes now g ->
  (lastConnectionStatusUpdate g = CONN_STATUS_OKAY /\
   frameLossPercent g < CONN_IMMEDIATE_POOR_LOSS_RATE /\
   (frameLossPercent g < CONN_CONSECUTIVE_POOR_LOSS_RATE \/
    lastIntervalLossPercentage g < CONN_CONSECUTIVE_POOR_LOSS_RATE)) \/
  (lastConnectionStatusUpdate g = CONN_STATUS_POOR /\
   CONN_OKAY_LOSS_RATE < frameLossPercent g) ->
  exists g',
    connectionSawFrame P now idx g = Ok (g', []) /\
    lastConnectionStatusUpdate g' = lastConnectionStatusUpdate g /\
    lastIntervalLossPercentage g' = frameLossPercent g.
Proof.
  intros Ho Hw Hc. close_window Ho Hw.
  destruct Hc as [(Hs & Hi & Hl) | (Hs & Hl)]; rewrite Hs; cbn [CONN_STATUS_eqb negb andb].
  - replace (frameLossPercent g >=? CONN_IMMEDIATE_POOR_LOSS_RATE) with false
      by (symmetry; apply geb_false; lia).
    replace ((frameLossPercent g >=? CONN_CONSECUTIVE_POOR_LOSS_RATE)
             && (lastIntervalLossPercentage g >=? CONN_CONSECUTIVE_POOR_LOSS_RATE))
      with false.
    + rewrite andb_false_r. eexists. split; [reflexivity|]. now cbn; rewrite Hs.
    + symmetry. apply andb_false_iff.
      destruct Hl; [left | right]; apply geb_false; lia.
  - replace (frameLossPercent g <=? CONN_OKAY_LOSS_RATE) with false
      by (symmetry; apply Z.leb_gt; lia).
    eexists. split; [reflexivity|]. now cbn; rewrite Hs.
Qed.

(** C4. The connection quality monitor, at a call of connectionSawFrame
    that closes a 3000 ms sample period in which frames were seen:
    from OKAY, a loss rate of 30% or more emits POOR; from OKAY, a loss
    rate of 15 to 29% that follows a period below 15% emits nothing, and
    a second period in a row at 15 to 29% emits POOR; from POOR, a loss
    rate of 5% or less emits OKAY; a loss rate strictly between 5 and 15%
    emits nothing and leaves the status as it is. *)
Theorem connection_quality_hysteresis (P : Program) :
  (forall g now idx,
     in_order P idx g -> window_closes now g ->
     lastConnectionStatusUpdate g = CONN_STATUS_OKAY ->
     frameLossPercent g >= 30 ->
     exists g',
       connectionSawFrame P now idx g =
         Ok (g', [connectionStatusUpdate CONN_STATUS_POOR]) /\
       lastConnectionStatusUpdate g' = CONN_STATUS_POOR) /\
  (forall g now idx,
     in_order P idx g -> window_closes now g ->
     lastConnectionStatusUpdate g = CONN_STATUS_OKAY ->
     lastIntervalLossPercentage g < 15 ->
     15 <= frameLossPercent g <= 29 ->
     exists g',
       connectionSawFrame P now idx g = Ok (g', []) /\
       lastConnectionStatusUpdate g' = CONN_STATUS_OKAY) /\
  (forall g now idx g1 evs1 g2 now2 idx2,
     in_order P idx g -> window_closes now g ->
     lastConnectionStatusUpdate g = CONN_STATUS_OKAY ->
     lastIntervalLossPercentage g < 15 ->
     15 <= frameLossPercent g <= 29 ->
     connectionSawFrame P now idx g = Ok (g1, evs1) ->
     within_window P g1 g2 ->
     in_order P idx2 g2 -> window_closes now2 g2 ->
     15 <= frameLossPercent g2 <= 29 ->
     evs1 = [] /\
     exists g3,
       connectionSawFrame P now2 idx2 g2 =
         Ok (g3, [connectionStatusUpdate CONN_STATUS_POOR]) /\
       lastConnectionStatusUpdate g3 = CONN_STATUS_POOR) /\
  (forall g now idx,
     in_order P idx g -> window_closes now g ->
     lastConnectionStatusUpdate g = CONN_STATUS_POOR ->
     frameLossPercent g <= 5 ->
     exists g',
       connectionSawFrame P now idx g =
         Ok (g', [connectionStatusUpdate CONN_STATUS_OKAY]) /\
       lastConnectionStatusUpdate g' = CONN_STATUS_OKAY) /\
  (forall g now idx,
     in_order P idx g -> window_closes now g ->
     5 < frameLossPercent g < 15 ->
     exists g',
       connectionSawFrame P now idx g = Ok (g', []) /\
       lastConnectionStatusUpdate g' = lastConnectionStatusUpdate g).
Proof.
  split; [|split; [|split; [|split]]].
  - intros g now idx Ho Hw Hs Hl.
    destruct (saw_poor P now idx g Ho Hw Hs) as (g' & He & Hs' & _).
    + left. exact Hl.
    + now exists g'.
  - intros g now idx Ho Hw Hs Hp Hl.
    destruct (saw_nothing P now idx g Ho Hw) as (g' & He & Hs' & _).
    + left. unfold CONN_IMMEDIATE_POOR_LOSS_RATE, CONN_CONSECUTIVE_POOR_LOSS_RATE.
      repeat split; [exact Hs | lia | right; exact Hp].
    + exists g'. split; [exact He | congruence].
  - intros g now idx g1 evs1 g2 now2 idx2 Ho Hw Hs Hp Hl He Hww Ho2 Hw2 Hl2.
    destruct (saw_nothing P now idx g Ho Hw) as (g' & He' & Hs' & Hl').
    + left. unfold CONN_IMMEDIATE_POOR_LOSS_RATE, CONN_CONSECUTIVE_POOR_LOSS_RATE.
      repeat split; [exact Hs | lia | right; exact Hp].
    + rewrite He in He'. injection He' as <- ->. split; [reflexivity|].
      destruct (within_window_keeps P g1 g2 Hww) as [Hk1 Hk2].
      destruct (saw_poor P now2 idx2 g2 Ho2 Hw2) as (g3 & He3 & Hs3 & _).
      * congruence.
      * right. unfold CONN_CONSECUTIVE_POOR_LOSS_RATE. split; [lia|].
        rewrite Hk2, Hl'. lia.
      * now exists g3.
  - intros g now idx Ho Hw Hs Hl.
    exact (saw_okay P now idx g Ho Hw Hs Hl).
  - intros g now idx Ho Hw Hl.
    destruct (saw_nothing P now idx g Ho Hw) as (g' & He & Hs' & _).
    + unfold CONN_IMMEDIATE_POOR_LOSS_RATE, CONN_CONSECUTIVE_POOR_LOSS_RATE,
        CONN_OKAY_LOSS_RATE.
      destruct (lastConnectionStatusUpdate g); [left | right]; repeat split; lia.
    + now exists g'.
Qed.

(** The properties of C4 on periods of 100 frames of a Gen 7 session: 70
    complete frames from OKAY; 80 complete frames from OKAY after a period
    without loss, then a period of 10 frames with 8 complete; 96 complete
    frames from POOR; 90 complete frames from either status. *)
Lemma connection_quality_hysteresis_witness :
  (exists g',
     connectionSawFrame Example.gen7 3000 100
       (Example.period CONN_STATUS_OKAY 0 70 100) =
       Ok (g', [connectionStatusUpdate CONN_STATUS_POOR]) /\
     lastConnectionStatusUpdate g' = CONN_STATUS_POOR) /\
  (exists g',
     connectionSawFrame Example.gen7 3000 100
       (Example.period CONN_STATUS_OKAY 0 80 100) = Ok (g', []) /\
     lastConnectionStatusUpdate g' = CONN_STATUS_OKAY) /\
  (connectionSawFrame Example.gen7 3000 110
     (Example.period CONN_STATUS_OKAY 0 80 100) = Ok (Example.second_period, []) /\
   exists g3,
     connectionSawFrame Example.gen7 6000 120
       (Example.complete_frames 8 Example.second_period) =
       Ok (g3, [connectionStatusUpdate CONN_STATUS_POOR]) /\
     lastConnectionStatusUpdate g3 = CONN_STATUS_POOR) /\
  (exists g',
     connectionSawFrame Example.gen7 3000 100
       (Example.period CONN_STATUS_POOR 40 96 100) =
       Ok (g', [connectionStatusUpdate CONN_STATUS_OKAY]) /\
     lastConnectionStatusUpdate g' = CONN_STATUS_OKAY) /\
  (exists g',
     connectionSawFrame Example.gen7 3000 100
       (Example.period CONN_STATUS_POOR 40 90 100) = Ok (g', []) /\
     lastConnectionStatusUpdate g' = CONN_STATUS_POOR).
Proof.
  destruct (connection_quality_hysteresis Example.gen7) as (H30 & H15 & H2 & H5 & Hband).
  assert (forall st prev good,
            window_closes 3000 (Example.period st prev good 100)) as Hw
    by (intros; split; [vm_compute; discriminate | discriminate]).
  split; [|split; [|split; [|split]]].
  - apply H30; [reflexivity | apply Hw | reflexivity | vm_compute; discriminate].
  - apply H15; [reflexivity | apply Hw | reflexivity | reflexivity |].
    split; vm_compute; discriminate.
  - split; [vm_compute; reflexivity|].
    apply (H2 (Example.period CONN_STATUS_OKAY 0 80 100) 3000 110
              Example.second_period [] (Example.complete_frames 8 Example.second_period)
              6000 120).
    + reflexivity.
    + apply Hw.
    + reflexivity.
    + reflexivity.
    + split; vm_compute; discriminate.
    + vm_compute; reflexivity.
    + do 8 apply within_complete. apply within_refl.
    + vm_compute; reflexivity.
    + split; vm_compute; discriminate.
    + split; vm_compute; discriminate.
  - apply H5; [reflexivity | apply Hw | reflexivity | vm_compute; discriminate].
  - apply Hband; [reflexivity | apply Hw |].
    split; vm_compute; reflexivity.
Defined.

(** *** Termination messages *)

Lemma firstn_bytes (n : nat) (bs : list Z) :
  Forall is_byte bs -> Forall is_byte (firstn n bs).
Proof.
  intros Hbs. revert n. induction Hbs as [|b bs Hb _ IH]; intros [|n]; simpl;
    constructor; [exact Hb | apply IH].
Qed.

Lemma skipn_bytes (n : nat) (bs : list Z) :
  Forall is_byte bs -> Forall is_byte (skipn n bs).
Proof.
  intros Hbs. revert n. induction Hbs as [|b bs Hb Hbs IH]; intros [|n]; simpl;
    [constructor | constructor | now constructor | apply IH].
Qed.

Lemma legacy_reason_is_int (bs : list Z) :
  Forall is_byte bs -> to_int32 (le_decode (firstn 2 bs)) = le_decode (firstn 2 bs).
Proof.
  intros Hbs. apply to_int32_small.
  pose proof (le_decode_bounds (firstn 2 bs) (firstn_bytes 2 bs Hbs)) as Hb.
  assert (256 ^ Z.of_nat (length (firstn 2 bs)) <= 2 ^ 16) as Hp.
  { change (2 ^ 16) with (256 ^ 2). apply Z.pow_le_mono_r; [lia|].
    rewrite length_firstn. lia. }
  lia.
Qed.

(** C2, amended. When the receive worker dispatches a Termination message
    whose payload has two bytes or more: if the packet, with its two
    bytes of type, has 6 bytes or more (a payload of 4 bytes or more) the
    code is read as a big-endian u32 HRESULT, otherwise as a
    little-endian u16 legacy reason; HRESULT 0x80030023 and legacy reason
    0x0100 map to GRACEFUL_TERMINATION when a frame was seen
    (lastSeenFrame nonzero) and to UNEXPECTED_EARLY_TERMINATION otherwise,
    HRESULT 0x800e9302 maps to PROTECTED_CONTENT, and every other value
    is passed to connectionTerminated as it is (an HRESULT as the [int]
    with the same 32 bits); the worker then returns. [ctlHdr] is the
    buffer of the packet, of [packetLength] bytes or more. *)
Theorem termination_dispatch (P : Program) (s : Indeterminate) (g : Globals)
    (ctlHdr_type : Z) (ctlHdr : list Z) (packetLength : Z) :
  error_codes_are_ints P ->
  Forall is_byte ctlHdr ->
  4 <= packetLength <= Z.of_nat (length ctlHdr) ->
  ctlHdr_type <> nth IDX_RUMBLE_DATA (packetTypes g) 0 ->
  ctlHdr_type = nth IDX_TERMINATION (packetTypes g) 0 ->
  controlReceiveThreadFunc_dispatch P s ctlHdr_type ctlHdr packetLength g =
  (true,
   [connectionTerminated
      (termination_error P 4 (lastSeenFrame g)
         (firstn (Z.to_nat (packetLength - 2)) (skipn 2 ctlHdr)))]).
Proof.
  intros (Hg & He & Hp) Hbytes Hlen Hrumble Hterm.
  unfold controlReceiveThreadFunc_dispatch, termination_error.
  apply Z.eqb_neq in Hrumble. rewrite Hrumble.
  rewrite <- Hterm, Z.eqb_refl.
  rewrite length_firstn, length_skipn.
  replace (Z.of_nat (Nat.min (Z.to_nat (packetLength - 2)) (length ctlHdr - 2)) >=? 4)
    with (packetLength >=? 6)
    by (rewrite !Z.geb_leb; apply eq_true_iff_eq; rewrite !Z.leb_le; lia).
  unfold BbGet_into, BbGet32, BbGet16, BbGet, BbInitializeWrappedBuffer.
  cbn [bb_position bb_length bb_buffer bb_byteOrder decode].
  change (Z.to_nat 2) with 2%nat. change (Z.to_nat 0) with 0%nat.
  set (payload := skipn 2 ctlHdr).
  assert (Forall is_byte payload) as Hpayload by apply skipn_bytes, Hbytes.
  change (skipn 0 payload) with payload.
  rewrite !firstn_firstn.
  destruct (packetLength >=? 6) eqn:Hsix.
  - rewrite Z.geb_leb in Hsix. apply Z.leb_le in Hsix.
    replace (0 + Z.of_nat 4 >? packetLength - 2) with false
      by (symmetry; rewrite Z.gtb_ltb; apply Z.ltb_ge; lia).
    replace (Nat.min 4 (Z.to_nat (packetLength - 2))) with 4%nat by lia.
    destruct (be_decode (firstn 4 payload) =? 0x80030023).
    + destruct (lastSeenFrame g =? 0); cbn [negb];
        now rewrite to_int32_to_uint32.
    + destruct (be_decode (firstn 4 payload) =? 0x800e9302);
        [now rewrite to_int32_to_uint32 | reflexivity].
  - replace (0 + Z.of_nat 2 >? packetLength - 2) with false
      by (symmetry; rewrite Z.gtb_ltb; apply Z.ltb_ge; lia).
    replace (Nat.min 2 (Z.to_nat (packetLength - 2))) with 2%nat by lia.
    destruct (le_decode (firstn 2 payload) =? 0x0100).
    + destruct (lastSeenFrame g =? 0); cbn [negb];
        now rewrite to_int32_to_uint32.
    + now rewrite legacy_reason_is_int.
Qed.

(** The theorem of C2 on a 6-byte termination packet of an encrypted
    Gen 7 session that has seen frames, in the 8 bytes of the buffer it
    was decrypted into. *)
Lemma termination_dispatch_witness :
  controlReceiveThreadFunc_dispatch Example.gen7enc Example.indeterminate 0x0109
    [0x09; 0x01; 0x80; 0x03; 0x00; 0x23; 0x00; 0x23] 6
    (set_lastSeenFrame 5 (initializeControlStream Example.gen7enc)) =
  (true,
   [connectionTerminated
      (termination_error Example.gen7enc 4 5
         (firstn (Z.to_nat (6 - 2))
            (skipn 2 [0x09; 0x01; 0x80; 0x03; 0x00; 0x23; 0x00; 0x23])))]).
Proof.
  apply (termination_dispatch Example.gen7enc Example.indeterminate
           (set_lastSeenFrame 5 (initializeControlStream Example.gen7enc))
           0x0109 [0x09; 0x01; 0x80; 0x03; 0x00; 0x23; 0x00; 0x23] 6).
  - unfold error_codes_are_ints. cbn. lia.
  - repeat constructor; unfold is_byte; lia.
  - cbn. lia.
  - vm_compute. discriminate.
  - reflexivity.
Defined.

(** C2 as stated fails on a termination message with a 4-byte payload,
    here as a Gen 7 session that has seen frames receives it: the packet
    has 6 bytes, so the code reads the HRESULT 0x80030023 and reports a
    graceful termination (0), where the claim, for a payload shorter than
    6 bytes, reads the legacy reason 0x0380 and passes it on. *)
Lemma termination_dispatch_counterexample :
  controlReceiveThreadFunc_event Example.gen7 Example.evp_ok true
    Example.indeterminate
    (ENET_EVENT_TYPE_RECEIVE [0x00; 0x01; 0x80; 0x03; 0x00; 0x23])
    (set_lastSeenFrame 5 (initializeControlStream Example.gen7)) =
  Ok (true, [connectionTerminated 0]) /\
  termination_error Example.gen7 6 5 [0x80; 0x03; 0x00; 0x23] = 0x0380.
Proof. split; vm_compute; reflexivity. Qed.

(** *** Sending a message *)

Lemma transport_only_messages (evs : list event) :
  transport_only evs -> messages evs = [] /\ freed evs = [].
Proof.
  induction 1 as [|ev evs Hev _ [IHm IHf]]; [now split|].
  destruct ev; try contradiction; cbn; now rewrite ?IHm, ?IHf.
Qed.

Lemma set_currentEnetSequenceNumber_same (g : Globals) :
  set_currentEnetSequenceNumber (currentEnetSequenceNumber g) g = g.
Proof. now destruct g. Qed.

(** sendMessageEnet returns, having written no variable but the sequence
    number, and having done nothing but hand a packet to ENet. *)
Lemma sendMessageEnet_returns (P : Program) (e : SendEnv) (ptype paylen : Z)
    (payload : list Z) (g : Globals) :
  enet_asserts P paylen g ->
  exists ret n evs,
    sendMessageEnet P e ptype paylen payload g =
      Ok (ret, set_currentEnetSequenceNumber n g, evs) /\
    transport_only evs.
Proof.
  intros Ha. unfold sendMessageEnet, LC_ASSERT, enet_asserts in *.
  destruct (LC_DEBUG P) eqn:Hd; cbn [andb].
  - destruct (Ha eq_refl) as [Hv Hlen].
    replace (nth 0 (AppVersionQuad P) 0 >=? 5) with true
      by (symmetry; apply geb_true; lia).
    cbn [negb bind].
    destruct (encryptedControlStream g) eqn:He.
    + destruct (enet_packet_create_ok e); cbn [negb bind].
      * replace (4 + paylen <? 256) with true
          by (symmetry; apply Z.ltb_lt; auto).
        cbn [negb bind].
        destruct (encryptControlMessage _ _ _ _ _ _) as [[|] encData];
          cbn [negb bind].
        -- destruct (enet_peer_send_result e <? 0);
             do 3 eexists; (split; [reflexivity|]); repeat constructor.
        -- do 3 eexists. split; [reflexivity|]. constructor.
      * exists false, (currentEnetSequenceNumber g), [].
        rewrite set_currentEnetSequenceNumber_same. split; [reflexivity|constructor].
    + destruct (enet_packet_create_ok e); cbn [negb bind].
      * destruct (enet_peer_send_result e <? 0);
          eexists _, (currentEnetSequenceNumber g), _;
          rewrite set_currentEnetSequenceNumber_same;
          (split; [reflexivity|]); repeat constructor.
      * exists false, (currentEnetSequenceNumber g), [].
        rewrite set_currentEnetSequenceNumber_same. split; [reflexivity|constructor].
  - cbn [bind].
    destruct (encryptedControlStream g) eqn:He.
    + destruct (enet_packet_create_ok e); cbn [negb bind].
      * destruct (encryptControlMessage _ _ _ _ _ _) as [[|] encData];
          cbn [negb bind].
        -- destruct (enet_peer_send_result e <? 0);
             do 3 eexists; (split; [reflexivity|]); repeat constructor.
        -- do 3 eexists. split; [reflexivity|]. constructor.
      * exists false, (currentEnetSequenceNumber g), [].
        rewrite set_currentEnetSequenceNumber_same. split; [reflexivity|constructor].
    + destruct (enet_packet_create_ok e); cbn [negb bind].
      * destruct (enet_peer_send_result e <? 0);
          eexists _, (currentEnetSequenceNumber g), _;
          rewrite set_currentEnetSequenceNumber_same;
          (split; [reflexivity|]); repeat constructor.
      * exists false, (currentEnetSequenceNumber g), [].
        rewrite set_currentEnetSequenceNumber_same. split; [reflexivity|constructor].
Qed.

Lemma sendMessageTcp_returns (P : Program) (e : SendEnv) (ptype paylen : Z)
    (payload : list Z) :
  nth 0 (AppVersionQuad P) 0 < 5 ->
  exists ret evs,
    sendMessageTcp P e ptype paylen payload = Ok (ret, evs) /\ transport_only evs.
Proof.
  intros Hv. unfold sendMessageTcp, LC_ASSERT.
  replace (nth 0 (AppVersionQuad P) 0 <? 5) with true
    by (symmetry; apply Z.ltb_lt; exact Hv).
  rewrite andb_false_r. cbn [bind].
  destruct (malloc_ok e); cbn [negb].
  - destruct (send_result e =? 4 + paylen); cbn [negb];
      do 2 eexists; (split; [reflexivity|]); repeat constructor.
  - do 2 eexists. split; [reflexivity|]. constructor.
Qed.

(** A call of sendMessageAndDiscardReply returns, with the message it was
    given as the one message of its events. *)
Lemma sendMessageAndDiscardReply_returns (P : Program) (e : SendEnv)
    (ptype paylen : Z) (payload : list Z) (g : Globals) :
  send_asserts P (to_int16 paylen) g ->
  exists ret n evs,
    sendMessageAndDiscardReply P e ptype paylen payload g =
      Ok (ret, set_currentEnetSequenceNumber n g,
          SendMessage (to_int16 ptype) (to_int16 paylen)
            (firstn (Z.to_nat (to_int16 paylen)) payload) :: evs) /\
    transport_only evs.
Proof.
  intros Ha. unfold sendMessageAndDiscardReply.
  destruct (nth 0 (AppVersionQuad P) 0 >=? 5) eqn:Hv.
  - rewrite Z.geb_leb in Hv. apply Z.leb_le in Hv.
    destruct (sendMessageEnet_returns P e (to_int16 ptype) (to_int16 paylen) payload g)
      as (ret & n & evs & -> & Ht).
    { intros Hd. split; [exact Hv | exact (Ha Hd)]. }
    cbn [bind]. now exists ret, n, evs.
  - rewrite Z.geb_leb in Hv. apply Z.leb_gt in Hv.
    destruct (sendMessageTcp_returns P e (to_int16 ptype) (to_int16 paylen) payload Hv)
      as (ret & evs & -> & Ht).
    cbn [bind]. destruct ret; cbn [negb].
    + destruct (readNvctlPacketTcp e);
        eexists _, (currentEnetSequenceNumber g), evs;
        rewrite set_currentEnetSequenceNumber_same; now split.
    + exists false, (currentEnetSequenceNumber g), evs.
      rewrite set_currentEnetSequenceNumber_same. now split.
Qed.

Lemma sendMessageAndForget_returns (P : Program) (e : SendEnv)
    (ptype paylen : Z) (payload : list Z) (g : Globals) :
  send_asserts P (to_int16 paylen) g ->
  exists ret n evs,
    sendMessageAndForget P e ptype paylen payload g =
      Ok (ret, set_currentEnetSequenceNumber n g,
          SendMessage (to_int16 ptype) (to_int16 paylen)
            (firstn (Z.to_nat (to_int16 paylen)) payload) :: evs) /\
    transport_only evs.
Proof.
  intros Ha. unfold sendMessageAndForget.
  destruct (nth 0 (AppVersionQuad P) 0 >=? 5) eqn:Hv.
  - rewrite Z.geb_leb in Hv. apply Z.leb_le in Hv.
    destruct (sendMessageEnet_returns P e (to_int16 ptype) (to_int16 paylen) payload g)
      as (ret & n & evs & -> & Ht).
    { intros Hd. split; [exact Hv | exact (Ha Hd)]. }
    cbn [bind]. now exists ret, n, evs.
  - rewrite Z.geb_leb in Hv. apply Z.leb_gt in Hv.
    destruct (sendMessageTcp_returns P e (to_int16 ptype) (to_int16 paylen) payload Hv)
      as (ret & evs & -> & Ht).
    cbn [bind]. exists ret, (currentEnetSequenceNumber g), evs.
    rewrite set_currentEnetSequenceNumber_same. now split.
Qed.

(** *** Messages on the wire *)

Lemma le_encode_to_uint16 (v : Z) : le_encode 2 (to_uint16 v) = le_encode 2 v.
Proof. exact (le_encode_mod 2 v). Qed.

Lemma le_encode_to_uint32 (v : Z) : le_encode 4 (to_uint32 v) = le_encode 4 v.
Proof. exact (le_encode_mod 4 v). Qed.

Lemma encrypted_header_bytes (P : Program) (len s : Z) :
  bytes_of_ENCRYPTED P
    (if BIGENDIAN P
     then {| encryptedHeaderType := __bswap16 0x0001;
             enc_length := __bswap16 (to_uint16 len);
             seq := __bswap32 (to_uint32 s) |}
     else {| encryptedHeaderType := 0x0001;
             enc_length := to_uint16 len;
             seq := to_uint32 s |}) =
  encrypted_header len s.
Proof.
  unfold bytes_of_ENCRYPTED, encrypted_header, store16, store32, store,
    __bswap16, __bswap32.
  destruct (BIGENDIAN P); cbn [encryptedHeaderType enc_length seq];
    rewrite ?be_encode_bswap, le_encode_to_uint16, le_encode_to_uint32; reflexivity.
Qed.

Lemma le_encode_to_int16 (v : Z) : le_encode 2 (to_int16 v) = le_encode 2 v.
Proof.
  rewrite <- (le_encode_mod 2 (to_int16 v)), <- (le_encode_mod 2 v). f_equal.
  unfold to_int16. change (256 ^ Z.of_nat 2) with (2 ^ 16).
  rewrite Zminus_mod, Z.mod_mod by lia. rewrite <- Zminus_mod.
  f_equal. lia.
Qed.

Lemma iv_of_seq_to_uint32 (s : Z) : iv_of_seq (to_uint32 s) = iv_of_seq s.
Proof.
  unfold iv_of_seq, to_uint8, to_uint32. f_equal.
  apply Z.mod_mod_divide. exists (2 ^ 24). reflexivity.
Qed.

Lemma V2_message_length (ptype : Z) (payload : list Z) :
  length (V2_message ptype payload) = (4 + length payload)%nat.
Proof. unfold V2_message. rewrite !length_app, !le_encode_length. lia. Qed.

(** The plaintext that encryptControlMessage encrypts on either host. *)
Lemma V2_bytes (P : Program) (ptype : Z) (payload : list Z) :
  bytes_of_V2 P
    (if BIGENDIAN P
     then {| v2_type := __bswap16 (to_uint16 ptype);
             v2_payloadLength := __bswap16 (to_uint16 (Z.of_nat (length payload))) |}
     else {| v2_type := to_uint16 ptype;
             v2_payloadLength := to_uint16 (Z.of_nat (length payload)) |}) ++
  payload = V2_message ptype payload.
Proof.
  unfold bytes_of_V2, V2_message, store16, store, __bswap16.
  destruct (BIGENDIAN P); cbn [v2_type v2_payloadLength];
    rewrite ?be_encode_bswap, !le_encode_to_uint16, <- app_assoc; reflexivity.
Qed.

(** With every step succeeding, encryptControlMessage leaves the tag and
    the ciphertext of the message after the header, on either host. *)
Lemma encryptControlMessage_message (P : Program) (r : EVP_RESULTS)
    (encPacket : NVCTL_ENCRYPTED_PACKET_HEADER) (encData0 : list Z)
    (ptype : Z) (payload : list Z) :
  gcm P -> evp_succeeds r ->
  Z.of_nat (length payload) < 2 ^ 16 ->
  length encData0 = (16 + (4 + length payload))%nat ->
  let iv := iv_of_seq (seq encPacket) in
  let ciphertext :=
    aes_128_gcm_ctr P (remoteInputAesKey P) iv (V2_message ptype payload) in
  encryptControlMessage P r encPacket encData0
    {| v2_type := to_uint16 ptype;
       v2_payloadLength := to_uint16 (Z.of_nat (length payload)) |} payload =
  (true, aes_128_gcm_tag P (remoteInputAesKey P) iv ciphertext ++ ciphertext).
Proof.
  intros (Hinv & Hlen & Htag) (H1 & H2 & H3 & H4 & H5 & H6) Hsmall Hroom iv ciphertext.
  unfold encryptControlMessage. rewrite H1, H2, H3, H4, H5, H6.
  cbn [Z.eqb Pos.eqb negb v2_payloadLength v2_type].
  assert (to_uint16 (Z.of_nat (length payload)) = Z.of_nat (length payload)) as Hl
    by (unfold to_uint16; apply Z.mod_small; lia).
  pose proof (V2_bytes P ptype payload) as Hbytes.
  assert (firstn (Z.to_nat (4 + to_uint16 (Z.of_nat (length payload))))
            (bytes_of_V2 P
               (if BIGENDIAN P
                then {| v2_type := __bswap16 (to_uint16 ptype);
                        v2_payloadLength :=
                          __bswap16 (to_uint16 (Z.of_nat (length payload))) |}
                else {| v2_type := to_uint16 ptype;
                        v2_payloadLength := to_uint16 (Z.of_nat (length payload)) |}) ++
             payload) = V2_message ptype payload) as ->.
  { rewrite Hbytes. apply firstn_all2. rewrite V2_message_length, Hl. lia. }
  fold iv. fold ciphertext.
  f_equal. change (Z.to_nat AES_GCM_TAG_LENGTH) with 16%nat.
  assert (length ciphertext = (4 + length payload)%nat) as Hc
    by (unfold ciphertext; now rewrite Hlen, V2_message_length).
  rewrite <- (firstn_skipn 16 encData0) at 1.
  assert (length (firstn 16 encData0) = 16%nat) as Ha
    by (rewrite length_firstn; lia).
  rewrite <- Ha at 1.
  rewrite <- (app_nil_r (skipn 16 encData0)).
  rewrite write_at_app
    by (unfold ciphertext; rewrite Hlen, V2_message_length, length_skipn; lia).
  rewrite app_nil_r.
  change (write_at 0) with (write_at (length (@nil Z))).
  rewrite <- (app_nil_l (firstn 16 encData0 ++ ciphertext)).
  rewrite write_at_app by (rewrite Htag; lia).
  reflexivity.
Qed.

Lemma after_send_encrypted (P : Program) (g : Globals) :
  encryptedControlStream (after_send P g) = encryptedControlStream g.
Proof. unfold after_send. now destruct (_ && _). Qed.

Lemma transport_ready_after (P : Program) (e : SendEnv) (g : Globals) (paylen : Z) :
  transport_ready P e g paylen -> transport_ready P e (after_send P g) paylen.
Proof. unfold transport_ready. now rewrite after_send_encrypted. Qed.

(** sendMessageEnet with a transport that can take the message. *)
Lemma sendMessageEnet_sends (P : Program) (e : SendEnv) (ptype : Z)
    (payload : list Z) (g : Globals) :
  let paylen := Z.of_nat (length payload) in
  5 <= nth 0 (AppVersionQuad P) 0 ->
  transport_ready P e g paylen ->
  (encryptedControlStream g = true -> paylen < 252) ->
  sendMessageEnet P e ptype paylen payload g =
    Ok (accepted P e paylen, after_send P g, transport P e g ptype payload).
Proof.
  cbv zeta. intros Hv Hready Hsmall.
  unfold transport_ready in Hready. unfold accepted, after_send, transport, frame.
  rewrite (proj2 (Z.ltb_ge _ _)) in * by lia.
  rewrite (geb_true _ 5) by lia. cbn [andb].
  destruct Hready as [Hcreate Henc].
  unfold sendMessageEnet, LC_ASSERT.
  rewrite (geb_true _ 5) by lia. rewrite andb_false_r. cbn [bind].
  rewrite Hcreate. cbn [negb].
  assert (firstn (Z.to_nat (Z.of_nat (length payload))) payload = payload) as Hall
    by (apply firstn_all2; lia).
  destruct (encryptedControlStream g) eqn:He.
  - destruct (Henc eq_refl) as (Hgcm & Hevp & Hroom). specialize (Hsmall eq_refl).
    rewrite (proj2 (Z.ltb_lt _ _)) by lia. rewrite andb_false_r. cbn [bind].
    cbn [encryptedHeaderType enc_length seq]. unfold AES_GCM_TAG_LENGTH.
    set (encPacket := if BIGENDIAN P then _ else _).
    assert (bytes_of_ENCRYPTED P encPacket =
            encrypted_header (4 + 16 + 4 + (Z.of_nat (length payload))) (currentEnetSequenceNumber g))
      as Hheader by apply encrypted_header_bytes.
    assert (iv_of_seq (seq encPacket) = sent_iv P (currentEnetSequenceNumber g)) as Hiv.
    { unfold encPacket, sent_iv. destruct (BIGENDIAN P); cbn [seq];
        [reflexivity | apply iv_of_seq_to_uint32]. }
    rewrite Hall.
    rewrite (encryptControlMessage_message P (evp e) encPacket
               (skipn 8 (enet_packet_data e)) ptype payload Hgcm Hevp)
      by (rewrite ?length_skipn; lia).
    cbn [negb]. rewrite Hheader, Hiv.
    unfold encrypted_message. rewrite V2_message_length.
    replace (20 + Z.of_nat (4 + length payload)) with (4 + 16 + 4 + (Z.of_nat (length payload)))
      by (lia).
    now destruct (enet_peer_send_result e <? 0).
  - cbn [bind v1_type]. rewrite Hall.
    assert (store16 (BIGENDIAN P)
              (if BIGENDIAN P then __bswap16 (to_uint16 ptype) else to_uint16 ptype) =
            le_encode 2 ptype) as ->
      by (unfold store16, __bswap16; now rewrite store_swapped, le_encode_to_uint16).
    now destruct (enet_peer_send_result e <? 0).
Qed.

(** sendMessageTcp with a buffer for the message. *)
Lemma sendMessageTcp_sends (P : Program) (e : SendEnv) (ptype : Z)
    (payload : list Z) (g : Globals) :
  let paylen := Z.of_nat (length payload) in
  nth 0 (AppVersionQuad P) 0 < 5 ->
  transport_ready P e g paylen ->
  paylen < 2 ^ 16 ->
  sendMessageTcp P e ptype paylen payload =
    Ok (accepted P e paylen, transport P e g ptype payload).
Proof.
  cbv zeta. intros Hv Hready Hsmall.
  unfold transport_ready in Hready. unfold accepted, transport, frame.
  rewrite (proj2 (Z.ltb_lt _ _) Hv) in *.
  unfold sendMessageTcp, LC_ASSERT.
  rewrite (proj2 (Z.ltb_lt _ _) Hv), andb_false_r. cbn [bind].
  rewrite Hready. cbn [negb].
  assert (firstn (Z.to_nat (Z.of_nat (length payload))) payload = payload) as ->
    by (apply firstn_all2; lia).
  assert (store16 (BIGENDIAN P)
            (tcp_type (if BIGENDIAN P
                       then {| tcp_type := __bswap16 (to_uint16 ptype);
                               tcp_payloadLength := __bswap16 (to_uint16 (Z.of_nat (length payload))) |}
                       else {| tcp_type := to_uint16 ptype;
                               tcp_payloadLength := to_uint16 (Z.of_nat (length payload)) |})) ++
          store16 (BIGENDIAN P)
            (tcp_payloadLength
               (if BIGENDIAN P
                then {| tcp_type := __bswap16 (to_uint16 ptype);
                        tcp_payloadLength := __bswap16 (to_uint16 (Z.of_nat (length payload))) |}
                else {| tcp_type := to_uint16 ptype;
                        tcp_payloadLength := to_uint16 (Z.of_nat (length payload)) |})) ++
          payload = V2_message ptype payload) as ->.
  { unfold V2_message, store16, store, __bswap16.
    destruct (BIGENDIAN P); cbn [tcp_type tcp_payloadLength];
      rewrite ?be_encode_bswap, !le_encode_to_uint16; reflexivity. }
  now destruct (send_result e =? 4 + (Z.of_nat (length payload))).
Qed.

(** The two functions that send a message, with a transport that can
    take it: the call, what the transport does with the message, and
    what it reports. *)
Lemma sendMessageAndForget_sends (P : Program) (e : SendEnv) (ptype : Z)
    (payload : list Z) (g : Globals) :
  let paylen := Z.of_nat (length payload) in
  transport_ready P e g paylen ->
  paylen < 2 ^ 15 ->
  (5 <= nth 0 (AppVersionQuad P) 0 -> encryptedControlStream g = true -> paylen < 252) ->
  sendMessageAndForget P e ptype paylen payload g =
    Ok (accepted P e paylen, after_send P g,
        SendMessage (to_int16 ptype) paylen payload :: transport P e g ptype payload).
Proof.
  cbv zeta. intros Hready Hsmall Henc.
  unfold sendMessageAndForget.
  rewrite (to_int16_small (Z.of_nat (length payload))) by (lia).
  assert (firstn (Z.to_nat (Z.of_nat (length payload))) payload = payload) as ->
    by (apply firstn_all2; lia).
  assert (transport P e g (to_int16 ptype) payload = transport P e g ptype payload) as Ht
    by (unfold transport, frame, encrypted_message, V2_message;
        now rewrite le_encode_to_int16).
  destruct (nth 0 (AppVersionQuad P) 0 >=? 5) eqn:Hv.
  - rewrite Z.geb_leb in Hv. apply Z.leb_le in Hv.
    rewrite (sendMessageEnet_sends P e (to_int16 ptype) payload g Hv Hready (Henc Hv)).
    cbn [bind]. now rewrite Ht.
  - rewrite Z.geb_leb in Hv. apply Z.leb_gt in Hv.
    rewrite (sendMessageTcp_sends P e (to_int16 ptype) payload g Hv Hready)
      by lia.
    cbn [bind]. rewrite Ht. unfold after_send.
    now rewrite (geb_false _ 5) by lia.
Qed.

Lemma sendMessageAndDiscardReply_sends (P : Program) (e : SendEnv) (ptype : Z)
    (payload : list Z) (g : Globals) :
  let paylen := Z.of_nat (length payload) in
  transport_ready P e g paylen ->
  paylen < 2 ^ 15 ->
  (5 <= nth 0 (AppVersionQuad P) 0 -> encryptedControlStream g = true -> paylen < 252) ->
  exists ret,
    sendMessageAndDiscardReply P e ptype paylen payload g =
      Ok (ret, after_send P g,
          SendMessage (to_int16 ptype) paylen payload :: transport P e g ptype payload) /\
    (ret = true -> accepted P e paylen = true).
Proof.
  cbv zeta. intros Hready Hsmall Henc.
  unfold sendMessageAndDiscardReply.
  rewrite (to_int16_small (Z.of_nat (length payload))) by (lia).
  assert (firstn (Z.to_nat (Z.of_nat (length payload))) payload = payload) as ->
    by (apply firstn_all2; lia).
  assert (transport P e g (to_int16 ptype) payload = transport P e g ptype payload) as Ht
    by (unfold transport, frame, encrypted_message, V2_message;
        now rewrite le_encode_to_int16).
  destruct (nth 0 (AppVersionQuad P) 0 >=? 5) eqn:Hv.
  - rewrite Z.geb_leb in Hv. apply Z.leb_le in Hv.
    rewrite (sendMessageEnet_sends P e (to_int16 ptype) payload g Hv Hready (Henc Hv)).
    cbn [bind]. rewrite Ht. now eexists.
  - rewrite Z.geb_leb in Hv. apply Z.leb_gt in Hv.
    rewrite (sendMessageTcp_sends P e (to_int16 ptype) payload g Hv Hready)
      by lia.
    cbn [bind]. rewrite Ht. unfold after_send.
    rewrite (geb_false _ 5) by lia. cbn [andb].
    destruct (accepted P e (Z.of_nat (length payload))); cbn [negb].
    + destruct (readNvctlPacketTcp e); eexists; (split; [reflexivity|]); auto.
    + eexists. split; [reflexivity | discriminate].
Qed.

(** What is on the wire after a message was handed to the transport. *)
Lemma wire_transport (P : Program) (e : SendEnv) (g : Globals) (ptype : Z)
    (payload : list Z) :
  wire (transport P e g ptype payload) = [frame P g ptype payload].
Proof.
  unfold transport.
  destruct (nth 0 (AppVersionQuad P) 0 <? 5); [reflexivity|].
  now destruct (enet_peer_send_result e <? 0).
Qed.

Lemma transport_is_transport_only (P : Program) (e : SendEnv) (g : Globals)
    (ptype : Z) (payload : list Z) :
  transport_only (transport P e g ptype payload).
Proof.
  unfold transport, transport_only.
  destruct (nth 0 (AppVersionQuad P) 0 <? 5); [repeat constructor|].
  destruct (enet_peer_send_result e <? 0); repeat constructor.
Qed.

Lemma wire_app (a b : list event) : wire (a ++ b) = wire a ++ wire b.
Proof. apply flat_map_app. Qed.

(** A call that returned, read back: with a transport that could take
    the message, what went on the wire is the frame of the message. *)
Lemma sendMessageAndDiscardReply_wire (P : Program) (e : SendEnv)
    (ptype paylen : Z) (payload : list Z) (g g' : Globals) (ret : bool)
    (evs : list event) :
  sendMessageAndDiscardReply P e ptype paylen payload g = Ok (ret, g', evs) ->
  paylen = Z.of_nat (length payload) ->
  paylen < 252 ->
  transport_ready P e g paylen ->
  wire evs = [frame P g ptype payload] /\
  g' = after_send P g /\
  (ret = true -> accepted P e paylen = true).
Proof.
  intros Hcall -> Hsmall Hready.
  destruct (sendMessageAndDiscardReply_sends P e ptype payload g Hready)
    as (ret' & Heq & Hret); [lia | intros _ _; exact Hsmall |].
  rewrite Heq in Hcall. injection Hcall as <- <- <-.
  split; [apply wire_transport | now split].
Qed.

Lemma sendMessageAndForget_wire (P : Program) (e : SendEnv)
    (ptype paylen : Z) (payload : list Z) (g g' : Globals) (ret : bool)
    (evs : list event) :
  sendMessageAndForget P e ptype paylen payload g = Ok (ret, g', evs) ->
  paylen = Z.of_nat (length payload) ->
  paylen < 252 ->
  transport_ready P e g paylen ->
  wire evs = [frame P g ptype payload] /\
  g' = after_send P g /\
  ret = accepted P e paylen.
Proof.
  intros Hcall -> Hsmall Hready.
  rewrite (sendMessageAndForget_sends P e ptype payload g Hready) in Hcall
    by (try lia; intros _ _; exact Hsmall).
  injection Hcall as <- <- <-.
  split; [apply wire_transport | now split].
Qed.

Lemma wire_frees (ts : list QUEUED_FRAME_INVALIDATION_TUPLE) : wire (map free ts) = [].
Proof. induction ts as [|t ts IH]; [reflexivity | exact IH]. Qed.

(** Only the first [paylen] bytes of the payload are looked at. *)
Lemma sendMessageAndForget_prefix (P : Program) (e : SendEnv) (ptype paylen : Z)
    (payload : list Z) (g : Globals) :
  sendMessageAndForget P e ptype paylen payload g =
  sendMessageAndForget P e ptype paylen
    (firstn (Z.to_nat (to_int16 paylen)) payload) g.
Proof.
  unfold sendMessageAndForget, sendMessageEnet, sendMessageTcp.
  now rewrite !firstn_firstn, !Nat.min_id.
Qed.

(** The cipher of the example has the properties asked of AES-GCM. *)
Lemma example_gcm (v : list Z) : gcm (Example.program v).
Proof.
  split; [|split]; cbn [aes_128_gcm_ctr aes_128_gcm_tag Example.program].
  - intros key iv data. unfold Example.ctr. rewrite map_map.
    rewrite <- (map_id data) at 2. apply map_ext. intros b.
    now rewrite Z.lxor_assoc, Z.lxor_nilpotent, Z.lxor_0_r.
  - intros key iv data. apply length_map.
  - intros key iv data. apply le_encode_length.
Qed.


(** *** Invalidation of reference frames *)

(** The tables that initializeControlStream sets: the entry for the
    invalidation of reference frames. *)
Lemma invalidate_ref_frames_entry (P : Program) (g : Globals) :
  initialized P g ->
  nth IDX_INVALIDATE_REF_FRAMES (payloadLengths g) 0 = 24 /\
  In (nth IDX_INVALIDATE_REF_FRAMES (packetTypes g) 0) [0x1404; 0x0604; 0x0301].
Proof.
  intros (-> & -> & _). unfold initializeControlStream.
  destruct (nth 0 (AppVersionQuad P) 0 =? 3);
    [|destruct (nth 0 (AppVersionQuad P) 0 =? 4);
      [|destruct (nth 0 (AppVersionQuad P) 0 =? 5);
        [|destruct (APP_VERSION_AT_LEAST P 7 1 431)]]];
    cbn; auto.
Qed.

Lemma initialized_set_queue (P : Program) (g : Globals)
    (q : LINKED_BLOCKING_QUEUE QUEUED_FRAME_INVALIDATION_TUPLE) :
  initialized P g -> initialized P (set_invalidReferenceFrameTuples q g).
Proof. trivial. Qed.

Lemma poll_live (g : Globals) (t : QUEUED_FRAME_INVALIDATION_TUPLE)
    (ts : list QUEUED_FRAME_INVALIDATION_TUPLE) :
  items (invalidReferenceFrameTuples g) = t :: ts ->
  shutdown (invalidReferenceFrameTuples g) = false ->
  getNextFrameInvalidationTuple g =
    (Some t,
     set_invalidReferenceFrameTuples
       (with_items (invalidReferenceFrameTuples g) ts) g).
Proof.
  intros Hi Hs. unfold getNextFrameInvalidationTuple, LbqPollQueueElement.
  now rewrite Hs, Hi.
Qed.

Lemma poll_empty (g : Globals) :
  items (invalidReferenceFrameTuples g) = [] ->
  getNextFrameInvalidationTuple g = (None, g).
Proof.
  intros Hi. unfold getNextFrameInvalidationTuple, LbqPollQueueElement.
  rewrite Hi. now destruct (shutdown _).
Qed.

Lemma last_cons {A : Type} (ts : list A) (t d : A) :
  last (t :: ts) d = last ts t.
Proof.
  revert t d. induction ts as [|a ts IH]; intros t d; [reflexivity|].
  change (last (t :: a :: ts) d) with (last (a :: ts) d).
  now rewrite (IH a d), (IH a t).
Qed.

(** The loop takes every tuple off the queue and leaves the end of the
    last one as the end of the range. *)
Lemma aggregateLostFrames_all (P : Program)
    (ts : list QUEUED_FRAME_INVALIDATION_TUPLE) :
  forall (fuel : nat) (qfit : QUEUED_FRAME_INVALIDATION_TUPLE) (payload1 : Z)
         (g : Globals),
    items (invalidReferenceFrameTuples g) = ts ->
    shutdown (invalidReferenceFrameTuples g) = false ->
    (length ts <= fuel)%nat ->
    payload1 <= endFrame qfit ->
    ends_ascend (endFrame qfit) ts ->
    aggregateLostFrames P fuel qfit payload1 g =
      Ok (endFrame (last ts qfit),
          set_invalidReferenceFrameTuples
            (with_items (invalidReferenceFrameTuples g) []) g,
          map free (qfit :: ts)).
Proof.
  induction ts as [|t ts IH]; intros fuel qfit payload1 g Hi Hs Hf Hp Ha;
    destruct fuel as [|fuel]; try (cbn in Hf; lia);
    cbn [aggregateLostFrames]; unfold LC_ASSERT;
    rewrite (geb_true (endFrame qfit) payload1) by lia;
    rewrite andb_false_r; cbn [bind].
  - rewrite (poll_empty g Hi). cbn. f_equal. f_equal. f_equal.
    destruct g as [? ? ? ? ? ? ? ? ? ? ? ? ? ? ? q ? ? ?]. cbn in *.
    destruct q. cbn in *. now subst.
  - rewrite (poll_empty g Hi). cbn. f_equal. f_equal. f_equal.
    destruct g as [? ? ? ? ? ? ? ? ? ? ? ? ? ? ? q ? ? ?]. cbn in *.
    destruct q. cbn in *. now subst.
  - rewrite (poll_live g t ts Hi Hs). destruct Ha as [Hle Ha].
    rewrite IH; [| reflexivity | exact Hs | cbn in Hf; lia | exact Hle | exact Ha].
    cbn [bind]. now rewrite last_cons.
Qed.

Lemma range_payload_bytes (B : bool) (first last : Z) :
  flat_map (store64 B)
    [if B then to_int64 (__bswap64 first) else first;
     if B then to_int64 (__bswap64 last) else last; 0] =
  range_payload first last.
Proof.
  unfold range_payload. cbn [flat_map]. rewrite app_nil_r.
  destruct B.
  - rewrite !store64_to_int64. unfold store64, store, __bswap64.
    rewrite !be_encode_bswap. reflexivity.
  - reflexivity.
Qed.

Lemma range_payload_length (first last : Z) :
  length (range_payload first last) = 24%nat.
Proof. unfold range_payload. now rewrite !length_app, !le_encode_length. Qed.

Lemma messages_app (a b : list event) : messages (a ++ b) = messages a ++ messages b.
Proof. apply filter_app. Qed.

Lemma freed_app (a b : list event) : freed (a ++ b) = freed a ++ freed b.
Proof. apply flat_map_app. Qed.

Lemma frees_only (ts : list QUEUED_FRAME_INVALIDATION_TUPLE) :
  messages (map free ts) = [] /\ freed (map free ts) = ts.
Proof.
  unfold messages, freed.
  induction ts as [|t ts [IHm IHf]]; [now split|].
  cbn. rewrite IHf. split; [exact IHm | reflexivity].
Qed.

Lemma messages_send (ptype paylen : Z) (payload : list Z) (evs : list event) :
  messages (SendMessage ptype paylen payload :: evs) =
  SendMessage ptype paylen payload :: messages evs.
Proof. reflexivity. Qed.

Lemma freed_send (ptype paylen : Z) (payload : list Z) (evs : list event) :
  freed (SendMessage ptype paylen payload :: evs) = freed evs.
Proof. reflexivity. Qed.

Lemma to_int16_invalidate_type (v : Z) :
  In v [0x1404; 0x0604; 0x0301] -> to_int16 v = v.
Proof. intros [<- | [<- | [<- | []]]]; reflexivity. Qed.

(** C3. For tuples (a1,b1),...,(an,bn) held in the queue in this order,
    with ai <= bi and bi <= b(i+1), one run of
    requestInvalidateReferenceFrames returns having made one call to send
    a message, the InvalidateRefFrames message with the range (a1, bn),
    and having taken all n tuples off the queue and freed them. When the
    transport can take the message, what the run puts on the wire is one
    frame, the frame of this message: one write to the TCP socket or one
    packet handed to ENet. *)
Theorem invalidation_coalescing (P : Program) (e : SendEnv) (g : Globals)
    (t : QUEUED_FRAME_INVALIDATION_TUPLE)
    (ts : list QUEUED_FRAME_INVALIDATION_TUPLE) :
  initialized P g ->
  isReferenceFrameInvalidationEnabled P = true ->
  items (invalidReferenceFrameTuples g) = t :: ts ->
  shutdown (invalidReferenceFrameTuples g) = false ->
  Forall (fun q => startFrame q <= endFrame q) (t :: ts) ->
  ends_ascend (endFrame t) ts ->
  let message_type := nth IDX_INVALIDATE_REF_FRAMES (packetTypes g) 0 in
  let range := range_payload (startFrame t) (endFrame (last ts t)) in
  exists g' evs,
    requestInvalidateReferenceFrames P e g = Ok (g', evs) /\
    items (invalidReferenceFrameTuples g') = [] /\
    freed evs = t :: ts /\
    messages evs = [SendMessage message_type 24 range] /\
    (transport_ready P e g 24 -> wire evs = [frame P g message_type range]).
Proof.
  intros Hinit Hen Hi Hs Hle Ha message_type range.
  destruct (invalidate_ref_frames_entry P g Hinit) as [Hlen Htype].
  unfold requestInvalidateReferenceFrames, LC_ASSERT.
  rewrite Hen, andb_false_r. cbn [bind].
  rewrite (poll_live g t ts Hi Hs).
  rewrite (proj2 (Z.leb_le _ _) (Forall_inv Hle)), andb_false_r. cbn [bind].
  rewrite (aggregateLostFrames_all P ts (length ts) t (endFrame t));
    [| reflexivity | exact Hs | reflexivity | lia | exact Ha].
  cbn [bind].
  set (g0 := set_invalidReferenceFrameTuples _ _).
  change (packetTypes g0) with (packetTypes g).
  change (payloadLengths g0) with (payloadLengths g).
  rewrite Hlen. fold message_type.
  assert (bytes_of_int64s P
            (let '(payload0, payload1) :=
               if BIGENDIAN P
               then (to_int64 (__bswap64 (startFrame t)),
                     to_int64 (__bswap64 (endFrame (last ts t))))
               else (startFrame t, endFrame (last ts t)) in
             [payload0; payload1; 0]) = range) as Hbytes.
  { unfold bytes_of_int64s, range.
    rewrite <- (range_payload_bytes (BIGENDIAN P)). now destruct (BIGENDIAN P). }
  destruct (frees_only (t :: ts)) as [Hfm Hff].
  destruct (BIGENDIAN P) eqn:HB; cbv zeta in Hbytes; cbv beta iota zeta;
    rewrite Hbytes;
    (destruct (sendMessageAndDiscardReply_returns P e message_type 24 range g0)
       as (ret & n & evs & Hcall & Ht); [intros _ _; reflexivity|]);
    rewrite Hcall; cbn [bind];
    pose proof (fun Hready =>
                  proj1 (sendMessageAndDiscardReply_wire P e message_type 24 range
                           g0 _ ret _ Hcall eq_refl ltac:(lia) Hready)) as Hwire;
    change (frame P g0 message_type range) with (frame P g message_type range) in Hwire;
    change (transport_ready P e g0 24) with (transport_ready P e g 24) in Hwire;
    unfold message_type in Hwire |- * ;
    rewrite (to_int16_invalidate_type _ Htype) in Hwire |- * ;
    change (to_int16 24) with 24 in Hwire |- * ;
    change (Z.to_nat 24) with 24%nat in Hwire |- * ;
    rewrite firstn_all2 in Hwire |- * by (unfold range; rewrite range_payload_length; lia);
    destruct (transport_only_messages evs Ht) as [Hm Hf];
    (destruct ret; cbn [negb]; eexists _, _; (split; [reflexivity|]);
     (split; [reflexivity|]);
     rewrite ?freed_app, ?messages_app, ?wire_app, messages_send, freed_send,
       (wire_frees (t :: ts)), Hfm, Hff, Hm, Hf;
     cbn [app]; rewrite ?app_nil_r; (split; [reflexivity|]); (split; [reflexivity|]);
     intros Hready; rewrite <- (Hwire Hready); cbn [wire flat_map app];
     rewrite ?flat_map_app; cbn [flat_map]; now rewrite ?app_nil_r).
Qed.

(** The theorem of C3 on the ranges (100, 200) and (201, 250) of a Gen 5
    session, whose messages go to ENet in the clear. *)
Lemma invalidation_coalescing_witness :
  exists g' evs,
    requestInvalidateReferenceFrames Example.gen5 (Example.send_ok Example.evp_ok 26)
      Example.two_losses = Ok (g', evs) /\
    items (invalidReferenceFrameTuples g') = [] /\
    freed evs = [{| startFrame := 100; endFrame := 200 |};
                 {| startFrame := 201; endFrame := 250 |}] /\
    messages evs = [SendMessage 0x0301 24 (range_payload 100 250)] /\
    wire evs = [[0x01; 0x03] ++ range_payload 100 250].
Proof.
  destruct (invalidation_coalescing Example.gen5 (Example.send_ok Example.evp_ok 26)
              Example.two_losses {| startFrame := 100; endFrame := 200 |}
              [{| startFrame := 201; endFrame := 250 |}])
    as (g' & evs & Hrun & Hq & Hfreed & Hmsg & Hwire).
  - repeat split; reflexivity.
  - reflexivity.
  - reflexivity.
  - reflexivity.
  - repeat constructor; cbn; lia.
  - cbn. lia.
  - exists g', evs. repeat split; try assumption.
    apply Hwire. split; [reflexivity | discriminate].
Defined.

(** *** Requests for an IDR frame *)

(** C7, amended. Whenever requestIdrFrame runs for a server of generation
    5 or later, it hands one message to the transport, the
    InvalidateRefFrames message whose payload consists of three 64-bit
    fields in little-endian byte order: firstFrame, lastSeenFrame and 0,
    where firstFrame = max(0, lastSeenFrame - 32). *)
Theorem idr_request_payload (P : Program) (e : SendEnv) (g : Globals) :
  initialized P g ->
  5 <= nth 0 (AppVersionQuad P) 0 ->
  - 2 ^ 31 <= lastSeenFrame g < 2 ^ 31 ->
  exists g' evs,
    requestIdrFrame P e g = Ok (g', evs) /\
    messages evs =
      [SendMessage (nth IDX_INVALIDATE_REF_FRAMES (packetTypes g) 0) 24
         (range_payload (Z.max 0 (lastSeenFrame g - 32)) (lastSeenFrame g))].
Proof.
  intros Hinit Hv Hint.
  destruct (invalidate_ref_frames_entry P g Hinit) as [Hlen Htype].
  unfold requestIdrFrame. rewrite (geb_true _ 5) by lia. rewrite Hlen.
  assert (forall first,
            bytes_of_int64s P
              (let '(payload0, payload1) :=
                 if BIGENDIAN P
                 then (to_int64 (__bswap64 first),
                       to_int64 (__bswap64 (lastSeenFrame g)))
                 else (first, lastSeenFrame g) in
               [payload0; payload1; 0]) =
            range_payload first (lastSeenFrame g)) as Hbytes.
  { intros first. unfold bytes_of_int64s.
    rewrite <- (range_payload_bytes (BIGENDIAN P)). now destruct (BIGENDIAN P). }
  assert ((if lastSeenFrame g <? 0x20 then 0 else to_int32 (lastSeenFrame g - 0x20)) =
          Z.max 0 (lastSeenFrame g - 32)) as Hfirst.
  { destruct (Z.ltb_spec (lastSeenFrame g) 0x20).
    - lia.
    - rewrite to_int32_small by lia. lia. }
  specialize (Hbytes (Z.max 0 (lastSeenFrame g - 32))). rewrite <- Hfirst in Hbytes.
  rewrite <- Hfirst.
  destruct (lastSeenFrame g <? 0x20), (BIGENDIAN P);
    cbv zeta in Hbytes; cbv beta iota zeta; rewrite Hbytes;
    (destruct (sendMessageAndDiscardReply_returns P e
                 (nth IDX_INVALIDATE_REF_FRAMES (packetTypes g) 0) 24
                 (range_payload (Z.max 0 (lastSeenFrame g - 32)) (lastSeenFrame g)) g)
       as (ret & n & evs & Hsend & Ht); [intros _ _; reflexivity|]);
    rewrite <- Hfirst in Hsend; cbv beta iota zeta in Hsend; rewrite Hsend;
    cbn [bind];
    rewrite (to_int16_invalidate_type _ Htype);
    change (to_int16 24) with 24; change (Z.to_nat 24) with 24%nat;
    rewrite firstn_all2 by (rewrite range_payload_length; lia);
    destruct (transport_only_messages evs Ht) as [Hm _];
    (destruct ret; cbn [negb]; eexists _, _; (split; [reflexivity|]);
     rewrite ?messages_app, messages_send, Hm; reflexivity).
Qed.

(** The theorem of C7 on a Gen 5 session that has seen frame 100. *)
Lemma idr_request_payload_witness :
  exists g' evs,
    requestIdrFrame Example.gen5 (Example.send_ok Example.evp_ok 26)
      Example.seen_100 = Ok (g', evs) /\
    messages evs = [SendMessage 0x0301 24 (range_payload (Z.max 0 (100 - 32)) 100)].
Proof.
  apply (idr_request_payload Example.gen5 (Example.send_ok Example.evp_ok 26)
           Example.seen_100).
  - repeat split; reflexivity.
  - cbn. lia.
  - cbn. lia.
Defined.

(** C7 as stated fails on a Gen 5 session that has seen frame 100: the
    payload of the request holds the frames 68 and 100 least significant
    byte first, which are not the bytes of the big-endian fields of the
    claim. *)
Lemma idr_request_payload_counterexample :
  match requestIdrFrame Example.gen5 (Example.send_ok Example.evp_ok 26)
          Example.seen_100 with
  | Ok (_, evs) => messages evs
  | _ => []
  end =
  [SendMessage 0x0301 24
     [68; 0; 0; 0; 0; 0; 0; 0; 100; 0; 0; 0; 0; 0; 0; 0; 0; 0; 0; 0; 0; 0; 0; 0]] /\
  range_payload_big_endian 68 100 =
    [0; 0; 0; 0; 0; 0; 0; 68; 0; 0; 0; 0; 0; 0; 0; 100; 0; 0; 0; 0; 0; 0; 0; 0].
Proof. split; vm_compute; reflexivity. Qed.

(** *** The periodic ping *)






(** *** The encryption of control messages *)

(** The plaintext of a control message: the V2 header, type and length of
    the payload as 16-bit little-endian numbers, and the payload. *)
Lemma V2_plaintext (P : Program) (ptype : Z) (payload : list Z) :
  BIGENDIAN P = false ->
  firstn (Z.to_nat (4 + Z.of_nat (length payload)))
    (bytes_of_V2 P {| v2_type := ptype;
                      v2_payloadLength := Z.of_nat (length payload) |} ++ payload) =
  le_encode 2 ptype ++ le_encode 2 (Z.of_nat (length payload)) ++ payload.
Proof.
  intros HB. unfold bytes_of_V2, store16, store. rewrite HB. cbn [v2_type v2_payloadLength].
  rewrite <- app_assoc. apply firstn_all2.
  rewrite !length_app, !le_encode_length. lia.
Qed.

(** With every step succeeding, encryptControlMessage leaves the tag and
    the ciphertext after the header. *)
Lemma encryptControlMessage_succeeds (P : Program) (r : EVP_RESULTS)
    (encPacket : NVCTL_ENCRYPTED_PACKET_HEADER) (encData0 : list Z)
    (ptype : Z) (payload : list Z) :
  BIGENDIAN P = false -> gcm P -> evp_succeeds r ->
  let plaintext :=
    le_encode 2 ptype ++ le_encode 2 (Z.of_nat (length payload)) ++ payload in
  let iv := iv_of_seq (seq encPacket) in
  let ciphertext := aes_128_gcm_ctr P (remoteInputAesKey P) iv plaintext in
  length encData0 = (16 + length plaintext)%nat ->
  encryptControlMessage P r encPacket encData0
    {| v2_type := ptype; v2_payloadLength := Z.of_nat (length payload) |} payload =
  (true, aes_128_gcm_tag P (remoteInputAesKey P) iv ciphertext ++ ciphertext).
Proof.
  intros HB (Hinv & Hlen & Htag) (H1 & H2 & H3 & H4 & H5 & H6) plaintext iv ciphertext Hroom.
  unfold encryptControlMessage. rewrite H1, H2, H3, H4, H5, H6. cbn [Z.eqb Pos.eqb negb].
  rewrite HB. cbn [v2_payloadLength].
  rewrite (V2_plaintext P ptype payload HB).
  fold plaintext. fold iv. fold ciphertext.
  f_equal. change (Z.to_nat AES_GCM_TAG_LENGTH) with 16%nat.
  rewrite <- (firstn_skipn 16 encData0) at 1.
  assert (length (firstn 16 encData0) = 16%nat) as Ha
    by (rewrite length_firstn; lia).
  rewrite <- Ha at 1.
  rewrite <- (app_nil_r (skipn 16 encData0)).
  rewrite write_at_app
    by (unfold ciphertext; rewrite Hlen, length_skipn; lia).
  rewrite app_nil_r.
  change (write_at 0) with (write_at (length (@nil Z))).
  rewrite <- (app_nil_l (firstn 16 encData0 ++ ciphertext)).
  rewrite write_at_app by (rewrite Htag; lia).
  reflexivity.
Qed.

(** The header of an encrypted packet, read back from its bytes on a
    little-endian host. *)
Lemma ENCRYPTED_of_its_bytes (P : Program) (h : NVCTL_ENCRYPTED_PACKET_HEADER)
    (rest : list Z) :
  BIGENDIAN P = false ->
  0 <= encryptedHeaderType h < 2 ^ 16 ->
  0 <= enc_length h < 2 ^ 16 ->
  0 <= seq h < 2 ^ 32 ->
  ENCRYPTED_of_bytes P (bytes_of_ENCRYPTED P h ++ rest) = h /\
  skipn 8 (bytes_of_ENCRYPTED P h ++ rest) = rest.
Proof.
  intros HB Ht Hl Hs. unfold ENCRYPTED_of_bytes, bytes_of_ENCRYPTED, store16, store32, store, load.
  rewrite HB. split; [|reflexivity].
  change (firstn 2 ((le_encode 2 (encryptedHeaderType h) ++
                     le_encode 2 (enc_length h) ++ le_encode 4 (seq h)) ++ rest))
    with (le_encode 2 (encryptedHeaderType h)).
  change (firstn 2 (skipn 2 ((le_encode 2 (encryptedHeaderType h) ++
                     le_encode 2 (enc_length h) ++ le_encode 4 (seq h)) ++ rest)))
    with (le_encode 2 (enc_length h)).
  change (firstn 4 (skipn 4 ((le_encode 2 (encryptedHeaderType h) ++
                     le_encode 2 (enc_length h) ++ le_encode 4 (seq h)) ++ rest)))
    with (le_encode 4 (seq h)).
  rewrite !le_encode_small by assumption.
  now destruct h.
Qed.

(** With every step succeeding, the decryption of what
    encryptControlMessage left gives back the plaintext. *)
Lemma decryptControlMessage_succeeds (P : Program) (r : EVP_RESULTS)
    (encPacket : NVCTL_ENCRYPTED_PACKET_HEADER) (plaintext : list Z) :
  BIGENDIAN P = false -> gcm P -> evp_succeeds r ->
  encryptedHeaderType encPacket = 0x0001 ->
  enc_length encPacket = 4 + 16 + Z.of_nat (length plaintext) ->
  (4 <= length plaintext)%nat ->
  let iv := iv_of_seq (seq encPacket) in
  let ciphertext := aes_128_gcm_ctr P (remoteInputAesKey P) iv plaintext in
  decryptControlMessage P r true encPacket
    (aes_128_gcm_tag P (remoteInputAesKey P) iv ciphertext ++ ciphertext) =
  Ok (Some (decrypted (Z.of_nat (length plaintext)) plaintext)).
Proof.
  intros HB (Hinv & Hlen & Htag) (H1 & H2 & H3 & H4 & HF & H6) Htype Hlength Hfour
    iv ciphertext.
  unfold decryptControlMessage, LC_ASSERT. rewrite HB, Htype, Hlength, H1, H2, H3, H4, H6.
  cbn [Z.eqb Pos.eqb negb andb bind]. rewrite andb_false_r. cbn [bind].
  unfold AES_GCM_TAG_LENGTH.
  replace (4 + 16 + Z.of_nat (length plaintext) <? 4 + 16 + 4) with false
    by (symmetry; apply Z.ltb_ge; lia).
  replace (4 + 16 + Z.of_nat (length plaintext) - 4 - 16)
    with (Z.of_nat (length plaintext)) by lia.
  rewrite Nat2Z.id. change (Z.to_nat 16) with 16%nat.
  fold iv.
  set (tag := aes_128_gcm_tag P (remoteInputAesKey P) iv ciphertext).
  assert (length tag = 16%nat) as Ht by apply Htag.
  replace (Z.of_nat (length (tag ++ ciphertext)) <? 16 + Z.of_nat (length plaintext))
    with false
    by (symmetry; apply Z.ltb_ge; unfold ciphertext; rewrite length_app, Ht, Hlen; lia).
  assert (skipn 16 (tag ++ ciphertext) = ciphertext) as ->
    by (rewrite <- Ht; now rewrite skipn_app, skipn_all, Nat.sub_diag).
  assert (firstn 16 (tag ++ ciphertext) = tag) as ->
    by (rewrite <- Ht;
        now rewrite firstn_app, firstn_all, Nat.sub_diag, firstn_O, app_nil_r).
  rewrite (firstn_all2 ciphertext) by (unfold ciphertext; rewrite Hlen; lia).
  unfold ciphertext at 1 3. rewrite Hinv.
  fold tag. rewrite bytes_eqb_refl, HF. reflexivity.
Qed.

(** The conversion of a V2 plaintext to a V1 packet, in place. *)
Lemma V2_to_V1 (T L payload : list Z) :
  length T = 2%nat -> length L = 2%nat ->
  let plaintext := T ++ L ++ payload in
  firstn (length plaintext - 2)
    (write_at 2
       (firstn (Z.to_nat (Z.of_nat (length plaintext) - 4)) (skipn 4 plaintext))
       plaintext) =
  T ++ payload.
Proof.
  intros HT HL plaintext.
  assert (length plaintext = (4 + length payload)%nat) as Hlen
    by (unfold plaintext; rewrite !length_app; lia).
  assert (skipn 4 plaintext = payload) as ->.
  { unfold plaintext. rewrite app_assoc.
    replace 4%nat with (length (T ++ L)) by (rewrite length_app; lia).
    now rewrite skipn_app, skipn_all, Nat.sub_diag. }
  rewrite (@firstn_all2 _ _ payload) by lia.
  unfold write_at.
  assert (firstn 2 plaintext = T) as ->.
  { unfold plaintext. rewrite <- HT.
    now rewrite firstn_app, firstn_all, Nat.sub_diag, firstn_O, app_nil_r. }
  rewrite app_assoc, Hlen.
  replace (4 + length payload - 2)%nat with (length (T ++ payload))
    by (rewrite length_app; lia).
  now rewrite firstn_app, firstn_all, Nat.sub_diag, firstn_O, app_nil_r.
Qed.

(** X24. On a little-endian host, with a cipher that behaves as AES-GCM
    and every step of it succeeding: for every plaintext control message
    that consists of a V2 header (16-bit LE type, 16-bit LE payload
    length) and a payload, of 1 to 4096 bytes in all, and every sequence
    number in [0, 2^24), encryptControlMessage succeeds, the decryption of
    the frame it produced gives back the plaintext, and
    decryptControlMessageToV1 returns the packet [type: u16 LE][payload]
    with the length of the plaintext minus 2. *)
Theorem gcm_roundtrip (P : Program) (r r' : EVP_RESULTS) (encData0 : list Z)
    (ptype s : Z) (payload : list Z) (packetLength0 : Z) :
  BIGENDIAN P = false ->
  gcm P -> evp_succeeds r -> evp_succeeds r' ->
  0 <= ptype < 2 ^ 16 ->
  let plaintext :=
    le_encode 2 ptype ++ le_encode 2 (Z.of_nat (length payload)) ++ payload in
  1 <= Z.of_nat (length plaintext) <= 4096 ->
  0 <= s < 2 ^ 24 ->
  length encData0 = (16 + length plaintext)%nat ->
  let encPacket :=
    {| encryptedHeaderType := 0x0001;
       enc_length := 4 + 16 + Z.of_nat (length plaintext);
       seq := s |} in
  exists encData packet,
    encryptControlMessage P r encPacket encData0
      {| v2_type := ptype; v2_payloadLength := Z.of_nat (length payload) |}
      payload = (true, encData) /\
    let frame := bytes_of_ENCRYPTED P encPacket ++ encData in
    decryptControlMessage P r' true (ENCRYPTED_of_bytes P frame) (skipn 8 frame) =
      Ok (Some (decrypted (Z.of_nat (length plaintext)) plaintext)) /\
    decryptControlMessageToV1 P r' true (ENCRYPTED_of_bytes P frame)
      (skipn 8 frame) packetLength0 =
      Ok (true, Some packet, Z.of_nat (length plaintext) - 2) /\
    firstn (length plaintext - 2) packet = le_encode 2 ptype ++ payload.
Proof.
  intros HB Hgcm Hr Hr' Htype plaintext Hsize Hseq Hroom encPacket.
  assert (length plaintext = (4 + length payload)%nat) as Hlen
    by (unfold plaintext; rewrite !length_app, !le_encode_length; lia).
  pose proof (encryptControlMessage_succeeds P r encPacket encData0 ptype payload
                HB Hgcm Hr Hroom) as Henc.
  fold plaintext in Henc. cbv zeta in Henc.
  eexists _, _. split; [exact Henc|]. cbv zeta.
  destruct (ENCRYPTED_of_its_bytes P encPacket
              (aes_128_gcm_tag P (remoteInputAesKey P) (iv_of_seq (seq encPacket))
                 (aes_128_gcm_ctr P (remoteInputAesKey P) (iv_of_seq (seq encPacket))
                    plaintext) ++
               aes_128_gcm_ctr P (remoteInputAesKey P) (iv_of_seq (seq encPacket))
                 plaintext) HB) as [-> ->];
    [cbn; lia | cbn [enc_length encPacket]; lia | cbn; lia |].
  pose proof (decryptControlMessage_succeeds P r' encPacket plaintext HB Hgcm Hr'
                eq_refl eq_refl ltac:(lia)) as Hdec.
  cbv zeta in Hdec.
  split; [exact Hdec|].
  unfold decryptControlMessageToV1. rewrite Hdec. cbn [bind].
  split; [reflexivity|].
  apply (V2_to_V1 (le_encode 2 ptype) (le_encode 2 (Z.of_nat (length payload))) payload);
    apply le_encode_length.
Qed.

(** The theorem of X24 on a ping of an encrypted Gen 7 session, sent with
    the sequence number 5. *)
Lemma gcm_roundtrip_witness :
  let plaintext := le_encode 2 0x0200 ++ le_encode 2 8 ++ [4; 0; 0; 0; 0; 0; 0; 0] in
  let encPacket :=
    {| encryptedHeaderType := 0x0001; enc_length := 4 + 16 + 12; seq := 5 |} in
  exists encData packet,
    encryptControlMessage Example.gen7enc Example.evp_ok encPacket (repeat 0xAA 28)
      {| v2_type := 0x0200; v2_payloadLength := 8 |} [4; 0; 0; 0; 0; 0; 0; 0] =
      (true, encData) /\
    let frame := bytes_of_ENCRYPTED Example.gen7enc encPacket ++ encData in
    decryptControlMessage Example.gen7enc Example.evp_ok true
      (ENCRYPTED_of_bytes Example.gen7enc frame) (skipn 8 frame) =
      Ok (Some (decrypted 12 plaintext)) /\
    decryptControlMessageToV1 Example.gen7enc Example.evp_ok true
      (ENCRYPTED_of_bytes Example.gen7enc frame) (skipn 8 frame) 0 =
      Ok (true, Some packet, 12 - 2) /\
    firstn (12 - 2) packet = le_encode 2 0x0200 ++ [4; 0; 0; 0; 0; 0; 0; 0].
Proof.
  apply (gcm_roundtrip Example.gen7enc Example.evp_ok Example.evp_ok (repeat 0xAA 28)
           0x0200 5 [4; 0; 0; 0; 0; 0; 0; 0] 0);
    solve [reflexivity | apply example_gcm | repeat split | cbn; lia].
Defined.

(** C1, where the code departs from it. On a host for which the sources
    are built with BIGENDIAN, sendMessageEnet swaps the bytes of the
    field [seq] before encryptControlMessage takes its low byte for the
    IV, and decryptControlMessageToV1 swaps them back before it takes the
    low byte: the second message of an encrypted Gen 7 session, a ping
    with the sequence number 1, is encrypted under the IV of 0 and its
    packet, though its bytes are those the little-endian build puts on
    the wire but for the IV, is not decrypted: the IV of 1 gives another
    tag. *)
Theorem big_endian_roundtrip_fails :
  let P := Scenario.big_endian Example.gen7enc in
  sendMessageEnet P (Example.send_ok Example.evp_ok 36) 0x0200 8
    [4; 0; 0; 0; 0; 0; 0; 0] Scenario.second_message =
    Ok (true, set_currentEnetSequenceNumber 2 Scenario.second_message,
        [enet_peer_send Scenario.second_ping; enet_host_flush]) /\
  Scenario.second_ping =
    encrypted_header 32 1 ++
    aes_128_gcm_tag P (remoteInputAesKey P) (iv_of_seq 0)
      (aes_128_gcm_ctr P (remoteInputAesKey P) (iv_of_seq 0)
         (V2_message 0x0200 [4; 0; 0; 0; 0; 0; 0; 0])) ++
    aes_128_gcm_ctr P (remoteInputAesKey P) (iv_of_seq 0)
      (V2_message 0x0200 [4; 0; 0; 0; 0; 0; 0; 0]) /\
  received_seq P (ENCRYPTED_of_bytes P Scenario.second_ping_received) = 1 /\
  decryptControlMessageToV1 P Example.evp_ok true
    (ENCRYPTED_of_bytes P Scenario.second_ping_received)
    (skipn 8 Scenario.second_ping_received) 77 = Ok (false, None, 77).
Proof. repeat split; vm_compute; reflexivity. Qed.

(** Any of the steps before the reading of the tag that fails makes
    encryptControlMessage return false. *)
Lemma encryptControlMessage_reports (P : Program) (r : EVP_RESULTS)
    (encPacket : NVCTL_ENCRYPTED_PACKET_HEADER) (encData : list Z)
    (packet : NVCTL_ENET_PACKET_HEADER_V2) (packetData : list Z) :
  EVP_Init_cipher r <> 1 \/ EVP_CTRL_GCM_SET_IVLEN r <> 1 \/
  EVP_Init_key_iv r <> 1 \/ EVP_Update r <> 1 \/ EVP_Final_ex r <> 1 ->
  fst (encryptControlMessage P r encPacket encData packet packetData) = false.
Proof.
  intros Hfail. unfold encryptControlMessage.
  destruct (Z.eqb_spec (EVP_Init_cipher r) 1); [|reflexivity].
  destruct (Z.eqb_spec (EVP_CTRL_GCM_SET_IVLEN r) 1); [|reflexivity].
  destruct (Z.eqb_spec (EVP_Init_key_iv r) 1); [|reflexivity].
  destruct (Z.eqb_spec (EVP_Update r) 1); [|reflexivity].
  destruct (Z.eqb_spec (EVP_Final_ex r) 1); [|reflexivity].
  exfalso. tauto.
Qed.

(** Not so the reading of the tag: [ret = -1] in a [bool] is true. *)
Lemma encryptControlMessage_misses_tag (P : Program) (r : EVP_RESULTS)
    (encPacket : NVCTL_ENCRYPTED_PACKET_HEADER) (encData : list Z)
    (packet : NVCTL_ENET_PACKET_HEADER_V2) (packetData : list Z) :
  EVP_Init_cipher r = 1 -> EVP_CTRL_GCM_SET_IVLEN r = 1 ->
  EVP_Init_key_iv r = 1 -> EVP_Update r = 1 -> EVP_Final_ex r = 1 ->
  EVP_CTRL_GCM_TAG r <> 1 ->
  fst (encryptControlMessage P r encPacket encData packet packetData) = true.
Proof.
  intros H1 H2 H3 H4 H5 Htag. apply Z.eqb_neq in Htag.
  unfold encryptControlMessage. rewrite H1, H2, H3, H4, H5, Htag. reflexivity.
Qed.

(** C5, where the code departs from it. In an encrypted Gen 7 session,
    when every step of the encryption of a ping succeeds but the reading
    of the authentication tag, encryptControlMessage returns true, and
    sendMessageEnet hands the packet to ENet, with the 16 bytes meant for
    the tag as the new packet held them (0xAA here), and returns true. *)
Theorem tag_failure_is_not_reported :
  fst (encryptControlMessage Example.gen7enc Example.evp_no_tag
         {| encryptedHeaderType := 0x0001; enc_length := 32; seq := 0 |}
         (repeat 0xAA 28) {| v2_type := 0x0200; v2_payloadLength := 8 |}
         [4; 0; 0; 0; 0; 0; 0; 0]) = true /\
  match sendMessageEnet Example.gen7enc (Example.send_ok Example.evp_no_tag 36)
          0x0200 8 [4; 0; 0; 0; 0; 0; 0; 0]
          (initializeControlStream Example.gen7enc) with
  | Ok (ret, _, evs) => (ret, evs)
  | _ => (false, [])
  end =
  (true,
   [enet_peer_send
      ([1; 0; 32; 0; 0; 0; 0; 0] ++ repeat 0xAA 16 ++
       Example.ctr (remoteInputAesKey Example.gen7enc) (iv_of_seq 0)
         [0; 2; 8; 0; 4; 0; 0; 0; 0; 0; 0; 0]);
    enet_host_flush]).
Proof. split; vm_compute; reflexivity. Qed.

(** *** More of the control stream *)

(** X1. queueFrameInvalidationTuple always sets the event that wakes the
    invalidation thread. It appends the tuple at the tail of the queue,
    leaving idrFrameRequired as it is, when reference frame invalidation
    is enabled, malloc succeeds and the queue holds fewer tuples than its
    bound; in every other case the queue stays as it is and
    idrFrameRequired is set, so that an IDR frame is requested instead. *)
Theorem queueFrameInvalidationTuple_queues_or_requires_idr (P : Program)
    (malloc_succeeds : bool) (startFrame endFrame : Z) (g : Globals) :
  (LC_DEBUG P = true -> startFrame <= endFrame) ->
  shutdown (invalidReferenceFrameTuples g) = false ->
  exists g',
    queueFrameInvalidationTuple P malloc_succeeds startFrame endFrame g = Ok g' /\
    invalidateRefFramesEvent g' = true /\
    if isReferenceFrameInvalidationEnabled P && malloc_succeeds &&
       (Z.of_nat (length (items (invalidReferenceFrameTuples g))) <?
        sizeBound (invalidReferenceFrameTuples g))
    then
      items (invalidReferenceFrameTuples g') =
        items (invalidReferenceFrameTuples g) ++
        [{| startFrame := startFrame; endFrame := endFrame |}] /\
      idrFrameRequired g' = idrFrameRequired g
    else
      items (invalidReferenceFrameTuples g') = items (invalidReferenceFrameTuples g) /\
      idrFrameRequired g' = true.
Proof.
  intros Ha Hlive. unfold queueFrameInvalidationTuple, LC_ASSERT.
  assert (LC_DEBUG P && negb (startFrame <=? endFrame) = false) as ->.
  { destruct (LC_DEBUG P); [|reflexivity]. cbn [andb].
    rewrite (proj2 (Z.leb_le _ _) (Ha eq_refl)). reflexivity. }
  cbn [bind]. eexists. split; [reflexivity|]. split; [reflexivity|].
  destruct (isReferenceFrameInvalidationEnabled P); cbn [andb]; [|now split].
  destruct malloc_succeeds; cbn [andb]; [|now split].
  unfold LbqOfferQueueItem. rewrite Hlive, Z.geb_leb, Z.ltb_antisym.
  destruct (sizeBound (invalidReferenceFrameTuples g) <=?
            Z.of_nat (length (items (invalidReferenceFrameTuples g))));
    cbn [negb]; now split.
Qed.

(** The theorem of X1 on the 21st tuple of a session: the queue, whose
    bound is 20, stays as it is and an IDR frame is required. *)
Lemma queueFrameInvalidationTuple_queues_or_requires_idr_witness :
  exists g',
    queueFrameInvalidationTuple Example.gen7enc true 50 51 Scenario.full_queue = Ok g' /\
    invalidateRefFramesEvent g' = true /\
    items (invalidReferenceFrameTuples g') =
      items (invalidReferenceFrameTuples Scenario.full_queue) /\
    idrFrameRequired g' = true.
Proof.
  apply (queueFrameInvalidationTuple_queues_or_requires_idr Example.gen7enc true 50 51
           Scenario.full_queue).
  - intros _. lia.
  - reflexivity.
Defined.

(** One call of connectionSawFrame reports the status of the connection
    at most once, and only a status other than the last one reported. *)
Lemma connectionSawFrame_alternates (P : Program) (now frameIndex : Z)
    (g g' : Globals) (evs : list event) :
  connectionSawFrame P now frameIndex g = Ok (g', evs) ->
  (evs = [] /\ lastConnectionStatusUpdate g' = lastConnectionStatusUpdate g) \/
  (exists s,
     evs = [connectionStatusUpdate s] /\ s <> lastConnectionStatusUpdate g /\
     lastConnectionStatusUpdate g' = s).
Proof.
  unfold connectionSawFrame. destruct (LC_ASSERT _ _); try discriminate. cbn [bind].
  destruct (to_uint64 (now - intervalStartTimeMs g) >=? CONN_STATUS_SAMPLE_PERIOD);
    [|intros [= <- <-]; now left].
  destruct (intervalTotalFrameCount g =? 0); cbn [negb];
    [intros [= <- <-]; now left|].
  destruct (lastConnectionStatusUpdate g) eqn:Hs; cbn [CONN_STATUS_eqb negb andb].
  - destruct ((frameLossPercent g >=? CONN_IMMEDIATE_POOR_LOSS_RATE) ||
              (frameLossPercent g >=? CONN_CONSECUTIVE_POOR_LOSS_RATE) &&
              (lastIntervalLossPercentage g >=? CONN_CONSECUTIVE_POOR_LOSS_RATE)).
    + intros [= <- <-]. right. exists CONN_STATUS_POOR. now repeat split.
    + rewrite andb_false_r. intros [= <- <-]. left. now split.
  - destruct (frameLossPercent g <=? CONN_OKAY_LOSS_RATE); cbn [andb].
    + intros [= <- <-]. right. exists CONN_STATUS_OKAY. now repeat split.
    + intros [= <- <-]. left. now split.
Qed.

(** X2. However the video pipeline reports frames seen and frames
    received complete, the listener is never told the same connection
    status twice in a row: the statuses it reports alternate, the first
    being another than the one in force before, and the variable
    lastConnectionStatusUpdate holds the last one reported. *)
Theorem connection_status_updates_alternate (P : Program)
    (reports : list frame_report) (g g' : Globals) (evs : list event) :
  frame_reports P reports g = Ok (g', evs) ->
  alternate (lastConnectionStatusUpdate g) evs /\
  lastConnectionStatusUpdate g' = status_after (lastConnectionStatusUpdate g) evs.
Proof.
  revert g g' evs. induction reports as [|[now idx|idx] reports IH]; intros g g' evs.
  - intros [= <- <-]. now split.
  - cbn [frame_reports].
    destruct (connectionSawFrame P now idx g) as [[g1 evs1]| |] eqn:H1; try discriminate.
    cbn [bind].
    destruct (frame_reports P reports g1) as [[g2 evs2]| |] eqn:H2; try discriminate.
    cbn [bind]. intros [= <- <-].
    destruct (IH g1 g2 evs2 H2) as [Halt Hlast].
    destruct (connectionSawFrame_alternates P now idx g g1 evs1 H1)
      as [[-> Hs] | (s & -> & Hne & Hs)];
      rewrite Hs in Halt, Hlast; cbn [app alternate status_after]; now repeat split.
  - cbn [frame_reports]. intros Hrun. exact (IH _ g' evs Hrun).
Qed.

(** The theorem of X2 on the frames of three sample periods of a session
    (all frames lost, then none, then all again): the listener hears
    POOR, OKAY, POOR. *)
Lemma connection_status_updates_alternate_witness :
  alternate CONN_STATUS_OKAY
    [connectionStatusUpdate CONN_STATUS_POOR; connectionStatusUpdate CONN_STATUS_OKAY;
     connectionStatusUpdate CONN_STATUS_POOR] /\
  lastConnectionStatusUpdate Scenario.after_three_periods = CONN_STATUS_POOR.
Proof.
  apply (connection_status_updates_alternate Example.gen7enc Scenario.three_periods
           (initializeControlStream Example.gen7enc) Scenario.after_three_periods
           [connectionStatusUpdate CONN_STATUS_POOR;
            connectionStatusUpdate CONN_STATUS_OKAY;
            connectionStatusUpdate CONN_STATUS_POOR]).
  vm_compute. reflexivity.
Defined.

(** *** The invalidation thread when an IDR frame is required *)

Lemma emptyInvalidationTuples_all (ts : list QUEUED_FRAME_INVALIDATION_TUPLE) :
  forall (fuel : nat) (g : Globals),
    items (invalidReferenceFrameTuples g) = ts ->
    shutdown (invalidReferenceFrameTuples g) = false ->
    (length ts <= fuel)%nat ->
    emptyInvalidationTuples fuel g =
      (set_invalidReferenceFrameTuples
         (with_items (invalidReferenceFrameTuples g) []) g,
       map free ts).
Proof.
  induction ts as [|t ts IH]; intros fuel g Hi Hs Hf.
  - assert (set_invalidReferenceFrameTuples
              (with_items (invalidReferenceFrameTuples g) []) g = g) as ->.
    { destruct g as [? ? ? ? ? ? ? ? ? ? ? ? ? ? ? q ? ? ?]. cbn in *.
      destruct q. cbn in *. now subst. }
    destruct fuel; cbn [emptyInvalidationTuples]; now rewrite (poll_empty g Hi).
  - destruct fuel as [|fuel]; [cbn in Hf; lia|].
    cbn [emptyInvalidationTuples]. rewrite (poll_live g t ts Hi Hs).
    rewrite (IH fuel (set_invalidReferenceFrameTuples
                        (with_items (invalidReferenceFrameTuples g) ts) g));
      [reflexivity | reflexivity | exact Hs | cbn in Hf; lia].
Qed.

(** The entries of the tables that a request for an IDR frame uses
    before Gen 5. *)
Lemma request_idr_entry (P : Program) (g : Globals) :
  initialized P g ->
  nth IDX_REQUEST_IDR_FRAME (payloadLengths g) 0 = 2 /\
  nth IDX_REQUEST_IDR_FRAME (preconstructedPayloads g) [] = [0; 0] /\
  In (nth IDX_REQUEST_IDR_FRAME (packetTypes g) 0) [0x1407; 0x0606; 0x0305].
Proof.
  intros (-> & -> & -> & _). unfold initializeControlStream.
  destruct (nth 0 (AppVersionQuad P) 0 =? 3);
    [|destruct (nth 0 (AppVersionQuad P) 0 =? 4);
      [|destruct (nth 0 (AppVersionQuad P) 0 =? 5);
        [|destruct (APP_VERSION_AT_LEAST P 7 1 431)]]];
    cbn; repeat split; tauto.
Qed.

Lemma to_int16_idr_type (v : Z) :
  In v [0x1407; 0x0606; 0x0305] -> to_int16 v = v.
Proof. intros [<- | [<- | [<- | []]]]; reflexivity. Qed.

(** requestIdrFrame makes one call to send a message, the request for an
    IDR frame, and writes no variable but the sequence number. *)
Lemma requestIdrFrame_request (P : Program) (e : SendEnv) (g : Globals) :
  initialized P g ->
  - 2 ^ 31 <= lastSeenFrame g < 2 ^ 31 ->
  exists n evs,
    requestIdrFrame P e g = Ok (set_currentEnetSequenceNumber n g, evs) /\
    messages evs = [idr_request P g] /\
    freed evs = [] /\
    (transport_ready P e g (Z.of_nat (length (idr_payload P g))) ->
     wire evs = [frame P g (idr_type P g) (idr_payload P g)]).
Proof.
  intros Hinit Hint.
  destruct (invalidate_ref_frames_entry P g Hinit) as [Hlen Htype].
  destruct (request_idr_entry P g Hinit) as (Hlen0 & Hpayload0 & Htype0).
  unfold requestIdrFrame, idr_request, idr_type, idr_payload.
  destruct (nth 0 (AppVersionQuad P) 0 >=? 5) eqn:Hv.
  - rewrite Hlen.
    assert ((if lastSeenFrame g <? 0x20 then 0 else to_int32 (lastSeenFrame g - 0x20)) =
            Z.max 0 (lastSeenFrame g - 32)) as Hfirst.
    { destruct (Z.ltb_spec (lastSeenFrame g) 0x20).
      - lia.
      - rewrite to_int32_small by lia. lia. }
    set (range := range_payload (Z.max 0 (lastSeenFrame g - 32)) (lastSeenFrame g)).
    assert (Z.of_nat (length range) = 24) as Hl
      by (unfold range; now rewrite range_payload_length).
    rewrite Hl.
    assert (bytes_of_int64s P
              (let '(payload0, payload1) :=
                 if BIGENDIAN P
                 then (to_int64 (__bswap64 (Z.max 0 (lastSeenFrame g - 32))),
                       to_int64 (__bswap64 (lastSeenFrame g)))
                 else (Z.max 0 (lastSeenFrame g - 32), lastSeenFrame g) in
               [payload0; payload1; 0]) = range) as Hbytes.
    { unfold bytes_of_int64s, range.
      rewrite <- (range_payload_bytes (BIGENDIAN P)). now destruct (BIGENDIAN P). }
    rewrite <- Hfirst in Hbytes.
    destruct (sendMessageAndDiscardReply_returns P e
                (nth IDX_INVALIDATE_REF_FRAMES (packetTypes g) 0) 24 range g)
      as (ret & n & evs & Hcall & Ht); [intros _ _; reflexivity|].
    pose proof (fun Hready =>
                  proj1 (sendMessageAndDiscardReply_wire P e _ 24 range
                           g _ ret _ Hcall (eq_sym Hl) ltac:(lia) Hready)) as Hwire.
    rewrite (to_int16_invalidate_type _ Htype) in Hcall.
    change (to_int16 24) with 24 in Hcall. change (Z.to_nat 24) with 24%nat in Hcall.
    rewrite firstn_all2 in Hcall by lia.
    destruct (transport_only_messages evs Ht) as [Hm Hf].
    destruct (lastSeenFrame g <? 0x20), (BIGENDIAN P);
      cbv zeta in Hbytes; cbv beta iota zeta; rewrite Hbytes, Hcall; cbn [bind];
      (destruct ret; cbn [negb]; exists n; eexists; (split; [reflexivity|]);
       rewrite ?messages_app, ?freed_app, ?wire_app, messages_send, freed_send, Hm, Hf;
       (split; [reflexivity|]); (split; [reflexivity|]);
       intros Hready; rewrite <- (Hwire Hready); cbn [wire flat_map app];
       rewrite ?flat_map_app; cbn [flat_map]; now rewrite ?app_nil_r).
  - rewrite Hlen0, Hpayload0.
    destruct (sendMessageAndDiscardReply_returns P e
                (nth IDX_REQUEST_IDR_FRAME (packetTypes g) 0) 2 [0; 0] g)
      as (ret & n & evs & Hcall & Ht); [intros _ _; reflexivity|].
    pose proof (fun Hready =>
                  proj1 (sendMessageAndDiscardReply_wire P e _ 2 [0; 0]
                           g _ ret _ Hcall eq_refl ltac:(lia) Hready)) as Hwire.
    rewrite (to_int16_idr_type _ Htype0) in Hcall.
    change (to_int16 2) with 2 in Hcall. change (Z.to_nat 2) with 2%nat in Hcall.
    cbn [firstn] in Hcall. rewrite Hcall. cbn [bind].
    destruct (transport_only_messages evs Ht) as [Hm Hf].
    destruct ret; cbn [negb]; exists n; eexists; (split; [reflexivity|]);
      rewrite ?messages_app, ?freed_app, ?wire_app, messages_send, freed_send, Hm, Hf;
      (split; [reflexivity|]); (split; [reflexivity|]);
      intros Hready; rewrite <- (Hwire Hready); cbn [wire flat_map app];
      rewrite ?flat_map_app; cbn [flat_map]; now rewrite ?app_nil_r.
Qed.

(** X3. When an IDR frame is required, a turn of the invalidation thread
    takes every range of lost frames off the queue and frees it, clears
    idrFrameRequired and makes one call to send a message, the request
    for an IDR frame, whose payload depends on the last frame seen alone:
    no queued range is sent. When the transport can take the message,
    what the turn puts on the wire is the one frame of this request. *)
Theorem idr_request_drops_queued_ranges (P : Program) (t : Turn) (g : Globals)
    (ts : list QUEUED_FRAME_INVALIDATION_TUPLE) :
  initialized P g ->
  - 2 ^ 31 <= lastSeenFrame g < 2 ^ 31 ->
  PltIsThreadInterrupted t = false ->
  stopping g = false ->
  idrFrameRequired g = true ->
  items (invalidReferenceFrameTuples g) = ts ->
  shutdown (invalidReferenceFrameTuples g) = false ->
  exists g' evs,
    invalidateRefFramesFunc P [t] g = Ok (g', evs) /\
    freed evs = ts /\
    messages evs = [idr_request P g] /\
    (transport_ready P (send_env t) g (Z.of_nat (length (idr_payload P g))) ->
     wire evs = [frame P g (idr_type P g) (idr_payload P g)]) /\
    idrFrameRequired g' = false /\
    items (invalidReferenceFrameTuples g') = [].
Proof.
  intros Hinit Hint Hrun Hstop Hidr Hi Hs.
  cbn [invalidateRefFramesFunc]. rewrite Hrun.
  change (stopping (set_invalidateRefFramesEvent false g)) with (stopping g).
  change (idrFrameRequired (set_invalidateRefFramesEvent false g))
    with (idrFrameRequired g).
  rewrite Hstop, Hidr.
  rewrite (emptyInvalidationTuples_all ts
             (length (items (invalidReferenceFrameTuples
                               (set_invalidateRefFramesEvent false g))))
             (set_invalidateRefFramesEvent false g) Hi Hs)
    by (cbn; rewrite Hi; lia).
  set (g2 := set_idrFrameRequired false _).
  destruct (requestIdrFrame_request P (send_env t) g2 Hinit Hint)
    as (n & evs & -> & Hmsg & Hfreed & Hwire).
  cbn [bind]. destruct (frees_only ts) as [Hfm Hff].
  eexists _, _. split; [reflexivity|].
  rewrite !app_nil_r, freed_app, messages_app, wire_app, (wire_frees ts),
    Hfm, Hff, Hmsg, Hfreed, app_nil_r.
  repeat split. exact Hwire.
Qed.

(** The theorem of X3 on a Gen 5 session with two ranges queued, before
    a frame was seen: the request is for the frames 0 to 0. *)
Lemma idr_request_drops_queued_ranges_witness :
  exists g' evs,
    invalidateRefFramesFunc Example.gen5 [Example.control_turn 26]
      (set_idrFrameRequired true Example.two_losses) = Ok (g', evs) /\
    freed evs = [{| startFrame := 100; endFrame := 200 |};
                 {| startFrame := 201; endFrame := 250 |}] /\
    messages evs = [SendMessage 0x0301 24 (range_payload 0 0)] /\
    wire evs = [[0x01; 0x03] ++ range_payload 0 0] /\
    idrFrameRequired g' = false /\
    items (invalidReferenceFrameTuples g') = [].
Proof.
  destruct (idr_request_drops_queued_ranges Example.gen5 (Example.control_turn 26)
              (set_idrFrameRequired true Example.two_losses)
              [{| startFrame := 100; endFrame := 200 |};
               {| startFrame := 201; endFrame := 250 |}])
    as (g' & evs & Hrun & Hfreed & Hmsg & Hwire & Hidr & Hq);
    try reflexivity.
  - repeat split; reflexivity.
  - cbn. lia.
  - exists g', evs. repeat split; try assumption.
    apply Hwire. split; [reflexivity | discriminate].
Defined.

(** *** The loss report *)

Lemma loss_report_bytes (lossStatsPayload : list Z) (lossCount lastGood : Z) :
  length lossStatsPayload = 32%nat ->
  (let bb := BbInitializeWrappedBuffer lossStatsPayload 0 32 BYTE_ORDER_LITTLE in
   let '(_, bb) := BbPut32 bb lossCount in
   let '(_, bb) := BbPut32 bb LOSS_REPORT_INTERVAL_MS in
   let '(_, bb) := BbPut32 bb 1000 in
   let '(_, bb) := BbPut64 bb lastGood in
   let '(_, bb) := BbPut32 bb 0 in
   let '(_, bb) := BbPut32 bb 0 in
   let '(_, bb) := BbPut32 bb 0x14 in
   bb_buffer bb) =
  loss_report lossCount lastGood.
Proof.
  intros Hlen.
  do 32 (destruct lossStatsPayload as [|? lossStatsPayload]; [discriminate Hlen|]).
  destruct lossStatsPayload; [|discriminate Hlen].
  reflexivity.
Qed.

Lemma loss_stats_entry (P : Program) (g : Globals) :
  initialized P g ->
  nth IDX_LOSS_STATS (payloadLengths g) 0 = 32 /\
  In (nth IDX_LOSS_STATS (packetTypes g) 0) [0x140c; 0x060a; 0x0201].
Proof.
  intros (-> & -> & _). unfold initializeControlStream.
  destruct (nth 0 (AppVersionQuad P) 0 =? 3);
    [|destruct (nth 0 (AppVersionQuad P) 0 =? 4);
      [|destruct (nth 0 (AppVersionQuad P) 0 =? 5);
        [|destruct (APP_VERSION_AT_LEAST P 7 1 431)]]];
    cbn; repeat split; tauto.
Qed.

Lemma to_int16_loss_stats_type (v : Z) :
  In v [0x140c; 0x060a; 0x0201] -> to_int16 v = v.
Proof. intros [<- | [<- | [<- | []]]]; reflexivity. Qed.

Lemma loss_report_length (lossCount lastGood : Z) :
  length (loss_report lossCount lastGood) = 32%nat.
Proof. unfold loss_report. now rewrite !length_app, !le_encode_length. Qed.

(** X4. Outside periodic-ping mode, with a transport that can take the
    message, a turn of the loss statistics thread hands the transport one
    message of the Loss Stats type whose 32-byte payload is, in
    little-endian fields on either host, the number of packets lost since
    the last report (u32), the report interval 50 (u32), 1000 (u32), the
    last good frame (u64), 0, 0 and 0x14 (u32 each). When the transport
    reports the message sent, the count of lost packets is reset to 0 and
    the thread sleeps 50 ms; when it does not, the count is kept and the
    termination of the connection is reported with the error of the
    socket. *)
Theorem loss_report_sent (P : Program) (periodicPingPayload0 lossStatsPayload : list Z)
    (t : Turn) (g : Globals) :
  initialized P g ->
  usePeriodicPing g = false ->
  PltIsThreadInterrupted t = false ->
  length lossStatsPayload = 32%nat ->
  transport_ready P (send_env t) g 32 ->
  let report := loss_report (lossCountSinceLastReport g) (lastGoodFrame g) in
  let loss_stats := nth IDX_LOSS_STATS (packetTypes g) 0 in
  let sent := accepted P (send_env t) 32 in
  lossStatsThreadFunc P periodicPingPayload0 (Some lossStatsPayload) [t] g =
    Ok (if sent then set_lossCountSinceLastReport 0 (after_send P g)
        else after_send P g,
        SendMessage loss_stats 32 report ::
        transport P (send_env t) g loss_stats report ++
        [if sent then PltSleepMsInterruptible 50
         else connectionTerminated (LastSocketFail (send_env t))]).
Proof.
  intros Hinit Hping Hrun Hlen Hready report loss_stats sent.
  subst loss_stats sent.
  unfold lossStatsThreadFunc. rewrite Hping. cbn [lossStatsLoop]. rewrite Hrun.
  destruct (loss_stats_entry P g Hinit) as [Hlength Htype].
  rewrite Hlength.
  pose proof (loss_report_bytes lossStatsPayload (lossCountSinceLastReport g)
                (lastGoodFrame g) Hlen) as Hbytes.
  cbv zeta in Hbytes.
  destruct (BbPut32 _ (lossCountSinceLastReport g)) as [? bb1].
  destruct (BbPut32 bb1 LOSS_REPORT_INTERVAL_MS) as [? bb2].
  destruct (BbPut32 bb2 1000) as [? bb3].
  destruct (BbPut64 bb3 (lastGoodFrame g)) as [? bb4].
  destruct (BbPut32 bb4 0) as [? bb5].
  destruct (BbPut32 bb5 0) as [? bb6].
  destruct (BbPut32 bb6 20) as [? bb7].
  rewrite Hbytes. fold report.
  pose proof (sendMessageAndForget_sends P (send_env t)
                (nth IDX_LOSS_STATS (packetTypes g) 0) report g) as Hsend.
  cbv zeta in Hsend.
  assert (Z.of_nat (length report) = 32) as Hl
    by (unfold report; now rewrite loss_report_length).
  rewrite !Hl in Hsend.
  rewrite (to_int16_loss_stats_type _ Htype) in Hsend.
  rewrite Hsend by (try lia; exact Hready).
  cbn [bind].
  destruct (accepted P (send_env t) 32); reflexivity.
Qed.

(** The theorem of X4 on a Gen 5 session that lost 7 packets and whose
    last good frame is 300: the report goes to ENet in the clear, ENet
    takes it. *)
Lemma loss_report_sent_witness :
  let report :=
    [7; 0; 0; 0] ++ [50; 0; 0; 0] ++ [232; 3; 0; 0] ++
    [44; 1; 0; 0; 0; 0; 0; 0] ++ [0; 0; 0; 0] ++ [0; 0; 0; 0] ++ [20; 0; 0; 0] in
  lossStatsThreadFunc Example.gen5 [] (Some (repeat 0xAA 32))
    [Example.control_turn 34] Scenario.lost_7 =
    Ok (set_lossCountSinceLastReport 0 Scenario.lost_7,
        [SendMessage 0x0201 32 report;
         enet_peer_send ([0x01; 0x02] ++ report);
         enet_host_flush;
         PltSleepMsInterruptible 50]).
Proof.
  apply (loss_report_sent Example.gen5 [] (repeat 0xAA 32) (Example.control_turn 34)
           Scenario.lost_7); try reflexivity.
  - repeat split; reflexivity.
  - split; [reflexivity | discriminate].
Defined.

(** *** Messages on the wire *)

(** X5. To a server before Gen 5 a control message goes out on the TCP
    socket as the type and the length of the payload, 16 bits each and
    least significant byte first on either host, followed by the payload.
    The send succeeds when send() reports all these bytes sent, and
    sendMessageAndDiscardReply succeeds when, after that, a reply could
    be read; neither writes a variable of the control stream. *)
Theorem tcp_message_on_the_wire (P : Program) (e : SendEnv) (ptype paylen : Z)
    (payload : list Z) (g : Globals) :
  nth 0 (AppVersionQuad P) 0 < 5 ->
  malloc_ok e = true ->
  - 2 ^ 15 <= ptype < 2 ^ 15 ->
  0 <= paylen < 2 ^ 15 ->
  let wire :=
    le_encode 2 ptype ++ le_encode 2 paylen ++ firstn (Z.to_nat paylen) payload in
  let call := SendMessage ptype paylen (firstn (Z.to_nat paylen) payload) in
  sendMessageAndForget P e ptype paylen payload g =
    Ok (send_result e =? 4 + paylen, g, [call; send wire]) /\
  sendMessageAndDiscardReply P e ptype paylen payload g =
    Ok ((send_result e =? 4 + paylen) &&
        match readNvctlPacketTcp e with Some _ => true | None => false end,
        g, [call; send wire]).
Proof.
  intros Hv Hmalloc Ht Hl wire call.
  assert (sendMessageTcp P e ptype paylen payload =
          Ok (send_result e =? 4 + paylen, [send wire])) as Htcp.
  { unfold sendMessageTcp, LC_ASSERT.
    rewrite (proj2 (Z.ltb_lt _ _) Hv), andb_false_r. cbn [bind].
    rewrite Hmalloc. cbn [negb].
    assert (store16 (BIGENDIAN P)
              (tcp_type (if BIGENDIAN P
                         then {| tcp_type := __bswap16 (to_uint16 ptype);
                                 tcp_payloadLength := __bswap16 (to_uint16 paylen) |}
                         else {| tcp_type := to_uint16 ptype;
                                 tcp_payloadLength := to_uint16 paylen |})) ++
            store16 (BIGENDIAN P)
              (tcp_payloadLength
                 (if BIGENDIAN P
                  then {| tcp_type := __bswap16 (to_uint16 ptype);
                          tcp_payloadLength := __bswap16 (to_uint16 paylen) |}
                  else {| tcp_type := to_uint16 ptype;
                          tcp_payloadLength := to_uint16 paylen |})) ++
            firstn (Z.to_nat paylen) payload = wire) as ->.
    { unfold wire, store16, store, __bswap16.
      destruct (BIGENDIAN P); cbn [tcp_type tcp_payloadLength];
        rewrite ?be_encode_bswap, !le_encode_to_uint16; reflexivity. }
    now destruct (send_result e =? 4 + paylen). }
  unfold sendMessageAndForget, sendMessageAndDiscardReply.
  rewrite (geb_false _ 5) by lia.
  rewrite !to_int16_small by lia. rewrite Htcp. cbn [bind].
  split; [reflexivity|].
  destruct (send_result e =? 4 + paylen); cbn [negb andb]; [|reflexivity].
  now destruct (readNvctlPacketTcp e).
Qed.

(** The theorem of X5 on the request for an IDR frame of a Gen 4
    session. *)
Lemma tcp_message_on_the_wire_witness :
  sendMessageAndForget Scenario.gen4 Scenario.tcp_ok 0x0606 2 [0; 0]
    (initializeControlStream Scenario.gen4) =
    Ok (true, initializeControlStream Scenario.gen4,
        [SendMessage 0x0606 2 [0; 0]; send [6; 6; 2; 0; 0; 0]]) /\
  sendMessageAndDiscardReply Scenario.gen4 Scenario.tcp_ok 0x0606 2 [0; 0]
    (initializeControlStream Scenario.gen4) =
    Ok (true, initializeControlStream Scenario.gen4,
        [SendMessage 0x0606 2 [0; 0]; send [6; 6; 2; 0; 0; 0]]).
Proof.
  apply (tcp_message_on_the_wire Scenario.gen4 Scenario.tcp_ok 0x0606 2 [0; 0]
           (initializeControlStream Scenario.gen4)); cbn; try reflexivity; lia.
Defined.

(** X6. To a server from Gen 5 on whose control stream is not encrypted,
    a message goes to ENet as the type, 16 bits least significant byte
    first on either host, followed by the payload, with no length field.
    The host is flushed only after enet_peer_send accepted the packet,
    and no variable of the control stream is written: the sequence number
    is not used. *)
Theorem enet_message_on_the_wire (P : Program) (e : SendEnv) (ptype paylen : Z)
    (payload : list Z) (g : Globals) :
  5 <= nth 0 (AppVersionQuad P) 0 ->
  encryptedControlStream g = false ->
  enet_packet_create_ok e = true ->
  0 <= paylen ->
  let wire := le_encode 2 ptype ++ firstn (Z.to_nat paylen) payload in
  sendMessageEnet P e ptype paylen payload g =
    Ok (if enet_peer_send_result e <? 0 then (false, g, [enet_peer_send wire])
        else (true, g, [enet_peer_send wire; enet_host_flush])).
Proof.
  intros Hv Henc Hcreate _ wire.
  unfold sendMessageEnet, LC_ASSERT.
  rewrite (geb_true _ 5) by lia. rewrite andb_false_r. cbn [bind].
  rewrite Henc, Hcreate. cbn [negb bind v1_type].
  assert (store16 (BIGENDIAN P)
            (if BIGENDIAN P then __bswap16 (to_uint16 ptype) else to_uint16 ptype) ++
          firstn (Z.to_nat paylen) payload = wire) as ->.
  { unfold wire, store16, __bswap16. now rewrite store_swapped, le_encode_to_uint16. }
  now destruct (enet_peer_send_result e <? 0).
Qed.

(** The theorem of X6 on a ping of a Gen 7 session before 7.1.431. *)
Lemma enet_message_on_the_wire_witness :
  sendMessageEnet Example.gen7 (Example.send_ok Example.evp_ok 10) 0x0200 8
    [4; 0; 0; 0; 0; 0; 0; 0] (initializeControlStream Example.gen7) =
    Ok (true, initializeControlStream Example.gen7,
        [enet_peer_send [0; 2; 4; 0; 0; 0; 0; 0; 0; 0]; enet_host_flush]).
Proof.
  apply (enet_message_on_the_wire Example.gen7 (Example.send_ok Example.evp_ok 10)
           0x0200 8 [4; 0; 0; 0; 0; 0; 0; 0] (initializeControlStream Example.gen7));
    [cbn; lia | reflexivity | reflexivity | lia].
Defined.

(** X7. On an encrypted control stream, every call of sendMessageEnet
    that gets its packet from ENet uses up one sequence number, whether
    the message is then encrypted and sent or not. A packet it hands to
    ENet starts with the 8-byte header [0x0001][20 + 4 + paylen][the
    sequence number before the call], least significant byte first on
    either host; when one of the steps of the encryption before the
    reading of the tag fails, nothing is sent and the call fails. *)
Theorem encrypted_message_sequence (P : Program) (e : SendEnv) (ptype paylen : Z)
    (payload : list Z) (g : Globals) :
  5 <= nth 0 (AppVersionQuad P) 0 ->
  encryptedControlStream g = true ->
  enet_packet_create_ok e = true ->
  0 <= paylen < 252 ->
  exists ret evs,
    sendMessageEnet P e ptype paylen payload g =
      Ok (ret,
          set_currentEnetSequenceNumber (to_int32 (currentEnetSequenceNumber g + 1)) g,
          evs) /\
    (forall data,
       In (enet_peer_send data) evs ->
       firstn 8 data = encrypted_header (20 + 4 + paylen) (currentEnetSequenceNumber g)) /\
    (~ encrypts (evp e) -> ret = false /\ evs = []).
Proof.
  intros Hv Henc Hcreate Hlen.
  unfold sendMessageEnet, LC_ASSERT.
  rewrite (geb_true _ 5) by lia. rewrite andb_false_r. cbn [bind].
  rewrite Henc, Hcreate. cbn [negb].
  rewrite (proj2 (Z.ltb_lt _ _)) by lia. rewrite andb_false_r. cbn [bind].
  cbn [encryptedHeaderType enc_length seq].
  unfold AES_GCM_TAG_LENGTH.
  set (encPacket := if BIGENDIAN P then _ else _).
  assert (bytes_of_ENCRYPTED P encPacket =
          encrypted_header (4 + 16 + 4 + paylen) (currentEnetSequenceNumber g)) as Hheader
    by apply encrypted_header_bytes.
  replace (4 + 16 + 4 + paylen) with (20 + 4 + paylen) in Hheader by lia.
  pose proof (encryptControlMessage_reports P (evp e) encPacket
                (skipn 8 (enet_packet_data e))
                {| v2_type := to_uint16 ptype; v2_payloadLength := to_uint16 paylen |}
                (firstn (Z.to_nat paylen) payload)) as Hreports.
  destruct (encryptControlMessage P (evp e) encPacket _ _ _) as [ret encData].
  cbn [fst] in Hreports.
  assert (~ encrypts (evp e) -> ret = false) as Hfails.
  { intros Hno. apply Hreports. unfold encrypts in Hno.
    destruct (Z.eq_dec (EVP_Init_cipher (evp e)) 1); [|now left].
    destruct (Z.eq_dec (EVP_CTRL_GCM_SET_IVLEN (evp e)) 1); [|now right; left].
    destruct (Z.eq_dec (EVP_Init_key_iv (evp e)) 1); [|now right; right; left].
    destruct (Z.eq_dec (EVP_Update (evp e)) 1); [|now right; right; right; left].
    destruct (Z.eq_dec (EVP_Final_ex (evp e)) 1); [|now right; right; right; right].
    exfalso. apply Hno. now repeat split. }
  assert (forall tail data,
            In (enet_peer_send data)
               (enet_peer_send (bytes_of_ENCRYPTED P encPacket ++ encData) :: tail) ->
            tail = [] \/ tail = [enet_host_flush] ->
            firstn 8 data =
              encrypted_header (20 + 4 + paylen) (currentEnetSequenceNumber g)) as Hsent.
  { intros tail data [[= <-] | Hin] Htail.
    - rewrite Hheader.
      replace 8%nat with (length (encrypted_header (20 + 4 + paylen)
                                    (currentEnetSequenceNumber g)))
        by (unfold encrypted_header; now rewrite !length_app, !le_encode_length).
      now rewrite firstn_app, firstn_all, Nat.sub_diag, firstn_O, app_nil_r.
    - destruct Htail as [-> | ->]; [destruct Hin|].
      destruct Hin as [[=]|[]]. }
  destruct ret; cbn [negb bind].
  - destruct (enet_peer_send_result e <? 0); eexists _, _;
      (split; [reflexivity|]); (split; [|intros Hno; now specialize (Hfails Hno)]);
      intros data Hin; [apply (Hsent [] data Hin) | apply (Hsent [enet_host_flush] data Hin)];
      auto.
  - eexists _, _. split; [reflexivity|]. split; [intros data []|]. now split.
Qed.

(** The theorem of X7 on the first ping of an encrypted Gen 7 session. *)
Lemma encrypted_message_sequence_witness :
  exists ret evs,
    sendMessageEnet Example.gen7enc (Example.send_ok Example.evp_ok 36) 0x0200 8
      [4; 0; 0; 0; 0; 0; 0; 0] (initializeControlStream Example.gen7enc) =
      Ok (ret,
          set_currentEnetSequenceNumber (to_int32 (0 + 1))
            (initializeControlStream Example.gen7enc),
          evs) /\
    (forall data,
       In (enet_peer_send data) evs ->
       firstn 8 data = encrypted_header (20 + 4 + 8) 0) /\
    (~ encrypts (evp (Example.send_ok Example.evp_ok 36)) -> ret = false /\ evs = []).
Proof.
  apply (encrypted_message_sequence Example.gen7enc (Example.send_ok Example.evp_ok 36)
           0x0200 8 [4; 0; 0; 0; 0; 0; 0; 0] (initializeControlStream Example.gen7enc));
    [cbn; lia | reflexivity | reflexivity | lia].
Defined.

(** *** Packets that cannot be decrypted *)

Lemma received_header (P : Program) (encPacket : NVCTL_ENCRYPTED_PACKET_HEADER) :
  enc_length
    (if BIGENDIAN P
     then {| encryptedHeaderType := encryptedHeaderType encPacket;
             enc_length := __bswap16 (enc_length encPacket);
             seq := __bswap32 (seq encPacket) |}
     else encPacket) = received_length P encPacket /\
  seq
    (if BIGENDIAN P
     then {| encryptedHeaderType := encryptedHeaderType encPacket;
             enc_length := __bswap16 (enc_length encPacket);
             seq := __bswap32 (seq encPacket) |}
     else encPacket) = received_seq P encPacket /\
  encryptedHeaderType
    (if BIGENDIAN P
     then {| encryptedHeaderType := encryptedHeaderType encPacket;
             enc_length := __bswap16 (enc_length encPacket);
             seq := __bswap32 (seq encPacket) |}
     else encPacket) = encryptedHeaderType encPacket.
Proof. unfold received_length, received_seq. now destruct (BIGENDIAN P). Qed.

(** X8. When decryptControlMessageToV1 returns false it leaves NULL in
    [*packet], the buffer it may have allocated being freed, and does not
    write [*packetLength]. When it returns true, the packet received
    holds all the bytes its length field announces (the length field
    plus 4 is at most the length of the packet); when moreover the tag of
    the packet could be handed to the cipher, the packet is authentic
    (the 16 bytes after its header are the tag of its ciphertext), its
    length field is 24 or more, a buffer is returned and [*packetLength]
    is the length field minus 22. *)
Theorem only_authentic_packets_are_delivered (P : Program) (r : EVP_RESULTS)
    (malloc_succeeds : bool) (encPacket : NVCTL_ENCRYPTED_PACKET_HEADER)
    (encData : list Z) (packetLength0 : Z) (ret : bool) (packet : option (list Z))
    (packetLength : Z) :
  decryptControlMessageToV1 P r malloc_succeeds encPacket encData packetLength0 =
    Ok (ret, packet, packetLength) ->
  (ret = false -> packet = None /\ packetLength = packetLength0) /\
  (ret = true -> received_length P encPacket + 4 <= 8 + Z.of_nat (length encData)) /\
  (ret = true -> EVP_CTRL_GCM_TAG r = 1 ->
   authentic P encPacket encData = true /\
   24 <= received_length P encPacket /\
   packetLength = received_length P encPacket - 22 /\
   packet <> None).
Proof.
  unfold decryptControlMessageToV1, decryptControlMessage, authentic,
    received_ciphertext.
  destruct (received_header P encPacket) as (-> & -> & ->).
  destruct (LC_ASSERT _ _); try discriminate. cbn [bind].
  unfold AES_GCM_TAG_LENGTH. change (Z.to_nat 16) with 16%nat.
  destruct (received_length P encPacket <? 4 + 16 + 4) eqn:Hrunt.
  { cbn [bind]. intros [= <- <- <-]. repeat split; discriminate. }
  apply Z.ltb_ge in Hrunt.
  destruct (EVP_Init_cipher r =? 1); cbn [negb bind];
    [|intros [= <- <- <-]; repeat split; discriminate].
  destruct (EVP_CTRL_GCM_SET_IVLEN r =? 1); cbn [negb bind];
    [|intros [= <- <- <-]; repeat split; discriminate].
  destruct (EVP_Init_key_iv r =? 1); cbn [negb bind];
    [|intros [= <- <- <-]; repeat split; discriminate].
  destruct malloc_succeeds; cbn [negb bind];
    [|intros [= <- <- <-]; repeat split; discriminate].
  destruct (Z.of_nat (length encData) <? 16 + (received_length P encPacket - 4 - 16))
    eqn:Hbound; cbn [bind]; [discriminate|].
  apply Z.ltb_ge in Hbound.
  destruct (EVP_Update r =? 1); cbn [negb bind];
    [|intros [= <- <- <-]; repeat split; discriminate].
  destruct (EVP_CTRL_GCM_TAG r =? 1) eqn:Htag; cbn [negb bind].
  - destruct (bytes_eqb _ _) eqn:Hauth.
    + destruct (EVP_Final_ex r =? 1); cbn [negb bind];
        [|intros [= <- <- <-]; repeat split; discriminate].
      intros [= <- <- <-]. split; [discriminate|]. split; [intros _; lia|].
      intros _ _.
      split; [reflexivity|]. split; [lia|]. split; [lia | discriminate].
    + cbn [Z.eqb negb bind]. intros [= <- <- <-]. repeat split; discriminate.
  - apply Z.eqb_neq in Htag. cbn [to_bool Z.eqb negb].
    intros [= <- <- <-]. split; [discriminate|]. split; [intros _; lia|].
    intros _ Hset. contradiction.
Qed.

(** The theorem of X8 on the packet of the first ping of an encrypted
    Gen 7 session, received as it was sent. *)
Lemma only_authentic_packets_are_delivered_witness :
  decryptControlMessageToV1 Example.gen7enc Example.evp_ok true
    (ENCRYPTED_of_bytes Example.gen7enc Scenario.ping_frame)
    (skipn 8 Scenario.ping_frame) 77 =
    Ok (true, Some [0; 2; 4; 0; 0; 0; 0; 0; 0; 0; 0; 0], 10) /\
  received_length Example.gen7enc
    (ENCRYPTED_of_bytes Example.gen7enc Scenario.ping_frame) + 4 <=
  8 + Z.of_nat (length (skipn 8 Scenario.ping_frame)) /\
  authentic Example.gen7enc (ENCRYPTED_of_bytes Example.gen7enc Scenario.ping_frame)
    (skipn 8 Scenario.ping_frame) = true /\
  24 <= received_length Example.gen7enc
          (ENCRYPTED_of_bytes Example.gen7enc Scenario.ping_frame) /\
  10 = received_length Example.gen7enc
         (ENCRYPTED_of_bytes Example.gen7enc Scenario.ping_frame) - 22 /\
  Some [0; 2; 4; 0; 0; 0; 0; 0; 0; 0; 0; 0] <> None.
Proof.
  assert (decryptControlMessageToV1 Example.gen7enc Example.evp_ok true
            (ENCRYPTED_of_bytes Example.gen7enc Scenario.ping_frame)
            (skipn 8 Scenario.ping_frame) 77 =
          Ok (true, Some [0; 2; 4; 0; 0; 0; 0; 0; 0; 0; 0; 0], 10)) as Hrun
    by (vm_compute; reflexivity).
  split; [exact Hrun|].
  destruct (only_authentic_packets_are_delivered Example.gen7enc Example.evp_ok true
              (ENCRYPTED_of_bytes Example.gen7enc Scenario.ping_frame)
              (skipn 8 Scenario.ping_frame) 77 true
              (Some [0; 2; 4; 0; 0; 0; 0; 0; 0; 0; 0; 0]) 10 Hrun)
    as (_ & Hbounds & Hauthentic).
  split; [exact (Hbounds eq_refl) | exact (Hauthentic eq_refl eq_refl)].
Defined.

(** X9. Not so when the tag cannot be handed to the cipher
    (EVP_CIPHER_CTX_ctrl with EVP_CTRL_GCM_SET_TAG fails): for a packet
    that holds all the bytes its length field announces, [ret = -1] in a
    [bool] is true, so decryptControlMessageToV1 returns true with the
    plaintext as it was decrypted, the tag unchecked and the V2 header
    still in place, and [*packetLength] not written. *)
Theorem unset_tag_is_not_reported (P : Program) (r : EVP_RESULTS)
    (encPacket : NVCTL_ENCRYPTED_PACKET_HEADER) (encData : list Z)
    (packetLength0 : Z) :
  (LC_DEBUG P = true -> encryptedHeaderType encPacket = 0x0001) ->
  24 <= received_length P encPacket ->
  received_length P encPacket + 4 <= 8 + Z.of_nat (length encData) ->
  EVP_Init_cipher r = 1 -> EVP_CTRL_GCM_SET_IVLEN r = 1 ->
  EVP_Init_key_iv r = 1 -> EVP_Update r = 1 ->
  EVP_CTRL_GCM_TAG r <> 1 ->
  decryptControlMessageToV1 P r true encPacket encData packetLength0 =
    Ok (true,
        Some (aes_128_gcm_ctr P (remoteInputAesKey P)
                (iv_of_seq (received_seq P encPacket))
                (received_ciphertext P encPacket encData)),
        packetLength0).
Proof.
  intros Ha Hlen Hbound H1 H2 H3 H4 Htag.
  unfold decryptControlMessageToV1, decryptControlMessage, received_ciphertext.
  destruct (received_header P encPacket) as (-> & -> & ->).
  unfold LC_ASSERT.
  assert (LC_DEBUG P && negb (encryptedHeaderType encPacket =? 1) = false) as ->.
  { destruct (LC_DEBUG P); [|reflexivity]. now rewrite (Ha eq_refl). }
  cbn [bind]. unfold AES_GCM_TAG_LENGTH.
  rewrite (proj2 (Z.ltb_ge (received_length P encPacket) _)) by lia.
  rewrite (proj2 (Z.ltb_ge (Z.of_nat (length encData)) _)) by lia.
  apply Z.eqb_neq in Htag. rewrite H1, H2, H3, H4, Htag. reflexivity.
Qed.


(** The theorem of X9 on that packet with the first byte of its tag
    changed: it is delivered all the same. *)
Lemma unset_tag_is_not_reported_witness :
  decryptControlMessageToV1 Example.gen7enc Example.evp_no_tag true
    (ENCRYPTED_of_bytes Example.gen7enc Scenario.tampered)
    (skipn 8 Scenario.tampered) 77 =
    Ok (true,
        Some (aes_128_gcm_ctr Example.gen7enc (remoteInputAesKey Example.gen7enc)
                (iv_of_seq (received_seq Example.gen7enc
                              (ENCRYPTED_of_bytes Example.gen7enc Scenario.tampered)))
                (received_ciphertext Example.gen7enc
                   (ENCRYPTED_of_bytes Example.gen7enc Scenario.tampered)
                   (skipn 8 Scenario.tampered))),
        77).
Proof.
  apply (unset_tag_is_not_reported Example.gen7enc Example.evp_no_tag
           (ENCRYPTED_of_bytes Example.gen7enc Scenario.tampered)
           (skipn 8 Scenario.tampered) 77); try reflexivity;
    vm_compute; intros [=].
Defined.

(** *** What the receive thread does with a packet *)

Lemma load_bounds (B : bool) (bs : list Z) :
  Forall is_byte bs -> 0 <= load B bs < 256 ^ Z.of_nat (length bs).
Proof.
  intros Hbs. unfold load, be_decode. destruct B.
  - rewrite <- length_rev. apply le_decode_bounds, rev_bytes, Hbs.
  - apply le_decode_bounds, Hbs.
Qed.

(** X10. In a session with a Gen 5 server the receive thread makes no
    callback for a packet it receives, whatever the packet holds, and
    goes on: the types of rumble and termination messages are -1 in the
    tables of Gen 5, which the 16-bit type of no packet equals. *)
Theorem gen5_packets_are_ignored (P : Program) (r : EVP_RESULTS)
    (malloc_succeeds : bool) (s : Indeterminate) (data : list Z) (g : Globals) :
  nth 0 (AppVersionQuad P) 0 = 5 ->
  initialized P g ->
  Forall is_byte data ->
  controlReceiveThreadFunc_event P r malloc_succeeds s (ENET_EVENT_TYPE_RECEIVE data) g =
    Ok (false, []).
Proof.
  intros Hv (Htypes & _ & _ & _ & Henc) Hbytes.
  assert (packetTypes g = packetTypesGen5) as Hgen5.
  { rewrite Htypes. unfold initializeControlStream. now rewrite Hv. }
  assert (encryptedControlStream g = false) as Hplain.
  { rewrite Henc. unfold initializeControlStream. cbn [encryptedControlStream].
    unfold APP_VERSION_AT_LEAST. now rewrite Hv. }
  unfold controlReceiveThreadFunc_event.
  destruct (Z.of_nat (length data) <? 2); [reflexivity|].
  rewrite Hplain. cbn [bind]. unfold controlReceiveThreadFunc_dispatch.
  rewrite Hgen5. cbn [nth IDX_RUMBLE_DATA IDX_TERMINATION packetTypesGen5].
  set (t := if BIGENDIAN P then _ else _).
  assert (0 <= t) as Ht.
  { unfold t, V1_of_bytes. cbn [v1_type].
    destruct (BIGENDIAN P) at 1.
    - apply (bswap_bounds 2).
    - apply load_bounds, firstn_bytes, Hbytes. }
  now rewrite (proj2 (Z.eqb_neq t (-1))) by lia.
Qed.

(** The theorem of X10 on a termination message as a Gen 7 server sends
    it. *)
Lemma gen5_packets_are_ignored_witness :
  controlReceiveThreadFunc_event Example.gen5 Example.evp_ok true Example.indeterminate
    (ENET_EVENT_TYPE_RECEIVE [0x00; 0x01; 0x80; 0x03; 0x00; 0x23])
    (initializeControlStream Example.gen5) =
    Ok (false, []).
Proof.
  apply (gen5_packets_are_ignored Example.gen5 Example.evp_ok true Example.indeterminate
           [0x00; 0x01; 0x80; 0x03; 0x00; 0x23] (initializeControlStream Example.gen5)).
  - reflexivity.
  - repeat split; reflexivity.
  - repeat constructor; unfold is_byte; lia.
Defined.

(** X11. A rumble message of 12 bytes or more, the two bytes of its type
    counted, makes the receive thread call the listener's rumble with the
    three 16-bit little-endian numbers that follow the first 4 bytes of
    its payload (controller number, low-frequency and high-frequency
    motor), and go on. *)
Theorem rumble_dispatch (P : Program) (s : Indeterminate) (g : Globals)
    (ctlHdr_type : Z) (ctlHdr : list Z) (packetLength : Z) :
  ctlHdr_type = nth IDX_RUMBLE_DATA (packetTypes g) 0 ->
  12 <= packetLength <= Z.of_nat (length ctlHdr) ->
  controlReceiveThreadFunc_dispatch P s ctlHdr_type ctlHdr packetLength g =
    (false,
     [rumble (le_decode (firstn 2 (skipn 6 ctlHdr)))
             (le_decode (firstn 2 (skipn 8 ctlHdr)))
             (le_decode (firstn 2 (skipn 10 ctlHdr)))]).
Proof.
  intros Htype Hlen. unfold controlReceiveThreadFunc_dispatch.
  rewrite <- Htype, Z.eqb_refl.
  unfold BbAdvanceBuffer, BbGet_into, BbGet16, BbGet, BbInitializeWrappedBuffer.
  cbn [bb_position bb_length bb_buffer bb_byteOrder].
  replace (0 + 4 >? packetLength - 2) with false
    by (symmetry; rewrite Z.gtb_ltb; apply Z.ltb_ge; lia).
  cbn [bb_position bb_length bb_buffer bb_byteOrder].
  replace (0 + 4 + Z.of_nat 2 >? packetLength - 2) with false
    by (symmetry; rewrite Z.gtb_ltb; apply Z.ltb_ge; lia).
  cbn [bb_position bb_length bb_buffer bb_byteOrder].
  replace (0 + 4 + Z.of_nat 2 + Z.of_nat 2 >? packetLength - 2) with false
    by (symmetry; rewrite Z.gtb_ltb; apply Z.ltb_ge; lia).
  cbn [bb_position bb_length bb_buffer bb_byteOrder].
  replace (0 + 4 + Z.of_nat 2 + Z.of_nat 2 + Z.of_nat 2 >? packetLength - 2) with false
    by (symmetry; rewrite Z.gtb_ltb; apply Z.ltb_ge; lia).
  cbn [decode]. rewrite !skipn_skipn. reflexivity.
Qed.

(** The theorem of X11 on a rumble message of an encrypted Gen 7 session
    for controller 1, with the motors at 0x1234 and 0xABCD. *)
Lemma rumble_dispatch_witness :
  controlReceiveThreadFunc_dispatch Example.gen7enc Example.indeterminate 0x010b
    [0x0b; 0x01; 0; 0; 0; 0; 1; 0; 0x34; 0x12; 0xCD; 0xAB] 12
    (initializeControlStream Example.gen7enc) =
    (false, [rumble 1 0x1234 0xABCD]).
Proof.
  apply (rumble_dispatch Example.gen7enc Example.indeterminate
           (initializeControlStream Example.gen7enc) 0x010b
           [0x0b; 0x01; 0; 0; 0; 0; 1; 0; 0x34; 0x12; 0xCD; 0xAB] 12).
  - reflexivity.
  - cbn. lia.
Defined.

(** *** From a loss of frames to the message that invalidates them *)

(** One run of requestInvalidateReferenceFrames on a queue of ranges
    whose ends ascend: one message with the range from the start of the
    first to the end of the last, and every tuple freed. *)
Lemma requestInvalidateReferenceFrames_range (P : Program) (e : SendEnv) (g : Globals)
    (t : QUEUED_FRAME_INVALIDATION_TUPLE)
    (ts : list QUEUED_FRAME_INVALIDATION_TUPLE) :
  initialized P g ->
  isReferenceFrameInvalidationEnabled P = true ->
  items (invalidReferenceFrameTuples g) = t :: ts ->
  shutdown (invalidReferenceFrameTuples g) = false ->
  Forall (fun q => startFrame q <= endFrame q) (t :: ts) ->
  ends_ascend (endFrame t) ts ->
  exists g' evs,
    requestInvalidateReferenceFrames P e g = Ok (g', evs) /\
    items (invalidReferenceFrameTuples g') = [] /\
    freed evs = t :: ts /\
    messages evs =
      [SendMessage (nth IDX_INVALIDATE_REF_FRAMES (packetTypes g) 0) 24
         (range_payload (startFrame t) (endFrame (last ts t)))].
Proof.
  intros Hinit Hen Hi Hs Hle Ha.
  destruct (invalidate_ref_frames_entry P g Hinit) as [Hlen Htype].
  unfold requestInvalidateReferenceFrames, LC_ASSERT.
  rewrite Hen, andb_false_r. cbn [bind].
  rewrite (poll_live g t ts Hi Hs).
  rewrite (proj2 (Z.leb_le _ _) (Forall_inv Hle)), andb_false_r. cbn [bind].
  rewrite (aggregateLostFrames_all P ts (length ts) t (endFrame t));
    [| reflexivity | exact Hs | reflexivity | lia | exact Ha].
  cbn [bind].
  set (g0 := set_invalidReferenceFrameTuples _ _).
  change (packetTypes g0) with (packetTypes g).
  change (payloadLengths g0) with (payloadLengths g).
  rewrite Hlen.
  destruct (frees_only (t :: ts)) as [Hfm Hff].
  destruct (BIGENDIAN P) eqn:HB; cbv beta iota zeta;
    (match goal with
     | |- context [sendMessageAndDiscardReply P e ?T 24 ?pl g0] =>
         replace pl with (range_payload (startFrame t) (endFrame (last ts t)))
           by (unfold bytes_of_int64s;
               rewrite <- (range_payload_bytes (BIGENDIAN P)); now rewrite HB);
         destruct (sendMessageAndDiscardReply_returns P e T 24
                     (range_payload (startFrame t) (endFrame (last ts t))) g0)
           as (ret & n & evs & -> & Ht); [intros _ _; reflexivity|]
     end);
    cbn [bind];
    rewrite (to_int16_invalidate_type _ Htype);
    change (to_int16 24) with 24; change (Z.to_nat 24) with 24%nat;
    rewrite firstn_all2 by (rewrite range_payload_length; lia);
    destruct (transport_only_messages evs Ht) as [Hm Hf];
    (destruct ret; cbn [negb]; eexists _, _; (split; [reflexivity|]);
     (split; [reflexivity|]);
     rewrite ?freed_app, ?messages_app, messages_send, freed_send, Hfm, Hff, Hm, Hf;
     cbn; rewrite ?app_nil_r; split; reflexivity).
Qed.

(** The calls of connectionDetectedFrameLoss that the queue has room for
    append their ranges to it, set the event and leave the rest of the
    state as it is. *)
Lemma losses_are_queued (P : Program) (ts : list QUEUED_FRAME_INVALIDATION_TUPLE) :
  isReferenceFrameInvalidationEnabled P = true ->
  forall g : Globals,
    shutdown (invalidReferenceFrameTuples g) = false ->
    Z.of_nat (length (items (invalidReferenceFrameTuples g)) + length ts) <=
      sizeBound (invalidReferenceFrameTuples g) ->
    Forall (fun q => startFrame q <= endFrame q) ts ->
    exists g',
      connectionDetectedFrameLosses P ts g = Ok g' /\
      items (invalidReferenceFrameTuples g') =
        items (invalidReferenceFrameTuples g) ++ ts /\
      shutdown (invalidReferenceFrameTuples g') = false /\
      (invalidateRefFramesEvent g = true \/ ts <> [] ->
       invalidateRefFramesEvent g' = true) /\
      idrFrameRequired g' = idrFrameRequired g /\
      stopping g' = stopping g /\
      (initialized P g -> initialized P g').
Proof.
  intros Hen. induction ts as [|t ts IH]; intros g Hs Hroom Hle.
  - exists g. rewrite app_nil_r.
    split; [reflexivity|]. split; [reflexivity|]. split; [exact Hs|].
    split; [intros [Hev | Hne]; [exact Hev | congruence]|].
    split; [reflexivity|]. split; [reflexivity|]. trivial.
  - cbn [connectionDetectedFrameLosses].
    unfold connectionDetectedFrameLoss, queueFrameInvalidationTuple, LC_ASSERT.
    rewrite (proj2 (Z.leb_le _ _) (Forall_inv Hle)), andb_false_r. cbn [bind].
    rewrite Hen. unfold LbqOfferQueueItem. rewrite Hs.
    cbn [length] in Hroom.
    replace (Z.of_nat (length (items (invalidReferenceFrameTuples g))) >=?
             sizeBound (invalidReferenceFrameTuples g)) with false
      by (symmetry; rewrite Z.geb_leb; apply Z.leb_gt; lia).
    set (g1 := PltSetEvent_invalidateRefFramesEvent _).
    destruct (IH g1) as (g' & -> & Hi & Hsq & Hev & Hidr & Hstop & Hinit);
      [exact Hs | cbn; rewrite length_app; cbn [length]; lia
       | exact (Forall_inv_tail Hle)|].
    exists g'. split; [reflexivity|].
    split; [rewrite Hi; cbn; rewrite <- app_assoc; now destruct t|].
    split; [exact Hsq|].
    split; [intros _; apply Hev; now left|].
    split; [exact Hidr|]. split; [exact Hstop|].
    intros Hg. apply Hinit. exact Hg.
Qed.

(** X12. Losses of frames reported by connectionDetectedFrameLoss, no
    more of them than the queue holds and with ends that ascend, wake the
    invalidation thread, whose next turn hands one message to the
    transport: the InvalidateRefFrames message with the range from the
    start of the first loss to the end of the last. Every range is
    freed and the queue is left empty. *)
Theorem reported_losses_are_sent_as_one_range (P : Program) (t : Turn) (g : Globals)
    (l : QUEUED_FRAME_INVALIDATION_TUPLE)
    (ls : list QUEUED_FRAME_INVALIDATION_TUPLE) :
  initialized P g ->
  isReferenceFrameInvalidationEnabled P = true ->
  PltIsThreadInterrupted t = false ->
  stopping g = false ->
  idrFrameRequired g = false ->
  items (invalidReferenceFrameTuples g) = [] ->
  shutdown (invalidReferenceFrameTuples g) = false ->
  Z.of_nat (length (l :: ls)) <= sizeBound (invalidReferenceFrameTuples g) ->
  Forall (fun q => startFrame q <= endFrame q) (l :: ls) ->
  ends_ascend (endFrame l) ls ->
  exists g1 g' evs,
    connectionDetectedFrameLosses P (l :: ls) g = Ok g1 /\
    invalidateRefFramesEvent g1 = true /\
    invalidateRefFramesFunc P [t] g1 = Ok (g', evs) /\
    messages evs =
      [SendMessage (nth IDX_INVALIDATE_REF_FRAMES (packetTypes g) 0) 24
         (range_payload (startFrame l) (endFrame (last ls l)))] /\
    freed evs = l :: ls /\
    items (invalidReferenceFrameTuples g') = [].
Proof.
  intros Hinit Hen Hrun Hstop Hidr Hi Hs Hroom Hle Ha.
  destruct (losses_are_queued P (l :: ls) Hen g Hs) as
    (g1 & Hq & Hi1 & Hs1 & Hev1 & Hidr1 & Hstop1 & Hinit1);
    [rewrite Hi; exact Hroom | exact Hle|].
  rewrite Hi in Hi1. cbn [app] in Hi1.
  exists g1. rewrite Hq.
  cbn [invalidateRefFramesFunc]. rewrite Hrun.
  change (stopping (set_invalidateRefFramesEvent false g1)) with (stopping g1).
  change (idrFrameRequired (set_invalidateRefFramesEvent false g1))
    with (idrFrameRequired g1).
  rewrite Hstop1, Hstop, Hidr1, Hidr.
  destruct (requestInvalidateReferenceFrames_range P (send_env t)
              (set_invalidateRefFramesEvent false g1) l ls)
    as (g' & evs & -> & Hq' & Hfreed & Hmsg);
    [exact (Hinit1 Hinit) | exact Hen | exact Hi1 | exact Hs1 | exact Hle | exact Ha|].
  cbn [bind]. exists g', (evs ++ []). rewrite app_nil_r.
  split; [reflexivity|]. split; [apply Hev1; right; discriminate|].
  split; [reflexivity|].
  change (packetTypes (set_invalidateRefFramesEvent false g1))
    with (packetTypes g1) in Hmsg.
  destruct (Hinit1 Hinit) as (Ht1 & _). destruct Hinit as (Ht & _).
  rewrite Ht1, <- Ht in Hmsg.
  now repeat split.
Qed.

(** The theorem of X12 on the losses of the frames 100 to 200 and 201 to
    250 in a Gen 5 session. *)
Lemma reported_losses_are_sent_as_one_range_witness :
  exists g1 g' evs,
    connectionDetectedFrameLosses Example.gen5
      [{| startFrame := 100; endFrame := 200 |};
       {| startFrame := 201; endFrame := 250 |}]
      (initializeControlStream Example.gen5) = Ok g1 /\
    invalidateRefFramesEvent g1 = true /\
    invalidateRefFramesFunc Example.gen5 [Example.control_turn 26] g1 = Ok (g', evs) /\
    messages evs = [SendMessage 0x0301 24 (range_payload 100 250)] /\
    freed evs = [{| startFrame := 100; endFrame := 200 |};
                 {| startFrame := 201; endFrame := 250 |}] /\
    items (invalidReferenceFrameTuples g') = [].
Proof.
  apply (reported_losses_are_sent_as_one_range Example.gen5 (Example.control_turn 26)
           (initializeControlStream Example.gen5)
           {| startFrame := 100; endFrame := 200 |}
           [{| startFrame := 201; endFrame := 250 |}]);
    try reflexivity.
  - repeat split; reflexivity.
  - cbn. lia.
  - repeat constructor; cbn; lia.
  - cbn. lia.
Defined.

End ControlStreamProofs.


(** ** The input stream *)

Module InputStreamProofs.

Import InputStream InputStreamSpec BytesFacts.

(** *** Mouse moves *)

(** C10. For every call of LiSendMouseMoveEvent on an initialized input
    stream with deltaX = 0 and deltaY = 0, the function returns 0 and
    leaves the packet queue, and every other variable, as it was: no
    packet holder is allocated or queued. *)
Theorem zero_mouse_move (P : Program) (H : Input_h) (malloc_succeeds : bool)
    (g : Globals) :
  initialized g = true ->
  LiSendMouseMoveEvent P H malloc_succeeds 0 0 g = (0, g, []).
Proof.
  intros Hinit. unfold LiSendMouseMoveEvent. rewrite Hinit. reflexivity.
Qed.

(** The theorem of C10 on a started input stream of a Gen 7 session. *)
Lemma zero_mouse_move_witness :
  LiSendMouseMoveEvent Example.gen7 Example.input_h true 0 0
    (Example.input_started Example.gen7) =
  (0, Example.input_started Example.gen7, []).
Proof.
  apply (zero_mouse_move Example.gen7 Example.input_h true
           (Example.input_started Example.gen7)).
  reflexivity.
Defined.

(** A call of LiSendMouseMoveEvent that succeeds queues [move]. *)
Lemma LiSendMouseMoveEvent_queues (P : Program) (H : Input_h) (dx dy : Z)
    (g : Globals) (holders : list PACKET_HOLDER) :
  initialized g = true ->
  (dx =? 0) && (dy =? 0) = false ->
  queued g holders ->
  Z.of_nat (length holders) < sizeBound (packetQueue g) ->
  exists g',
    LiSendMouseMoveEvent P H true dx dy g = (lbq_int P LBQ_SUCCESS, g', [malloc true]) /\
    queued g' (holders ++ [move P H dx dy]) /\
    initialized g' = true /\
    sizeBound (packetQueue g') = sizeBound (packetQueue g).
Proof.
  intros Hinit Hnz [Hitems Hlive] Hroom.
  unfold LiSendMouseMoveEvent, LbqOfferQueueItem.
  rewrite Hinit, Hnz, Hlive, Hitems. cbn [negb].
  replace (Z.of_nat (length holders) >=? sizeBound (packetQueue g)) with false
    by (symmetry; rewrite Z.geb_leb; apply Z.leb_gt; exact Hroom).
  eexists. split; [reflexivity|]. repeat split; assumption.
Qed.

Lemma packetType_is_move (P : Program) (H : Input_h) (dx dy T : Z) :
  0 <= T < 2 ^ 32 ->
  0 <= PACKET_TYPE_REL_MOUSE_MOVE H < 2 ^ 32 ->
  packetType_is P (move P H dx dy) T = (T =? PACKET_TYPE_REL_MOUSE_MOVE H).
Proof.
  intros HT HR. unfold packetType_is, move.
  cbn [packet header_packetType rel_header_packetType].
  rewrite to_uint32_to_int32.
  pose proof (htonl_bounds (BIGENDIAN P) (PACKET_TYPE_REL_MOUSE_MOVE H)) as Hb.
  unfold to_uint32. rewrite Z.mod_small by exact Hb.
  destruct (Z.eqb_spec T (PACKET_TYPE_REL_MOUSE_MOVE H)) as [-> | Hne].
  - apply Z.eqb_refl.
  - apply Z.eqb_neq. intros Heq. apply Hne.
    symmetry. exact (htonl_injective _ _ _ HR HT Heq).
Qed.

(** A 16-bit value that went through htons into a field comes back. *)
Lemma htons_field (B : bool) (v : Z) :
  - 2 ^ 15 <= v < 2 ^ 15 ->
  to_int16 (htons B (to_int16 (htons B v))) = v.
Proof.
  intros Hv.
  assert (forall z, to_uint16 (to_int16 z) = to_uint16 z) as Hu.
  { intros z. unfold to_uint16, to_int16.
    rewrite Zminus_mod, Z.mod_mod by lia. rewrite <- Zminus_mod. f_equal. lia. }
  assert (forall z, - 2 ^ 15 <= z < 2 ^ 15 -> to_int16 (to_uint16 z) = z) as Hs.
  { intros z Hz. unfold to_int16, to_uint16.
    rewrite Zplus_mod, Z.mod_mod by lia. rewrite <- Zplus_mod.
    rewrite Z.mod_small; lia. }
  unfold htons. destruct B.
  - rewrite Hu. unfold to_uint16. rewrite Z.mod_mod by lia. fold (to_uint16 v).
    apply Hs, Hv.
  - rewrite Hu. unfold __bswap16.
    pose proof (bswap_bounds 2 (to_uint16 v)) as Hb. change (256 ^ Z.of_nat 2) with (2 ^ 16) in Hb.
    unfold to_uint16 at 1. rewrite Z.mod_small by exact Hb.
    rewrite bswap_involutive.
    + apply Hs, Hv.
    + change (256 ^ Z.of_nat 2) with (2 ^ 16). unfold to_uint16.
      apply Z.mod_pos_bound. lia.
Qed.

(** The batching of a relative mouse move stops at a move that would
    make a sum overflow, and at the end of the queue: the move is sent as
    it was queued and the rest of the queue stays. *)
Lemma next_to_send_move (P : Program) (H : Input_h) (g : Globals)
    (dx dy : Z) (rest : list PACKET_HOLDER) :
  packet_types_distinct H ->
  - 2 ^ 15 <= dx < 2 ^ 15 -> - 2 ^ 15 <= dy < 2 ^ 15 ->
  queued g (move P H dx dy :: rest) ->
  rest = [] \/
  (exists dx' dy' rest',
     rest = move P H dx' dy' :: rest' /\
     - 2 ^ 15 <= dx' < 2 ^ 15 /\ - 2 ^ 15 <= dy' < 2 ^ 15 /\
     (overflows dx' dx \/ overflows dy' dy)) ->
  next_to_send P H g =
    Some (move P H dx dy,
          set_packetQueue (with_items (packetQueue g) rest) g, []).
Proof.
  intros (HM & HR & Hne) Hdx Hdy [Hitems Hlive] Hrest.
  unfold next_to_send, LbqWaitForQueueElement. rewrite Hlive, Hitems.
  unfold batch.
  rewrite !packetType_is_move by assumption.
  apply Z.eqb_neq in Hne. rewrite Hne, Z.eqb_refl.
  cbn [move packet deltaX deltaY rel_header_packetType rel_magic packetLength].
  rewrite !htons_field by assumption.
  cbn [set_packetQueue packetQueue with_items items].
  assert (forall tx ty,
            - 2 ^ 15 <= tx < 2 ^ 15 -> - 2 ^ 15 <= ty < 2 ^ 15 ->
            {| packetLength := sizeof_NV_REL_MOUSE_MOVE_PACKET H;
               packet := mouseMoveRel
                 {| rel_header_packetType :=
                      to_int32 (htonl (BIGENDIAN P) (PACKET_TYPE_REL_MOUSE_MOVE H));
                    rel_magic :=
                      if nth 0 (AppVersionQuad P) 0 >=? 5
                      then to_int32 (MOUSE_MOVE_REL_MAGIC H + 1)
                      else MOUSE_MOVE_REL_MAGIC H;
                    deltaX := to_int16 (htons (BIGENDIAN P) (to_int16 tx));
                    deltaY := to_int16 (htons (BIGENDIAN P) (to_int16 ty)) |} |} =
            move P H tx ty) as Hsame.
  { intros tx ty Htx Hty. unfold move.
    now rewrite (to_int16_small tx), (to_int16_small ty) by assumption. }
  destruct Hrest as [-> | (dx' & dy' & rest' & -> & Hdx' & Hdy' & Hover)].
  - cbn [length batchMouseMoveRel]. now rewrite Hsame.
  - cbn [length batchMouseMoveRel].
    unfold LbqPeekQueueElement.
    cbn [set_packetQueue packetQueue with_items items shutdown]. rewrite Hlive.
    rewrite packetType_is_move, Z.eqb_refl by assumption. cbn [negb].
    cbn [move packet deltaX deltaY].
    rewrite !htons_field by assumption.
    replace ((dx' + dx >? INT16_MAX) || (dx' + dx <? INT16_MIN) ||
             (dy' + dy >? INT16_MAX) || (dy' + dy <? INT16_MIN)) with true.
    + now rewrite Hsame.
    + symmetry. unfold overflows in Hover.
      rewrite !orb_true_iff, !Z.gtb_gt, !Z.ltb_lt. tauto.
Qed.

(** The batching loop leaves the deltas and the queue as they are when
    the move at the head of the queue would make a sum overflow. *)
Lemma batchMouseMoveRel_aborts (P : Program) (H : Input_h) (fuel : nat)
    (totalDeltaX totalDeltaY : Z) (g : Globals) (holder : PACKET_HOLDER)
    (m : NV_REL_MOUSE_MOVE_PACKET) (rest : list PACKET_HOLDER) :
  queued g (holder :: rest) ->
  packet holder = mouseMoveRel m ->
  overflows (to_int16 (htons (BIGENDIAN P) (deltaX m))) totalDeltaX \/
  overflows (to_int16 (htons (BIGENDIAN P) (deltaY m))) totalDeltaY ->
  batchMouseMoveRel P H (S fuel) totalDeltaX totalDeltaY g =
    (totalDeltaX, totalDeltaY, g, []).
Proof.
  intros [Hitems Hlive] Hpacket Hover.
  cbn [batchMouseMoveRel]. unfold LbqPeekQueueElement. rewrite Hlive, Hitems.
  destruct (packetType_is P holder (PACKET_TYPE_REL_MOUSE_MOVE H)); [|reflexivity].
  cbn [negb]. rewrite Hpacket.
  replace ((to_int16 (htons (BIGENDIAN P) (deltaX m)) + totalDeltaX >? INT16_MAX) ||
           (to_int16 (htons (BIGENDIAN P) (deltaX m)) + totalDeltaX <? INT16_MIN) ||
           (to_int16 (htons (BIGENDIAN P) (deltaY m)) + totalDeltaY >? INT16_MAX) ||
           (to_int16 (htons (BIGENDIAN P) (deltaY m)) + totalDeltaY <? INT16_MIN))
    with true; [reflexivity|].
  symmetry. unfold overflows in Hover.
  rewrite !orb_true_iff, !Z.gtb_gt, !Z.ltb_lt. tauto.
Qed.

Lemma control_transport_only (evs : list ControlStream.event) :
  ControlStreamSpec.transport_only evs -> messages (map control evs) = [].
Proof.
  induction 1 as [|ev evs Hev _ IH]; [reflexivity|].
  destruct ev; try contradiction; exact IH.
Qed.

Lemma input_messages_app (a b : list event) :
  messages (a ++ b) = messages a ++ messages b.
Proof. apply flat_map_app. Qed.

Lemma LC_ASSERT_true (d : bool) : LC_ASSERT d true = Ok tt.
Proof. unfold LC_ASSERT. now rewrite andb_false_r. Qed.

Lemma sendInputPacketOnControlStream_returns (P : Program)
    (e : ControlStream.SendEnv) (data : list Z) (len : Z)
    (cg : ControlStream.Globals) :
  5 <= nth 0 (AppVersionQuad P) 0 ->
  ControlStreamSpec.send_asserts P (to_int16 len) cg ->
  exists err n evs,
    ControlStream.sendInputPacketOnControlStream P e data len cg =
      Ok (err, ControlStream.set_currentEnetSequenceNumber n cg,
          ControlStream.SendMessage
            (to_int16 (nth ControlStream.IDX_INPUT_DATA (ControlStream.packetTypes cg) 0))
            (to_int16 len) (firstn (Z.to_nat (to_int16 len)) data) :: evs) /\
    ControlStreamSpec.transport_only evs.
Proof.
  intros Hv Ha. unfold ControlStream.sendInputPacketOnControlStream.
  rewrite (geb_true _ 5), LC_ASSERT_true by lia. cbn [bind].
  destruct (ControlStreamProofs.sendMessageAndForget_returns P e
              (nth ControlStream.IDX_INPUT_DATA (ControlStream.packetTypes cg) 0)
              len data cg Ha) as (ret & n & evs & -> & Ht).
  cbn [bind]. destruct ret; cbn [negb]; eexists _, n, evs; now split.
Qed.

(** What [next_to_send] finds is what a turn of the loop hands to the
    second half of its body. *)
Lemma inputSendThreadProc_turn (P : Program) (H : Input_h) (t : Turn)
    (turns : list Turn) (encryptedBuffer : list Z) (g : Globals)
    (cg : ControlStream.Globals) :
  PltIsThreadInterrupted t = false ->
  inputSendThreadProc P H (t :: turns) encryptedBuffer g cg =
  match next_to_send P H g with
  | Some (holder, g, frees) =>
      r <- sendHolder P H t (APP_VERSION_AT_LEAST P 7 1 431) holder
             encryptedBuffer g cg ;;
      let '(returns, encryptedBuffer, g, cg, evs) := r in
      if returns : bool then Ok (encryptedBuffer, g, cg, frees ++ evs) else
      r <- inputSendThreadProc P H turns encryptedBuffer g cg ;;
      let '(encryptedBuffer, g, cg, evs') := r in
      Ok (encryptedBuffer, g, cg, frees ++ evs ++ evs')
  | None => Ok (encryptedBuffer, g, cg, [])
  end.
Proof.
  intros Hrun. cbn [inputSendThreadProc]. rewrite Hrun. unfold next_to_send.
  destruct (LbqWaitForQueueElement (packetQueue g)) as [[[[] [holder|]] q]|];
    try reflexivity.
Qed.

Lemma unified_from_7 (P : Program) :
  APP_VERSION_AT_LEAST P 7 1 431 = true -> 7 <= nth 0 (AppVersionQuad P) 0.
Proof.
  unfold APP_VERSION_AT_LEAST. rewrite !orb_true_iff, !andb_true_iff.
  rewrite Z.gtb_gt, !Z.eqb_eq. lia.
Qed.

(** On the unified path, the second half of the body of the loop hands
    the bytes of the holder to the control stream as one message. *)
Lemma sendHolder_unified (P : Program) (H : Input_h) (t : Turn)
    (holder : PACKET_HOLDER) (encryptedBuffer : list Z) (g : Globals)
    (cg : ControlStream.Globals) :
  7 <= nth 0 (AppVersionQuad P) 0 ->
  0 <= packetLength holder < 252 ->
  exists returns n evs,
    sendHolder P H t true holder encryptedBuffer g cg =
      Ok (returns, encryptedBuffer, g,
          ControlStream.set_currentEnetSequenceNumber n cg, evs) /\
    messages evs =
      [ControlStream.SendMessage
         (to_int16 (nth ControlStream.IDX_INPUT_DATA (ControlStream.packetTypes cg) 0))
         (packetLength holder)
         (firstn (Z.to_nat (packetLength holder))
            (bytes_of_PACKET H (packet holder)))].
Proof.
  intros Hv Hlen. unfold sendHolder.
  assert (to_int16 (packetLength holder) = packetLength holder) as Hsmall
    by (apply to_int16_small; lia).
  destruct (sendInputPacketOnControlStream_returns P (control_env t)
              (bytes_of_PACKET H (packet holder)) (packetLength holder) cg)
    as (err & n & evs & -> & Ht).
  - lia.
  - intros _ _. rewrite Hsmall. lia.
  - cbn [bind]. rewrite Hsmall.
    assert (forall tail,
              messages tail = [] ->
              messages
                (map control
                   (ControlStream.SendMessage
                      (to_int16
                         (nth ControlStream.IDX_INPUT_DATA
                            (ControlStream.packetTypes cg) 0))
                      (packetLength holder)
                      (firstn (Z.to_nat (packetLength holder))
                         (bytes_of_PACKET H (packet holder))) :: evs) ++ tail) =
              [ControlStream.SendMessage
                 (to_int16
                    (nth ControlStream.IDX_INPUT_DATA
                       (ControlStream.packetTypes cg) 0))
                 (packetLength holder)
                 (firstn (Z.to_nat (packetLength holder))
                    (bytes_of_PACKET H (packet holder)))]) as Hmsg.
    { intros tail Htail. rewrite input_messages_app, Htail, app_nil_r.
      cbn [map]. change (messages (?x :: ?l)) with (messages [x] ++ messages l).
      now rewrite (control_transport_only evs Ht). }
    destruct (err <? 0); eexists _, n, _; (split; [reflexivity|]).
    + rewrite <- app_assoc. now apply Hmsg.
    + now apply Hmsg.
Qed.

Lemma controls_app (a b : list event) : controls (a ++ b) = controls a ++ controls b.
Proof. apply flat_map_app. Qed.

Lemma controls_map (evs : list ControlStream.event) : controls (map control evs) = evs.
Proof.
  induction evs as [|ev evs IH]; [reflexivity|].
  change (controls (map control (ev :: evs))) with (ev :: controls (map control evs)).
  now rewrite IH.
Qed.

Lemma messages_map (evs : list ControlStream.event) :
  messages (map control evs) = ControlStreamSpec.messages evs.
Proof.
  induction evs as [|ev evs IH]; [reflexivity|].
  destruct ev; cbn [map messages flat_map app ControlStreamSpec.messages filter];
    fold (messages (map control evs)); fold (ControlStreamSpec.messages evs);
    now rewrite IH.
Qed.

Lemma frees_app (a b : list event) : frees (a ++ b) = frees a ++ frees b.
Proof. apply flat_map_app. Qed.

Lemma frees_map (evs : list ControlStream.event) : frees (map control evs) = [].
Proof. induction evs as [|ev evs IH]; [reflexivity | exact IH]. Qed.

(** What a message handed to the transport leaves in the trace. *)
Lemma sent_trace (P : Program) (e : ControlStream.SendEnv) (cg : ControlStream.Globals)
    (T T' paylen : Z) (payload : list Z) (holder : PACKET_HOLDER) (tail : list event) :
  let evs :=
    map control (ControlStream.SendMessage T' paylen payload ::
                 ControlStreamSpec.transport P e cg T payload) ++
    [free holder] ++ tail in
  messages evs = ControlStream.SendMessage T' paylen payload :: messages tail /\
  wire evs = ControlStreamSpec.frame P cg T payload :: wire tail /\
  frees evs = holder :: frees tail.
Proof.
  intros evs. subst evs. unfold wire.
  rewrite !input_messages_app, !controls_app, !frees_app, messages_map,
    controls_map, frees_map.
  change (ControlStreamSpec.messages (?x :: ?l))
    with (ControlStreamSpec.messages [x] ++ ControlStreamSpec.messages l).
  rewrite (proj1 (ControlStreamProofs.transport_only_messages _
                    (ControlStreamProofs.transport_is_transport_only P e cg T payload))).
  rewrite ControlStreamProofs.wire_app.
  change (ControlStreamSpec.wire (ControlStream.SendMessage T' paylen payload ::
                                  ControlStreamSpec.transport P e cg T payload))
    with (ControlStreamSpec.wire (ControlStreamSpec.transport P e cg T payload)).
  rewrite ControlStreamProofs.wire_app, ControlStreamProofs.wire_transport.
  repeat split; reflexivity.
Qed.

(** On the unified path, with a transport that can take the message, the
    second half of the body of the loop hands the bytes of the holder to
    the control stream as one message and frees the holder; when the
    transport does not report the message sent, it reports the
    termination of the connection and has the thread return. *)
Lemma sendHolder_unified_sends (P : Program) (H : Input_h) (t : Turn)
    (holder : PACKET_HOLDER) (encryptedBuffer : list Z) (g : Globals)
    (cg : ControlStream.Globals) :
  5 <= nth 0 (AppVersionQuad P) 0 ->
  0 <= packetLength holder < 252 ->
  packetLength holder <= Z.of_nat (length (bytes_of_PACKET H (packet holder))) ->
  ControlStreamSpec.transport_ready P (control_env t) cg (packetLength holder) ->
  let T := nth ControlStream.IDX_INPUT_DATA (ControlStream.packetTypes cg) 0 in
  let payload :=
    firstn (Z.to_nat (packetLength holder)) (bytes_of_PACKET H (packet holder)) in
  let sent := ControlStreamSpec.accepted P (control_env t) (packetLength holder) in
  sendHolder P H t true holder encryptedBuffer g cg =
    Ok (negb sent, encryptedBuffer, g, ControlStreamSpec.after_send P cg,
        map control
          (ControlStream.SendMessage (to_int16 T) (packetLength holder) payload ::
           ControlStreamSpec.transport P (control_env t) cg T payload) ++
        [free holder] ++
        (if sent then [] else [connectionTerminated (-1)])).
Proof.
  intros Hv Hlen Hbytes Hready T payload sent. subst T sent.
  unfold sendHolder, ControlStream.sendInputPacketOnControlStream.
  rewrite (geb_true _ 5), LC_ASSERT_true by lia. cbn [bind].
  rewrite ControlStreamProofs.sendMessageAndForget_prefix.
  rewrite (to_int16_small (packetLength holder)) by lia. fold payload.
  assert (Z.of_nat (length payload) = packetLength holder) as Hl
    by (unfold payload; rewrite length_firstn; lia).
  pose proof (ControlStreamProofs.sendMessageAndForget_sends P (control_env t)
                (nth ControlStream.IDX_INPUT_DATA (ControlStream.packetTypes cg) 0)
                payload cg) as Hsend.
  cbv zeta in Hsend. rewrite !Hl in Hsend.
  rewrite Hsend by (try lia; exact Hready).
  destruct (ControlStreamSpec.accepted P (control_env t) (packetLength holder));
    cbn [negb bind Z.ltb Z.compare app]; now rewrite <- ?app_assoc.
Qed.

Lemma after_send_packetTypes (P : Program) (cg : ControlStream.Globals) :
  ControlStream.packetTypes (ControlStreamSpec.after_send P cg) =
  ControlStream.packetTypes cg.
Proof. unfold ControlStreamSpec.after_send. now destruct (_ && _). Qed.

(** With nothing but moves by (30000, 0) in the queue, on the unified
    path and with a transport that can take the messages, the send
    thread hands the control stream one message for each move it gets to,
    the move as it was queued. *)
Lemma moves_by_30000 (P : Program) (H : Input_h) :
  packet_types_distinct H ->
  APP_VERSION_AT_LEAST P 7 1 431 = true ->
  let m := move P H 30000 0 in
  let len := sizeof_NV_REL_MOUSE_MOVE_PACKET H in
  let payload := firstn (Z.to_nat len) (bytes_of_PACKET H (packet m)) in
  0 <= len < 252 ->
  len <= Z.of_nat (length (bytes_of_PACKET H (packet m))) ->
  forall (turns : list Turn) (j : nat) (encryptedBuffer : list Z) (g : Globals)
         (cg : ControlStream.Globals),
    queued g (repeat m j) ->
    Forall (fun t => ControlStreamSpec.transport_ready P (control_env t) cg len) turns ->
    let T := nth ControlStream.IDX_INPUT_DATA (ControlStream.packetTypes cg) 0 in
    let k := handed_over P len j turns in
    exists encryptedBuffer' g' cg' evs,
      inputSendThreadProc P H turns encryptedBuffer g cg =
        Ok (encryptedBuffer', g', cg', evs) /\
      messages evs = repeat (ControlStream.SendMessage (to_int16 T) len payload) k /\
      wire evs = frames P cg T (repeat payload k) /\
      frees evs = repeat m k /\
      queued g' (repeat m (j - k)).
Proof.
  intros Hdistinct Hmode m len payload Hsize Hbytes.
  pose proof (unified_from_7 P Hmode) as Hv.
  induction turns as [|t turns IH]; intros j buf g cg Hq Hready T k; subst T k.
  - exists buf, g, cg, []. destruct j; cbn [handed_over repeat];
      rewrite ?Nat.sub_0_r; repeat split; try reflexivity; apply Hq.
  - destruct (PltIsThreadInterrupted t) eqn:Hrun.
    + exists buf, g, cg, []. cbn [inputSendThreadProc]. rewrite Hrun.
      destruct j; cbn [handed_over repeat]; rewrite ?Hrun, ?Nat.sub_0_r;
        repeat split; try reflexivity; apply Hq.
    + rewrite inputSendThreadProc_turn by exact Hrun.
      destruct j as [|j].
      * exists buf, g, cg, []. destruct Hq as [Hitems Hlive].
        unfold next_to_send, LbqWaitForQueueElement. rewrite Hlive, Hitems.
        cbn [repeat handed_over]. repeat split; try reflexivity; assumption.
      * cbn [repeat] in Hq.
        rewrite (next_to_send_move P H g 30000 0 (repeat m j));
          [ | exact Hdistinct | lia | lia | exact Hq | ].
        2:{ destruct j as [|j]; [now left | right].
            exists 30000, 0, (repeat m j).
            repeat split; try lia. left. left. unfold INT16_MAX. lia. }
        rewrite Hmode.
        set (g1 := set_packetQueue (with_items (packetQueue g) (repeat m j)) g).
        assert (queued g1 (repeat m j)) as Hq1 by (destruct Hq as [_ Hlive]; now split).
        pose proof (sendHolder_unified_sends P H t m buf g1 cg ltac:(lia) Hsize Hbytes
                      (Forall_inv Hready)) as Hsend.
        cbv zeta in Hsend. change (packetLength m) with len in Hsend.
        fold payload in Hsend. fold m.
        cbn [handed_over]. rewrite Hrun.
        destruct (ControlStreamSpec.accepted P (control_env t) len) eqn:Hacc;
          cbn [negb] in Hsend.
        -- destruct (IH j buf g1 (ControlStreamSpec.after_send P cg) Hq1)
             as (buf' & g' & cg' & evs' & Hrec & Hmsg & Hwire & Hfrees & Hq').
           { apply (Forall_impl _
                      (fun t => ControlStreamProofs.transport_ready_after P
                                  (control_env t) cg len)).
             exact (Forall_inv_tail Hready). }
           rewrite after_send_packetTypes in Hmsg, Hwire.
           eexists _, _, _, _.
           split; [rewrite Hsend; cbn [bind]; rewrite Hrec; reflexivity|].
           destruct (sent_trace P (control_env t) cg
                       (nth ControlStream.IDX_INPUT_DATA (ControlStream.packetTypes cg) 0)
                       (to_int16 (nth ControlStream.IDX_INPUT_DATA
                                    (ControlStream.packetTypes cg) 0))
                       len payload m ([] ++ evs')) as (Hm1 & Hw1 & Hf1).
           cbv zeta in Hm1, Hw1, Hf1. rewrite <- !app_assoc.
           cbn [app] in *. rewrite Hm1, Hw1, Hf1, Hmsg, Hwire, Hfrees.
           cbn [app repeat frames Nat.sub].
           repeat split; try reflexivity; apply Hq'.
        -- eexists _, _, _, _.
           split; [rewrite Hsend; reflexivity|].
           destruct (sent_trace P (control_env t) cg
                       (nth ControlStream.IDX_INPUT_DATA (ControlStream.packetTypes cg) 0)
                       (to_int16 (nth ControlStream.IDX_INPUT_DATA
                                    (ControlStream.packetTypes cg) 0))
                       len payload m [connectionTerminated (-1)]) as (Hm1 & Hw1 & Hf1).
           cbv zeta in Hm1, Hw1, Hf1.
           cbn [app] in *. rewrite Hm1, Hw1, Hf1.
           cbn [app repeat frames Nat.sub].
           rewrite Nat.sub_0_r. repeat split; try reflexivity; apply Hq1.
Qed.

(** C9, amended. If three relative mouse moves with the deltas (30000, 0),
    (30000, 0), (30000, 0) are queued in that order and the send thread
    services the queue, no two of them are coalesced, because 30000 +
    30000 would overflow int16. Every turn of the loop of
    inputSendThreadProc that does not find the thread interrupted takes
    one move off the queue and passes it on to be sent as it was queued,
    with deltaX 30000, leaving the others queued and freeing none of
    them. On the unified path (a server of version 7.1.431 or later, a
    move packet of less than 252 bytes) and with a transport that can
    take the messages, the thread hands the control stream one message
    for each move, which carries the bytes of the move as queued and goes
    on the wire as one frame: all three when no send fails and the
    thread is not interrupted, otherwise those up to the interruption,
    or up to and with the send that failed. The batching of relative
    moves stops whenever the sum of the deltas accumulated and those of
    the next move would overflow int16. *)
Theorem relative_moves_sent_one_by_one (P : Program) (H : Input_h) (g : Globals) :
  packet_types_distinct H ->
  let m := move P H 30000 0 in
  let len := sizeof_NV_REL_MOUSE_MOVE_PACKET H in
  let payload := firstn (Z.to_nat len) (bytes_of_PACKET H (packet m)) in
  queued g [m; m; m] ->
  (forall (j : nat) (g0 : Globals) t turns encryptedBuffer cg,
     queued g0 (repeat m (S j)) ->
     PltIsThreadInterrupted t = false ->
     inputSendThreadProc P H (t :: turns) encryptedBuffer g0 cg =
       (r <- sendHolder P H t (APP_VERSION_AT_LEAST P 7 1 431) m encryptedBuffer
               (with_queue g0 (repeat m j)) cg ;;
        let '(returns, encryptedBuffer, g1, cg, evs) := r in
        if returns : bool then Ok (encryptedBuffer, g1, cg, evs) else
        r <- inputSendThreadProc P H turns encryptedBuffer g1 cg ;;
        let '(encryptedBuffer, g2, cg, evs') := r in
        Ok (encryptedBuffer, g2, cg, evs ++ evs'))) /\
  (APP_VERSION_AT_LEAST P 7 1 431 = true ->
   0 <= len < 252 ->
   len <= Z.of_nat (length (bytes_of_PACKET H (packet m))) ->
   forall turns encryptedBuffer cg,
     Forall (fun t => ControlStreamSpec.transport_ready P (control_env t) cg len)
       turns ->
     let T := nth ControlStream.IDX_INPUT_DATA (ControlStream.packetTypes cg) 0 in
     let k := handed_over P len 3 turns in
     exists encryptedBuffer' g' cg' evs,
       inputSendThreadProc P H turns encryptedBuffer g cg =
         Ok (encryptedBuffer', g', cg', evs) /\
       messages evs = repeat (ControlStream.SendMessage (to_int16 T) len payload) k /\
       wire evs = frames P cg T (repeat payload k) /\
       frees evs = repeat m k /\
       queued g' (repeat m (3 - k))) /\
  (forall fuel totalDeltaX totalDeltaY g' holder p rest,
     queued g' (holder :: rest) ->
     packet holder = mouseMoveRel p ->
     overflows (to_int16 (htons (BIGENDIAN P) (deltaX p))) totalDeltaX \/
     overflows (to_int16 (htons (BIGENDIAN P) (deltaY p))) totalDeltaY ->
     batchMouseMoveRel P H (S fuel) totalDeltaX totalDeltaY g' =
       (totalDeltaX, totalDeltaY, g', [])).
Proof.
  intros Hdistinct m len payload Hq.
  split; [|split].
  - intros j g0 t turns buf cg Hq0 Hrun.
    rewrite inputSendThreadProc_turn by exact Hrun.
    cbn [repeat] in Hq0.
    rewrite (next_to_send_move P H g0 30000 0 (repeat m j));
      [reflexivity | exact Hdistinct | lia | lia | exact Hq0 | ].
    destruct j as [|j]; [now left | right].
    exists 30000, 0, (repeat m j).
    repeat split; try lia. left. left. unfold INT16_MAX. lia.
  - intros Hmode Hsize Hbytes turns buf cg Hready.
    exact (moves_by_30000 P H Hdistinct Hmode Hsize Hbytes turns 3 buf g cg Hq Hready).
  - intros fuel tx ty g' holder p rest Hq' Hp Hov.
    exact (batchMouseMoveRel_aborts P H fuel tx ty g' holder p rest Hq' Hp Hov).
Qed.

(** The theorem of C9 on the input stream of an encrypted Gen 7 session,
    after three calls of LiSendMouseMoveEvent(30000, 0): with four turns
    in which the sends succeed the three moves go out, one message and
    one frame each, under the sequence numbers 0, 1 and 2; when ENet
    does not take the second, the first two messages are handed over and
    the third move stays queued. *)
Lemma relative_moves_sent_one_by_one_witness :
  let P := Example.gen7enc in
  let H := Example.input_h in
  let g := Example.three_moves Example.gen7enc in
  let cg := ControlStream.initializeControlStream Example.gen7enc in
  let m := move P H 30000 0 in
  let payload := [0; 0; 0; 8; 7; 0; 0; 0; 0x75; 0x30; 0; 0] in
  let message := ControlStream.SendMessage 0x0206 12 payload in
  (exists encryptedBuffer' g' cg' evs,
     inputSendThreadProc P H
       [Example.turn_ok 40; Example.turn_ok 40; Example.turn_ok 40; Example.turn_ok 40]
       (repeat 0xAA 128) g cg = Ok (encryptedBuffer', g', cg', evs) /\
     messages evs = [message; message; message] /\
     wire evs = [ControlStreamSpec.encrypted_message P 0 0x0206 payload;
                 ControlStreamSpec.encrypted_message P 1 0x0206 payload;
                 ControlStreamSpec.encrypted_message P 2 0x0206 payload] /\
     frees evs = [m; m; m] /\
     queued g' []) /\
  (exists encryptedBuffer' g' cg' evs,
     inputSendThreadProc P H
       [Example.turn_ok 40; Scenario.refused_input_turn 40; Example.turn_ok 40]
       (repeat 0xAA 128) g cg = Ok (encryptedBuffer', g', cg', evs) /\
     messages evs = [message; message] /\
     wire evs = [ControlStreamSpec.encrypted_message P 0 0x0206 payload;
                 ControlStreamSpec.encrypted_message P 1 0x0206 payload] /\
     frees evs = [m; m] /\
     queued g' [m]).
Proof.
  destruct (relative_moves_sent_one_by_one Example.gen7enc Example.input_h
              (Example.three_moves Example.gen7enc)) as (_ & Hsent & _).
  - unfold packet_types_distinct. cbn. lia.
  - split; vm_compute; reflexivity.
  - assert (forall e,
              ControlStream.enet_packet_create_ok e = true ->
              ControlStream.evp e = Example.evp_ok ->
              length (ControlStream.enet_packet_data e) = 40%nat ->
              ControlStreamSpec.transport_ready Example.gen7enc e
                (ControlStream.initializeControlStream Example.gen7enc) 12) as Hready.
    { intros e Hc He Hl. split; [exact Hc|]. intros _.
      split; [apply ControlStreamProofs.example_gcm|]. rewrite He, Hl.
      split; [repeat split | reflexivity]. }
    assert (sizeof_NV_REL_MOUSE_MOVE_PACKET Example.input_h = 12) as Hsize
      by reflexivity.
    split.
    + destruct (Hsent eq_refl ltac:(rewrite Hsize; lia) ltac:(vm_compute; discriminate)
                  [Example.turn_ok 40; Example.turn_ok 40; Example.turn_ok 40;
                   Example.turn_ok 40] (repeat 0xAA 128)
                  (ControlStream.initializeControlStream Example.gen7enc))
        as (buf' & g' & cg' & evs & Hrun & Hm & Hw & Hf & Hq).
      { repeat (apply Forall_cons; [apply Hready; reflexivity|]). apply Forall_nil. }
      exists buf', g', cg', evs.
      split; [exact Hrun|]. split; [exact Hm|]. split; [exact Hw|].
      split; [exact Hf | exact Hq].
    + destruct (Hsent eq_refl ltac:(rewrite Hsize; lia) ltac:(vm_compute; discriminate)
                  [Example.turn_ok 40; Scenario.refused_input_turn 40;
                   Example.turn_ok 40] (repeat 0xAA 128)
                  (ControlStream.initializeControlStream Example.gen7enc))
        as (buf' & g' & cg' & evs & Hrun & Hm & Hw & Hf & Hq).
      { repeat (apply Forall_cons; [apply Hready; reflexivity|]). apply Forall_nil. }
      exists buf', g', cg', evs.
      split; [exact Hrun|]. split; [exact Hm|]. split; [exact Hw|].
      split; [exact Hf | exact Hq].
Defined.

(** C9 as stated fails: with the three moves queued, the send thread of
    an encrypted Gen 7 session hands three messages to the control
    stream, not two, and each carries the deltaX 30000 (0x7530, most
    significant byte first); none carries 60000, which no 16-bit field
    holds. *)
Lemma relative_moves_counterexample :
  match inputSendThreadProc Example.gen7enc Example.input_h
          [Example.turn_ok 40; Example.turn_ok 40; Example.turn_ok 40;
           Example.turn_ok 40]
          (repeat 0xAA 128) (Example.three_moves Example.gen7enc)
          (ControlStream.initializeControlStream Example.gen7enc) with
  | Ok (_, _, _, evs) => messages evs
  | _ => []
  end =
  [ControlStream.SendMessage 0x0206 12 [0; 0; 0; 8; 7; 0; 0; 0; 0x75; 0x30; 0; 0];
   ControlStream.SendMessage 0x0206 12 [0; 0; 0; 8; 7; 0; 0; 0; 0x75; 0x30; 0; 0];
   ControlStream.SendMessage 0x0206 12 [0; 0; 0; 8; 7; 0; 0; 0; 0x75; 0x30; 0; 0]].
Proof. vm_compute. reflexivity. Qed.

(** *** The IV of the legacy input encryption *)

Lemma skipn_app_exact {A : Type} (a b : list A) (n : nat) :
  length a = n -> skipn n (a ++ b) = b.
Proof. intros <-. now rewrite skipn_app, skipn_all, Nat.sub_diag. Qed.

Lemma firstn_app_exact {A : Type} (a b : list A) (n : nat) :
  length a = n -> firstn n (a ++ b) = a.
Proof.
  intros <-. now rewrite firstn_app, firstn_all, Nat.sub_diag, firstn_O, app_nil_r.
Qed.

(** The tag and the ciphertext in the caller's buffer. *)
Lemma tag_then_ciphertext (tag ct buffer : list Z) :
  length tag = 16%nat ->
  (16 + length ct <= length buffer)%nat ->
  write_at 0 tag (write_at 16 ct buffer) =
  tag ++ ct ++ skipn (16 + length ct) buffer.
Proof.
  intros Htag Hroom. rewrite write_at_0, Htag. f_equal.
  unfold write_at. apply skipn_app_exact. rewrite length_firstn. lia.
Qed.

(** With every step succeeding, encryptData for a Gen 7 server leaves the
    tag and the ciphertext in the buffer, and their length. *)
Lemma encryptData_gcm (P : Program) (t : Turn) (plaintext : list Z)
    (plaintextLen : Z) (buffer : list Z) (ciphertextLen : Z) (g : Globals) :
  ControlStreamSpec.gcm P -> ControlStreamSpec.evp_succeeds (evp t) ->
  7 <= nth 0 (AppVersionQuad P) 0 ->
  cipherInitialized g = true \/ EVP_CIPHER_CTX_new_ok t = true ->
  0 <= plaintextLen <= Z.of_nat (length plaintext) ->
  (16 + Z.to_nat plaintextLen <= length buffer)%nat ->
  - 2 ^ 31 <= plaintextLen + 16 < 2 ^ 31 ->
  let ct := aes_128_gcm_ctr P (remoteInputAesKey P) (currentAesIv g)
              (firstn (Z.to_nat plaintextLen) plaintext) in
  let tag := aes_128_gcm_tag P (remoteInputAesKey P) (currentAesIv g) ct in
  length ct = Z.to_nat plaintextLen /\
  length tag = 16%nat /\
  encryptData P t plaintext plaintextLen buffer ciphertextLen g =
    (0, tag ++ ct ++ skipn (16 + Z.to_nat plaintextLen) buffer,
     plaintextLen + 16, set_cipherInitialized true g).
Proof.
  intros (_ & Hlen & Htag) (H1 & H2 & H3 & H4 & H5 & H6) Hv Hctx Hpl Hroom Hint ct tag.
  assert (length ct = Z.to_nat plaintextLen) as Hct
    by (unfold ct; rewrite Hlen, length_firstn; lia).
  split; [exact Hct|]. split; [apply Htag|].
  unfold encryptData. rewrite (geb_true _ 7) by lia.
  replace (negb (cipherInitialized g) && negb (EVP_CIPHER_CTX_new_ok t)) with false
    by (destruct Hctx as [-> | ->]; cbn; now rewrite ?andb_false_r).
  rewrite H1, H2, H3, H4, H5, H6. cbn [Z.eqb Pos.eqb negb].
  cbn [set_cipherInitialized currentAesIv]. fold ct. fold tag.
  rewrite tag_then_ciphertext by (first [apply Htag | rewrite Hct; lia]).
  rewrite Hct, to_int32_small by exact Hint. reflexivity.
Qed.

(** C8. On the legacy (non-unified) input path for a Gen 7 server, when a
    packet is encrypted with AES-GCM and handed to the control stream as
    [length: u32 BE][16-byte tag][ciphertext]: if the ciphertext has 16
    bytes or more, currentAesIv is overwritten with the last 16 bytes of
    that ciphertext; if it is shorter, currentAesIv is unchanged. *)
Theorem iv_rolls (P : Program) (H : Input_h) (t : Turn) (holder : PACKET_HOLDER)
    (encryptedBuffer : list Z) (g : Globals) (cg : ControlStream.Globals) :
  ControlStreamSpec.gcm P -> ControlStreamSpec.evp_succeeds (evp t) ->
  7 <= nth 0 (AppVersionQuad P) 0 ->
  cipherInitialized g = true \/ EVP_CIPHER_CTX_new_ok t = true ->
  length encryptedBuffer = 128%nat ->
  0 <= packetLength holder <= 108 ->
  packetLength holder <= Z.of_nat (length (bytes_of_PACKET H (packet holder))) ->
  let ciphertext :=
    aes_128_gcm_ctr P (remoteInputAesKey P) (currentAesIv g)
      (firstn (Z.to_nat (packetLength holder)) (bytes_of_PACKET H (packet holder))) in
  let tag := aes_128_gcm_tag P (remoteInputAesKey P) (currentAesIv g) ciphertext in
  exists returns encryptedBuffer' g' cg' evs,
    sendHolder P H t false holder encryptedBuffer g cg =
      Ok (returns, encryptedBuffer', g', cg', evs) /\
    messages evs =
      [ControlStream.SendMessage
         (to_int16 (nth ControlStream.IDX_INPUT_DATA (ControlStream.packetTypes cg) 0))
         (packetLength holder + 20)
         (be_encode 4 (packetLength holder + 16) ++ tag ++ ciphertext)] /\
    currentAesIv g' =
      if (16 <=? length ciphertext)%nat then lastn 16 ciphertext else currentAesIv g.
Proof.
  intros Hgcm Hevp Hv Hctx Hbuf Hpl Hbytes ciphertext tag.
  set (pl := packetLength holder) in *.
  destruct (encryptData_gcm P t (bytes_of_PACKET H (packet holder)) pl
              (skipn 4 encryptedBuffer) (MAX_INPUT_PACKET_SIZE - 4) g
              Hgcm Hevp Hv Hctx) as (Hct & Htag & Henc);
    [lia | rewrite length_skipn; lia | lia |].
  fold ciphertext in Hct, Htag, Henc. fold tag in Htag, Henc.
  unfold sendHolder. fold pl. rewrite Henc.
  set (rest := skipn (16 + Z.to_nat pl) (skipn 4 encryptedBuffer)).
  assert (to_uint32 (pl + 16) = pl + 16) as ->
    by (unfold to_uint32; apply Z.mod_small; lia).
  cbn [Z.eqb negb]. rewrite store32_htonl.
  replace (nth 0 (AppVersionQuad P) 0 <? 5) with false
    by (symmetry; apply Z.ltb_ge; lia).
  rewrite (geb_true _ 7) by lia. cbn [andb].
  (* the buffer once the length is prepended *)
  assert (write_at 0 (be_encode 4 (pl + 16))
            (firstn 4 encryptedBuffer ++ tag ++ ciphertext ++ rest) =
          be_encode 4 (pl + 16) ++ tag ++ ciphertext ++ rest) as ->.
  { rewrite write_at_0. f_equal. apply skipn_app_exact.
    rewrite length_firstn. unfold be_encode. rewrite length_rev, le_encode_length. lia. }
  set (prefix := be_encode 4 (pl + 16)).
  assert (length prefix = 4%nat) as Hprefix
    by (unfold prefix, be_encode; now rewrite length_rev, le_encode_length).
  (* the message handed to the control stream *)
  destruct (sendInputPacketOnControlStream_returns P (control_env t)
              (prefix ++ tag ++ ciphertext ++ rest) (pl + 16 + 4)
              (cg)) as (err & n & evs & Hsend & Htransport).
  { lia. }
  { intros _ _. rewrite to_int16_small; lia. }
  rewrite !(to_int16_small (pl + 16 + 4)) in Hsend by lia.
  assert (firstn (Z.to_nat (pl + 16 + 4)) (prefix ++ tag ++ ciphertext ++ rest) =
          prefix ++ tag ++ ciphertext) as Hsent.
  { rewrite !app_assoc. apply firstn_app_exact. rewrite !length_app. lia. }
  rewrite Hsent in Hsend.
  (* the IV *)
  assert (currentAesIv
            (if pl + 16 >=? 16 + 16
             then set_currentAesIv
                    (firstn 16 (skipn (Z.to_nat (4 + (pl + 16) - 16))
                                  (prefix ++ tag ++ ciphertext ++ rest)))
                    (set_cipherInitialized true g)
             else set_cipherInitialized true g) =
          if (16 <=? length ciphertext)%nat then lastn 16 ciphertext
          else currentAesIv g) as Hiv.
  { destruct (Z.leb_spec (16 + 16) (pl + 16)) as [Hlong | Hshort].
    - rewrite (geb_true _ (16 + 16)) by lia.
      rewrite (proj2 (Nat.leb_le _ _)) by lia.
      cbn [set_currentAesIv currentAesIv].
      rewrite <- (firstn_skipn (length ciphertext - 16) ciphertext) at 1.
      rewrite <- !app_assoc.
      replace (prefix ++ tag ++ firstn (length ciphertext - 16) ciphertext ++
               skipn (length ciphertext - 16) ciphertext ++ rest)
        with ((prefix ++ tag ++ firstn (length ciphertext - 16) ciphertext) ++
              skipn (length ciphertext - 16) ciphertext ++ rest)
        by (now rewrite <- !app_assoc).
      rewrite skipn_app_exact by (rewrite !length_app, length_firstn; lia).
      apply firstn_app_exact. apply lastn_length. lia.
    - rewrite (geb_false _ (16 + 16)) by lia.
      rewrite (proj2 (Nat.leb_gt _ _)) by lia.
      reflexivity. }
  replace (pl + 16 + 4) with (pl + 20) in * by lia.
  rewrite (to_int32_small (pl + 20)) by lia.
  rewrite Hsend. cbn [bind].
  pose proof (control_transport_only evs Htransport) as Hnone.
  destruct (err <? 0); eexists _, _, _, _, _; (split; [reflexivity|]);
    (split; [|exact Hiv]);
    rewrite ?input_messages_app; cbn [messages map flat_map app];
    fold (messages (map control evs)); rewrite Hnone; reflexivity.
Qed.

(** The theorem of C8 on a mouse position packet (18 bytes) of a Gen 7
    session in which input is not sent on an encrypted control stream. *)
Lemma iv_rolls_witness :
  let P := Example.gen7 in
  let H := Example.input_h in
  let g := Example.input_started Example.gen7 in
  let cg := ControlStream.initializeControlStream Example.gen7 in
  let ciphertext :=
    aes_128_gcm_ctr P (remoteInputAesKey P) (currentAesIv g)
      (firstn (Z.to_nat (packetLength Example.position))
         (bytes_of_PACKET H (packet Example.position))) in
  let tag := aes_128_gcm_tag P (remoteInputAesKey P) (currentAesIv g) ciphertext in
  exists returns encryptedBuffer' g' cg' evs,
    sendHolder P H (Example.turn_ok 40) false Example.position (repeat 0xAA 128) g cg =
      Ok (returns, encryptedBuffer', g', cg', evs) /\
    messages evs =
      [ControlStream.SendMessage
         (to_int16 (nth ControlStream.IDX_INPUT_DATA (ControlStream.packetTypes cg) 0))
         (packetLength Example.position + 20)
         (be_encode 4 (packetLength Example.position + 16) ++ tag ++ ciphertext)] /\
    currentAesIv g' =
      if (16 <=? length ciphertext)%nat then lastn 16 ciphertext else currentAesIv g.
Proof.
  apply (iv_rolls Example.gen7 Example.input_h (Example.turn_ok 40) Example.position
           (repeat 0xAA 128) (Example.input_started Example.gen7)
           (ControlStream.initializeControlStream Example.gen7)).
  - apply ControlStreamProofs.example_gcm.
  - repeat split.
  - cbn. lia.
  - right. reflexivity.
  - reflexivity.
  - cbn. lia.
  - cbn. lia.
Defined.


(** *** More of the input stream *)

(** X13. addPkcs7PaddingInPlace appends to a plaintext of [len] bytes
    the [k] bytes that make its length a multiple of 16, [k] being less
    than 16, each of them holding [k], and returns the padded length. A
    plaintext whose length is a multiple of 16 already is left as it is
    ([k] is 0: no block of padding is added). *)
Theorem pkcs7_padding (plaintext : list Z) (len : Z) :
  0 <= len ->
  length plaintext = Z.to_nat len ->
  exists k,
    0 <= k < 16 /\ (len + k) mod 16 = 0 /\
    addPkcs7PaddingInPlace plaintext len =
      (len + k, plaintext ++ repeat k (Z.to_nat k)).
Proof.
  intros Hlen Hl. unfold addPkcs7PaddingInPlace, ROUND_TO_PKCS7_PADDED_LEN.
  rewrite Z.quot_div_nonneg, Z.rem_mod_nonneg by lia.
  pose proof (Z.mod_pos_bound len 16 ltac:(lia)) as Hr.
  pose proof (Z.div_mod len 16 ltac:(lia)) as Hdm.
  destruct (Z.eq_dec (len mod 16) 0) as [Hz | Hnz].
  - exists 0. split; [lia|]. split; [now rewrite Z.add_0_r|].
    assert ((len + 15) / 16 * 16 = len) as ->.
    { replace (len + 15) with (15 + len / 16 * 16) by lia.
      rewrite Z.div_add by lia. change (15 / 16) with 0. lia. }
    rewrite Z.add_0_r, Z.sub_diag. cbn [Z.to_nat repeat].
    unfold write_at. cbn [app length]. rewrite Nat.add_0_r.
    rewrite <- Hl, firstn_all, skipn_all. reflexivity.
  - exists (16 - len mod 16).
    assert ((len + 15) / 16 * 16 = len + (16 - len mod 16)) as ->.
    { replace (len + 15) with (15 + len mod 16 + len / 16 * 16) by lia.
      rewrite Z.div_add by lia.
      replace ((15 + len mod 16) / 16) with 1; [lia|].
      apply Z.div_unique with (r := len mod 16 - 1); lia. }
    split; [lia|]. split.
    { replace (len + (16 - len mod 16)) with (0 + (len / 16 + 1) * 16) by lia.
      now rewrite Z.mod_add by lia. }
    replace (len + (16 - len mod 16) - len) with (16 - len mod 16) by lia.
    unfold to_uint8. rewrite (Z.mod_small (16 - len mod 16)) by lia.
    unfold write_at. rewrite <- Hl, firstn_all.
    rewrite skipn_all2 by lia. now rewrite app_nil_r.
Qed.

(** The theorem of X13 on a plaintext of 12 bytes. *)
Lemma pkcs7_padding_witness :
  exists k,
    0 <= k < 16 /\ (12 + k) mod 16 = 0 /\
    addPkcs7PaddingInPlace [0; 0; 0; 8; 7; 0; 0; 0; 0x75; 0x30; 0; 0] 12 =
      (12 + k, [0; 0; 0; 8; 7; 0; 0; 0; 0x75; 0x30; 0; 0] ++ repeat k (Z.to_nat k)).
Proof.
  apply (pkcs7_padding [0; 0; 0; 8; 7; 0; 0; 0; 0x75; 0x30; 0; 0] 12);
    [lia | reflexivity].
Defined.

(** *** The encryption of input packets *)

Lemma encryptData_result (P : Program) (t : Turn) (plaintext : list Z)
    (plaintextLen : Z) (ciphertext : list Z) (ciphertextLen : Z) (g : Globals) :
  let ret := fst (fst (fst (encryptData P t plaintext plaintextLen ciphertext
                              ciphertextLen g))) in
  (encryption_succeeds P t g -> ret = 0) /\
  (~ encryption_succeeds P t g -> ret = -1).
Proof.
  unfold encryption_succeeds, ControlStreamSpec.evp_succeeds, encryptData.
  destruct (nth 0 (AppVersionQuad P) 0 >=? 7).
  - destruct (cipherInitialized g), (EVP_CIPHER_CTX_new_ok t); cbn [negb andb];
      try (split; [intros [[[=]|[=]] _] | reflexivity]);
      (destruct (Z.eqb_spec (EVP_Init_cipher (evp t)) 1); cbn [negb];
       [|split; [intros (_ & ? & _); contradiction | reflexivity]]);
      (destruct (Z.eqb_spec (EVP_CTRL_GCM_SET_IVLEN (evp t)) 1); cbn [negb];
       [|split; [intros (_ & _ & ? & _); contradiction | reflexivity]]);
      (destruct (Z.eqb_spec (EVP_Init_key_iv (evp t)) 1); cbn [negb];
       [|split; [intros (_ & _ & _ & ? & _); contradiction | reflexivity]]);
      (destruct (Z.eqb_spec (EVP_Update (evp t)) 1); cbn [negb];
       [|split; [intros (_ & _ & _ & _ & ? & _); contradiction | reflexivity]]);
      (destruct (Z.eqb_spec (EVP_Final_ex (evp t)) 1); cbn [negb];
       [|split; [intros (_ & _ & _ & _ & _ & ? & _); contradiction | reflexivity]]);
      (destruct (Z.eqb_spec (EVP_CTRL_GCM_TAG (evp t)) 1); cbn [negb];
       [|split; [intros (_ & _ & _ & _ & _ & _ & ?); contradiction | reflexivity]]);
      (split; [reflexivity | intros Hno; exfalso; apply Hno; repeat split; auto]).
  - destruct (cipherInitialized g), (EVP_CIPHER_CTX_new_ok t); cbn [negb andb];
      try (split; [intros [[[=]|[=]] _] | reflexivity]);
      try (destruct (Z.eqb_spec (EVP_Init_cipher (evp t)) 1); cbn [negb];
           [|split; [intros (_ & Hinit & _); now specialize (Hinit eq_refl)
                    | reflexivity]]);
      destruct (addPkcs7PaddingInPlace _ _) as [paddedLength paddedData];
      (destruct (Z.eqb_spec (EVP_Update (evp t)) 1); cbn [negb];
       [|split; [intros (_ & _ & ?); contradiction | reflexivity]]);
      (split; [reflexivity | intros Hno; exfalso; apply Hno; repeat split; auto;
               intros [=]]).
Qed.

(** X14. encryptData returns 0 when every step it takes succeeds and -1
    as soon as one fails, the reading of the GCM tag included. On the
    path that encrypts input packets itself, the send thread then frees
    the holder, reports the termination of the connection with this -1
    and returns, having sent nothing. *)
Theorem input_encryption_failure_is_reported (P : Program) (H : Input_h) (t : Turn)
    (holder : PACKET_HOLDER) (encryptedBuffer : list Z) (g : Globals)
    (cg : ControlStream.Globals) :
  let ret :=
    fst (fst (fst (encryptData P t (bytes_of_PACKET H (packet holder))
                     (packetLength holder) (skipn 4 encryptedBuffer)
                     (MAX_INPUT_PACKET_SIZE - 4) g))) in
  (encryption_succeeds P t g -> ret = 0) /\
  (~ encryption_succeeds P t g ->
   ret = -1 /\
   exists encryptedBuffer' g',
     sendHolder P H t false holder encryptedBuffer g cg =
       Ok (true, encryptedBuffer', g', cg, [free holder; connectionTerminated (-1)])).
Proof.
  intros ret.
  destruct (encryptData_result P t (bytes_of_PACKET H (packet holder))
              (packetLength holder) (skipn 4 encryptedBuffer)
              (MAX_INPUT_PACKET_SIZE - 4) g) as [Hyes Hno].
  split; [exact Hyes|]. intros Hfail. specialize (Hno Hfail).
  split; [exact Hno|].
  unfold sendHolder.
  destruct (encryptData P t _ _ _ _ g) as [[[err ct] size] g'].
  cbn [fst] in Hno. rewrite Hno. cbn [Z.eqb negb]. now eexists _, _.
Qed.

(** *** What the send thread takes off the queue *)

Lemma took_0 (g : Globals) : took 0 g g.
Proof. unfold took. repeat split. lia. Qed.

Lemma rest_same_refl (g : Globals) : rest_same g g.
Proof. now repeat split. Qed.

Lemma took_S (n : nat) (g g' : Globals) (x : PACKET_HOLDER) (l : list PACKET_HOLDER) :
  items (packetQueue g) = x :: l ->
  took n (set_packetQueue (with_items (packetQueue g) l) g) g' ->
  took (S n) g g'.
Proof.
  intros Hi (Hn & Hitems & Hb & Hs). cbn in Hn, Hitems, Hb, Hs.
  unfold took. rewrite Hi. cbn [length skipn]. repeat split; auto. lia.
Qed.

Lemma rest_same_poll (g g' : Globals) (l : list PACKET_HOLDER) :
  rest_same (set_packetQueue (with_items (packetQueue g) l) g) g' -> rest_same g g'.
Proof. trivial. Qed.

Lemma took_trans (n m : nat) (g g' g'' : Globals) :
  took n g g' -> took m g' g'' -> took (n + m) g g''.
Proof.
  intros (Hn & Hi & Hb & Hs) (Hm & Hi' & Hb' & Hs').
  rewrite Hi, length_skipn in Hm.
  unfold took. repeat split; try congruence; [lia|].
  rewrite Hi', Hi, skipn_skipn. f_equal. lia.
Qed.

Lemma rest_same_trans (g g' g'' : Globals) :
  rest_same g g' -> rest_same g' g'' -> rest_same g g''.
Proof. unfold rest_same. intuition congruence. Qed.

(** Each of the three batching loops frees as many holders as it takes
    off the queue, and writes no other variable. *)
Lemma batchMouseMoveRel_takes (P : Program) (H : Input_h) (fuel : nat) :
  forall (totalDeltaX totalDeltaY : Z) (g : Globals),
  exists tx ty g' evs n,
    batchMouseMoveRel P H fuel totalDeltaX totalDeltaY g = (tx, ty, g', evs) /\
    took n g g' /\ rest_same g g' /\ length (frees evs) = n /\
    length evs = n.
Proof.
  induction fuel as [|fuel IH]; intros tx ty g; cbn [batchMouseMoveRel].
  - exists tx, ty, g, [], 0%nat. repeat split. apply took_0.
  - assert (exists n,
              took n g g /\ rest_same g g /\ length (frees (@nil event)) = n /\
              length (@nil event) = n) as Hstop
      by (exists 0%nat; repeat split; apply took_0).
    unfold LbqPeekQueueElement, LbqPollQueueElement.
    destruct (shutdown (packetQueue g)) eqn:Hs;
      [destruct Hstop as (n & Hstop); now exists tx, ty, g, [], n|].
    destruct (items (packetQueue g)) as [|x l] eqn:Hi;
      [destruct Hstop as (n & Hstop); now exists tx, ty, g, [], n|].
    destruct (packetType_is P x (PACKET_TYPE_REL_MOUSE_MOVE H)); cbn [negb];
      [|destruct Hstop as (n & Hstop); now exists tx, ty, g, [], n].
    destruct (packet x) as [m| | |];
      try (destruct Hstop as (n & Hstop); now exists tx, ty, g, [], n).
    destruct (_ || _);
      [destruct Hstop as (n & Hstop); now exists tx, ty, g, [], n|].
    destruct (IH (tx + to_int16 (htons (BIGENDIAN P) (deltaX m)))
                 (ty + to_int16 (htons (BIGENDIAN P) (deltaY m)))
                 (set_packetQueue (with_items (packetQueue g) l) g))
      as (tx' & ty' & g' & evs & n & -> & Ht & Hr & Hf & Hl).
    exists tx', ty', g', (free x :: evs), (S n). split; [reflexivity|].
    split; [exact (took_S n g g' x l Hi Ht)|]. split; [exact Hr|].
    change (frees (free x :: evs)) with (x :: frees evs).
    cbn [length]. now rewrite Hf, Hl.
Qed.

Lemma batchMultiController_takes (P : Program) (H : Input_h) (fuel : nat) :
  forall (origPkt : NV_MULTI_CONTROLLER_PACKET) (g : Globals),
  exists pkt g' evs n,
    batchMultiController P H fuel origPkt g = (pkt, g', evs) /\
    took n g g' /\ rest_same g g' /\ length (frees evs) = n /\
    length evs = n.
Proof.
  induction fuel as [|fuel IH]; intros origPkt g; cbn [batchMultiController].
  - exists origPkt, g, [], 0%nat. repeat split. apply took_0.
  - assert (exists n,
              took n g g /\ rest_same g g /\ length (frees (@nil event)) = n /\
              length (@nil event) = n) as Hstop
      by (exists 0%nat; repeat split; apply took_0).
    unfold LbqPeekQueueElement, LbqPollQueueElement.
    destruct (shutdown (packetQueue g)) eqn:Hs;
      [destruct Hstop as (n & Hstop); now exists origPkt, g, [], n|].
    destruct (items (packetQueue g)) as [|x l] eqn:Hi;
      [destruct Hstop as (n & Hstop); now exists origPkt, g, [], n|].
    destruct (packetType_is P x (PACKET_TYPE_MULTI_CONTROLLER H)); cbn [negb];
      [|destruct Hstop as (n & Hstop); now exists origPkt, g, [], n].
    destruct (packet x) as [| |newPkt|];
      try (destruct Hstop as (n & Hstop); now exists origPkt, g, [], n).
    destruct (_ || _);
      [destruct Hstop as (n & Hstop); now exists origPkt, g, [], n|].
    match goal with
    | |- context [batchMultiController P H fuel ?pkt ?g1] =>
        destruct (IH pkt g1) as (pkt' & g' & evs & n & -> & Ht & Hr & Hf & Hl)
    end.
    exists pkt', g', (free x :: evs), (S n). split; [reflexivity|].
    split; [exact (took_S n g g' x l Hi Ht)|]. split; [exact Hr|].
    change (frees (free x :: evs)) with (x :: frees evs).
    cbn [length]. now rewrite Hf, Hl.
Qed.

Lemma batchMouseMoveAbs_takes (P : Program) (H : Input_h) (fuel : nat) :
  forall (holder : PACKET_HOLDER) (g : Globals),
  exists holder' g' evs n,
    batchMouseMoveAbs P H fuel holder g = (holder', g', evs) /\
    took n g g' /\ rest_same g g' /\ length (frees evs) = n /\
    length evs = n.
Proof.
  induction fuel as [|fuel IH]; intros holder g; cbn [batchMouseMoveAbs].
  - exists holder, g, [], 0%nat. repeat split. apply took_0.
  - assert (exists n,
              took n g g /\ rest_same g g /\ length (frees (@nil event)) = n /\
              length (@nil event) = n) as Hstop
      by (exists 0%nat; repeat split; apply took_0).
    unfold LbqPeekQueueElement, LbqPollQueueElement.
    destruct (shutdown (packetQueue g)) eqn:Hs;
      [destruct Hstop as (n & Hstop); now exists holder, g, [], n|].
    destruct (items (packetQueue g)) as [|x l] eqn:Hi;
      [destruct Hstop as (n & Hstop); now exists holder, g, [], n|].
    destruct (packetType_is P x (PACKET_TYPE_ABS_MOUSE_MOVE H)); cbn [negb];
      [|destruct Hstop as (n & Hstop); now exists holder, g, [], n].
    destruct (IH x (set_packetQueue (with_items (packetQueue g) l) g))
      as (holder' & g' & evs & n & -> & Ht & Hr & Hf & Hl).
    exists holder', g', (free holder :: evs), (S n). split; [reflexivity|].
    split; [exact (took_S n g g' x l Hi Ht)|]. split; [exact Hr|].
    change (frees (free holder :: evs)) with (holder :: frees evs).
    cbn [length]. now rewrite Hf, Hl.
Qed.

Lemma batch_takes (P : Program) (H : Input_h) (holder : PACKET_HOLDER) (g : Globals) :
  exists holder' g' evs n,
    batch P H holder g = (holder', g', evs) /\
    took n g g' /\ rest_same g g' /\ length (frees evs) = n /\
    length evs = n.
Proof.
  assert (exists n,
            took n g g /\ rest_same g g /\ length (frees (@nil event)) = n /\
            length (@nil event) = n) as Hstop
    by (exists 0%nat; repeat split; apply took_0).
  unfold batch.
  destruct (packetType_is P holder (PACKET_TYPE_MULTI_CONTROLLER H)).
  - destruct (packet holder) as [| |origPkt|];
      try (destruct Hstop as (n & Hstop); now exists holder, g, [], n).
    destruct (batchMultiController_takes P H (length (items (packetQueue g))) origPkt g)
      as (pkt & g' & evs & n & -> & Ht).
    now eexists _, g', evs, n.
  - destruct (packetType_is P holder (PACKET_TYPE_REL_MOUSE_MOVE H)).
    + destruct (packet holder) as [m| | |];
        try (destruct Hstop as (n & Hstop); now exists holder, g, [], n).
      destruct (batchMouseMoveRel_takes P H (length (items (packetQueue g)))
                  (to_int16 (htons (BIGENDIAN P) (deltaX m)))
                  (to_int16 (htons (BIGENDIAN P) (deltaY m))) g)
        as (tx & ty & g' & evs & n & -> & Ht).
      now eexists _, g', evs, n.
    + destruct (packetType_is P holder (PACKET_TYPE_ABS_MOUSE_MOVE H)).
      * apply batchMouseMoveAbs_takes.
      * destruct Hstop as (n & Hstop). now exists holder, g, [], n.
Qed.

Lemma encryptData_keeps (P : Program) (t : Turn) (plaintext : list Z)
    (plaintextLen : Z) (ciphertext : list Z) (ciphertextLen : Z) (g : Globals) :
  let g' := snd (encryptData P t plaintext plaintextLen ciphertext ciphertextLen g) in
  packetQueue g' = packetQueue g /\ initialized g' = initialized g /\
  currentAesIv g' = currentAesIv g.
Proof.
  unfold encryptData.
  destruct (addPkcs7PaddingInPlace _ _) as [paddedLength paddedData].
  repeat match goal with
         | |- context [if ?c then _ else _] => destruct c
         end;
    cbn; auto.
Qed.

(** The second half of the body of the loop frees the holder it was
    given and no other, leaves the queue alone, and writes the IV only on
    the path that encrypts for a Gen 7 server. *)
Lemma sendHolder_frees (P : Program) (H : Input_h) (t : Turn)
    (encryptedControlStream : bool) (holder : PACKET_HOLDER)
    (encryptedBuffer encryptedBuffer' : list Z) (g g' : Globals)
    (cg cg' : ControlStream.Globals) (returns : bool) (evs : list event) :
  sendHolder P H t encryptedControlStream holder encryptedBuffer g cg =
    Ok (returns, encryptedBuffer', g', cg', evs) ->
  frees evs = [holder] /\ packetQueue g' = packetQueue g /\
  initialized g' = initialized g /\
  (encryptedControlStream = true \/ nth 0 (AppVersionQuad P) 0 < 7 ->
   currentAesIv g' = currentAesIv g).
Proof.
  unfold sendHolder. destruct encryptedControlStream.
  - destruct (ControlStream.sendInputPacketOnControlStream _ _ _ _ _)
      as [[[err cg1] evs1]| |]; try discriminate.
    cbn [bind]. destruct (err <? 0); intros [= <- <- <- <- <-];
      rewrite !frees_app, frees_map; now repeat split.
  - pose proof (encryptData_keeps P t (bytes_of_PACKET H (packet holder))
                  (packetLength holder) (skipn 4 encryptedBuffer)
                  (MAX_INPUT_PACKET_SIZE - 4) g) as Hkeeps.
    destruct (encryptData P t _ _ _ _ g) as [[[err ct] size] g1].
    cbn [snd] in Hkeeps. destruct Hkeeps as (Hq & Hinit & Hiv).
    destruct (err =? 0); cbn [negb];
      [|intros [= <- <- <- <- <-]; repeat split; auto].
    destruct (nth 0 (AppVersionQuad P) 0 <? 5) eqn:H5.
    + destruct (send_result t <=? 0); intros [= <- <- <- <- <-]; repeat split; auto.
    + destruct (nth 0 (AppVersionQuad P) 0 >=? 7) eqn:H7; cbn [andb].
      * rewrite Z.geb_leb in H7. apply Z.leb_le in H7.
        destruct (ControlStream.sendInputPacketOnControlStream _ _ _ _ _)
          as [[[err' cg1] evs1]| |]; try discriminate.
        cbn [bind].
        destruct (to_uint32 size >=? 16 + 16);
          (destruct (err' <? 0); intros [= <- <- <- <- <-];
           change (frees (free holder :: ?l)) with (holder :: frees l);
           rewrite ?frees_app, frees_map; repeat split; auto;
           intros [[=] | Hlt]; lia).
      * destruct (ControlStream.sendInputPacketOnControlStream _ _ _ _ _)
          as [[[err' cg1] evs1]| |]; try discriminate.
        cbn [bind].
        destruct (err' <? 0); intros [= <- <- <- <- <-];
          change (frees (free holder :: ?l)) with (holder :: frees l);
          rewrite ?frees_app, frees_map; repeat split; auto.
Qed.

(** X15. Whatever the transport and the cipher answer, a run of the send
    thread frees as many packet holders as it takes off the queue, what
    it leaves in the queue is the end of what was there, and it does not
    write [initialized]. The session IV is written only when the thread
    encrypts input packets itself for a server of Gen 7: on the unified
    path and for every server before Gen 7 it stays as it is. *)
Theorem send_thread_frees_what_it_takes (P : Program) (H : Input_h)
    (turns : list Turn) (encryptedBuffer encryptedBuffer' : list Z)
    (g g' : Globals) (cg cg' : ControlStream.Globals) (evs : list event) :
  inputSendThreadProc P H turns encryptedBuffer g cg =
    Ok (encryptedBuffer', g', cg', evs) ->
  took (length (frees evs)) g g' /\
  initialized g' = initialized g /\
  (APP_VERSION_AT_LEAST P 7 1 431 = true \/ nth 0 (AppVersionQuad P) 0 < 7 ->
   currentAesIv g' = currentAesIv g).
Proof.
  revert encryptedBuffer encryptedBuffer' g g' cg cg' evs.
  induction turns as [|t turns IH]; intros buf buf' g g' cg cg' evs;
    cbn [inputSendThreadProc].
  - intros [= <- <- <- <-]. split; [apply took_0 | now split].
  - destruct (PltIsThreadInterrupted t);
      [intros [= <- <- <- <-]; split; [apply took_0 | now split]|].
    unfold LbqWaitForQueueElement.
    destruct (shutdown (packetQueue g)) eqn:Hs;
      [intros [= <- <- <- <-]; split; [apply took_0 | now split]|].
    destruct (items (packetQueue g)) as [|x l] eqn:Hi;
      [intros [= <- <- <- <-]; split; [apply took_0 | now split]|].
    destruct (batch_takes P H x (set_packetQueue (with_items (packetQueue g) l) g))
      as (holder & g1 & frees1 & n & -> & Ht & (Hiv1 & Hinit1 & _) & Hf & Hl).
    cbn [set_packetQueue initialized currentAesIv] in Hiv1, Hinit1.
    destruct (sendHolder P H t (APP_VERSION_AT_LEAST P 7 1 431) holder buf g1 cg)
      as [[[[[returns buf2] g2] cg2] evs2]| |] eqn:Hsend; try discriminate.
    cbn [bind].
    destruct (sendHolder_frees P H t _ holder buf buf2 g1 g2 cg cg2 returns evs2 Hsend)
      as (Hf2 & Hq2 & Hinit2 & Hiv2).
    assert (took (S n) g g2) as Ht2.
    { apply (took_S n g g2 x l Hi). unfold took in *. now rewrite Hq2. }
    destruct returns.
    + intros [= <- <- <- <-]. rewrite frees_app, Hf2, length_app, Hf.
      cbn [length]. rewrite Nat.add_1_r. split; [exact Ht2|].
      split; [congruence|]. intros Hpath. rewrite (Hiv2 Hpath). exact Hiv1.
    + destruct (inputSendThreadProc P H turns buf2 g2 cg2)
        as [[[[buf3 g3] cg3] evs3]| |] eqn:Hrest; try discriminate.
      cbn [bind]. intros [= <- <- <- <-].
      destruct (IH buf2 buf3 g2 g3 cg2 cg3 evs3 Hrest) as (Ht3 & Hinit3 & Hiv3).
      rewrite !frees_app, Hf2, !length_app, Hf. cbn [length].
      replace (n + (1 + length (frees evs3)))%nat with (S n + length (frees evs3))%nat
        by lia.
      split; [exact (took_trans _ _ g g2 g3 Ht2 Ht3)|].
      split; [congruence|]. intros Hpath.
      rewrite (Hiv3 Hpath), (Hiv2 Hpath). exact Hiv1.
Qed.

(** The theorem of X15 on the send thread of an encrypted Gen 7 session
    with three moves by (30000, 0) queued: it takes and frees the
    three. *)
Lemma send_thread_frees_what_it_takes_witness :
  let '(_, g', _, evs) := Scenario.sent_three_moves in
  length (frees evs) = 3%nat /\
  took 3 (Example.three_moves Example.gen7enc) g' /\
  initialized g' = true /\
  currentAesIv g' = currentAesIv (Example.three_moves Example.gen7enc).
Proof.
  split; [reflexivity|].
  destruct (send_thread_frees_what_it_takes Example.gen7enc Example.input_h
              [Example.turn_ok 40; Example.turn_ok 40; Example.turn_ok 40;
               Example.turn_ok 40]
              (repeat 0xAA 128) (fst (fst (fst Scenario.sent_three_moves)))
              (Example.three_moves Example.gen7enc)
              (snd (fst (fst Scenario.sent_three_moves)))
              (ControlStream.initializeControlStream Example.gen7enc)
              (snd (fst Scenario.sent_three_moves))
              (snd Scenario.sent_three_moves))
    as (Htook & Hinit & Hiv).
  - vm_compute. reflexivity.
  - split; [exact Htook|]. split; [exact Hinit|]. apply Hiv. left. reflexivity.
Defined.

(** *** The functions that queue events *)

(** X16. Once stopInputStream has cleared [initialized] and shut the
    queue down, every function that sends an event returns -2 without
    allocating or queueing anything, and the send thread returns at the
    head of its next turn without sending or freeing anything: the
    holders still queued stay in the queue. *)
Theorem stopped_stream_takes_no_event (P : Program) (H : Input_h)
    (E : Input_h_events) (g : Globals) :
  let g' := snd (stopInputStream g) in
  fst (stopInputStream g) = 0 /\
  items (packetQueue g') = items (packetQueue g) /\
  (forall malloc_succeeds c, LiSend P H E malloc_succeeds c g' = (-2, g', [])) /\
  (forall turns encryptedBuffer cg,
     inputSendThreadProc P H turns encryptedBuffer g' cg =
       Ok (encryptedBuffer, g', cg, [])).
Proof.
  cbn [stopInputStream snd fst]. split; [reflexivity|]. split; [reflexivity|]. split.
  - intros m []; reflexivity.
  - intros [|t turns] buf cg; [reflexivity|]. cbn [inputSendThreadProc].
    now destruct (PltIsThreadInterrupted t).
Qed.

Lemma set_packetQueue_same (g : Globals) : set_packetQueue (packetQueue g) g = g.
Proof. now destruct g. Qed.

(** What every function that queues a holder ends with. *)
Lemma offer_or_free (P : Program) (g : Globals) (holder : PACKET_HOLDER) :
  let r :=
    match LbqOfferQueueItem (packetQueue g) holder with
    | (LBQ_SUCCESS, q) => (lbq_int P LBQ_SUCCESS, set_packetQueue q g, [malloc true])
    | (err, q) => (lbq_int P err, set_packetQueue q g, [malloc true; free holder])
    end in
  (shutdown (packetQueue g) = false /\
   Z.of_nat (length (items (packetQueue g))) < sizeBound (packetQueue g) /\
   r = (lbq_int P LBQ_SUCCESS,
        set_packetQueue (with_items (packetQueue g) (items (packetQueue g) ++ [holder])) g,
        [malloc true])) \/
  (exists s,
     s <> LBQ_SUCCESS /\
     (shutdown (packetQueue g) = true \/
      sizeBound (packetQueue g) <= Z.of_nat (length (items (packetQueue g)))) /\
     r = (lbq_int P s, g, [malloc true; free holder])).
Proof.
  unfold LbqOfferQueueItem.
  destruct (shutdown (packetQueue g)) eqn:Hs.
  - right. exists LBQ_INTERRUPTED. rewrite set_packetQueue_same.
    split; [discriminate|]. split; [now left | reflexivity].
  - destruct (Z.geb_spec (Z.of_nat (length (items (packetQueue g))))
                (sizeBound (packetQueue g))).
    + right. exists LBQ_BOUND_EXCEEDED. rewrite set_packetQueue_same.
      split; [discriminate|]. split; [right; lia | reflexivity].
    + left. split; [reflexivity|]. split; [lia | reflexivity].
Qed.

(** X17. On a started stream, a call of any of the functions that send
    an event (mouse move, position and button, key, controller,
    multi-controller, scroll and high-resolution scroll) does one of four
    things. It returns 0 and does nothing (a move or a scroll by zero);
    or malloc fails and it returns -1; or it appends one holder at the
    tail of the queue, which was live and below its bound, and returns
    LBQ_SUCCESS; or the queue was shut down or full and it frees the
    holder it allocated and returns the status of the queue, another
    than LBQ_SUCCESS. No other variable is written, and a holder
    allocated is either queued or freed. *)
Theorem event_holder_is_queued_or_freed (P : Program) (H : Input_h)
    (E : Input_h_events) (malloc_succeeds : bool) (c : input_call) (g : Globals) :
  initialized g = true ->
  let '(err, g', evs) := LiSend P H E malloc_succeeds c g in
  (err = 0 /\ g' = g /\ evs = []) \/
  (malloc_succeeds = false /\ err = -1 /\ g' = g /\ evs = [malloc false]) \/
  (exists holder,
     shutdown (packetQueue g) = false /\
     Z.of_nat (length (items (packetQueue g))) < sizeBound (packetQueue g) /\
     err = lbq_int P LBQ_SUCCESS /\
     g' = with_queue g (items (packetQueue g) ++ [holder]) /\
     evs = [malloc true]) \/
  (exists holder s,
     s <> LBQ_SUCCESS /\
     (shutdown (packetQueue g) = true \/
      sizeBound (packetQueue g) <= Z.of_nat (length (items (packetQueue g)))) /\
     err = lbq_int P s /\ g' = g /\ evs = [malloc true; free holder]).
Proof.
  intros Hinit.
  assert (forall holder,
            let '(err, g', evs) :=
              match LbqOfferQueueItem (packetQueue g) holder with
              | (LBQ_SUCCESS, q) =>
                  (lbq_int P LBQ_SUCCESS, set_packetQueue q g, [malloc true])
              | (err, q) =>
                  (lbq_int P err, set_packetQueue q g, [malloc true; free holder])
              end in
            (err = 0 /\ g' = g /\ evs = []) \/
            (malloc_succeeds = false /\ err = -1 /\ g' = g /\ evs = [malloc false]) \/
            (exists holder,
               shutdown (packetQueue g) = false /\
               Z.of_nat (length (items (packetQueue g))) < sizeBound (packetQueue g) /\
               err = lbq_int P LBQ_SUCCESS /\
               g' = with_queue g (items (packetQueue g) ++ [holder]) /\
               evs = [malloc true]) \/
            (exists holder s,
               s <> LBQ_SUCCESS /\
               (shutdown (packetQueue g) = true \/
                sizeBound (packetQueue g) <= Z.of_nat (length (items (packetQueue g)))) /\
               err = lbq_int P s /\ g' = g /\ evs = [malloc true; free holder]))
    as Hoffer.
  { intros holder.
    destruct (offer_or_free P g holder) as [(Hs & Hb & Hr) | (s & Hne & Hfull & Hr)];
      cbv zeta in Hr; rewrite Hr.
    - right. right. left. now exists holder.
    - right. right. right. now exists holder, s. }
  destruct c; cbn [LiSend];
    unfold LiSendMouseMoveEvent, LiSendMousePositionEvent, LiSendMouseButtonEvent,
      LiSendKeyboardEvent, LiSendControllerEvent, LiSendMultiControllerEvent,
      sendControllerEventInternal, LiSendScrollEvent, LiSendHighResScrollEvent;
    rewrite Hinit; cbn [negb];
    try match goal with
        | |- context [if ?z then (0, g, []) else _] =>
            destruct z; [left; now repeat split|]
        end;
    (destruct malloc_succeeds; cbn [negb];
     [|right; left; now repeat split]);
    apply Hoffer.
Qed.

(** The theorem of X17 on a move by (3, 4) on a started stream whose
    queue is empty. *)
Lemma event_holder_is_queued_or_freed_witness :
  let g := Example.input_started Example.gen7enc in
  let '(err, g', evs) :=
    LiSend Example.gen7enc Example.input_h Scenario.input_h_events true
      (MouseMove 3 4) g in
  (err = 0 /\ g' = g /\ evs = []) \/
  (true = false /\ err = -1 /\ g' = g /\ evs = [malloc false]) \/
  (exists holder,
     shutdown (packetQueue g) = false /\
     Z.of_nat (length (items (packetQueue g))) < sizeBound (packetQueue g) /\
     err = lbq_int Example.gen7enc LBQ_SUCCESS /\
     g' = with_queue g (items (packetQueue g) ++ [holder]) /\
     evs = [malloc true]) \/
  (exists holder s,
     s <> LBQ_SUCCESS /\
     (shutdown (packetQueue g) = true \/
      sizeBound (packetQueue g) <= Z.of_nat (length (items (packetQueue g)))) /\
     err = lbq_int Example.gen7enc s /\ g' = g /\ evs = [malloc true; free holder]).
Proof.
  apply (event_holder_is_queued_or_freed Example.gen7enc Example.input_h
           Scenario.input_h_events true (MouseMove 3 4)
           (Example.input_started Example.gen7enc)).
  reflexivity.
Defined.

(** X18. When the socket (for a server before Gen 5) and the thread can
    be had, startInputStream on a stream that initializeInputStream has
    just set up returns 0 with [initialized] set, and the queue holds
    one packet, the one that enables haptics, for a server of version
    7.1 or later, and nothing for an earlier one. *)
Theorem started_stream_enables_haptics (P : Program) (E : Input_h_events)
    (e : StartEnv) (g : Globals) :
  5 <= nth 0 (AppVersionQuad P) 0 \/ connectTcpSocket_ok e = true ->
  PltCreateThread_result e = 0 ->
  haptics_malloc_succeeds e = true ->
  exists g' evs,
    startInputStream P E e (initializeInputStream P g) = (0, g', evs) /\
    initialized g' = true /\
    shutdown (packetQueue g') = false /\
    items (packetQueue g') =
      if (nth 0 (AppVersionQuad P) 0 <? 7) ||
         ((nth 0 (AppVersionQuad P) 0 =? 7) && (nth 1 (AppVersionQuad P) 0 <? 1))
      then []
      else [{| packetLength := sizeof_NV_HAPTICS_PACKET E;
               packet := other (to_int32 (htonl (BIGENDIAN P) (PACKET_TYPE_HAPTICS E)))
                           [H_MAGIC_A E; H_MAGIC_B E] |}].
Proof.
  intros Hsock Hthread Hmalloc. unfold startInputStream.
  assert ((nth 0 (AppVersionQuad P) 0 <? 5) && negb (connectTcpSocket_ok e) = false) as ->.
  { destruct Hsock as [Hv | ->]; [|apply andb_false_r].
    now rewrite (proj2 (Z.ltb_ge _ _)) by lia. }
  rewrite Hthread. cbn [Z.eqb negb]. unfold sendEnableHaptics.
  destruct ((nth 0 (AppVersionQuad P) 0 <? 7) || _).
  - eexists _, _. split; [reflexivity|]. now repeat split.
  - rewrite Hmalloc. cbn [negb]. eexists _, _. split; [reflexivity|]. now repeat split.
Qed.

(** The theorem of X18 on an encrypted Gen 7 session. *)
Lemma started_stream_enables_haptics_witness :
  exists g' evs,
    startInputStream Example.gen7enc Scenario.input_h_events Scenario.start_ok
      (initializeInputStream Example.gen7enc (Example.input_started Example.gen7enc)) =
      (0, g', evs) /\
    initialized g' = true /\
    shutdown (packetQueue g') = false /\
    items (packetQueue g') =
      [{| packetLength := 8;
          packet := other (to_int32 (htonl false 0x0D)) [0x14; 0x010000] |}].
Proof.
  apply (started_stream_enables_haptics Example.gen7enc Scenario.input_h_events
           Scenario.start_ok (Example.input_started Example.gen7enc));
    [left; cbn; lia | reflexivity | reflexivity].
Defined.

(** *** The modifiers of a key event *)

Lemma land_low_byte (y F : Z) : 0 <= F < 256 -> Z.land y F = Z.land (y mod 256) F.
Proof.
  intros HF.
  assert (F = Z.land (Z.ones 8) F) as HF8.
  { rewrite Z.land_comm, Z.land_ones by lia. symmetry. apply Z.mod_small. exact HF. }
  rewrite HF8 at 1 2. rewrite !Z.land_assoc. f_equal.
  rewrite !Z.land_ones by lia. change (2 ^ 8) with 256.
  symmetry. apply Z.mod_mod. lia.
Qed.

Lemma land_to_char (E : Input_h_events) (x F : Z) :
  0 <= F < 128 -> Z.land (to_char E x) F = Z.land x F.
Proof.
  intros HF. rewrite (land_low_byte (to_char E x)), (land_low_byte x) by lia.
  f_equal. unfold to_char, to_int8, to_uint8. destruct (char_is_signed E).
  - change (2 ^ 8) with 256. rewrite Zminus_mod, Z.mod_mod by lia.
    rewrite <- Zminus_mod. f_equal. lia.
  - change (2 ^ 8) with 256. apply Z.mod_mod. lia.
Qed.

Lemma flag_cleared (E : Input_h_events) (m F : Z) :
  0 <= F < 128 -> Z.land (to_char E (Z.land m (Z.lnot F))) F = 0.
Proof.
  intros HF. rewrite land_to_char by exact HF.
  rewrite <- Z.land_assoc, (Z.land_comm (Z.lnot F)), Z.land_lnot_diag.
  apply Z.land_0_r.
Qed.

Lemma flag_set (E : Input_h_events) (m F : Z) :
  0 <= F < 128 -> Z.land (to_char E (Z.lor m F)) F = F.
Proof.
  intros HF. rewrite land_to_char by exact HF.
  apply Z.bits_inj'. intros n Hn. rewrite Z.land_spec, Z.lor_spec.
  destruct (Z.testbit F n); [now rewrite orb_true_r | apply andb_false_r].
Qed.

Lemma land_to_int16 (x F : Z) :
  0 <= F < 256 -> Z.land (to_int16 x) F = Z.land x F.
Proof.
  intros HF. rewrite (land_low_byte (to_int16 x)), (land_low_byte x) by lia.
  f_equal. unfold to_int16.
  rewrite Zminus_mod, (Z.mod_mod_divide _ (2 ^ 16) 256) by (exists 256; reflexivity).
  rewrite <- Zminus_mod. f_equal. lia.
Qed.

(** X19. LiSendKeyboardEvent queues the key event, with the key code as
    the [short] and the action as the [char] of its parameters, and with
    its modifiers fixed up by the key: the event of a left shift, control
    or alt key (0xA0, 0xA2, 0xA4) carries the flag of that modifier, the
    event of a right one (0xA1, 0xA3, 0xA5) does not carry it, the event
    of a Windows key (0x5B, 0x5C) does not carry the META flag, and the
    event of every other key carries the modifiers it was given, as the
    [char] of the parameter. Only the low byte of the key code tells the
    key. *)
Theorem keyboard_modifier_fixups (P : Program) (E : Input_h_events)
    (keyCode keyAction modifiers : Z) (g : Globals) :
  initialized g = true ->
  shutdown (packetQueue g) = false ->
  Z.of_nat (length (items (packetQueue g))) < sizeBound (packetQueue g) ->
  0 <= MODIFIER_SHIFT E < 128 -> 0 <= MODIFIER_CTRL E < 128 ->
  0 <= MODIFIER_ALT E < 128 -> 0 <= MODIFIER_META E < 128 ->
  exists m,
    LiSendKeyboardEvent P E true keyCode keyAction modifiers g =
      (lbq_int P LBQ_SUCCESS,
       with_queue g
         (items (packetQueue g) ++
          [{| packetLength := sizeof_NV_KEYBOARD_PACKET E;
              packet := other (to_int32 (htonl (BIGENDIAN P) (PACKET_TYPE_KEYBOARD E)))
                          [to_char E keyAction; 0; to_int16 keyCode; m; 0] |}]),
       [malloc true]) /\
    let k := Z.land keyCode 0xFF in
    (k = 0xA0 -> Z.land m (MODIFIER_SHIFT E) = MODIFIER_SHIFT E) /\
    (k = 0xA1 -> Z.land m (MODIFIER_SHIFT E) = 0) /\
    (k = 0xA2 -> Z.land m (MODIFIER_CTRL E) = MODIFIER_CTRL E) /\
    (k = 0xA3 -> Z.land m (MODIFIER_CTRL E) = 0) /\
    (k = 0xA4 -> Z.land m (MODIFIER_ALT E) = MODIFIER_ALT E) /\
    (k = 0xA5 -> Z.land m (MODIFIER_ALT E) = 0) /\
    (k = 0x5B \/ k = 0x5C -> Z.land m (MODIFIER_META E) = 0) /\
    (~ In k [0x5B; 0x5C; 0xA0; 0xA1; 0xA2; 0xA3; 0xA4; 0xA5] ->
     m = to_char E modifiers).
Proof.
  intros Hinit Hlive Hroom HS HC HA HM.
  exists (fixup_modifiers E (to_int16 keyCode) (to_char E modifiers)). split.
  - unfold LiSendKeyboardEvent, LbqOfferQueueItem. cbv zeta.
    rewrite Hinit, Hlive, (geb_false _ _) by lia. reflexivity.
  - unfold fixup_modifiers. cbv zeta.
    rewrite (land_to_int16 keyCode 255) by lia.
    repeat split; intros Hk.
    + rewrite Hk. cbn [Z.eqb Pos.eqb orb]. now apply flag_set.
    + rewrite Hk. cbn [Z.eqb Pos.eqb orb]. now apply flag_cleared.
    + rewrite Hk. cbn [Z.eqb Pos.eqb orb]. now apply flag_set.
    + rewrite Hk. cbn [Z.eqb Pos.eqb orb]. now apply flag_cleared.
    + rewrite Hk. cbn [Z.eqb Pos.eqb orb]. now apply flag_set.
    + rewrite Hk. cbn [Z.eqb Pos.eqb orb]. now apply flag_cleared.
    + destruct Hk as [-> | ->]; cbn [Z.eqb Pos.eqb orb]; now apply flag_cleared.
    + cbn [In] in Hk.
      repeat match goal with
             | |- context [Z.land keyCode 255 =? ?c] =>
                 destruct (Z.eqb_spec (Z.land keyCode 255) c) as [Heq|];
                 [exfalso; apply Hk; rewrite Heq;
                  repeat (first [left; reflexivity | right])|]
             end.
      reflexivity.
Qed.

(** The theorem of X19 on the key-down event of the right shift key sent
    with the SHIFT flag among its modifiers, the key code written as
    0x80A1: as a [short] it is -32607. *)
Lemma keyboard_modifier_fixups_witness :
  let P := Example.gen7enc in
  let E := Scenario.input_h_events in
  let g := Example.input_started Example.gen7enc in
  exists m,
    LiSendKeyboardEvent P E true 0x80A1 3 0x03 g =
      (lbq_int P LBQ_SUCCESS,
       with_queue g
         (items (packetQueue g) ++
          [{| packetLength := sizeof_NV_KEYBOARD_PACKET E;
              packet := other (to_int32 (htonl (BIGENDIAN P) (PACKET_TYPE_KEYBOARD E)))
                          [3; 0; -32607; m; 0] |}]),
       [malloc true]) /\
    let k := Z.land 0x80A1 0xFF in
    (k = 0xA0 -> Z.land m (MODIFIER_SHIFT E) = MODIFIER_SHIFT E) /\
    (k = 0xA1 -> Z.land m (MODIFIER_SHIFT E) = 0) /\
    (k = 0xA2 -> Z.land m (MODIFIER_CTRL E) = MODIFIER_CTRL E) /\
    (k = 0xA3 -> Z.land m (MODIFIER_CTRL E) = 0) /\
    (k = 0xA4 -> Z.land m (MODIFIER_ALT E) = MODIFIER_ALT E) /\
    (k = 0xA5 -> Z.land m (MODIFIER_ALT E) = 0) /\
    (k = 0x5B \/ k = 0x5C -> Z.land m (MODIFIER_META E) = 0) /\
    (~ In k [0x5B; 0x5C; 0xA0; 0xA1; 0xA2; 0xA3; 0xA4; 0xA5] -> m = 0x03).
Proof.
  apply (keyboard_modifier_fixups Example.gen7enc Scenario.input_h_events 0x80A1 3 0x03
           (Example.input_started Example.gen7enc));
    try reflexivity; cbn; lia.
Defined.

(** *** What the batching makes of the queue *)

Lemma with_queue_same (g : Globals) (l : list PACKET_HOLDER) :
  items (packetQueue g) = l -> with_queue g l = g.
Proof. intros <-. destruct g as [? ? ? ? q]. now destruct q. Qed.

Lemma overflow_test (x tx y ty : Z) :
  is_short (x + tx) -> is_short (y + ty) ->
  (x + tx >? INT16_MAX) || (x + tx <? INT16_MIN) ||
  (y + ty >? INT16_MAX) || (y + ty <? INT16_MIN) = false.
Proof.
  unfold is_short. intros Hx Hy.
  rewrite !orb_false_iff, !Z.gtb_ltb, !Z.ltb_ge. lia.
Qed.

(** The loop adds up the moves at the head of the queue as long as the
    sums fit a [short]. *)
Lemma batchMouseMoveRel_sums (P : Program) (H : Input_h) :
  packet_types_distinct H ->
  forall (ds : list (Z * Z)) (fuel : nat) (tx ty : Z) (g : Globals)
         (rest : list PACKET_HOLDER),
    items (packetQueue g) = moves P H ds ++ rest ->
    shutdown (packetQueue g) = false ->
    (length ds + length rest <= fuel)%nat ->
    sums_fit tx ty ds ->
    not_of_type P (PACKET_TYPE_REL_MOUSE_MOVE H) rest ->
    batchMouseMoveRel P H fuel tx ty g =
      (tx + sum (map fst ds), ty + sum (map snd ds), with_queue g rest,
       map free (moves P H ds)).
Proof.
  intros (HM & HR & Hne).
  induction ds as [|[dx dy] ds IH]; intros fuel tx ty g rest Hi Hs Hf Hfit Hrest.
  - cbn [map sum fold_right moves]. rewrite !Z.add_0_r.
    cbn [moves map app] in Hi. rewrite (with_queue_same g rest Hi).
    destruct fuel as [|fuel]; [reflexivity|].
    cbn [batchMouseMoveRel]. unfold LbqPeekQueueElement. rewrite Hs, Hi.
    destruct rest as [|h rest]; [reflexivity|].
    cbn [not_of_type] in Hrest. now rewrite Hrest.
  - destruct fuel as [|fuel]; [cbn in Hf; lia|].
    destruct Hfit as (Hdx & Hdy & Hsx & Hsy & Hfit).
    change (moves P H ((dx, dy) :: ds)) with (move P H dx dy :: moves P H ds) in Hi.
    cbn [app] in Hi.
    cbn [batchMouseMoveRel]. unfold LbqPeekQueueElement, LbqPollQueueElement.
    rewrite Hs, Hi.
    rewrite packetType_is_move, Z.eqb_refl by assumption. cbn [negb].
    cbn [move packet deltaX deltaY].
    unfold is_short, INT16_MIN, INT16_MAX in Hdx, Hdy.
    rewrite !htons_field by lia.
    rewrite overflow_test by assumption.
    rewrite (IH fuel (tx + dx) (ty + dy)
               (set_packetQueue (with_items (packetQueue g) (moves P H ds ++ rest)) g)
               rest);
      [| reflexivity | exact Hs | cbn in Hf; lia | exact Hfit | exact Hrest].
    cbn [map fst snd]. unfold sum, moves, with_queue. cbn [fold_right].
    f_equal. f_equal. f_equal; lia.
Qed.

Lemma sums_fit_total (ds : list (Z * Z)) :
  forall tx ty,
    is_short tx -> is_short ty -> sums_fit tx ty ds ->
    is_short (tx + sum (map fst ds)) /\ is_short (ty + sum (map snd ds)).
Proof.
  induction ds as [|[dx dy] ds IH]; intros tx ty Hx Hy Hfit.
  - cbn. now rewrite !Z.add_0_r.
  - destruct Hfit as (_ & _ & Hsx & Hsy & Hfit).
    cbn [map sum fold_right fst snd].
    replace (tx + (dx + fold_right Z.add 0 (map fst ds)))
      with ((tx + dx) + sum (map fst ds)) by (unfold sum; lia).
    replace (ty + (dy + fold_right Z.add 0 (map snd ds)))
      with ((ty + dy) + sum (map snd ds)) by (unfold sum; lia).
    apply IH; [| | exact Hfit]; unfold is_short in *; lia.
Qed.

(** X20. Relative mouse moves queued one behind the other are sent as
    one: when the deltas of the moves, added up in the order of the
    queue, stay in the range of a [short], a turn of the send thread
    takes them all off the queue, up to the first packet that is no
    relative move, frees all holders but the first and finds to send one
    move by the sums of the deltas. *)
Theorem relative_moves_are_added_up (P : Program) (H : Input_h) (g : Globals)
    (dx dy : Z) (ds : list (Z * Z)) (rest : list PACKET_HOLDER) :
  packet_types_distinct H ->
  is_short dx -> is_short dy ->
  sums_fit dx dy ds ->
  queued g (move P H dx dy :: moves P H ds ++ rest) ->
  not_of_type P (PACKET_TYPE_REL_MOUSE_MOVE H) rest ->
  next_to_send P H g =
    Some (move P H (dx + sum (map fst ds)) (dy + sum (map snd ds)),
          with_queue g rest, map free (moves P H ds)).
Proof.
  intros Hdistinct Hdx Hdy Hfit [Hi Hs] Hrest.
  pose proof Hdistinct as (HM & HR & Hne).
  destruct (sums_fit_total ds dx dy Hdx Hdy Hfit) as [Htx Hty].
  unfold next_to_send, LbqWaitForQueueElement. rewrite Hs, Hi.
  unfold batch.
  rewrite !packetType_is_move by assumption.
  apply Z.eqb_neq in Hne. rewrite Hne, Z.eqb_refl.
  cbn [move packet deltaX deltaY rel_header_packetType rel_magic packetLength].
  unfold is_short, INT16_MIN, INT16_MAX in Hdx, Hdy, Htx, Hty.
  rewrite !htons_field by lia.
  rewrite (batchMouseMoveRel_sums P H Hdistinct ds _ dx dy _ rest);
    [| reflexivity | exact Hs | cbn; rewrite length_app; unfold moves;
       rewrite length_map; lia | exact Hfit | exact Hrest].
  unfold move, with_queue. cbn [set_packetQueue packetQueue with_items items].
  rewrite (to_int16_small (dx + sum (map fst ds))),
    (to_int16_small (dy + sum (map snd ds))) by lia.
  reflexivity.
Qed.

(** The theorem of X20 on the moves by (100, -5), (200, 10) and
    (-50, 1) of an encrypted Gen 7 session: one move by (250, 6). *)
Lemma relative_moves_are_added_up_witness :
  let P := Example.gen7enc in
  let H := Example.input_h in
  next_to_send P H Scenario.small_moves =
    Some (move P H (100 + sum (map fst [(200, 10); (-50, 1)]))
            (-5 + sum (map snd [(200, 10); (-50, 1)])),
          with_queue Scenario.small_moves [],
          map free (moves P H [(200, 10); (-50, 1)])).
Proof.
  apply (relative_moves_are_added_up Example.gen7enc Example.input_h
           Scenario.small_moves 100 (-5) [(200, 10); (-50, 1)] []).
  - unfold packet_types_distinct. cbn. lia.
  - unfold is_short, INT16_MIN, INT16_MAX. lia.
  - unfold is_short, INT16_MIN, INT16_MAX. lia.
  - cbn. unfold is_short, INT16_MIN, INT16_MAX. lia.
  - split; vm_compute; reflexivity.
  - exact I.
Defined.

(** The loop replaces the holder by the absolute mouse moves at the head
    of the queue, one after the other. *)
Lemma batchMouseMoveAbs_latest (P : Program) (H : Input_h) :
  forall (hs : list PACKET_HOLDER) (fuel : nat) (holder : PACKET_HOLDER)
         (g : Globals) (rest : list PACKET_HOLDER),
    Forall (is_position P H) hs ->
    items (packetQueue g) = hs ++ rest ->
    shutdown (packetQueue g) = false ->
    (length hs + length rest <= fuel)%nat ->
    not_of_type P (PACKET_TYPE_ABS_MOUSE_MOVE H) rest ->
    batchMouseMoveAbs P H fuel holder g =
      (last hs holder, with_queue g rest, map free (removelast (holder :: hs))).
Proof.
  induction hs as [|h hs IH]; intros fuel holder g rest Hpos Hi Hs Hf Hrest.
  - cbn [app] in Hi. rewrite (with_queue_same g rest Hi). cbn [last removelast map].
    destruct fuel as [|fuel]; [reflexivity|].
    cbn [batchMouseMoveAbs]. unfold LbqPeekQueueElement. rewrite Hs, Hi.
    destruct rest as [|h rest]; [reflexivity|].
    cbn [not_of_type] in Hrest. now rewrite Hrest.
  - destruct fuel as [|fuel]; [cbn in Hf; lia|].
    cbn [app] in Hi.
    destruct (Forall_inv Hpos) as (_ & _ & Habs).
    cbn [batchMouseMoveAbs]. unfold LbqPeekQueueElement, LbqPollQueueElement.
    rewrite Hs, Hi, Habs. cbn [negb].
    rewrite (IH fuel h (set_packetQueue (with_items (packetQueue g) (hs ++ rest)) g)
               rest (Forall_inv_tail Hpos));
      [| reflexivity | exact Hs | cbn in Hf; lia | exact Hrest].
    rewrite ControlStreamProofs.last_cons.
    change (removelast (holder :: h :: hs)) with (holder :: removelast (h :: hs)).
    reflexivity.
Qed.

(** X21. Of the absolute mouse moves queued one behind the other only
    the latest is sent: a turn of the send thread takes them all off the
    queue, up to the first packet that is no absolute move, frees every
    holder but the last and finds the last to send. *)
Theorem only_the_latest_position_is_sent (P : Program) (H : Input_h) (g : Globals)
    (h : PACKET_HOLDER) (hs rest : list PACKET_HOLDER) :
  is_position P H h ->
  Forall (is_position P H) hs ->
  queued g (h :: hs ++ rest) ->
  not_of_type P (PACKET_TYPE_ABS_MOUSE_MOVE H) rest ->
  next_to_send P H g =
    Some (last hs h, with_queue g rest, map free (removelast (h :: hs))).
Proof.
  intros (HnotM & HnotR & Habs) Hpos [Hi Hs] Hrest.
  unfold next_to_send, LbqWaitForQueueElement. rewrite Hs, Hi.
  unfold batch. rewrite HnotM, HnotR, Habs.
  rewrite (batchMouseMoveAbs_latest P H hs _ h _ rest Hpos);
    [reflexivity | reflexivity | exact Hs | cbn; rewrite length_app; lia | exact Hrest].
Qed.

(** The theorem of X21 on the positions (10, 10), (20, 20) and (30, 30)
    of an encrypted Gen 7 session, sent with LiSendMousePositionEvent:
    the third is found to send, and the first two are freed. *)
Lemma only_the_latest_position_is_sent_witness :
  let P := Example.gen7enc in
  let H := Example.input_h in
  let p v := Scenario.position_holder v in
  next_to_send P H Scenario.three_positions =
    Some (last [p 20; p 30] (p 10), with_queue Scenario.three_positions [],
          map free (removelast [p 10; p 20; p 30])).
Proof.
  apply (only_the_latest_position_is_sent Example.gen7enc Example.input_h
           Scenario.three_positions (Scenario.position_holder 10)
           [Scenario.position_holder 20; Scenario.position_holder 30] []).
  - repeat split.
  - repeat constructor.
  - split; vm_compute; reflexivity.
  - exact I.
Defined.

Lemma with_axes_last (ps : list NV_MULTI_CONTROLLER_PACKET) :
  forall p0 p : NV_MULTI_CONTROLLER_PACKET,
    with_axes (with_axes p0 p) (last ps (with_axes p0 p)) = with_axes p0 (last ps p).
Proof.
  induction ps as [|q ps IH]; intros p0 p; [reflexivity|].
  rewrite !ControlStreamProofs.last_cons.
  destruct ps as [|q' ps]; [reflexivity|].
  rewrite !ControlStreamProofs.last_cons. reflexivity.
Qed.

(** The loop gives the packet the triggers and the sticks of the
    multi-controller packets at the head of the queue, one after the
    other, as long as their buttons, controller number and mask are its
    own. *)
Lemma batchMultiController_merges (P : Program) (H : Input_h) :
  forall (hs : list PACKET_HOLDER) (fuel : nat) (p0 : NV_MULTI_CONTROLLER_PACKET)
         (g : Globals) (rest : list PACKET_HOLDER),
    Forall (same_buttons P H p0) hs ->
    items (packetQueue g) = hs ++ rest ->
    shutdown (packetQueue g) = false ->
    (length hs + length rest <= fuel)%nat ->
    other_buttons P H p0 rest ->
    batchMultiController P H fuel p0 g =
      (with_axes p0 (last (controller_packets hs) p0), with_queue g rest, map free hs).
Proof.
  induction hs as [|h hs IH]; intros fuel p0 g rest Hsame Hi Hs Hf Hrest.
  - cbn [app] in Hi. rewrite (with_queue_same g rest Hi).
    cbn [controller_packets flat_map last map].
    assert (with_axes p0 p0 = p0) as -> by now destruct p0.
    destruct fuel as [|fuel]; [reflexivity|].
    cbn [batchMultiController]. unfold LbqPeekQueueElement. rewrite Hs, Hi.
    destruct rest as [|h rest]; [reflexivity|].
    cbn [other_buttons] in Hrest.
    destruct Hrest as [-> | (p & Hp & Hdiff)]; [reflexivity|].
    destruct (packetType_is P h (PACKET_TYPE_MULTI_CONTROLLER H)); [|reflexivity].
    cbn [negb]. rewrite Hp.
    assert (negb (buttonFlags p =? buttonFlags p0) ||
            negb (controllerNumber p =? controllerNumber p0) ||
            negb (activeGamepadMask p =? activeGamepadMask p0) = true) as ->;
      [|reflexivity].
    rewrite !orb_true_iff, !negb_true_iff, !Z.eqb_neq. tauto.
  - destruct fuel as [|fuel]; [cbn in Hf; lia|].
    cbn [app] in Hi.
    destruct (Forall_inv Hsame) as (Htype & p & Hp & Hb & Hn & Hm).
    cbn [batchMultiController]. unfold LbqPeekQueueElement, LbqPollQueueElement.
    rewrite Hs, Hi, Htype. cbn [negb]. rewrite Hp, Hb, Hn, Hm, !Z.eqb_refl.
    cbn [negb orb].
    change {| mc_header_packetType := mc_header_packetType p0;
              headerA := headerA p0;
              headerB := headerB p0;
              controllerNumber := controllerNumber p0;
              activeGamepadMask := activeGamepadMask p0;
              midB := midB p0;
              buttonFlags := buttonFlags p0;
              leftTrigger := leftTrigger p;
              rightTrigger := rightTrigger p;
              leftStickX := leftStickX p;
              leftStickY := leftStickY p;
              rightStickX := rightStickX p;
              rightStickY := rightStickY p;
              tailA := tailA p0;
              tailB := tailB p0 |} with (with_axes p0 p).
    rewrite (IH fuel (with_axes p0 p)
               (set_packetQueue (with_items (packetQueue g) (hs ++ rest)) g) rest);
      [| exact (Forall_inv_tail Hsame) | reflexivity | exact Hs | cbn in Hf; lia
       | exact Hrest].
    assert (controller_packets (h :: hs) = p :: controller_packets hs) as ->
      by (unfold controller_packets; cbn [flat_map]; now rewrite Hp).
    rewrite ControlStreamProofs.last_cons, with_axes_last. reflexivity.
Qed.

(** X22. Multi-controller packets queued one behind the other for the
    same controller, with the same buttons and the same mask of active
    gamepads, are sent as one: a turn of the send thread takes them off
    the queue, frees all holders but the first and finds to send the
    first packet with the triggers and the sticks of the last. It stops
    at the first packet that is no multi-controller packet or differs in
    buttons, controller number or mask, which stays in the queue: no
    change of buttons is batched away. *)
Theorem controller_states_are_batched (P : Program) (H : Input_h) (g : Globals)
    (h0 : PACKET_HOLDER) (p0 : NV_MULTI_CONTROLLER_PACKET)
    (hs rest : list PACKET_HOLDER) :
  packetType_is P h0 (PACKET_TYPE_MULTI_CONTROLLER H) = true ->
  packet h0 = multiController p0 ->
  Forall (same_buttons P H p0) hs ->
  queued g (h0 :: hs ++ rest) ->
  other_buttons P H p0 rest ->
  next_to_send P H g =
    Some ({| packetLength := packetLength h0;
             packet := multiController
                         (with_axes p0 (last (controller_packets hs) p0)) |},
          with_queue g rest, map free hs).
Proof.
  intros Htype Hp Hsame [Hi Hs] Hrest.
  unfold next_to_send, LbqWaitForQueueElement. rewrite Hs, Hi.
  unfold batch. rewrite Htype, Hp.
  rewrite (batchMultiController_merges P H hs _ p0 _ rest Hsame);
    [reflexivity | reflexivity | exact Hs | cbn; rewrite length_app; lia | exact Hrest].
Qed.

(** The theorem of X22 on three calls of LiSendMultiControllerEvent in an
    encrypted Gen 7 session, the left stick at 100 and at 200 with no
    button down, then at 300 with a button down: the first two are sent
    as one packet with the stick at 200, and the third stays queued. *)
Lemma controller_states_are_batched_witness :
  let P := Example.gen7enc in
  let H := Example.input_h in
  next_to_send P H Scenario.three_pad_states =
    Some ({| packetLength := 34;
             packet := multiController
                         (with_axes (Scenario.pad_packet 0 100)
                            (last (controller_packets [Scenario.pad_holder 0 200])
                               (Scenario.pad_packet 0 100))) |},
          with_queue Scenario.three_pad_states [Scenario.pad_holder 0x1000 300],
          map free [Scenario.pad_holder 0 200]).
Proof.
  apply (controller_states_are_batched Example.gen7enc Example.input_h
           Scenario.three_pad_states (Scenario.pad_holder 0 100)
           (Scenario.pad_packet 0 100) [Scenario.pad_holder 0 200]
           [Scenario.pad_holder 0x1000 300]).
  - reflexivity.
  - reflexivity.
  - constructor; [|constructor]. split; [reflexivity|].
    exists (Scenario.pad_packet 0 200). repeat split.
  - split; vm_compute; reflexivity.
  - right. exists (Scenario.pad_packet 0x1000 300). split; [reflexivity|].
    left. vm_compute. discriminate.
Defined.

(** *** Input packets for a server before Gen 5 *)

Lemma padded_length (plaintext : list Z) (len : Z) :
  0 <= len <= 112 ->
  length plaintext = Z.to_nat len ->
  let '(paddedLength, paddedData) := addPkcs7PaddingInPlace plaintext len in
  len <= paddedLength <= 112 /\ length paddedData = Z.to_nat paddedLength.
Proof.
  intros Hlen Hl. unfold addPkcs7PaddingInPlace, ROUND_TO_PKCS7_PADDED_LEN.
  rewrite Z.quot_div_nonneg by lia.
  pose proof (Z.mod_pos_bound (len + 15) 16 ltac:(lia)) as Hr.
  pose proof (Z.div_mod (len + 15) 16 ltac:(lia)) as Hdm.
  assert ((len + 15) / 16 <= 7) as Hq by lia.
  split; [lia|].
  unfold write_at. rewrite <- Hl, firstn_all, skipn_all2 by lia.
  rewrite app_nil_r, length_app, repeat_length. lia.
Qed.

(** X23. For a server before Gen 5 the send thread sends an input packet
    on the input socket as the length of its ciphertext, 32 bits most
    significant byte first on either host, followed by the ciphertext:
    the AES-CBC encryption of the packet padded to a multiple of 16
    bytes, chained to the packets before it (the IV of the session is
    used for the first packet only). The holder is freed before the
    send; when send() returns 0 or less the thread reports the
    termination of the connection with the error of the socket and
    returns. *)
Theorem legacy_input_packet_on_the_wire (P : Program) (H : Input_h) (t : Turn)
    (holder : PACKET_HOLDER) (encryptedBuffer : list Z) (g : Globals)
    (cg : ControlStream.Globals) :
  cbc P ->
  nth 0 (AppVersionQuad P) 0 < 5 ->
  encryption_succeeds P t g ->
  length encryptedBuffer = 128%nat ->
  0 <= packetLength holder <= 112 ->
  packetLength holder <= Z.of_nat (length (bytes_of_PACKET H (packet holder))) ->
  let chain := if cipherInitialized g then cipherContext g else currentAesIv g in
  let ciphertext :=
    aes_128_cbc P (remoteInputAesKey P) chain
      (firstn (Z.to_nat (fst (padded H holder))) (snd (padded H holder))) in
  let wire := be_encode 4 (fst (padded H holder)) ++ ciphertext in
  Z.of_nat (length ciphertext) = fst (padded H holder) /\
  exists encryptedBuffer' g',
    sendHolder P H t false holder encryptedBuffer g cg =
      Ok (if send_result t <=? 0
          then (true, encryptedBuffer', g', cg,
                [free holder; send wire; connectionTerminated (LastSocketFail t)])
          else (false, encryptedBuffer', g', cg, [free holder; send wire])).
Proof.
  intros Hcbc Hv (Hctx & Hsteps) Hbuf Hlen Hbytes chain ciphertext wire.
  rewrite (geb_false _ 7) in Hsteps by lia. destruct Hsteps as [Hinit Hupdate].
  pose proof (padded_length
                (firstn (Z.to_nat (packetLength holder))
                   (bytes_of_PACKET H (packet holder)))
                (packetLength holder) Hlen) as Hpad.
  fold (padded H holder) in Hpad.
  subst wire ciphertext chain.
  unfold sendHolder, encryptData. rewrite (geb_false _ 7) by lia.
  fold (padded H holder).
  destruct (padded H holder) as [paddedLength paddedData] eqn:Hp.
  cbn [fst snd].
  destruct Hpad as [Hpl Hpd]; [rewrite length_firstn; lia|].
  rewrite (firstn_all2 paddedData) by lia.
  assert (negb (cipherInitialized g) && negb (EVP_CIPHER_CTX_new_ok t) = false) as ->
    by (destruct Hctx as [-> | ->]; cbn; now rewrite ?andb_false_r).
  assert (negb (cipherInitialized g) && negb (EVP_Init_cipher (evp t) =? 1) = false) as ->.
  { destruct (cipherInitialized g); [reflexivity|].
    now rewrite (Hinit eq_refl). }
  rewrite Hupdate. cbn [Z.eqb Pos.eqb negb].
  assert (cipherContext
            (if negb (cipherInitialized g)
             then set_cipherContext (currentAesIv (set_cipherInitialized true g))
                    (set_cipherInitialized true g)
             else set_cipherInitialized true g) =
          (if cipherInitialized g then cipherContext g else currentAesIv g)) as ->
    by now destruct (cipherInitialized g).
  set (ct := aes_128_cbc P (remoteInputAesKey P)
               (if cipherInitialized g then cipherContext g else currentAesIv g)
               paddedData).
  assert (length ct = Z.to_nat paddedLength) as Hct
    by (unfold ct; now rewrite Hcbc).
  split; [lia|].
  rewrite (proj2 (Z.ltb_lt _ _) Hv).
  assert (to_uint32 paddedLength = paddedLength) as ->
    by (unfold to_uint32; apply Z.mod_small; lia).
  rewrite store32_htonl, to_int32_small by lia.
  assert (firstn (Z.to_nat (paddedLength + 4))
            (write_at 0 (be_encode 4 paddedLength)
               (firstn 4 encryptedBuffer ++ write_at 0 ct (skipn 4 encryptedBuffer))) =
          be_encode 4 paddedLength ++ ct) as ->.
  { rewrite !write_at_0.
    assert (length (be_encode 4 paddedLength) = 4%nat) as Hfour
      by (unfold be_encode; now rewrite length_rev, le_encode_length).
    rewrite Hfour.
    rewrite skipn_app_exact by (rewrite length_firstn; lia).
    rewrite app_assoc. apply firstn_app_exact.
    rewrite length_app. lia. }
  destruct (send_result t <=? 0); now eexists _, _.
Qed.

(** The theorem of X23 on the first packet of a Gen 4 session, the
    position (100, 200) on a screen of 1920 by 1080: 18 bytes, padded to
    32. *)
Lemma legacy_input_packet_on_the_wire_witness :
  let g := Example.input_started Scenario.gen4 in
  let ciphertext :=
    aes_128_cbc Scenario.gen4 (remoteInputAesKey Scenario.gen4) (currentAesIv g)
      (firstn (Z.to_nat (fst (padded Example.input_h Example.position)))
         (snd (padded Example.input_h Example.position))) in
  Z.of_nat (length ciphertext) = 32 /\
  exists encryptedBuffer' g',
    sendHolder Scenario.gen4 Example.input_h (Example.turn_ok 40) false
      Example.position (repeat 0 128) g
      (ControlStream.initializeControlStream Scenario.gen4) =
    Ok (false, encryptedBuffer', g',
        ControlStream.initializeControlStream Scenario.gen4,
        [free Example.position; send ([0; 0; 0; 32] ++ ciphertext)]).
Proof.
  apply (legacy_input_packet_on_the_wire Scenario.gen4 Example.input_h
           (Example.turn_ok 40) Example.position (repeat 0 128)
           (Example.input_started Scenario.gen4)
           (ControlStream.initializeControlStream Scenario.gen4)).
  - intros key iv data. apply length_map.
  - cbn. lia.
  - split; [right; reflexivity | split; [reflexivity | reflexivity]].
  - reflexivity.
  - cbn. lia.
  - vm_compute. discriminate.
Defined.
End InputStreamProofs.
